(** * btif_rc.cc: AVRCP transaction pool, notification registry and
      response dispatch

    A shallow embedding of the controller side of [btif/src/btif_rc.cc]:
    the transaction-label pool ([get_transaction], [release_transaction],
    [get_transaction_by_lbl], [initialize_transaction]), the supported-event
    list and its registration driver, the per-PDU response handlers, the
    timeout handlers, the response dispatcher [handle_avk_rc_metamsg_rsp]
    and the absolute-volume response path [handle_rc_metamsg_rsp].

    Conventions.
    - The global control block [btif_rc_cb] and the label table [device]
      are the two mutable fields of a [world]; every C function that
      touches them is a computation in the monad [M].  Calls that leave the
      module ([BTA_AvVendorCmd], [BTA_AvMetaCmd], the HAL callbacks) are
      recorded in [trace], newest first.
    - A computation returns [None] where the C code has no defined result:
      a list operation on a NULL list, a read of a local that was never
      assigned, an array access outside its bounds.
    - [lbllock] is not modelled: every function below runs to completion
      on the one BTIF context.  Packet buffers and their release are not
      modelled either; a built packet is represented by the command that
      it encodes.
    - Transaction labels and array indices are [nat]; status and response
      codes, which the code also compares by order, are [Z]. *)

From Stdlib Require Import ZArith Bool Lia.
From stdpp Require Import base tactics option list.

Local Open Scope Z_scope.

(** ** Identifiers from [avrc_defs.h]

    The PDU, event and capability identifiers are only ever compared for
    equality or used as [case] labels, so each family is an enumeration
    with one more constructor that carries any other byte. *)

Inductive avrc_pdu : Type :=
| AVRC_PDU_GET_CAPABILITIES
| AVRC_PDU_LIST_PLAYER_APP_ATTR
| AVRC_PDU_LIST_PLAYER_APP_VALUES
| AVRC_PDU_GET_CUR_PLAYER_APP_VALUE
| AVRC_PDU_SET_PLAYER_APP_VALUE
| AVRC_PDU_GET_PLAYER_APP_ATTR_TEXT
| AVRC_PDU_GET_PLAYER_APP_VALUE_TEXT
| AVRC_PDU_GET_ELEMENT_ATTR
| AVRC_PDU_GET_PLAY_STATUS
| AVRC_PDU_REGISTER_NOTIFICATION
| AVRC_PDU_SET_ABSOLUTE_VOLUME
| AVRC_PDU_OTHER (raw : Z).

Inductive avrc_evt : Type :=
| AVRC_EVT_PLAY_STATUS_CHANGE
| AVRC_EVT_TRACK_CHANGE
| AVRC_EVT_TRACK_REACHED_END
| AVRC_EVT_TRACK_REACHED_START
| AVRC_EVT_PLAY_POS_CHANGED
| AVRC_EVT_BATTERY_STATUS_CHANGE
| AVRC_EVT_SYSTEM_STATUS_CHANGE
| AVRC_EVT_APP_SETTING_CHANGE
| AVRC_EVT_NOW_PLAYING_CHANGE
| AVRC_EVT_AVAL_PLAYERS_CHANGE
| AVRC_EVT_ADDR_PLAYER_CHANGE
| AVRC_EVT_UIDS_CHANGE
| AVRC_EVT_VOLUME_CHANGE
| AVRC_EVT_OTHER (raw : Z).

Inductive avrc_cap : Type :=
| AVRC_CAP_COMPANY_ID
| AVRC_CAP_EVENTS_SUPPORTED
| AVRC_CAP_OTHER (raw : Z).

Inductive avrc_media_attr : Type :=
| AVRC_MEDIA_ATTR_ID_TITLE
| AVRC_MEDIA_ATTR_ID_ARTIST
| AVRC_MEDIA_ATTR_ID_ALBUM
| AVRC_MEDIA_ATTR_ID_TRACK_NUM
| AVRC_MEDIA_ATTR_ID_NUM_TRACKS
| AVRC_MEDIA_ATTR_ID_GENRE
| AVRC_MEDIA_ATTR_ID_PLAYING_TIME.

(** The command type handed to [BTA_AvVendorCmd] / [BTA_AvMetaCmd]. *)
Inductive avrc_cmd_type : Type :=
| AVRC_CMD_CTRL
| AVRC_CMD_STATUS
| AVRC_CMD_NOTIF.

#[global] Instance avrc_pdu_eq_dec : EqDecision avrc_pdu.
Proof. solve_decision. Defined.

#[global] Instance avrc_evt_eq_dec : EqDecision avrc_evt.
Proof. solve_decision. Defined.

#[global] Instance avrc_cap_eq_dec : EqDecision avrc_cap.
Proof. solve_decision. Defined.

(** ** Commands built by the module ([tAVRC_COMMAND], the members used) *)

Inductive tAVRC_COMMAND : Type :=
| cmd_get_caps (capability_id : avrc_cap)
| cmd_list_app_attr
| cmd_list_app_values (attr_id : Z)
| cmd_get_cur_app_val (num_attr : nat) (attrs : list Z)
| cmd_get_app_attr_txt (num_attr : nat) (attrs : list Z)
| cmd_get_app_val_txt (num_val : nat) (vals : list Z)
| cmd_reg_notif (event_id : avrc_evt) (param : Z)
| cmd_get_elem_attrs (num_attr : nat) (attrs : list avrc_media_attr)
| cmd_get_play_status
| cmd_volume (volume : Z).

(** The PDU a command carries. *)
Definition cmd_pdu (c : tAVRC_COMMAND) : avrc_pdu :=
  match c with
  | cmd_get_caps _ => AVRC_PDU_GET_CAPABILITIES
  | cmd_list_app_attr => AVRC_PDU_LIST_PLAYER_APP_ATTR
  | cmd_list_app_values _ => AVRC_PDU_LIST_PLAYER_APP_VALUES
  | cmd_get_cur_app_val _ _ => AVRC_PDU_GET_CUR_PLAYER_APP_VALUE
  | cmd_get_app_attr_txt _ _ => AVRC_PDU_GET_PLAYER_APP_ATTR_TEXT
  | cmd_get_app_val_txt _ _ => AVRC_PDU_GET_PLAYER_APP_VALUE_TEXT
  | cmd_reg_notif _ _ => AVRC_PDU_REGISTER_NOTIFICATION
  | cmd_get_elem_attrs _ _ => AVRC_PDU_GET_ELEMENT_ATTR
  | cmd_get_play_status => AVRC_PDU_GET_PLAY_STATUS
  | cmd_volume _ => AVRC_PDU_SET_ABSOLUTE_VOLUME
  end.

(** ** Numeric constants and collaborators that live outside this file

    [bt_status_t] (bluetooth.h), the AV/C response codes and the AVRCP
    status codes (avrc_defs.h), the feature bit (bta_av_api.h) and the
    array bounds are parameters of the development.  [AVRC_BldCommand]
    (stack/avrc) is a parameter too: it yields the build status, and hands
    back a packet exactly when that status is [AVRC_STS_NO_ERROR].

    The laws are what the rest of the code relies on: the members of the
    enum [bt_status_t] are distinct, the response codes are ordered as the
    range test of the dispatcher expects, the synthetic time-out status
    [BTIF_RC_STS_TIMEOUT] is an error status, and the seven-entry
    attribute list of this file holds [AVRC_MAX_NUM_MEDIA_ATTR_ID]
    entries. *)

Definition BTIF_RC_STS_TIMEOUT : Z := 254.

Class AvrcDefs : Type := {
  BT_STATUS_SUCCESS : Z;
  BT_STATUS_FAIL : Z;
  BT_STATUS_NOT_READY : Z;
  BT_STATUS_NOMEM : Z;
  AVRC_STS_NO_ERROR : Z;
  AVRC_OP_VENDOR : Z;
  AVRC_RSP_NOT_IMPL : Z;
  AVRC_RSP_ACCEPT : Z;
  AVRC_RSP_REJ : Z;
  AVRC_RSP_CHANGED : Z;
  AVRC_RSP_INTERIM : Z;
  AVRC_PLAYSTATE_PLAYING : Z;
  AVRC_PLAYER_SETTING_LOW_MENU_EXT : Z;
  BTA_AV_FEAT_APP_SETTING : Z;
  AVRC_MAX_APP_ATTR_SIZE : nat;
  BTRC_MAX_APP_ATTR_SIZE : nat;
  BTRC_MAX_APP_SETTINGS : nat;
  AVRC_MAX_NUM_MEDIA_ATTR_ID : nat;
  AVRC_BldCommand : tAVRC_COMMAND -> Z;
  bt_status_fail_ne : BT_STATUS_FAIL <> BT_STATUS_SUCCESS;
  bt_status_not_ready_ne : BT_STATUS_NOT_READY <> BT_STATUS_SUCCESS;
  bt_status_nomem_ne : BT_STATUS_NOMEM <> BT_STATUS_SUCCESS;
  avrc_rsp_order :
    AVRC_RSP_NOT_IMPL < AVRC_RSP_ACCEPT /\ AVRC_RSP_ACCEPT < AVRC_RSP_REJ /\
    AVRC_RSP_REJ < AVRC_RSP_CHANGED /\ AVRC_RSP_CHANGED < AVRC_RSP_INTERIM;
  avrc_sts_timeout_ne : BTIF_RC_STS_TIMEOUT <> AVRC_STS_NO_ERROR;
  avrc_media_attr_count : (AVRC_MAX_NUM_MEDIA_ATTR_ID <= 7)%nat
}.

(** ** Local constants of btif_rc.cc *)

Definition MAX_VOLUME : Z := 128.
Definition MAX_LABEL : nat := 16.
Definition MAX_TRANSACTIONS_PER_SESSION : nat := 16.
Definition BTIF_TIMEOUT_RC_INTERIM_RSP_MS : Z := 2 * 1000.
Definition BTIF_TIMEOUT_RC_STATUS_CMD_MS : Z := 2 * 1000.
Definition BTIF_TIMEOUT_RC_CONTROL_CMD_MS : Z := 2 * 1000.

(** ** Alarms (osi/include/alarm.h), as far as this file uses them

    An [alarm_t*] is [None] (NULL) or an alarm that is idle or set with a
    callback and an interval. *)

Inductive alarm_callback : Type :=
| btif_rc_status_cmd_timer_timeout
| btif_rc_control_cmd_timer_timeout
| btif_rc_play_status_timer_timeout.

Inductive alarm_t : Type :=
| alarm_idle
| alarm_set (cb : alarm_callback) (interval_ms : Z).

Definition alarm_is_scheduled (a : option alarm_t) : bool :=
  match a with
  | Some (alarm_set _ _) => true
  | _ => false
  end.

Definition alarm_cancel (a : option alarm_t) : option alarm_t :=
  match a with
  | Some _ => Some alarm_idle
  | None => None
  end.

(** ** Local type definitions *)

Inductive btif_rc_nfn_reg_status_t : Type :=
| eNOT_REGISTERED
| eREGISTERED
| eINTERIM.

#[global] Instance btif_rc_nfn_reg_status_eq_dec : EqDecision btif_rc_nfn_reg_status_t.
Proof. solve_decision. Defined.

(** [label] is [None] until the first registration writes it: the entry
    comes from [osi_malloc] and only [event_id] and [status] are set. *)
Record btif_rc_supported_event_t : Type := {
  event_id : avrc_evt;
  label : option nat;
  status : btif_rc_nfn_reg_status_t
}.

(** [btif_rc_status_cmd_timer_t] and [btif_rc_control_cmd_timer_t] have
    the same two fields, and [btif_rc_timer_context_t] is their union. *)
Record btif_rc_timer_context_t : Type := {
  ctx_label : nat;
  ctx_pdu_id : avrc_pdu
}.

Record rc_transaction_t : Type := {
  in_use : bool;
  lbl : nat;
  handle : Z;
  txn_timer_context : btif_rc_timer_context_t;
  txn_timer : option alarm_t
}.

(** [rc_device_t] without its lock: the array [transaction]. *)
Abbreviation rc_device_t := (list rc_transaction_t) (only parsing).

Definition set_in_use (b : bool) (t : rc_transaction_t) : rc_transaction_t :=
  {| in_use := b; lbl := lbl t; handle := handle t;
     txn_timer_context := txn_timer_context t; txn_timer := txn_timer t |}.

Definition set_txn_timer (a : option alarm_t) (t : rc_transaction_t) : rc_transaction_t :=
  {| in_use := in_use t; lbl := lbl t; handle := handle t;
     txn_timer_context := txn_timer_context t; txn_timer := a |}.

Definition set_txn_timer_context (c : btif_rc_timer_context_t) (t : rc_transaction_t)
  : rc_transaction_t :=
  {| in_use := in_use t; lbl := lbl t; handle := handle t;
     txn_timer_context := c; txn_timer := txn_timer t |}.

(** ** The transaction pool *)

(** [get_transaction_by_lbl]: the slot of [lbl] when it is a valid label
    and in use, NULL otherwise.  The pointer is the index of the slot. *)
Definition get_transaction_by_lbl (lbl : nat) (device : rc_device_t) : option nat :=
  if (lbl <? MAX_TRANSACTIONS_PER_SESSION)%nat then
    match device !! lbl with
    | Some t => if in_use t then Some lbl else None
    | None => None
    end
  else None.

(** [clear_cmd_timeout]: stops the command timer of an in-use label. *)
Definition clear_cmd_timeout (label : nat) (device : rc_device_t) : rc_device_t :=
  match get_transaction_by_lbl label device with
  | None => device
  | Some i =>
      match device !! i with
      | Some t =>
          match txn_timer t with
          | Some _ => <[i := set_txn_timer (alarm_cancel (txn_timer t)) t]> device
          | None => device
          end
      | None => device
      end
  end.

(** [initialize_transaction]: clears a pending timer, then resets the
    label, the in-use flag and the handle of the slot. *)
Definition initialize_transaction (lbl : nat) (device : rc_device_t) : rc_device_t :=
  if (lbl <? MAX_TRANSACTIONS_PER_SESSION)%nat then
    match device !! lbl with
    | Some t =>
        let device1 :=
          if alarm_is_scheduled (txn_timer t) then clear_cmd_timeout lbl device
          else device in
        match device1 !! lbl with
        | Some t1 =>
            <[lbl := {| in_use := false; lbl := lbl; handle := 0;
                        txn_timer_context := txn_timer_context t1;
                        txn_timer := txn_timer t1 |}]> device1
        | None => device1
        end
    | None => device
    end
  else device.

(** [init_all_transactions]: the loop over the sixteen slots. *)
Fixpoint init_transactions_from (txn_indx count : nat) (device : rc_device_t) : rc_device_t :=
  match count with
  | O => device
  | S count' => init_transactions_from (S txn_indx) count' (initialize_transaction txn_indx device)
  end.

Definition init_all_transactions (device : rc_device_t) : rc_device_t :=
  init_transactions_from 0 MAX_TRANSACTIONS_PER_SESSION device.

(** [lbl_init]: the table zeroed by [memset], then initialised. *)
Definition zero_transaction : rc_transaction_t :=
  {| in_use := false; lbl := 0; handle := 0;
     txn_timer_context := {| ctx_label := 0; ctx_pdu_id := AVRC_PDU_OTHER 0 |};
     txn_timer := None |}.

Definition lbl_init : rc_device_t :=
  init_all_transactions (replicate MAX_TRANSACTIONS_PER_SESSION zero_transaction).

(** The scan of [get_transaction]: the first slot from [i] on, among the
    next [count], that is not in use. *)
Fixpoint first_unused (i count : nat) (device : rc_device_t) : option nat :=
  match count with
  | O => None
  | S count' =>
      match device !! i with
      | Some t => if in_use t then first_unused (S i) count' device else Some i
      | None => None
      end
  end.

(** [release_transaction]: re-initialises the slot when the label is in
    use, and does nothing otherwise. *)
Definition release_transaction (lbl : nat) (device : rc_device_t) : rc_device_t :=
  match get_transaction_by_lbl lbl device with
  | Some _ => initialize_transaction lbl device
  | None => device
  end.

Section TransactionPool.
Context `{AvrcDefs}.

(** [get_transaction]: marks the first unused slot in use and returns it
    with [BT_STATUS_SUCCESS]; [BT_STATUS_NOMEM] when every slot is taken,
    in which case [*ptransaction] is not written. *)
Definition get_transaction (device : rc_device_t) : Z * option nat * rc_device_t :=
  match first_unused 0 MAX_TRANSACTIONS_PER_SESSION device with
  | Some i =>
      match device !! i with
      | Some t => (BT_STATUS_SUCCESS, Some i, <[i := set_in_use true t]> device)
      | None => (BT_STATUS_NOMEM, None, device)
      end
  | None => (BT_STATUS_NOMEM, None, device)
  end.

End TransactionPool.

(** ** Player application settings ([bt_rc.h], [btif_rc_player_app_settings_t])

    The [uint8_t] counters and cursors are [nat] and wrap at 256. *)

Definition uint8_incr (n : nat) : nat := ((n + 1) mod 256)%nat.

Record btrc_player_app_attr_t : Type := {
  app_attr_id : Z;
  app_num_val : nat;
  app_attr_val : list Z
}.

Record btrc_player_app_ext_attr_val_t : Type := {
  ext_val : Z;
  ext_val_charset_id : Z;
  ext_val_str_len : Z;
  ext_val_p_str : option (list Z)
}.

Record btrc_player_app_ext_attr_t : Type := {
  ext_attr_id : Z;
  ext_charset_id : Z;
  ext_str_len : Z;
  ext_p_str : option (list Z);
  ext_num_val : nat;
  ext_attr_val : list btrc_player_app_ext_attr_val_t
}.

Record btif_rc_player_app_settings_t : Type := {
  query_started : bool;
  num_attrs : nat;
  num_ext_attrs : nat;
  attr_index : nat;
  ext_attr_index : nat;
  ext_val_index : nat;
  attrs : list btrc_player_app_attr_t;
  ext_attrs : list btrc_player_app_ext_attr_t
}.

(** ** Parsed responses ([tAVRC_RESPONSE])

    The union is keyed by its [pdu] member; each constructor carries the
    view the dispatcher passes to the handler of that PDU. *)

Record tAVRC_GET_CAPS_RSP : Type := {
  caps_status : Z;
  capability_id : avrc_cap;
  count : nat;
  param_event_id : list avrc_evt;
  param_company_id : list Z
}.

Record tAVRC_LIST_APP_ATTR_RSP : Type := {
  list_attr_status : Z;
  list_attr_num_attr : nat;
  list_attr_attrs : list Z
}.

Record tAVRC_LIST_APP_VALUES_RSP : Type := {
  list_val_status : Z;
  list_val_num_val : nat;
  list_val_vals : list Z
}.

Record tAVRC_APP_SETTING : Type := {
  setting_attr_id : Z;
  setting_attr_val : Z
}.

Record tAVRC_GET_CUR_APP_VALUE_RSP : Type := {
  cur_val_status : Z;
  cur_val_num_val : nat;
  cur_val_p_vals : list tAVRC_APP_SETTING
}.

Record tAVRC_APP_SETTING_TEXT : Type := {
  text_attr_id : Z;
  text_charset_id : Z;
  text_str_len : Z;
  text_p_str : option (list Z)
}.

Record tAVRC_GET_APP_ATTR_TXT_RSP : Type := {
  attr_txt_status : Z;
  attr_txt_num_attr : nat;
  attr_txt_p_attrs : list tAVRC_APP_SETTING_TEXT
}.

Record tAVRC_RSP : Type := {
  rsp_status : Z
}.

Record tAVRC_ATTR_ENTRY : Type := {
  entry_attr_id : Z;
  entry_name_str_len : Z;
  entry_name_p_str : option (list Z)
}.

Record tAVRC_GET_ELEM_ATTRS_RSP : Type := {
  elem_status : Z;
  elem_num_attr : nat;
  elem_p_attrs : list tAVRC_ATTR_ENTRY
}.

Record tAVRC_GET_PLAY_STATUS_RSP : Type := {
  play_status_status : Z;
  song_len : Z;
  song_pos : Z
}.

Record tAVRC_PLAYER_APP_PARAM : Type := {
  player_setting_num_attr : nat;
  player_setting_attr_id : list Z;
  player_setting_attr_value : list Z
}.

(** [param] of a notification response is a union over the event; each
    member the handlers read is a field here. *)
Record tAVRC_REG_NOTIF_RSP : Type := {
  reg_notif_status : Z;
  reg_notif_event_id : avrc_evt;
  param_play_status : Z;
  param_track : list Z;
  param_player_setting : tAVRC_PLAYER_APP_PARAM;
  param_volume : Z
}.

Record tAVRC_SET_VOLUME_RSP : Type := {
  volume_status : Z;
  volume : Z
}.

Inductive tAVRC_RESPONSE : Type :=
| rsp_get_caps (r : tAVRC_GET_CAPS_RSP)
| rsp_list_app_attr (r : tAVRC_LIST_APP_ATTR_RSP)
| rsp_list_app_values (r : tAVRC_LIST_APP_VALUES_RSP)
| rsp_get_cur_app_val (r : tAVRC_GET_CUR_APP_VALUE_RSP)
| rsp_set_app_val (r : tAVRC_RSP)
| rsp_get_app_attr_txt (r : tAVRC_GET_APP_ATTR_TXT_RSP)
| rsp_get_app_val_txt (r : tAVRC_GET_APP_ATTR_TXT_RSP)
| rsp_get_elem_attrs (r : tAVRC_GET_ELEM_ATTRS_RSP)
| rsp_get_play_status (r : tAVRC_GET_PLAY_STATUS_RSP)
| rsp_reg_notif (r : tAVRC_REG_NOTIF_RSP)
| rsp_volume (r : tAVRC_SET_VOLUME_RSP)
| rsp_other (pdu : Z).

Definition rsp_pdu (r : tAVRC_RESPONSE) : avrc_pdu :=
  match r with
  | rsp_get_caps _ => AVRC_PDU_GET_CAPABILITIES
  | rsp_list_app_attr _ => AVRC_PDU_LIST_PLAYER_APP_ATTR
  | rsp_list_app_values _ => AVRC_PDU_LIST_PLAYER_APP_VALUES
  | rsp_get_cur_app_val _ => AVRC_PDU_GET_CUR_PLAYER_APP_VALUE
  | rsp_set_app_val _ => AVRC_PDU_SET_PLAYER_APP_VALUE
  | rsp_get_app_attr_txt _ => AVRC_PDU_GET_PLAYER_APP_ATTR_TEXT
  | rsp_get_app_val_txt _ => AVRC_PDU_GET_PLAYER_APP_VALUE_TEXT
  | rsp_get_elem_attrs _ => AVRC_PDU_GET_ELEMENT_ATTR
  | rsp_get_play_status _ => AVRC_PDU_GET_PLAY_STATUS
  | rsp_reg_notif _ => AVRC_PDU_REGISTER_NOTIFICATION
  | rsp_volume _ => AVRC_PDU_SET_ABSOLUTE_VOLUME
  | rsp_other p => AVRC_PDU_OTHER p
  end.

(** [tBTA_AV_META_MSG] as the handlers read it: [opcode] is
    [p_msg->hdr.opcode]; [parse_status] and [parsed] are what the parser
    of the stack ([AVRC_Ctrl_ParsResponse], [AVRC_ParsResponse]) returns
    for [p_msg]. *)
Record tBTA_AV_META_MSG : Type := {
  msg_rc_handle : Z;
  msg_len : Z;
  msg_label : nat;
  msg_code : Z;
  msg_opcode : Z;
  parse_status : Z;
  parsed : tAVRC_RESPONSE
}.

(** ** Calls that leave the module *)

Inductive hal_callback : Type :=
| play_status_changed_cb (rc_addr : Z) (play_status : Z)
| track_changed_cb (rc_addr : Z) (num_attr : nat) (p_attr : list (Z * option (list Z)))
| playerapplicationsetting_cb (rc_addr : Z)
    (num_attr : nat) (app_attrs : list btrc_player_app_attr_t)
    (num_ext_attr : nat) (p_ext_attrs : option (list btrc_player_app_ext_attr_t))
| playerapplicationsetting_changed_cb (rc_addr : Z)
    (num_attr : nat) (attr_ids : list Z) (attr_values : list Z)
| setplayerappsetting_rsp_cb (rc_addr : Z) (accepted : Z)
| play_position_changed_cb (rc_addr : Z) (len : Z) (pos : Z)
| volume_change_cb (vol : Z) (ctype : Z).

Inductive effect : Type :=
| BTA_AvVendorCmd (rc_handle : Z) (label : nat) (cmd_code : avrc_cmd_type) (cmd : tAVRC_COMMAND)
| BTA_AvMetaCmd (rc_handle : Z) (label : nat) (cmd_code : avrc_cmd_type) (cmd : tAVRC_COMMAND)
| HAL_CBACK (cb : hal_callback).

(** ** The control block [btif_rc_cb_t]

    The members used by the functions below; [rc_pending_play],
    [rc_pdu_info] and [rc_notif] belong to the target-role command path. *)
Record btif_rc_cb_t : Type := {
  rc_connected : bool;
  rc_handle : Z;
  rc_features : Z;
  rc_addr : Z;
  rc_volume : Z;
  rc_vol_label : nat;
  rc_supported_event_list : option (list btif_rc_supported_event_t);
  rc_app_settings : btif_rc_player_app_settings_t;
  rc_play_status_timer : option alarm_t;
  rc_features_processed : bool;
  rc_playing_uid : Z;
  rc_procedure_complete : bool
}.

Record world : Type := {
  btif_rc_cb : btif_rc_cb_t;
  device : rc_device_t;
  trace : list effect
}.

Definition set_rc_volume (v : Z) (cb : btif_rc_cb_t) : btif_rc_cb_t :=
  {| rc_connected := rc_connected cb; rc_handle := rc_handle cb;
     rc_features := rc_features cb; rc_addr := rc_addr cb;
     rc_volume := v; rc_vol_label := rc_vol_label cb;
     rc_supported_event_list := rc_supported_event_list cb;
     rc_app_settings := rc_app_settings cb;
     rc_play_status_timer := rc_play_status_timer cb;
     rc_features_processed := rc_features_processed cb;
     rc_playing_uid := rc_playing_uid cb;
     rc_procedure_complete := rc_procedure_complete cb |}.

Definition set_rc_vol_label (l : nat) (cb : btif_rc_cb_t) : btif_rc_cb_t :=
  {| rc_connected := rc_connected cb; rc_handle := rc_handle cb;
     rc_features := rc_features cb; rc_addr := rc_addr cb;
     rc_volume := rc_volume cb; rc_vol_label := l;
     rc_supported_event_list := rc_supported_event_list cb;
     rc_app_settings := rc_app_settings cb;
     rc_play_status_timer := rc_play_status_timer cb;
     rc_features_processed := rc_features_processed cb;
     rc_playing_uid := rc_playing_uid cb;
     rc_procedure_complete := rc_procedure_complete cb |}.

Definition set_rc_supported_event_list (l : option (list btif_rc_supported_event_t))
  (cb : btif_rc_cb_t) : btif_rc_cb_t :=
  {| rc_connected := rc_connected cb; rc_handle := rc_handle cb;
     rc_features := rc_features cb; rc_addr := rc_addr cb;
     rc_volume := rc_volume cb; rc_vol_label := rc_vol_label cb;
     rc_supported_event_list := l;
     rc_app_settings := rc_app_settings cb;
     rc_play_status_timer := rc_play_status_timer cb;
     rc_features_processed := rc_features_processed cb;
     rc_playing_uid := rc_playing_uid cb;
     rc_procedure_complete := rc_procedure_complete cb |}.

Definition set_rc_app_settings (s : btif_rc_player_app_settings_t)
  (cb : btif_rc_cb_t) : btif_rc_cb_t :=
  {| rc_connected := rc_connected cb; rc_handle := rc_handle cb;
     rc_features := rc_features cb; rc_addr := rc_addr cb;
     rc_volume := rc_volume cb; rc_vol_label := rc_vol_label cb;
     rc_supported_event_list := rc_supported_event_list cb;
     rc_app_settings := s;
     rc_play_status_timer := rc_play_status_timer cb;
     rc_features_processed := rc_features_processed cb;
     rc_playing_uid := rc_playing_uid cb;
     rc_procedure_complete := rc_procedure_complete cb |}.

Definition set_rc_play_status_timer (a : option alarm_t) (cb : btif_rc_cb_t) : btif_rc_cb_t :=
  {| rc_connected := rc_connected cb; rc_handle := rc_handle cb;
     rc_features := rc_features cb; rc_addr := rc_addr cb;
     rc_volume := rc_volume cb; rc_vol_label := rc_vol_label cb;
     rc_supported_event_list := rc_supported_event_list cb;
     rc_app_settings := rc_app_settings cb;
     rc_play_status_timer := a;
     rc_features_processed := rc_features_processed cb;
     rc_playing_uid := rc_playing_uid cb;
     rc_procedure_complete := rc_procedure_complete cb |}.

Definition set_rc_playing_uid (u : Z) (cb : btif_rc_cb_t) : btif_rc_cb_t :=
  {| rc_connected := rc_connected cb; rc_handle := rc_handle cb;
     rc_features := rc_features cb; rc_addr := rc_addr cb;
     rc_volume := rc_volume cb; rc_vol_label := rc_vol_label cb;
     rc_supported_event_list := rc_supported_event_list cb;
     rc_app_settings := rc_app_settings cb;
     rc_play_status_timer := rc_play_status_timer cb;
     rc_features_processed := rc_features_processed cb;
     rc_playing_uid := u;
     rc_procedure_complete := rc_procedure_complete cb |}.

Definition set_rc_procedure_complete (b : bool) (cb : btif_rc_cb_t) : btif_rc_cb_t :=
  {| rc_connected := rc_connected cb; rc_handle := rc_handle cb;
     rc_features := rc_features cb; rc_addr := rc_addr cb;
     rc_volume := rc_volume cb; rc_vol_label := rc_vol_label cb;
     rc_supported_event_list := rc_supported_event_list cb;
     rc_app_settings := rc_app_settings cb;
     rc_play_status_timer := rc_play_status_timer cb;
     rc_features_processed := rc_features_processed cb;
     rc_playing_uid := rc_playing_uid cb;
     rc_procedure_complete := b |}.

(** ** The monad of the module: state over [world], [None] for a step
    without a defined result *)

Definition M (A : Type) : Type := world -> option (A * world).

Definition ret {A : Type} (a : A) : M A := fun w => Some (a, w).

Definition bind {A B : Type} (m : M A) (k : A -> M B) : M B :=
  fun w => match m w with
           | Some (a, w') => k a w'
           | None => None
           end.

Definition undefined {A : Type} : M A := fun _ => None.

Notation "'do' x <- m ; k" := (bind m (fun x => k))
  (at level 10, x name, m at level 100, k at level 200).
Notation "'do' ' p <- m ; k" := (bind m (fun x => match x with p => k end))
  (at level 10, p pattern, m at level 100, k at level 200).
Notation "'run' m ; k" := (bind m (fun _ => k))
  (at level 10, m at level 100, k at level 200).

Definition get_cb : M btif_rc_cb_t := fun w => Some (btif_rc_cb w, w).

Definition get_device : M rc_device_t := fun w => Some (device w, w).

Definition modify_cb (f : btif_rc_cb_t -> btif_rc_cb_t) : M unit :=
  fun w => Some (tt, {| btif_rc_cb := f (btif_rc_cb w); device := device w; trace := trace w |}).

Definition modify_device (f : rc_device_t -> rc_device_t) : M unit :=
  fun w => Some (tt, {| btif_rc_cb := btif_rc_cb w; device := f (device w); trace := trace w |}).

Definition emit (e : effect) : M unit :=
  fun w => Some (tt, {| btif_rc_cb := btif_rc_cb w; device := device w; trace := e :: trace w |}).

(** Reading a slot of an array or of a response: out of bounds has no
    defined result. *)
Definition array_get {A : Type} (l : list A) (i : nat) : M A :=
  match l !! i with
  | Some a => ret a
  | None => undefined
  end.

Definition when (b : bool) (m : M unit) : M unit := if b then m else ret tt.

Definition array_prefix {A : Type} (l : list A) (n : nat) : M (list A) :=
  if (n <=? length l)%nat then ret (take n l) else undefined.

(** Writing [vals] into the first slots of an array. *)
Fixpoint array_write_prefix {A B : Type} (f : B -> A -> A) (vals : list B) (l : list A)
  : option (list A) :=
  match vals with
  | [] => Some l
  | v :: vals' =>
      match l with
      | a :: l' =>
          match array_write_prefix f vals' l' with
          | Some l'' => Some (f v a :: l'')
          | None => None
          end
      | [] => None
      end
  end.

Definition lift_option {A : Type} (o : option A) : M A :=
  match o with
  | Some a => ret a
  | None => undefined
  end.

(** ** Setters of the accumulator and of a supported event *)

Definition set_query_started (b : bool) (s : btif_rc_player_app_settings_t)
  : btif_rc_player_app_settings_t :=
  {| query_started := b; num_attrs := num_attrs s; num_ext_attrs := num_ext_attrs s;
     attr_index := attr_index s; ext_attr_index := ext_attr_index s;
     ext_val_index := ext_val_index s; attrs := attrs s; ext_attrs := ext_attrs s |}.

Definition set_num_attrs (n : nat) (s : btif_rc_player_app_settings_t)
  : btif_rc_player_app_settings_t :=
  {| query_started := query_started s; num_attrs := n; num_ext_attrs := num_ext_attrs s;
     attr_index := attr_index s; ext_attr_index := ext_attr_index s;
     ext_val_index := ext_val_index s; attrs := attrs s; ext_attrs := ext_attrs s |}.

Definition set_num_ext_attrs (n : nat) (s : btif_rc_player_app_settings_t)
  : btif_rc_player_app_settings_t :=
  {| query_started := query_started s; num_attrs := num_attrs s; num_ext_attrs := n;
     attr_index := attr_index s; ext_attr_index := ext_attr_index s;
     ext_val_index := ext_val_index s; attrs := attrs s; ext_attrs := ext_attrs s |}.

Definition set_attr_index (n : nat) (s : btif_rc_player_app_settings_t)
  : btif_rc_player_app_settings_t :=
  {| query_started := query_started s; num_attrs := num_attrs s;
     num_ext_attrs := num_ext_attrs s;
     attr_index := n; ext_attr_index := ext_attr_index s;
     ext_val_index := ext_val_index s; attrs := attrs s; ext_attrs := ext_attrs s |}.

Definition set_ext_attr_index (n : nat) (s : btif_rc_player_app_settings_t)
  : btif_rc_player_app_settings_t :=
  {| query_started := query_started s; num_attrs := num_attrs s;
     num_ext_attrs := num_ext_attrs s;
     attr_index := attr_index s; ext_attr_index := n;
     ext_val_index := ext_val_index s; attrs := attrs s; ext_attrs := ext_attrs s |}.

Definition set_ext_val_index (n : nat) (s : btif_rc_player_app_settings_t)
  : btif_rc_player_app_settings_t :=
  {| query_started := query_started s; num_attrs := num_attrs s;
     num_ext_attrs := num_ext_attrs s;
     attr_index := attr_index s; ext_attr_index := ext_attr_index s;
     ext_val_index := n; attrs := attrs s; ext_attrs := ext_attrs s |}.

Definition set_attrs (l : list btrc_player_app_attr_t) (s : btif_rc_player_app_settings_t)
  : btif_rc_player_app_settings_t :=
  {| query_started := query_started s; num_attrs := num_attrs s;
     num_ext_attrs := num_ext_attrs s;
     attr_index := attr_index s; ext_attr_index := ext_attr_index s;
     ext_val_index := ext_val_index s; attrs := l; ext_attrs := ext_attrs s |}.

Definition set_ext_attrs (l : list btrc_player_app_ext_attr_t)
  (s : btif_rc_player_app_settings_t) : btif_rc_player_app_settings_t :=
  {| query_started := query_started s; num_attrs := num_attrs s;
     num_ext_attrs := num_ext_attrs s;
     attr_index := attr_index s; ext_attr_index := ext_attr_index s;
     ext_val_index := ext_val_index s; attrs := attrs s; ext_attrs := l |}.

Definition set_app_attr_id (a : Z) (t : btrc_player_app_attr_t) : btrc_player_app_attr_t :=
  {| app_attr_id := a; app_num_val := app_num_val t; app_attr_val := app_attr_val t |}.

Definition set_ext_attr_id (a : Z) (t : btrc_player_app_ext_attr_t)
  : btrc_player_app_ext_attr_t :=
  {| ext_attr_id := a; ext_charset_id := ext_charset_id t; ext_str_len := ext_str_len t;
     ext_p_str := ext_p_str t; ext_num_val := ext_num_val t;
     ext_attr_val := ext_attr_val t |}.

Definition set_ext_vals (n : nat) (l : list btrc_player_app_ext_attr_val_t)
  (t : btrc_player_app_ext_attr_t) : btrc_player_app_ext_attr_t :=
  {| ext_attr_id := ext_attr_id t; ext_charset_id := ext_charset_id t;
     ext_str_len := ext_str_len t; ext_p_str := ext_p_str t; ext_num_val := n;
     ext_attr_val := l |}.

Definition set_ext_text (c len : Z) (p : option (list Z)) (t : btrc_player_app_ext_attr_t)
  : btrc_player_app_ext_attr_t :=
  {| ext_attr_id := ext_attr_id t; ext_charset_id := c; ext_str_len := len;
     ext_p_str := p; ext_num_val := ext_num_val t; ext_attr_val := ext_attr_val t |}.

Definition set_ext_p_str (p : option (list Z)) (t : btrc_player_app_ext_attr_t)
  : btrc_player_app_ext_attr_t :=
  {| ext_attr_id := ext_attr_id t; ext_charset_id := ext_charset_id t;
     ext_str_len := ext_str_len t; ext_p_str := p; ext_num_val := ext_num_val t;
     ext_attr_val := ext_attr_val t |}.

Definition set_ext_val (v : Z) (t : btrc_player_app_ext_attr_val_t)
  : btrc_player_app_ext_attr_val_t :=
  {| ext_val := v; ext_val_charset_id := ext_val_charset_id t;
     ext_val_str_len := ext_val_str_len t; ext_val_p_str := ext_val_p_str t |}.

Definition set_ext_val_text (c len : Z) (p : option (list Z))
  (t : btrc_player_app_ext_attr_val_t) : btrc_player_app_ext_attr_val_t :=
  {| ext_val := ext_val t; ext_val_charset_id := c; ext_val_str_len := len;
     ext_val_p_str := p |}.

Definition set_event_status (s : btif_rc_nfn_reg_status_t) (e : btif_rc_supported_event_t)
  : btif_rc_supported_event_t :=
  {| event_id := event_id e; label := label e; status := s |}.

(** ** Timers of a transaction

    [start_status_command_timer], [start_control_command_timer] and the
    tail of [register_for_event_notification] do the same three things to
    the slot: fill the timer context, replace the alarm, set it. *)
Definition arm_txn_timer (cb : alarm_callback) (interval_ms : Z) (pdu_id : avrc_pdu)
  (p_txn : nat) (device : rc_device_t) : rc_device_t :=
  match device !! p_txn with
  | Some t =>
      <[p_txn := {| in_use := in_use t; lbl := lbl t; handle := handle t;
                    txn_timer_context := {| ctx_label := lbl t; ctx_pdu_id := pdu_id |};
                    txn_timer := Some (alarm_set cb interval_ms) |}]> device
  | None => device
  end.

Definition start_status_command_timer (pdu_id : avrc_pdu) (p_txn : nat)
  (device : rc_device_t) : rc_device_t :=
  arm_txn_timer btif_rc_status_cmd_timer_timeout BTIF_TIMEOUT_RC_STATUS_CMD_MS
    pdu_id p_txn device.

Definition start_control_command_timer (pdu_id : avrc_pdu) (p_txn : nat)
  (device : rc_device_t) : rc_device_t :=
  arm_txn_timer btif_rc_control_cmd_timer_timeout BTIF_TIMEOUT_RC_CONTROL_CMD_MS
    pdu_id p_txn device.

(** ** The play-status timer *)

Definition rc_start_play_status_timer : M unit :=
  modify_cb (fun cb =>
    if alarm_is_scheduled (rc_play_status_timer cb) then cb
    else set_rc_play_status_timer
           (Some (alarm_set btif_rc_play_status_timer_timeout BTIF_TIMEOUT_RC_INTERIM_RSP_MS))
           cb).

Definition rc_stop_play_status_timer : M unit :=
  modify_cb (fun cb => set_rc_play_status_timer (alarm_cancel (rc_play_status_timer cb)) cb).

(** ** The supported-event list *)

(** The loop of [handle_get_capability_response] over the advertised
    event ids: an entry is appended for the three events the controller
    registers for. *)
Fixpoint supported_events_of (ids : list avrc_evt) : list btif_rc_supported_event_t :=
  match ids with
  | [] => []
  | id :: ids' =>
      match id with
      | AVRC_EVT_PLAY_STATUS_CHANGE
      | AVRC_EVT_TRACK_CHANGE
      | AVRC_EVT_APP_SETTING_CHANGE =>
          {| event_id := id; label := None; status := eNOT_REGISTERED |}
            :: supported_events_of ids'
      | _ => supported_events_of ids'
      end
  end.

(** [list_foreach] with [iterate_supported_event_list_for_interim_rsp]:
    the first entry of the event becomes [eINTERIM] and the walk stops. *)
Fixpoint foreach_interim_rsp (p_event_id : avrc_evt) (l : list btif_rc_supported_event_t)
  : list btif_rc_supported_event_t :=
  match l with
  | [] => []
  | e :: l' =>
      if bool_decide (event_id e = p_event_id) then set_event_status eINTERIM e :: l'
      else e :: foreach_interim_rsp p_event_id l'
  end.

(** [list_foreach] with [iterate_supported_event_list_for_timeout]: the
    first entry that carries the label is removed and the walk stops.  The
    walk reads the label of every entry it passes. *)
Fixpoint foreach_timeout (cb_data : nat) (l : list btif_rc_supported_event_t)
  : option (list btif_rc_supported_event_t) :=
  match l with
  | [] => Some []
  | e :: l' =>
      match label e with
      | None => None
      | Some x =>
          if (x =? cb_data)%nat then Some l'
          else match foreach_timeout cb_data l' with
               | Some l'' => Some (e :: l'')
               | None => None
               end
      end
  end.

(** The [while] loops over the list: the position of the first entry
    that is not registered, and of the first entry of an event. *)
Fixpoint first_not_registered (i : nat) (l : list btif_rc_supported_event_t) : option nat :=
  match l with
  | [] => None
  | e :: l' =>
      if bool_decide (status e = eNOT_REGISTERED) then Some i
      else first_not_registered (S i) l'
  end.

Fixpoint first_of_event (id : avrc_evt) (i : nat) (l : list btif_rc_supported_event_t)
  : option nat :=
  match l with
  | [] => None
  | e :: l' =>
      if bool_decide (event_id e = id) then Some i
      else first_of_event id (S i) l'
  end.

(** Track identifiers: [rc_is_track_id_valid] and [BE_STREAM_TO_UINT64]. *)
Definition rc_is_track_id_valid (uid : list Z) : bool :=
  negb (bool_decide (uid = replicate 8 255)).

Definition be_stream_to_uint64 (p_data : list Z) : Z :=
  fold_left (fun acc b => acc * 256 + b) (take 8 p_data) 0.

Definition attr_list : list avrc_media_attr :=
  [ AVRC_MEDIA_ATTR_ID_TITLE; AVRC_MEDIA_ATTR_ID_ARTIST; AVRC_MEDIA_ATTR_ID_ALBUM;
    AVRC_MEDIA_ATTR_ID_TRACK_NUM; AVRC_MEDIA_ATTR_ID_NUM_TRACKS; AVRC_MEDIA_ATTR_ID_GENRE;
    AVRC_MEDIA_ATTR_ID_PLAYING_TIME ].

Section Controller.
Context `{AvrcDefs}.

(** ** Sending commands *)

(** [get_transaction] on the table of the world. *)
Definition call_get_transaction : M (Z * option nat) :=
  fun w =>
    match get_transaction (device w) with
    | (st, p, d) =>
        Some ((st, p), {| btif_rc_cb := btif_rc_cb w; device := d; trace := trace w |})
    end.

(** [p_transaction->lbl]. *)
Definition transaction_lbl (p_transaction : nat) : M nat :=
  do d <- get_device;
  do t <- array_get d p_transaction;
  ret (lbl t).

(** The body shared by [getcapabilities_cmd],
    [list_player_app_setting_attrib_cmd], [list_player_app_setting_value_cmd],
    [get_player_app_setting_cmd], [get_player_app_setting_value_text_cmd],
    [get_element_attribute_cmd] and [get_play_status_cmd]:
    CHECK_RC_CONNECTED, a transaction, the packet, the vendor command with
    the label of the transaction, the status-command timer.  A failed
    build returns the build status and keeps the transaction. *)
Definition send_status_cmd (cmd : tAVRC_COMMAND) : M Z :=
  do cb <- get_cb;
  if negb (rc_connected cb) then ret BT_STATUS_NOT_READY
  else
    do '(tran_status, p_transaction) <- call_get_transaction;
    if negb (tran_status =? BT_STATUS_SUCCESS) then ret BT_STATUS_FAIL
    else
      do p_txn <- lift_option p_transaction;
      let status := AVRC_BldCommand cmd in
      if status =? AVRC_STS_NO_ERROR then
        do l <- transaction_lbl p_txn;
        run emit (BTA_AvVendorCmd (rc_handle cb) l AVRC_CMD_STATUS cmd);
        run modify_device (start_status_command_timer (cmd_pdu cmd) p_txn);
        ret BT_STATUS_SUCCESS
      else ret status.

Definition getcapabilities_cmd (cap_id : avrc_cap) : M Z :=
  send_status_cmd (cmd_get_caps cap_id).

Definition list_player_app_setting_attrib_cmd : M Z :=
  send_status_cmd cmd_list_app_attr.

Definition list_player_app_setting_value_cmd (attrib_id : Z) : M Z :=
  send_status_cmd (cmd_list_app_values attrib_id).

Definition get_player_app_setting_cmd (num_attrib : nat) (attrib_ids : list Z) : M Z :=
  send_status_cmd (cmd_get_cur_app_val num_attrib attrib_ids).

(** [get_player_app_setting_attr_text_cmd] has the body of the others up
    to the built packet; there it frees [p_msg] after the vendor command
    and the common exit frees it again.  What follows the second
    [osi_free] of the same buffer is not defined: on that path the
    function has no result. *)
Definition get_player_app_setting_attr_text_cmd (attrs : list Z) (num_attrs : nat) : M Z :=
  let cmd := cmd_get_app_attr_txt num_attrs attrs in
  do cb <- get_cb;
  if negb (rc_connected cb) then ret BT_STATUS_NOT_READY
  else
    do '(tran_status, p_transaction) <- call_get_transaction;
    if negb (tran_status =? BT_STATUS_SUCCESS) then ret BT_STATUS_FAIL
    else
      do p_txn <- lift_option p_transaction;
      let status := AVRC_BldCommand cmd in
      if status =? AVRC_STS_NO_ERROR then
        do l <- transaction_lbl p_txn;
        run emit (BTA_AvVendorCmd (rc_handle cb) l AVRC_CMD_STATUS cmd);
        run modify_device (start_status_command_timer (cmd_pdu cmd) p_txn);
        undefined
      else ret status.

Definition get_player_app_setting_value_text_cmd (vals : list Z) (num_vals : nat) : M Z :=
  send_status_cmd (cmd_get_app_val_txt num_vals vals).

Definition get_element_attribute_cmd (num_attribute : nat) (p_attr_ids : list avrc_media_attr)
  : M Z :=
  do ids <- array_prefix p_attr_ids num_attribute;
  send_status_cmd (cmd_get_elem_attrs num_attribute ids).

Definition get_play_status_cmd : M Z :=
  send_status_cmd cmd_get_play_status.

(** [register_notification_cmd]: the label is the caller's. *)
Definition register_notification_cmd (label : nat) (event_id : avrc_evt) (event_value : Z)
  : M Z :=
  do cb <- get_cb;
  if negb (rc_connected cb) then ret BT_STATUS_NOT_READY
  else
    let cmd := cmd_reg_notif event_id event_value in
    let status := AVRC_BldCommand cmd in
    if status =? AVRC_STS_NO_ERROR then
      run emit (BTA_AvVendorCmd (rc_handle cb) label AVRC_CMD_NOTIF cmd);
      ret BT_STATUS_SUCCESS
    else ret status.

(** [rc_ctrl_procedure_complete] *)
Definition rc_ctrl_procedure_complete : M unit :=
  do cb <- get_cb;
  if rc_procedure_complete cb then ret tt
  else
    run modify_cb (set_rc_procedure_complete true);
    do _ <- get_element_attribute_cmd AVRC_MAX_NUM_MEDIA_ATTR_ID attr_list;
    ret tt.

(** ** Registration of notification events *)

Definition supported_event_list : M (list btif_rc_supported_event_t) :=
  do cb <- get_cb;
  lift_option (rc_supported_event_list cb).

(** A walk that rewrites the list in place; [None] is a step without a
    defined result. *)
Definition update_event_list
  (f : list btif_rc_supported_event_t -> option (list btif_rc_supported_event_t)) : M unit :=
  do l <- supported_event_list;
  do l1 <- lift_option (f l);
  modify_cb (set_rc_supported_event_list (Some l1)).

(** A write through [p_event]. *)
Definition update_event (p_event : nat)
  (f : btif_rc_supported_event_t -> btif_rc_supported_event_t) : M unit :=
  update_event_list (fun l =>
    match l !! p_event with
    | Some e => Some (<[p_event := f e]> l)
    | None => None
    end).

(** Writes through [p_app_settings]. *)
Definition update_app_settings
  (f : btif_rc_player_app_settings_t -> option btif_rc_player_app_settings_t)
  : M btif_rc_player_app_settings_t :=
  do cb <- get_cb;
  do s <- lift_option (f (rc_app_settings cb));
  run modify_cb (set_rc_app_settings s);
  ret s.

(** [register_for_event_notification]; [p_event] is the position of the
    entry in the list. *)
Definition register_for_event_notification (p_event : nat) : M unit :=
  do '(status, p_transaction) <- call_get_transaction;
  if status =? BT_STATUS_SUCCESS then
    do p_txn <- lift_option p_transaction;
    do l <- transaction_lbl p_txn;
    do evs <- supported_event_list;
    do e <- array_get evs p_event;
    do status <- register_notification_cmd l (event_id e) 0;
    if negb (status =? BT_STATUS_SUCCESS) then
      modify_device (release_transaction l)
    else
      run update_event p_event
            (fun e => {| event_id := event_id e; label := Some l; status := eREGISTERED |});
      modify_device
        (arm_txn_timer btif_rc_status_cmd_timer_timeout BTIF_TIMEOUT_RC_INTERIM_RSP_MS
           AVRC_PDU_REGISTER_NOTIFICATION p_txn)
  else ret tt.

(** [handle_get_capability_response].  The handler tests the result of
    [list_front] against NULL, but [list_front] of osi asserts that the
    list has an entry: when none of the advertised events is kept the
    call aborts, and the handler has no result. *)
Definition handle_get_capability_response (pmeta_msg : tBTA_AV_META_MSG)
  (p_rsp : tAVRC_GET_CAPS_RSP) : M unit :=
  if negb (caps_status p_rsp =? AVRC_STS_NO_ERROR) then ret tt
  else
    match capability_id p_rsp with
    | AVRC_CAP_EVENTS_SUPPORTED =>
        do ids <- array_prefix (param_event_id p_rsp) (count p_rsp);
        let l := supported_events_of ids in
        run modify_cb (set_rc_supported_event_list (Some l));
        match l with
        | [] => undefined
        | _ :: _ => register_for_event_notification 0
        end
    | AVRC_CAP_COMPANY_ID =>
        do _ <- getcapabilities_cmd AVRC_CAP_EVENTS_SUPPORTED;
        ret tt
    | AVRC_CAP_OTHER _ => ret tt
    end.

(** The loop shared by the interim branch and the time-out handler:
    register the first entry that is not registered.  The result tells
    whether there was one. *)
Definition register_first_not_registered : M bool :=
  do l <- supported_event_list;
  match first_not_registered 0 l with
  | Some i =>
      run register_for_event_notification i;
      ret true
  | None => ret false
  end.

(** [handle_notification_response].  In the interim branch [p_event] is
    NULL after the loop when the list has entries and none of them is
    unregistered; with an empty list the loop body never runs and
    [p_event] was never assigned. *)
Definition handle_notification_response (pmeta_msg : tBTA_AV_META_MSG)
  (p_rsp : tAVRC_REG_NOTIF_RSP) : M unit :=
  do cb <- get_cb;
  if msg_code pmeta_msg =? AVRC_RSP_INTERIM then
    do handled <-
      match reg_notif_event_id p_rsp with
      | AVRC_EVT_PLAY_STATUS_CHANGE =>
          run when (param_play_status p_rsp =? AVRC_PLAYSTATE_PLAYING)
                rc_start_play_status_timer;
          run emit (HAL_CBACK (play_status_changed_cb (rc_addr cb) (param_play_status p_rsp)));
          ret true
      | AVRC_EVT_TRACK_CHANGE =>
          run when (rc_is_track_id_valid (param_track p_rsp))
                (modify_cb (set_rc_playing_uid (be_stream_to_uint64 (param_track p_rsp))));
          ret true
      | AVRC_EVT_APP_SETTING_CHANGE
      | AVRC_EVT_NOW_PLAYING_CHANGE
      | AVRC_EVT_AVAL_PLAYERS_CHANGE
      | AVRC_EVT_ADDR_PLAYER_CHANGE
      | AVRC_EVT_UIDS_CHANGE => ret true
      | _ => ret false
      end;
    if negb handled then ret tt
    else
      run update_event_list (fun l => Some (foreach_interim_rsp (reg_notif_event_id p_rsp) l));
      do l1 <- supported_event_list;
      do found <- register_first_not_registered;
      do p_event_null <-
        (if found then ret false
         else match l1 with
              | [] => undefined
              | _ :: _ => ret true
              end);
      do cb1 <- get_cb;
      if p_event_null && negb (query_started (rc_app_settings cb1)) then
        do _ <- update_app_settings (fun s => Some (set_query_started true s));
        if negb (Z.land (rc_features cb1) BTA_AV_FEAT_APP_SETTING =? 0) then
          do _ <- list_player_app_setting_attrib_cmd;
          ret tt
        else rc_ctrl_procedure_complete
      else ret tt
  else if msg_code pmeta_msg =? AVRC_RSP_CHANGED then
    do l <- supported_event_list;
    run match first_of_event (reg_notif_event_id p_rsp) 0 l with
        | Some i =>
            run update_event i (set_event_status eNOT_REGISTERED);
            register_for_event_notification i
        | None => ret tt
        end;
    match reg_notif_event_id p_rsp with
    | AVRC_EVT_PLAY_STATUS_CHANGE =>
        run (if param_play_status p_rsp =? AVRC_PLAYSTATE_PLAYING
             then rc_start_play_status_timer
             else rc_stop_play_status_timer);
        emit (HAL_CBACK (play_status_changed_cb (rc_addr cb) (param_play_status p_rsp)))
    | AVRC_EVT_TRACK_CHANGE =>
        if negb (rc_is_track_id_valid (param_track p_rsp)) then ret tt
        else
          do _ <- get_element_attribute_cmd AVRC_MAX_NUM_MEDIA_ATTR_ID attr_list;
          ret tt
    | AVRC_EVT_APP_SETTING_CHANGE =>
        let ps := param_player_setting p_rsp in
        let n := player_setting_num_attr ps in
        if negb (n <=? BTRC_MAX_APP_SETTINGS)%nat then undefined
        else
          do ids <- array_prefix (player_setting_attr_id ps) n;
          do vals <- array_prefix (player_setting_attr_value ps) n;
          emit (HAL_CBACK (playerapplicationsetting_changed_cb (rc_addr cb) n ids vals))
    | _ => ret tt
    end
  else ret tt.

(** ** Player application settings *)

(** The loop of [handle_app_attr_response] over the attribute ids. *)
Fixpoint store_app_attrs (ids : list Z) (s : btif_rc_player_app_settings_t)
  : option btif_rc_player_app_settings_t :=
  match ids with
  | [] => Some s
  | a :: ids' =>
      if a >? AVRC_PLAYER_SETTING_LOW_MENU_EXT then
        let st_index := num_ext_attrs s in
        match ext_attrs s !! st_index with
        | Some e =>
            store_app_attrs ids'
              (set_num_ext_attrs (uint8_incr (num_ext_attrs s))
                 (set_ext_attrs (<[st_index := set_ext_attr_id a e]> (ext_attrs s)) s))
        | None => None
        end
      else
        let st_index := num_attrs s in
        match attrs s !! st_index with
        | Some e =>
            store_app_attrs ids'
              (set_num_attrs (uint8_incr (num_attrs s))
                 (set_attrs (<[st_index := set_app_attr_id a e]> (attrs s)) s))
        | None => None
        end
  end.

(** [handle_app_attr_response] *)
Definition handle_app_attr_response (pmeta_msg : tBTA_AV_META_MSG)
  (p_rsp : tAVRC_LIST_APP_ATTR_RSP) : M unit :=
  if negb (list_attr_status p_rsp =? AVRC_STS_NO_ERROR) then rc_ctrl_procedure_complete
  else
    do ids <- array_prefix (list_attr_attrs p_rsp) (list_attr_num_attr p_rsp);
    do s1 <- update_app_settings (fun s =>
               match store_app_attrs ids s with
               | Some s' => Some (set_ext_val_index 0 (set_ext_attr_index 0 (set_attr_index 0 s')))
               | None => None
               end);
    if (0 <? list_attr_num_attr p_rsp)%nat then
      do a <- array_get (attrs s1) 0;
      do _ <- list_player_app_setting_value_cmd (app_attr_id a);
      ret tt
    else ret tt.

(** The first branch of [handle_app_val_response]: the values of the
    standard attribute under the cursor, and the cursor moved on. *)
Definition store_attr_values (num_val : nat) (vals : list Z)
  (s : btif_rc_player_app_settings_t) : option btif_rc_player_app_settings_t :=
  let idx := attr_index s in
  match attrs s !! idx with
  | Some a =>
      match array_write_prefix (fun v _ => v) vals (app_attr_val a) with
      | Some av =>
          let a1 := {| app_attr_id := app_attr_id a; app_num_val := num_val;
                       app_attr_val := av |} in
          Some (set_attr_index (uint8_incr idx) (set_attrs (<[idx := a1]> (attrs s)) s))
      | None => None
      end
  | None => None
  end.

(** The second branch: the same for the extended attribute under its
    cursor. *)
Definition store_ext_attr_values (num_val : nat) (vals : list Z)
  (s : btif_rc_player_app_settings_t) : option btif_rc_player_app_settings_t :=
  let idx := ext_attr_index s in
  match ext_attrs s !! idx with
  | Some e =>
      match array_write_prefix set_ext_val vals (ext_attr_val e) with
      | Some ev =>
          Some (set_ext_attr_index (uint8_incr idx)
                  (set_ext_attrs (<[idx := set_ext_vals num_val ev e]> (ext_attrs s)) s))
      | None => None
      end
  | None => None
  end.

(** [handle_app_val_response] *)
Definition handle_app_val_response (pmeta_msg : tBTA_AV_META_MSG)
  (p_rsp : tAVRC_LIST_APP_VALUES_RSP) : M unit :=
  if negb (list_val_status p_rsp =? AVRC_STS_NO_ERROR) then ret tt
  else
    do cb <- get_cb;
    let s := rc_app_settings cb in
    if (attr_index s <? num_attrs s)%nat then
      do vals <- array_prefix (list_val_vals p_rsp) (list_val_num_val p_rsp);
      do s1 <- update_app_settings (store_attr_values (list_val_num_val p_rsp) vals);
      if (uint8_incr (attr_index s) <? num_attrs s1)%nat then
        do n <- array_get (attrs s1) (attr_index s1);
        do _ <- list_player_app_setting_value_cmd (app_attr_id n);
        ret tt
      else if (ext_attr_index s1 <? num_ext_attrs s1)%nat then
        do s2 <- update_app_settings (fun s => Some (set_ext_attr_index 0 s));
        do e <- array_get (ext_attrs s2) 0;
        do _ <- list_player_app_setting_value_cmd (ext_attr_id e);
        ret tt
      else
        do pre <- array_prefix (attrs s1) (num_attrs s1);
        do _ <- get_player_app_setting_cmd (num_attrs s1) (map app_attr_id pre);
        emit (HAL_CBACK (playerapplicationsetting_cb (rc_addr cb)
                           (num_attrs s1) (attrs s1) 0 None))
    else if (ext_attr_index s <? num_ext_attrs s)%nat then
      do vals <- array_prefix (list_val_vals p_rsp) (list_val_num_val p_rsp);
      do s1 <- update_app_settings (store_ext_attr_values (list_val_num_val p_rsp) vals);
      if (uint8_incr (ext_attr_index s) <? num_ext_attrs s1)%nat then
        do n <- array_get (ext_attrs s1) (ext_attr_index s1);
        do _ <- list_player_app_setting_value_cmd (ext_attr_id n);
        ret tt
      else
        do pre <- array_prefix (ext_attrs s1) (num_ext_attrs s1);
        do _ <- get_player_app_setting_attr_text_cmd (map ext_attr_id pre) (num_ext_attrs s1);
        ret tt
    else ret tt.

(** [handle_app_cur_val_response] *)
Definition handle_app_cur_val_response (pmeta_msg : tBTA_AV_META_MSG)
  (p_rsp : tAVRC_GET_CUR_APP_VALUE_RSP) : M unit :=
  if negb (cur_val_status p_rsp =? AVRC_STS_NO_ERROR) then ret tt
  else
    do cb <- get_cb;
    let n := cur_val_num_val p_rsp in
    if negb (n <=? BTRC_MAX_APP_SETTINGS)%nat then undefined
    else
      do vals <- array_prefix (cur_val_p_vals p_rsp) n;
      run emit (HAL_CBACK (playerapplicationsetting_changed_cb (rc_addr cb) n
                             (map setting_attr_id vals) (map setting_attr_val vals)));
      rc_ctrl_procedure_complete.

(** The tail of the error branch of the two text handlers, after the
    extended attributes were dropped: report the standard attributes with
    no extended ones, and ask for their current values. *)
Definition report_standard_settings : M unit :=
  do cb <- get_cb;
  let s := rc_app_settings cb in
  do pre <- array_prefix (attrs s) (num_attrs s);
  run emit (HAL_CBACK (playerapplicationsetting_cb (rc_addr cb)
                         (num_attrs s) (attrs s) 0 None));
  do _ <- get_player_app_setting_cmd (num_attrs s) (map app_attr_id pre);
  ret tt.

(** The inner loop of [handle_app_attr_txt_response]: the first of the
    [count] extended attributes from [x] on with the attribute id of the
    response entry takes its text. *)
Fixpoint store_attr_text (t : tAVRC_APP_SETTING_TEXT) (x count : nat)
  (l : list btrc_player_app_ext_attr_t) : option (list btrc_player_app_ext_attr_t) :=
  match count with
  | O => Some l
  | S count' =>
      match l !! x with
      | Some e =>
          if ext_attr_id e =? text_attr_id t then
            Some (<[x := set_ext_text (text_charset_id t) (text_str_len t) (text_p_str t) e]> l)
          else store_attr_text t (S x) count' l
      | None => None
      end
  end.

Fixpoint store_attr_texts (ts : list tAVRC_APP_SETTING_TEXT) (count : nat)
  (l : list btrc_player_app_ext_attr_t) : option (list btrc_player_app_ext_attr_t) :=
  match ts with
  | [] => Some l
  | t :: ts' =>
      match store_attr_text t 0 count l with
      | Some l' => store_attr_texts ts' count l'
      | None => None
      end
  end.

(** The values of one extended attribute, as the loops that fill the
    local [vals] array read them. *)
Definition ext_attr_values (e : btrc_player_app_ext_attr_t) : M (list Z) :=
  if negb (ext_num_val e <=? AVRC_MAX_APP_ATTR_SIZE)%nat then undefined
  else
    do pv <- array_prefix (ext_attr_val e) (ext_num_val e);
    ret (map ext_val pv).

(** The head of the error branch of [handle_app_attr_txt_response]: no
    extended attributes any more, their texts released. *)
Definition drop_ext_attr_texts (s : btif_rc_player_app_settings_t)
  : option btif_rc_player_app_settings_t :=
  if (ext_attr_index s <=? length (ext_attrs s))%nat then
    Some (set_ext_attr_index 0
            (set_ext_attrs
               (map (set_ext_p_str None) (take (ext_attr_index s) (ext_attrs s))
                  ++ drop (ext_attr_index s) (ext_attrs s))
               (set_num_ext_attrs 0 s)))
  else None.

(** [handle_app_attr_txt_response] *)
Definition handle_app_attr_txt_response (pmeta_msg : tBTA_AV_META_MSG)
  (p_rsp : tAVRC_GET_APP_ATTR_TXT_RSP) : M unit :=
  if negb (attr_txt_status p_rsp =? AVRC_STS_NO_ERROR) then
    do _ <- update_app_settings drop_ext_attr_texts;
    report_standard_settings
  else
    do ts <- array_prefix (attr_txt_p_attrs p_rsp) (attr_txt_num_attr p_rsp);
    do s1 <- update_app_settings (fun s =>
               match store_attr_texts ts (num_ext_attrs s) (ext_attrs s) with
               | Some exts => Some (set_ext_attrs exts s)
               | None => None
               end);
    do e0 <- array_get (ext_attrs s1) 0;
    do vals <- ext_attr_values e0;
    do _ <- get_player_app_setting_value_text_cmd vals (ext_num_val e0);
    ret tt.

(** Releasing the texts of one extended attribute. *)
Definition free_ext_attr (e : btrc_player_app_ext_attr_t) : option btrc_player_app_ext_attr_t :=
  if (ext_num_val e <=? length (ext_attr_val e))%nat then
    Some {| ext_attr_id := ext_attr_id e; ext_charset_id := ext_charset_id e;
            ext_str_len := ext_str_len e; ext_p_str := None; ext_num_val := 0;
            ext_attr_val :=
              map (fun v => set_ext_val_text (ext_val_charset_id v) (ext_val_str_len v) None v)
                  (take (ext_num_val e) (ext_attr_val e))
              ++ drop (ext_num_val e) (ext_attr_val e) |}
  else None.

Fixpoint free_ext_attrs (n : nat) (l : list btrc_player_app_ext_attr_t)
  : option (list btrc_player_app_ext_attr_t) :=
  match n with
  | O => Some l
  | S n' =>
      match l with
      | e :: l' =>
          match free_ext_attr e, free_ext_attrs n' l' with
          | Some e', Some l'' => Some (e' :: l'')
          | _, _ => None
          end
      | [] => None
      end
  end.

(** The head of the error branch of [handle_app_attr_val_txt_response]. *)
Definition drop_ext_attr_values (s : btif_rc_player_app_settings_t)
  : option btif_rc_player_app_settings_t :=
  match free_ext_attrs (ext_attr_index s) (ext_attrs s) with
  | Some exts => Some (set_ext_attr_index 0 (set_ext_attrs exts (set_num_ext_attrs 0 s)))
  | None => None
  end.

(** The inner loop of [handle_app_attr_val_txt_response] over the values
    of the extended attribute under the cursor. *)
Fixpoint store_val_text (t : tAVRC_APP_SETTING_TEXT) (x count : nat)
  (l : list btrc_player_app_ext_attr_val_t) : option (list btrc_player_app_ext_attr_val_t) :=
  match count with
  | O => Some l
  | S count' =>
      match l !! x with
      | Some v =>
          if ext_val v =? text_attr_id t then
            Some (<[x := set_ext_val_text (text_charset_id t) (text_str_len t)
                           (text_p_str t) v]> l)
          else store_val_text t (S x) count' l
      | None => None
      end
  end.

Fixpoint store_val_texts (ts : list tAVRC_APP_SETTING_TEXT) (count : nat)
  (l : list btrc_player_app_ext_attr_val_t) : option (list btrc_player_app_ext_attr_val_t) :=
  match ts with
  | [] => Some l
  | t :: ts' =>
      match store_val_text t 0 count l with
      | Some l' => store_val_texts ts' count l'
      | None => None
      end
  end.

(** The two loops of the success branch and the cursor moved on. *)
Definition store_value_texts (num_attr : nat) (ts : list tAVRC_APP_SETTING_TEXT)
  (s : btif_rc_player_app_settings_t) : option btif_rc_player_app_settings_t :=
  match
    match ts with
    | [] => Some s
    | _ :: _ =>
        match ext_attrs s !! ext_val_index s with
        | Some e =>
            match store_val_texts ts num_attr (ext_attr_val e) with
            | Some vs =>
                Some (set_ext_attrs
                        (<[ext_val_index s := set_ext_vals (ext_num_val e) vs e]> (ext_attrs s))
                        s)
            | None => None
            end
        | None => None
        end
    end
  with
  | Some s1 => Some (set_ext_val_index (uint8_incr (ext_val_index s1)) s1)
  | None => None
  end.

(** The end of the walk: the texts released and the standard attributes
    forgotten. *)
Definition free_app_settings (s : btif_rc_player_app_settings_t)
  : option btif_rc_player_app_settings_t :=
  match free_ext_attrs (ext_attr_index s) (ext_attrs s) with
  | Some exts => Some (set_num_attrs 0 (set_ext_attrs exts s))
  | None => None
  end.

(** [handle_app_attr_val_txt_response] *)
Definition handle_app_attr_val_txt_response (pmeta_msg : tBTA_AV_META_MSG)
  (p_rsp : tAVRC_GET_APP_ATTR_TXT_RSP) : M unit :=
  if negb (attr_txt_status p_rsp =? AVRC_STS_NO_ERROR) then
    do _ <- update_app_settings drop_ext_attr_values;
    report_standard_settings
  else
    do cb <- get_cb;
    do ts <- array_prefix (attr_txt_p_attrs p_rsp) (attr_txt_num_attr p_rsp);
    do s2 <- update_app_settings (store_value_texts (attr_txt_num_attr p_rsp) ts);
    if (ext_val_index s2 <? num_ext_attrs s2)%nat then
      do e <- array_get (ext_attrs s2) (ext_val_index s2);
      do vals <- ext_attr_values e;
      do _ <- get_player_app_setting_value_text_cmd vals (ext_num_val e);
      ret tt
    else
      do pre <- array_prefix (attrs s2) (num_attrs s2);
      do pre_ext <- array_prefix (ext_attrs s2) (num_ext_attrs s2);
      if negb (num_attrs s2 + num_ext_attrs s2 <=? AVRC_MAX_APP_ATTR_SIZE)%nat then undefined
      else
        run emit (HAL_CBACK (playerapplicationsetting_cb (rc_addr cb)
                               (num_attrs s2) (attrs s2)
                               (num_ext_attrs s2) (Some (ext_attrs s2))));
        do _ <- get_player_app_setting_cmd
                  ((num_attrs s2 + num_ext_attrs s2) mod 256)%nat
                  (map app_attr_id pre ++ map ext_attr_id pre_ext);
        do _ <- update_app_settings free_app_settings;
        ret tt.

(** [handle_set_app_attr_val_response]: every caller passes a message. *)
Definition handle_set_app_attr_val_response (pmeta_msg : tBTA_AV_META_MSG) (p_rsp : tAVRC_RSP)
  : M unit :=
  do cb <- get_cb;
  let accepted := if msg_code pmeta_msg =? AVRC_RSP_ACCEPT then 1 else 0 in
  emit (HAL_CBACK (setplayerappsetting_rsp_cb (rc_addr cb) accepted)).

(** [handle_get_elem_attr_response]: an entry of the report carries the
    text of the response entry when that has a length and a string. *)
Definition handle_get_elem_attr_response (pmeta_msg : tBTA_AV_META_MSG)
  (p_rsp : tAVRC_GET_ELEM_ATTRS_RSP) : M unit :=
  if elem_status p_rsp =? AVRC_STS_NO_ERROR then
    do cb <- get_cb;
    do es <- array_prefix (elem_p_attrs p_rsp) (elem_num_attr p_rsp);
    let p_attr :=
      map (fun e => (entry_attr_id e,
                     if negb (entry_name_str_len e =? 0) then entry_name_p_str e else None))
          es in
    emit (HAL_CBACK (track_changed_cb (rc_addr cb) (elem_num_attr p_rsp) p_attr))
  else if elem_status p_rsp =? BTIF_RC_STS_TIMEOUT then
    do _ <- get_element_attribute_cmd AVRC_MAX_NUM_MEDIA_ATTR_ID attr_list;
    ret tt
  else ret tt.

(** [handle_get_playstatus_response] *)
Definition handle_get_playstatus_response (pmeta_msg : tBTA_AV_META_MSG)
  (p_rsp : tAVRC_GET_PLAY_STATUS_RSP) : M unit :=
  if play_status_status p_rsp =? AVRC_STS_NO_ERROR then
    do cb <- get_cb;
    emit (HAL_CBACK (play_position_changed_cb (rc_addr cb) (song_len p_rsp) (song_pos p_rsp)))
  else ret tt.

(** ** The response dispatcher *)

(** [handle_avk_rc_metamsg_rsp] *)
Definition handle_avk_rc_metamsg_rsp (pmeta_msg : tBTA_AV_META_MSG) : M unit :=
  if (msg_opcode pmeta_msg =? AVRC_OP_VENDOR)
     && (AVRC_RSP_NOT_IMPL <=? msg_code pmeta_msg)
     && (msg_code pmeta_msg <=? AVRC_RSP_INTERIM)
  then
    match parsed pmeta_msg with
    | rsp_reg_notif r =>
        run handle_notification_response pmeta_msg r;
        if msg_code pmeta_msg =? AVRC_RSP_INTERIM then
          modify_device (clear_cmd_timeout (msg_label pmeta_msg))
        else modify_device (release_transaction (msg_label pmeta_msg))
    | rsp_get_caps r =>
        run handle_get_capability_response pmeta_msg r;
        modify_device (release_transaction (msg_label pmeta_msg))
    | rsp_list_app_attr r =>
        run handle_app_attr_response pmeta_msg r;
        modify_device (release_transaction (msg_label pmeta_msg))
    | rsp_list_app_values r =>
        run handle_app_val_response pmeta_msg r;
        modify_device (release_transaction (msg_label pmeta_msg))
    | rsp_get_cur_app_val r =>
        run handle_app_cur_val_response pmeta_msg r;
        modify_device (release_transaction (msg_label pmeta_msg))
    | rsp_get_app_attr_txt r =>
        run handle_app_attr_txt_response pmeta_msg r;
        modify_device (release_transaction (msg_label pmeta_msg))
    | rsp_get_app_val_txt r =>
        run handle_app_attr_val_txt_response pmeta_msg r;
        modify_device (release_transaction (msg_label pmeta_msg))
    | rsp_set_app_val r =>
        run handle_set_app_attr_val_response pmeta_msg r;
        modify_device (release_transaction (msg_label pmeta_msg))
    | rsp_get_elem_attrs r =>
        run handle_get_elem_attr_response pmeta_msg r;
        modify_device (release_transaction (msg_label pmeta_msg))
    | rsp_get_play_status r =>
        run handle_get_playstatus_response pmeta_msg r;
        modify_device (release_transaction (msg_label pmeta_msg))
    | rsp_volume _
    | rsp_other _ => modify_device (release_transaction (msg_label pmeta_msg))
    end
  else ret tt.

(** ** Time-outs *)

(** [rc_notification_interim_timout] *)
Definition rc_notification_interim_timout (label : nat) : M unit :=
  run update_event_list (foreach_timeout label);
  do _ <- register_first_not_registered;
  ret tt.

(** The message and the responses the time-out handlers make up:
    [memset] to zero, the handle, and the time-out status. *)
Definition timeout_meta_msg (cb : btif_rc_cb_t) : tBTA_AV_META_MSG :=
  {| msg_rc_handle := rc_handle cb; msg_len := 0; msg_label := 0; msg_code := 0;
     msg_opcode := 0; parse_status := 0; parsed := rsp_other 0 |}.

Definition timeout_txt_rsp : tAVRC_GET_APP_ATTR_TXT_RSP :=
  {| attr_txt_status := BTIF_RC_STS_TIMEOUT; attr_txt_num_attr := 0; attr_txt_p_attrs := [] |}.

(** [btif_rc_status_cmd_timeout_handler] *)
Definition btif_rc_status_cmd_timeout_handler (p_context : btif_rc_timer_context_t) : M unit :=
  do cb <- get_cb;
  let meta_msg := timeout_meta_msg cb in
  run match ctx_pdu_id p_context with
      | AVRC_PDU_REGISTER_NOTIFICATION =>
          rc_notification_interim_timout (ctx_label p_context)
      | AVRC_PDU_GET_CAPABILITIES =>
          handle_get_capability_response meta_msg
            {| caps_status := BTIF_RC_STS_TIMEOUT; capability_id := AVRC_CAP_OTHER 0;
               count := 0; param_event_id := []; param_company_id := [] |}
      | AVRC_PDU_LIST_PLAYER_APP_ATTR =>
          handle_app_attr_response meta_msg
            {| list_attr_status := BTIF_RC_STS_TIMEOUT; list_attr_num_attr := 0;
               list_attr_attrs := [] |}
      | AVRC_PDU_LIST_PLAYER_APP_VALUES =>
          handle_app_val_response meta_msg
            {| list_val_status := BTIF_RC_STS_TIMEOUT; list_val_num_val := 0;
               list_val_vals := [] |}
      | AVRC_PDU_GET_CUR_PLAYER_APP_VALUE =>
          handle_app_cur_val_response meta_msg
            {| cur_val_status := BTIF_RC_STS_TIMEOUT; cur_val_num_val := 0;
               cur_val_p_vals := [] |}
      | AVRC_PDU_GET_PLAYER_APP_ATTR_TEXT =>
          handle_app_attr_txt_response meta_msg timeout_txt_rsp
      | AVRC_PDU_GET_PLAYER_APP_VALUE_TEXT =>
          handle_app_attr_txt_response meta_msg timeout_txt_rsp
      | AVRC_PDU_GET_ELEMENT_ATTR =>
          handle_get_elem_attr_response meta_msg
            {| elem_status := BTIF_RC_STS_TIMEOUT; elem_num_attr := 0; elem_p_attrs := [] |}
      | AVRC_PDU_GET_PLAY_STATUS =>
          handle_get_playstatus_response meta_msg
            {| play_status_status := BTIF_RC_STS_TIMEOUT; song_len := 0; song_pos := 0 |}
      | _ => ret tt
      end;
  modify_device (release_transaction (ctx_label p_context)).

(** [btif_rc_control_cmd_timeout_handler] *)
Definition btif_rc_control_cmd_timeout_handler (p_context : btif_rc_timer_context_t) : M unit :=
  do cb <- get_cb;
  let meta_msg := timeout_meta_msg cb in
  run match ctx_pdu_id p_context with
      | AVRC_PDU_SET_PLAYER_APP_VALUE =>
          handle_set_app_attr_val_response meta_msg {| rsp_status := BTIF_RC_STS_TIMEOUT |}
      | _ => ret tt
      end;
  modify_device (release_transaction (ctx_label p_context)).

(** [btif_rc_play_status_timeout_handler] *)
Definition btif_rc_play_status_timeout_handler : M unit :=
  do _ <- get_play_status_cmd;
  rc_start_play_status_timer.

(** *** The hand-over of a time-out

    The callback of an alarm runs in the context of the alarm service and
    does one thing: [btif_transfer_context] copies the timer context and
    posts the handler to the BTIF thread.  The handler runs when the BTIF
    thread gets to it, after whatever was posted before it. *)
Inductive btif_posted : Type :=
| posted_status_cmd_timeout (p_context : btif_rc_timer_context_t)
| posted_control_cmd_timeout (p_context : btif_rc_timer_context_t)
| posted_play_status_timeout.

(** [btif_rc_status_cmd_timer_timeout], [btif_rc_control_cmd_timer_timeout]
    and [btif_rc_play_status_timer_timeout]: what the callback posts. *)
Definition alarm_callback_post (cb : alarm_callback) (data : btif_rc_timer_context_t)
  : btif_posted :=
  match cb with
  | btif_rc_status_cmd_timer_timeout => posted_status_cmd_timeout data
  | btif_rc_control_cmd_timer_timeout => posted_control_cmd_timeout data
  | btif_rc_play_status_timer_timeout => posted_play_status_timeout
  end.

(** The alarm of slot [p_txn] goes off: the alarm service runs the
    callback of a set alarm once, with the timer context of the slot; an
    alarm that is not set does nothing. *)
Definition txn_timer_fires (p_txn : nat) : M (option btif_posted) :=
  do d <- get_device;
  do t <- array_get d p_txn;
  match txn_timer t with
  | Some (alarm_set cb _) =>
      run modify_device (fun d => <[p_txn := set_txn_timer (Some alarm_idle) t]> d);
      ret (Some (alarm_callback_post cb (txn_timer_context t)))
  | _ => ret None
  end.

(** The BTIF thread gets to a posted handler. *)
Definition btif_posted_run (c : btif_posted) : M unit :=
  match c with
  | posted_status_cmd_timeout p_context => btif_rc_status_cmd_timeout_handler p_context
  | posted_control_cmd_timeout p_context => btif_rc_control_cmd_timeout_handler p_context
  | posted_play_status_timeout => btif_rc_play_status_timeout_handler
  end.

(** The alarm of slot [p_txn] expires and the handler runs with nothing
    in between: [txn_timer_fires] followed at once by [btif_posted_run].
    This is the time-out as the BTIF thread sees it when no other message
    is handled between the callback and the handler. *)
Definition txn_timer_expired (p_txn : nat) : M unit :=
  do d <- get_device;
  do t <- array_get d p_txn;
  match txn_timer t with
  | Some (alarm_set cb _) =>
      run modify_device (fun d => <[p_txn := set_txn_timer (Some alarm_idle) t]> d);
      match cb with
      | btif_rc_status_cmd_timer_timeout =>
          btif_rc_status_cmd_timeout_handler (txn_timer_context t)
      | btif_rc_control_cmd_timer_timeout =>
          btif_rc_control_cmd_timeout_handler (txn_timer_context t)
      | btif_rc_play_status_timer_timeout =>
          btif_rc_play_status_timeout_handler
      end
  | _ => ret tt
  end.

(** The play-status alarm expires. *)
Definition play_status_timer_expired : M unit :=
  do cb <- get_cb;
  match rc_play_status_timer cb with
  | Some (alarm_set _ _) =>
      run modify_cb (set_rc_play_status_timer (Some alarm_idle));
      btif_rc_play_status_timeout_handler
  | _ => ret tt
  end.

(** ** The absolute-volume response path (target role) *)

(** [register_volumechange] *)
Definition register_volumechange (lbl : nat) : M unit :=
  do cb <- get_cb;
  let cmd := cmd_reg_notif AVRC_EVT_VOLUME_CHANGE 0 in
  if AVRC_BldCommand cmd =? AVRC_STS_NO_ERROR then
    do d <- get_device;
    match get_transaction_by_lbl lbl d with
    | Some p_transaction =>
        do l <- transaction_lbl p_transaction;
        emit (BTA_AvMetaCmd (rc_handle cb) l AVRC_CMD_NOTIF cmd)
    | None => ret tt
    end
  else ret tt.

(** [btif_rc_upstreams_rsp_evt]; [event] is the PDU of the response. *)
Definition btif_rc_upstreams_rsp_evt (pavrc_resp : tAVRC_RESPONSE) (ctype : Z) (label : nat)
  : M unit :=
  match pavrc_resp with
  | rsp_reg_notif r =>
      run when (ctype =? AVRC_RSP_CHANGED) (modify_cb (set_rc_volume (param_volume r)));
      emit (HAL_CBACK (volume_change_cb (param_volume r) ctype))
  | rsp_volume r =>
      run when (ctype =? AVRC_RSP_ACCEPT) (modify_cb (set_rc_volume (volume r)));
      emit (HAL_CBACK (volume_change_cb (volume r) ctype))
  | _ => ret tt
  end.

(** Whether the response is a notification response for the volume event. *)
Definition is_volume_change_rsp (r : tAVRC_RESPONSE) : bool :=
  match r with
  | rsp_reg_notif n => bool_decide (reg_notif_event_id n = AVRC_EVT_VOLUME_CHANGE)
  | _ => false
  end.

Definition is_set_absolute_volume_rsp (r : tAVRC_RESPONSE) : bool :=
  match r with
  | rsp_volume _ => true
  | _ => false
  end.

(** [handle_rc_metamsg_rsp] *)
Definition handle_rc_metamsg_rsp (pmeta_msg : tBTA_AV_META_MSG) : M unit :=
  let code := msg_code pmeta_msg in
  let avrc_response := parsed pmeta_msg in
  if (msg_opcode pmeta_msg =? AVRC_OP_VENDOR)
     && ((code =? AVRC_RSP_CHANGED) || (code =? AVRC_RSP_INTERIM) || (code =? AVRC_RSP_ACCEPT)
         || (code =? AVRC_RSP_REJ) || (code =? AVRC_RSP_NOT_IMPL))
  then
    do cb <- get_cb;
    if negb (parse_status pmeta_msg =? AVRC_STS_NO_ERROR) then
      if is_volume_change_rsp avrc_response
         && (rc_vol_label cb =? msg_label pmeta_msg)%nat
      then
        run modify_cb (set_rc_vol_label MAX_LABEL);
        do cb1 <- get_cb;
        modify_device (release_transaction (rc_vol_label cb1))
      else if is_set_absolute_volume_rsp avrc_response then
        modify_device (release_transaction (msg_label pmeta_msg))
      else ret tt
    else if is_volume_change_rsp avrc_response
            && negb (rc_vol_label cb =? msg_label pmeta_msg)%nat
    then ret tt
    else
      run (if is_volume_change_rsp avrc_response && (code =? AVRC_RSP_CHANGED) then
             register_volumechange (rc_vol_label cb)
           else if is_set_absolute_volume_rsp avrc_response then
             modify_device (release_transaction (msg_label pmeta_msg))
           else ret tt);
      btif_rc_upstreams_rsp_evt avrc_response code (msg_label pmeta_msg)
  else ret tt.

(** ** Inputs of the controller during a connection *)

Inductive input : Type :=
| in_response (pmeta_msg : tBTA_AV_META_MSG)
| in_txn_timer (p_txn : nat)
| in_play_status_timer.

Definition step (i : input) : M unit :=
  match i with
  | in_response m => handle_avk_rc_metamsg_rsp m
  | in_txn_timer p => txn_timer_expired p
  | in_play_status_timer => play_status_timer_expired
  end.

Fixpoint steps (ins : list input) : M unit :=
  match ins with
  | [] => ret tt
  | i :: ins' =>
      run step i;
      steps ins'
  end.

End Controller.

(** ** A reference instance of the parameters

    The assigned numbers of AV/C and AVRCP, the first members of
    [bt_status_t], and a packet builder that always succeeds.  It is used
    to run the model on concrete inputs. *)

#[refine] Definition reference_defs : AvrcDefs := {|
  BT_STATUS_SUCCESS := 0;
  BT_STATUS_FAIL := 1;
  BT_STATUS_NOT_READY := 2;
  BT_STATUS_NOMEM := 3;
  AVRC_STS_NO_ERROR := 4;
  AVRC_OP_VENDOR := 0;
  AVRC_RSP_NOT_IMPL := 8;
  AVRC_RSP_ACCEPT := 9;
  AVRC_RSP_REJ := 10;
  AVRC_RSP_CHANGED := 13;
  AVRC_RSP_INTERIM := 15;
  AVRC_PLAYSTATE_PLAYING := 1;
  AVRC_PLAYER_SETTING_LOW_MENU_EXT := 128;
  BTA_AV_FEAT_APP_SETTING := 8192;
  AVRC_MAX_APP_ATTR_SIZE := 16;
  BTRC_MAX_APP_ATTR_SIZE := 16;
  BTRC_MAX_APP_SETTINGS := 8;
  AVRC_MAX_NUM_MEDIA_ATTR_ID := 7;
  AVRC_BldCommand := fun _ => 4
|}.
Proof. all: unfold BTIF_RC_STS_TIMEOUT; lia. Defined.

(** The control block after [init_ctrl] and a successful
    [handle_rc_connect] with the given peer features, and the label table
    after [lbl_init]. *)
Definition zero_app_attr (H : AvrcDefs) : btrc_player_app_attr_t :=
  {| app_attr_id := 0; app_num_val := 0; app_attr_val := replicate BTRC_MAX_APP_ATTR_SIZE 0 |}.

Definition zero_ext_attr (H : AvrcDefs) : btrc_player_app_ext_attr_t :=
  {| ext_attr_id := 0; ext_charset_id := 0; ext_str_len := 0; ext_p_str := None;
     ext_num_val := 0;
     ext_attr_val :=
       replicate BTRC_MAX_APP_ATTR_SIZE
         {| ext_val := 0; ext_val_charset_id := 0; ext_val_str_len := 0;
            ext_val_p_str := None |} |}.

Definition zero_app_settings (H : AvrcDefs) : btif_rc_player_app_settings_t :=
  {| query_started := false; num_attrs := 0; num_ext_attrs := 0; attr_index := 0;
     ext_attr_index := 0; ext_val_index := 0;
     attrs := replicate AVRC_MAX_APP_ATTR_SIZE (zero_app_attr H);
     ext_attrs := replicate AVRC_MAX_APP_ATTR_SIZE (zero_ext_attr H) |}.

Definition connected_world (H : AvrcDefs) (peer_features : Z) : world :=
  {| btif_rc_cb :=
       {| rc_connected := true; rc_handle := 1; rc_features := peer_features;
          rc_addr := 0; rc_volume := MAX_VOLUME; rc_vol_label := MAX_LABEL;
          rc_supported_event_list := None;
          rc_app_settings := zero_app_settings H;
          rc_play_status_timer := None; rc_features_processed := true;
          rc_playing_uid := 18446744073709551615; rc_procedure_complete := false |};
     device := lbl_init;
     trace := [] |}.


(** ** Concrete inputs

    A vendor-dependent response with a label and a response code, parsed
    without error, and the parsed bodies used to run the model: a
    capabilities response listing supported events and a notification
    response carrying a track identifier. *)
Definition meta_msg (H : AvrcDefs) (label : nat) (code : Z) (r : tAVRC_RESPONSE)
  : tBTA_AV_META_MSG :=
  {| msg_rc_handle := 1; msg_len := 0; msg_label := label; msg_code := code;
     msg_opcode := AVRC_OP_VENDOR; parse_status := AVRC_STS_NO_ERROR; parsed := r |}.

Definition events_supported_rsp (H : AvrcDefs) (ids : list avrc_evt) : tAVRC_RESPONSE :=
  rsp_get_caps {| caps_status := AVRC_STS_NO_ERROR;
                  capability_id := AVRC_CAP_EVENTS_SUPPORTED;
                  count := length ids; param_event_id := ids; param_company_id := [] |}.

Definition notification_rsp (H : AvrcDefs) (ev : avrc_evt) (track : list Z)
  : tAVRC_REG_NOTIF_RSP :=
  {| reg_notif_status := AVRC_STS_NO_ERROR; reg_notif_event_id := ev;
     param_play_status := 0; param_track := track;
     param_player_setting :=
       {| player_setting_num_attr := 0; player_setting_attr_id := [];
          player_setting_attr_value := [] |};
     param_volume := 0 |}.

(** [AVRC_RSP_IMPL_STBL], the response code of a stable response to a
    status command; in [avrc_defs.h] it is the code before
    [AVRC_RSP_CHANGED]. *)
Definition AVRC_RSP_IMPL_STBL (H : AvrcDefs) : Z := AVRC_RSP_CHANGED - 1.

Definition company_id_rsp (H : AvrcDefs) : tAVRC_RESPONSE :=
  rsp_get_caps {| caps_status := AVRC_STS_NO_ERROR; capability_id := AVRC_CAP_COMPANY_ID;
                  count := 0; param_event_id := []; param_company_id := [] |}.

(** The world in which the request for the supported events is
    outstanding, as the connection set-up leaves it:
    [handle_rc_ctrl_features] asks for the company ids under label 0, and
    the response to that makes [handle_get_capability_response] ask for
    the supported events, under label 1, before label 0 is released. *)
Definition requesting_world (H : AvrcDefs) (peer_features : Z) : world :=
  match
    (run getcapabilities_cmd AVRC_CAP_COMPANY_ID;
     handle_avk_rc_metamsg_rsp (meta_msg H 0 (AVRC_RSP_IMPL_STBL H) (company_id_rsp H)))
      (connected_world H peer_features)
  with
  | Some (_, w) => w
  | None => connected_world H peer_features
  end.

(** * btif_rc.cc, continued: connection events, the target role and the
      interface functions

    The rest of the module around the controller of the first part:
    [btif_rc_handler] and the handlers of the connection events, the
    pass-through commands and responses, the vendor commands of the peer
    with the responses the application gives to them, and the functions
    of [bt_rc_interface] and [bt_rc_ctrl_interface].

    Conventions, beyond those of the first part.
    - The state has, next to the control block and the label table, the
      members of [btif_rc_cb] that only this part uses ([rc_pending_play],
      [rc_pdu_info], [rc_notif]), the two callback tables (registered or
      NULL), [uinput_fd], and what the other modules answer when asked
      ([rc_env]).  Calls that leave the module are recorded in one log,
      newest first; a call recorded by a function of the first part is
      wrapped in [ctrl_call].
    - A function of the first part is run by [lift]: on the control block
      and the label table of the state, with an empty trace, and the calls
      it records are put on the log.  The functions of the first part run
      with their callback table registered, as on every path from
      [btif_rc_handler].
    - [uinput_driver_check] and [uinput_create] only talk to the kernel;
      their results are fields of [rc_env].  Addresses are compared as
      wholes ([bdcmp]). *)

(** ** More identifiers from the headers *)

(** Pass-through operation ids ([avrc_defs.h]); [bta_av_api.h] names the
    same ids [BTA_AV_RC_PLAY] and so on. *)
Inductive avrc_op_id : Type :=
| AVRC_ID_PLAY
| AVRC_ID_STOP
| AVRC_ID_PAUSE
| AVRC_ID_FORWARD
| AVRC_ID_BACKWARD
| AVRC_ID_REWIND
| AVRC_ID_FAST_FOR
| AVRC_ID_VOL_UP
| AVRC_ID_VOL_DOWN
| AVRC_ID_VENDOR
| AVRC_ID_OTHER (raw : Z).

#[global] Instance avrc_op_id_eq_dec : EqDecision avrc_op_id.
Proof. solve_decision. Defined.

(** The key codes of [uinput.h] that [key_map] maps to. *)
Inductive uinput_key : Type :=
| KEY_PLAYCD
| KEY_STOPCD
| KEY_PAUSECD
| KEY_NEXTSONG
| KEY_PREVIOUSSONG
| KEY_REWIND
| KEY_FAST_FORWARD.

(** Event types and codes written to the uinput device. *)
Inductive uinput_ev : Type :=
| EV_KEY (key : uinput_key)
| EV_SYN_REPORT.

Inductive btrc_notification_type_t : Type :=
| BTRC_NOTIFICATION_TYPE_INTERIM
| BTRC_NOTIFICATION_TYPE_CHANGED.

(** [key_map]: the name of an entry is used for tracing only. *)
Record key_map_entry : Type := {
  avrcp : avrc_op_id;
  mapped_id : uinput_key;
  release_quirk : Z
}.

Definition key_map : list key_map_entry :=
  [ {| avrcp := AVRC_ID_PLAY;     mapped_id := KEY_PLAYCD;       release_quirk := 1 |};
    {| avrcp := AVRC_ID_STOP;     mapped_id := KEY_STOPCD;       release_quirk := 0 |};
    {| avrcp := AVRC_ID_PAUSE;    mapped_id := KEY_PAUSECD;      release_quirk := 1 |};
    {| avrcp := AVRC_ID_FORWARD;  mapped_id := KEY_NEXTSONG;     release_quirk := 0 |};
    {| avrcp := AVRC_ID_BACKWARD; mapped_id := KEY_PREVIOUSSONG; release_quirk := 0 |};
    {| avrcp := AVRC_ID_REWIND;   mapped_id := KEY_REWIND;       release_quirk := 0 |};
    {| avrcp := AVRC_ID_FAST_FOR; mapped_id := KEY_FAST_FORWARD; release_quirk := 0 |} ].

(** ** Local constants and types of btif_rc.cc, continued *)

Definition IDX_GET_PLAY_STATUS_RSP : nat := 0.
Definition IDX_GET_ELEMENT_ATTR_RSP : nat := 7.
Definition MAX_CMD_QUEUE_LEN : nat := 8.
Definition PLAY_STATUS_PLAYING : Z := 1.

Record btif_rc_reg_notifications_t : Type := {
  bNotify : bool;
  notif_label : nat
}.

Record btif_rc_cmd_ctxt_t : Type := {
  ctxt_label : nat;
  ctxt_ctype : Z;
  is_rsp_pending : bool
}.

(** ** Commands of the peer and responses to them

    [tAVRC_COMMAND] as [AVRC_ParsCommand] and [AVRC_Ctrl_ParsCommand]
    fill it: the PDU and the members this file reads. *)
Record tAVRC_COMMAND_IN : Type := {
  in_pdu : avrc_pdu;
  in_opcode : Z;
  in_elem_num_attr : Z;
  in_elem_attrs : list Z;
  in_reg_event_id : avrc_evt;
  in_reg_param : Z;
  in_target_pdu : Z;
  in_volume : Z
}.

(** The parameter of a notification response that is built here. *)
Inductive reg_notif_param : Type :=
| notif_param_zero
| notif_play_status (play_status : Z)
| notif_track (track : list Z)
| notif_play_pos (play_pos : Z)
| notif_uid_counter (uid_counter : Z)
| notif_volume (volume : Z).

(** An entry of [element_attrs] in [get_element_attr_rsp]. *)
Record btrc_element_attr_val_t : Type := {
  val_attr_id : Z;
  val_text : list Z
}.

(** [tAVRC_RESPONSE] as this file fills it before [AVRC_BldResponse]. *)
Inductive tAVRC_RESPONSE_OUT : Type :=
| out_rsp (pdu : avrc_pdu) (opcode status : Z)
| out_next (pdu : avrc_pdu) (opcode status target_pdu : Z)
| out_get_play_status (opcode status song_len song_pos play_status : Z)
| out_get_elem_attrs (opcode status : Z) (num_attr : nat)
    (p_attrs : list (Z * Z * Z * list Z))
| out_reg_notif (opcode status : Z) (event_id : avrc_evt) (param : reg_notif_param)
| out_volume (opcode status volume : Z).

Definition out_pdu (r : tAVRC_RESPONSE_OUT) : avrc_pdu :=
  match r with
  | out_rsp pdu _ _ => pdu
  | out_next pdu _ _ _ => pdu
  | out_get_play_status _ _ _ _ _ => AVRC_PDU_GET_PLAY_STATUS
  | out_get_elem_attrs _ _ _ _ => AVRC_PDU_GET_ELEMENT_ATTR
  | out_reg_notif _ _ _ _ => AVRC_PDU_REGISTER_NOTIFICATION
  | out_volume _ _ _ => AVRC_PDU_SET_ABSOLUTE_VOLUME
  end.

Definition out_status (r : tAVRC_RESPONSE_OUT) : Z :=
  match r with
  | out_rsp _ _ status => status
  | out_next _ _ status _ => status
  | out_get_play_status _ status _ _ _ => status
  | out_get_elem_attrs _ status _ _ => status
  | out_reg_notif _ status _ _ => status
  | out_volume _ status _ => status
  end.

(** ** The events of [btif_rc_handler] ([tBTA_AV], the members used) *)

Record tBTA_AV_RC_OPEN : Type := {
  open_rc_handle : Z;
  open_peer_features : Z;
  open_peer_addr : Z;
  open_status : Z
}.

Record tBTA_AV_RC_CLOSE : Type := {
  close_rc_handle : Z;
  close_peer_addr : Z
}.

Record tBTA_AV_REMOTE_CMD : Type := {
  cmd_rc_handle : Z;
  cmd_rc_id : avrc_op_id;
  cmd_key_state : Z
}.

Record tBTA_AV_REMOTE_RSP : Type := {
  rsp_rc_id : avrc_op_id;
  rsp_key_state : Z;
  rsp_len : nat;
  rsp_p_data : list Z;
  rsp_label : nat
}.

Record tBTA_AV_RC_FEAT : Type := {
  feat_peer_features : Z;
  feat_peer_addr : Z
}.

(** A vendor message with what the two command parsers return for it,
    next to what the response parsers return ([parse_status], [parsed]). *)
Record tBTA_AV_META_MSG_IN : Type := {
  meta : tBTA_AV_META_MSG;
  pars_command_status : Z;
  pars_command : tAVRC_COMMAND_IN;
  ctrl_pars_command_status : Z;
  ctrl_pars_command : tAVRC_COMMAND_IN
}.

Inductive tBTA_AV : Type :=
| BTA_AV_RC_OPEN_EVT (rc_open : tBTA_AV_RC_OPEN)
| BTA_AV_RC_CLOSE_EVT (rc_close : tBTA_AV_RC_CLOSE)
| BTA_AV_REMOTE_CMD_EVT (remote_cmd : tBTA_AV_REMOTE_CMD)
| BTA_AV_REMOTE_RSP_EVT (remote_rsp : tBTA_AV_REMOTE_RSP)
| BTA_AV_RC_FEAT_EVT (rc_feat : tBTA_AV_RC_FEAT)
| BTA_AV_META_MSG_EVT (meta_msg : tBTA_AV_META_MSG_IN)
| BTA_AV_OTHER_EVT (event : Z).

(** ** Numeric constants and collaborators, continued

    The members of [bt_status_t], the feature bits, the status and
    command codes and the array bounds that only this part uses; the code
    of an event id, which [rc_notif] is indexed by; and the builders of
    the stack for the responses and for the SET_PLAYER_APP_VALUE command,
    which yield the build status.  The laws: [BT_STATUS_DONE] and
    [BT_STATUS_UNHANDLED] are not [BT_STATUS_SUCCESS], the two error
    statuses this file gives to a reject are error statuses, and a command
    code is below the response codes. *)
Class TargetDefs `{AvrcDefs} : Type := {
  BT_STATUS_DONE : Z;
  BT_STATUS_UNHANDLED : Z;
  BTA_AV_SUCCESS : Z;
  BTA_AV_RSP_ACCEPT : Z;
  BTA_AV_FEAT_RCTG : Z;
  BTA_AV_FEAT_RCCT : Z;
  BTA_AV_FEAT_VENDOR : Z;
  BTA_AV_FEAT_METADATA : Z;
  BTA_AV_FEAT_ADV_CTRL : Z;
  BTA_AV_FEAT_BROWSE : Z;
  BTRC_FEAT_NONE : Z;
  BTRC_FEAT_METADATA : Z;
  BTRC_FEAT_ABSOLUTE_VOLUME : Z;
  BTRC_FEAT_BROWSE : Z;
  AVRC_STS_BAD_CMD : Z;
  AVRC_STS_BAD_PARAM : Z;
  AVRC_STS_SEARCH_NOT_SUP : Z;
  AVRC_OP_PASS_THRU : Z;
  AVRC_STATE_PRESS : Z;
  AVRC_STATE_RELEASE : Z;
  AVRC_CMD_GEN_INQ : Z;
  AVRC_CHARSET_ID_UTF8 : Z;
  AVRC_CO_METADATA : Z;
  AVRC_PASS_THRU_GROUP_LEN : nat;
  BTRC_MAX_ELEM_ATTR_SIZE : nat;
  AVRC_PDU_NEXT_GROUP : Z;
  AVRC_PDU_PREV_GROUP : Z;
  AVRC_PDU_INFORM_DISPLAY_CHARSET : Z;
  AVRC_PDU_REQUEST_CONTINUATION_RSP : Z;
  AVRC_PDU_ABORT_CONTINUATION_RSP : Z;
  AVRC_PDU_SEARCH : Z;
  avrc_cmd_code : avrc_cmd_type -> Z;
  avrc_evt_code : avrc_evt -> Z;
  AVRC_BldResponse : Z -> tAVRC_RESPONSE_OUT -> Z;
  AVRC_BldCommand_set_app_val : nat -> list tAVRC_APP_SETTING -> Z;
  bt_status_done_ne : BT_STATUS_DONE <> BT_STATUS_SUCCESS;
  bt_status_unhandled_ne : BT_STATUS_UNHANDLED <> BT_STATUS_SUCCESS;
  avrc_sts_bad_cmd_ne : AVRC_STS_BAD_CMD <> AVRC_STS_NO_ERROR;
  avrc_sts_bad_param_ne : AVRC_STS_BAD_PARAM <> AVRC_STS_NO_ERROR;
  avrc_sts_search_ne : AVRC_STS_SEARCH_NOT_SUP <> AVRC_STS_NO_ERROR;
  avrc_cmd_code_lt : forall c, avrc_cmd_code c < AVRC_RSP_NOT_IMPL;
  avrc_cmd_code_inj : forall c c', avrc_cmd_code c = avrc_cmd_code c' -> c = c';
  avrc_pdu_cases_distinct :
    NoDup [AVRC_PDU_INFORM_DISPLAY_CHARSET; AVRC_PDU_REQUEST_CONTINUATION_RSP;
           AVRC_PDU_ABORT_CONTINUATION_RSP; AVRC_PDU_SEARCH]
}.

(** [MAX_RC_NOTIFICATIONS] is [AVRC_EVT_VOLUME_CHANGE]. *)
Definition MAX_RC_NOTIFICATIONS `{TargetDefs} : nat :=
  Z.to_nat (avrc_evt_code AVRC_EVT_VOLUME_CHANGE).

(** ** What the other modules answer *)

Record rc_env : Type := {
  btif_av_is_connected : bool;
  btif_av_stream_started_ready : bool;
  btif_av_is_sink_enabled : bool;
  btif_av_get_addr : Z;
  interop_disable_absolute_volume : Z -> bool;
  persist_bluetooth_disableabsvol : bool;
  uinput_driver_check : Z;
  uinput_create : Z
}.

(** ** Calls that leave the module, continued *)

Inductive hal_call : Type :=
| remote_features_cb (rc_addr : Z) (features : Z)
| get_play_status_cb
| get_element_attr_cb (num_attr : nat) (p_attrs : list Z)
| register_notification_cb (event_id : avrc_evt) (param : Z)
| passthrough_cmd_cb (id : avrc_op_id) (pressed : Z)
| getrcfeatures_cb (rc_addr : Z) (features : Z)
| connection_state_cb (state : bool) (rc_addr : Z)
| passthrough_rsp_cb (id : avrc_op_id) (key_state : Z)
| groupnavigation_rsp_cb (vendor_id : Z) (key_state : Z)
| setabsvol_cmd_cb (rc_addr : Z) (abs_vol : Z) (label : nat)
| registernotification_absvol_cb (rc_addr : Z) (label : nat).

Inductive rc_call : Type :=
| ctrl_call (e : effect)
| HAL (c : hal_call)
| BTA_AvCloseRc (rc_handle : Z)
| BTA_AvRemoteCmd (rc_handle : Z) (label : nat) (rc_id : Z) (key_state : Z)
| BTA_AvRemoteVendorUniqueCmd (rc_handle : Z) (label : nat) (key_state : Z)
    (p_msg : list Z) (buf_len : nat)
| BTA_AvMetaRsp (rc_handle : Z) (label : nat) (rsp_code : Z) (rsp : tAVRC_RESPONSE_OUT)
| BTA_AvVendorRsp (rc_handle : Z) (label : nat) (rsp_code : Z) (rsp : tAVRC_RESPONSE_OUT)
| BTA_AvVendorCmd_set_app_val (rc_handle : Z) (label : nat) (cmd_code : avrc_cmd_type)
    (num_val : nat) (p_vals : list tAVRC_APP_SETTING)
| uinput_write (fd : Z) (ev : uinput_ev) (value : Z)
| uinput_destroy (fd : Z)
| sleep_ms (timeout_ms : Z)
| btif_av_clear_remote_suspend_flag.

(** ** The state of the module *)

Record rc_state : Type := {
  rc_cb : btif_rc_cb_t;
  rc_device : rc_device_t;
  rc_pending_play : bool;
  rc_pdu_info : list btif_rc_cmd_ctxt_t;
  rc_notif : list btif_rc_reg_notifications_t;
  bt_rc_callbacks : bool;
  bt_rc_ctrl_callbacks : bool;
  uinput_fd : Z;
  env : rc_env;
  rc_log : list rc_call
}.

Definition set_rc_cb (c : btif_rc_cb_t) (s : rc_state) : rc_state :=
  {| rc_cb := c; rc_device := rc_device s; rc_pending_play := rc_pending_play s;
     rc_pdu_info := rc_pdu_info s; rc_notif := rc_notif s;
     bt_rc_callbacks := bt_rc_callbacks s; bt_rc_ctrl_callbacks := bt_rc_ctrl_callbacks s;
     uinput_fd := uinput_fd s; env := env s; rc_log := rc_log s |}.

Definition set_rc_device (d : rc_device_t) (s : rc_state) : rc_state :=
  {| rc_cb := rc_cb s; rc_device := d; rc_pending_play := rc_pending_play s;
     rc_pdu_info := rc_pdu_info s; rc_notif := rc_notif s;
     bt_rc_callbacks := bt_rc_callbacks s; bt_rc_ctrl_callbacks := bt_rc_ctrl_callbacks s;
     uinput_fd := uinput_fd s; env := env s; rc_log := rc_log s |}.

Definition set_rc_pending_play (b : bool) (s : rc_state) : rc_state :=
  {| rc_cb := rc_cb s; rc_device := rc_device s; rc_pending_play := b;
     rc_pdu_info := rc_pdu_info s; rc_notif := rc_notif s;
     bt_rc_callbacks := bt_rc_callbacks s; bt_rc_ctrl_callbacks := bt_rc_ctrl_callbacks s;
     uinput_fd := uinput_fd s; env := env s; rc_log := rc_log s |}.

Definition set_rc_pdu_info (l : list btif_rc_cmd_ctxt_t) (s : rc_state) : rc_state :=
  {| rc_cb := rc_cb s; rc_device := rc_device s; rc_pending_play := rc_pending_play s;
     rc_pdu_info := l; rc_notif := rc_notif s;
     bt_rc_callbacks := bt_rc_callbacks s; bt_rc_ctrl_callbacks := bt_rc_ctrl_callbacks s;
     uinput_fd := uinput_fd s; env := env s; rc_log := rc_log s |}.

Definition set_rc_notif (l : list btif_rc_reg_notifications_t) (s : rc_state) : rc_state :=
  {| rc_cb := rc_cb s; rc_device := rc_device s; rc_pending_play := rc_pending_play s;
     rc_pdu_info := rc_pdu_info s; rc_notif := l;
     bt_rc_callbacks := bt_rc_callbacks s; bt_rc_ctrl_callbacks := bt_rc_ctrl_callbacks s;
     uinput_fd := uinput_fd s; env := env s; rc_log := rc_log s |}.

Definition set_bt_rc_callbacks (b : bool) (s : rc_state) : rc_state :=
  {| rc_cb := rc_cb s; rc_device := rc_device s; rc_pending_play := rc_pending_play s;
     rc_pdu_info := rc_pdu_info s; rc_notif := rc_notif s;
     bt_rc_callbacks := b; bt_rc_ctrl_callbacks := bt_rc_ctrl_callbacks s;
     uinput_fd := uinput_fd s; env := env s; rc_log := rc_log s |}.

Definition set_bt_rc_ctrl_callbacks (b : bool) (s : rc_state) : rc_state :=
  {| rc_cb := rc_cb s; rc_device := rc_device s; rc_pending_play := rc_pending_play s;
     rc_pdu_info := rc_pdu_info s; rc_notif := rc_notif s;
     bt_rc_callbacks := bt_rc_callbacks s; bt_rc_ctrl_callbacks := b;
     uinput_fd := uinput_fd s; env := env s; rc_log := rc_log s |}.

Definition set_uinput_fd (fd : Z) (s : rc_state) : rc_state :=
  {| rc_cb := rc_cb s; rc_device := rc_device s; rc_pending_play := rc_pending_play s;
     rc_pdu_info := rc_pdu_info s; rc_notif := rc_notif s;
     bt_rc_callbacks := bt_rc_callbacks s; bt_rc_ctrl_callbacks := bt_rc_ctrl_callbacks s;
     uinput_fd := fd; env := env s; rc_log := rc_log s |}.

Definition add_rc_log (cs : list rc_call) (s : rc_state) : rc_state :=
  {| rc_cb := rc_cb s; rc_device := rc_device s; rc_pending_play := rc_pending_play s;
     rc_pdu_info := rc_pdu_info s; rc_notif := rc_notif s;
     bt_rc_callbacks := bt_rc_callbacks s; bt_rc_ctrl_callbacks := bt_rc_ctrl_callbacks s;
     uinput_fd := uinput_fd s; env := env s; rc_log := cs ++ rc_log s |}.

(** Setters of the members of the control block that the first part only
    reads. *)
Definition set_rc_connected (b : bool) (cb : btif_rc_cb_t) : btif_rc_cb_t :=
  {| rc_connected := b; rc_handle := rc_handle cb;
     rc_features := rc_features cb; rc_addr := rc_addr cb;
     rc_volume := rc_volume cb; rc_vol_label := rc_vol_label cb;
     rc_supported_event_list := rc_supported_event_list cb;
     rc_app_settings := rc_app_settings cb;
     rc_play_status_timer := rc_play_status_timer cb;
     rc_features_processed := rc_features_processed cb;
     rc_playing_uid := rc_playing_uid cb;
     rc_procedure_complete := rc_procedure_complete cb |}.

Definition set_rc_handle (h : Z) (cb : btif_rc_cb_t) : btif_rc_cb_t :=
  {| rc_connected := rc_connected cb; rc_handle := h;
     rc_features := rc_features cb; rc_addr := rc_addr cb;
     rc_volume := rc_volume cb; rc_vol_label := rc_vol_label cb;
     rc_supported_event_list := rc_supported_event_list cb;
     rc_app_settings := rc_app_settings cb;
     rc_play_status_timer := rc_play_status_timer cb;
     rc_features_processed := rc_features_processed cb;
     rc_playing_uid := rc_playing_uid cb;
     rc_procedure_complete := rc_procedure_complete cb |}.

Definition set_rc_features (f : Z) (cb : btif_rc_cb_t) : btif_rc_cb_t :=
  {| rc_connected := rc_connected cb; rc_handle := rc_handle cb;
     rc_features := f; rc_addr := rc_addr cb;
     rc_volume := rc_volume cb; rc_vol_label := rc_vol_label cb;
     rc_supported_event_list := rc_supported_event_list cb;
     rc_app_settings := rc_app_settings cb;
     rc_play_status_timer := rc_play_status_timer cb;
     rc_features_processed := rc_features_processed cb;
     rc_playing_uid := rc_playing_uid cb;
     rc_procedure_complete := rc_procedure_complete cb |}.

Definition set_rc_addr (a : Z) (cb : btif_rc_cb_t) : btif_rc_cb_t :=
  {| rc_connected := rc_connected cb; rc_handle := rc_handle cb;
     rc_features := rc_features cb; rc_addr := a;
     rc_volume := rc_volume cb; rc_vol_label := rc_vol_label cb;
     rc_supported_event_list := rc_supported_event_list cb;
     rc_app_settings := rc_app_settings cb;
     rc_play_status_timer := rc_play_status_timer cb;
     rc_features_processed := rc_features_processed cb;
     rc_playing_uid := rc_playing_uid cb;
     rc_procedure_complete := rc_procedure_complete cb |}.

Definition set_rc_features_processed (b : bool) (cb : btif_rc_cb_t) : btif_rc_cb_t :=
  {| rc_connected := rc_connected cb; rc_handle := rc_handle cb;
     rc_features := rc_features cb; rc_addr := rc_addr cb;
     rc_volume := rc_volume cb; rc_vol_label := rc_vol_label cb;
     rc_supported_event_list := rc_supported_event_list cb;
     rc_app_settings := rc_app_settings cb;
     rc_play_status_timer := rc_play_status_timer cb;
     rc_features_processed := b;
     rc_playing_uid := rc_playing_uid cb;
     rc_procedure_complete := rc_procedure_complete cb |}.

Definition RC_INVALID_TRACK_ID : Z := 18446744073709551615.

(** ** The monad of this part: state over [rc_state] *)

Definition RC (A : Type) : Type := rc_state -> option (A * rc_state).

Definition rc_ret {A : Type} (a : A) : RC A := fun s => Some (a, s).

Definition rc_bind {A B : Type} (m : RC A) (k : A -> RC B) : RC B :=
  fun s => match m s with
           | Some (a, s') => k a s'
           | None => None
           end.

Definition rc_undefined {A : Type} : RC A := fun _ => None.

Declare Scope rc_scope.
Delimit Scope rc_scope with rc.
Bind Scope rc_scope with RC.

Notation "'do' x <- m ; k" := (rc_bind m (fun x => k))
  (at level 10, x name, m at level 100, k at level 200) : rc_scope.
Notation "'do' ' p <- m ; k" := (rc_bind m (fun x => match x with p => k end))
  (at level 10, p pattern, m at level 100, k at level 200) : rc_scope.
Notation "'run' m ; k" := (rc_bind m (fun _ => k))
  (at level 10, m at level 100, k at level 200) : rc_scope.

Definition get_state : RC rc_state := fun s => Some (s, s).

Definition modify_state (f : rc_state -> rc_state) : RC unit := fun s => Some (tt, f s).

Definition log (c : rc_call) : RC unit := modify_state (add_rc_log [c]).

(** The state as a function of the first part sees it, and the state
    after such a function has run. *)
Definition ctrl_world (s : rc_state) : world :=
  {| btif_rc_cb := rc_cb s; device := rc_device s; trace := [] |}.

Definition after_ctrl (w : world) (s : rc_state) : rc_state :=
  add_rc_log (ctrl_call <$> trace w) (set_rc_device (device w) (set_rc_cb (btif_rc_cb w) s)).

Definition lift {A : Type} (m : M A) : RC A :=
  fun s => match m (ctrl_world s) with
           | Some (a, w) => Some (a, after_ctrl w s)
           | None => None
           end.

Definition rc_when (b : bool) (m : RC unit) : RC unit := if b then m else rc_ret tt.

(** A feature bit is set: [features & bit] is not zero. *)
Definition has_feat (features bit : Z) : bool := negb (Z.land features bit =? 0).

(** [btif_rc_cb] after [memset] to zero. *)
Definition zero_cb (H : AvrcDefs) : btif_rc_cb_t :=
  {| rc_connected := false; rc_handle := 0; rc_features := 0; rc_addr := 0;
     rc_volume := 0; rc_vol_label := 0; rc_supported_event_list := None;
     rc_app_settings := zero_app_settings H;
     rc_play_status_timer := None; rc_features_processed := false;
     rc_playing_uid := 0; rc_procedure_complete := false |}.

Definition zero_notif : btif_rc_reg_notifications_t := {| bNotify := false; notif_label := 0 |}.

Definition zero_ctxt : btif_rc_cmd_ctxt_t :=
  {| ctxt_label := 0; ctxt_ctype := 0; is_rsp_pending := false |}.

(** [btrc_register_notification_t], the members [register_notification_rsp]
    reads. *)
Record btrc_register_notification_t : Type := {
  reg_play_status : Z;
  reg_track : list Z;
  reg_song_pos : Z
}.

Section Interface.
Context `{TargetDefs}.
Local Open Scope rc_scope.

Definition get_rc_cb : RC btif_rc_cb_t :=
  do s <- get_state;
  rc_ret (rc_cb s).

Definition modify_rc_cb (f : btif_rc_cb_t -> btif_rc_cb_t) : RC unit :=
  modify_state (fun s => set_rc_cb (f (rc_cb s)) s).

Definition modify_rc_device (f : rc_device_t -> rc_device_t) : RC unit :=
  modify_state (fun s => set_rc_device (f (rc_device s)) s).

(** [HAL_CBACK(P_CB, ...)]: the callback is made when the table [P_CB] is
    registered. *)
Definition HAL_CBACK_on (P_CB : rc_state -> bool) (c : hal_call) : RC unit :=
  do s <- get_state;
  if P_CB s then log (HAL c) else rc_ret tt.

(** ** Local uinput helper functions *)

Definition send_event (fd : Z) (ev : uinput_ev) (value : Z) : RC unit :=
  log (uinput_write fd ev value).

Definition send_key (fd : Z) (key : uinput_key) (pressed : Z) : RC unit :=
  if fd <? 0 then rc_ret tt
  else
    run send_event fd (EV_KEY key) pressed;
    send_event fd EV_SYN_REPORT 0.

Definition init_uinput : RC Z :=
  do s <- get_state;
  run modify_state (set_uinput_fd (uinput_create (env s)));
  rc_ret (uinput_create (env s)).

Definition close_uinput : RC unit :=
  do s <- get_state;
  if 0 <? uinput_fd s then
    run log (uinput_destroy (uinput_fd s));
    modify_state (set_uinput_fd (-1))
  else rc_ret tt.

(** ** Connection events *)

(** [handle_rc_ctrl_features] *)
Definition handle_rc_ctrl_features (bd_addr : Z) : RC unit :=
  do cb <- get_rc_cb;
  let f := rc_features cb in
  if has_feat f BTA_AV_FEAT_RCTG
     || (has_feat f BTA_AV_FEAT_RCCT && has_feat f BTA_AV_FEAT_ADV_CTRL)
  then
    let rc_features0 :=
      if has_feat f BTA_AV_FEAT_ADV_CTRL && has_feat f BTA_AV_FEAT_RCCT
      then Z.lor 0 BTRC_FEAT_ABSOLUTE_VOLUME else 0 in
    if has_feat f BTA_AV_FEAT_METADATA && has_feat f BTA_AV_FEAT_VENDOR
       && negb (rc_features_processed cb)
    then
      run modify_rc_cb (set_rc_features_processed true);
      do s <- get_state;
      run (if btif_av_is_sink_enabled (env s) then
             do _ <- lift (getcapabilities_cmd AVRC_CAP_COMPANY_ID);
             rc_ret tt
           else rc_ret tt);
      HAL_CBACK_on bt_rc_ctrl_callbacks
        (getrcfeatures_cb bd_addr (Z.lor rc_features0 BTRC_FEAT_METADATA))
    else HAL_CBACK_on bt_rc_ctrl_callbacks (getrcfeatures_cb bd_addr rc_features0)
  else rc_ret tt.

(** [handle_rc_features].  The result of the volume registration tells
    whether the function went on to the end; the address passed in is
    not used. *)
Definition handle_rc_features (bd_addr : Z) : RC unit :=
  do s <- get_state;
  if bt_rc_callbacks s then
    let rc_addr := rc_addr (rc_cb s) in
    let avdtp_addr := btif_av_get_addr (env s) in
    run rc_when (interop_disable_absolute_volume (env s) rc_addr
                 || persist_bluetooth_disableabsvol (env s)
                 || negb (avdtp_addr =? rc_addr))
          (modify_rc_cb (fun cb =>
             set_rc_features (Z.ldiff (rc_features cb) BTA_AV_FEAT_ADV_CTRL) cb));
    do cb <- get_rc_cb;
    let f := rc_features cb in
    let rc_features0 := BTRC_FEAT_NONE in
    let rc_features1 :=
      if has_feat f BTA_AV_FEAT_BROWSE then Z.lor rc_features0 BTRC_FEAT_BROWSE
      else rc_features0 in
    let rc_features2 :=
      if has_feat f BTA_AV_FEAT_ADV_CTRL && has_feat f BTA_AV_FEAT_RCTG
      then Z.lor rc_features1 BTRC_FEAT_ABSOLUTE_VOLUME else rc_features1 in
    let rc_features3 :=
      if has_feat f BTA_AV_FEAT_METADATA then Z.lor rc_features2 BTRC_FEAT_METADATA
      else rc_features2 in
    run HAL_CBACK_on bt_rc_callbacks (remote_features_cb rc_addr rc_features3);
    if has_feat f BTA_AV_FEAT_ADV_CTRL && has_feat f BTA_AV_FEAT_RCTG then
      do in_progress <-
        (if (MAX_LABEL =? rc_vol_label cb)%nat then rc_ret false
         else
           do s1 <- get_state;
           match get_transaction_by_lbl (rc_vol_label cb) (rc_device s1) with
           | Some _ => rc_ret true
           | None => rc_ret false
           end);
      if in_progress then rc_ret tt
      else
        do '(status, p_transaction) <- lift call_get_transaction;
        match p_transaction with
        | Some p =>
            if status =? BT_STATUS_SUCCESS then
              do l <- lift (transaction_lbl p);
              run modify_rc_cb (set_rc_vol_label l);
              lift (register_volumechange l)
            else rc_ret tt
        | None => rc_ret tt
        end
    else rc_ret tt
  else rc_ret tt.

(** [handle_rc_connect] *)
Definition handle_rc_connect (p_rc_open : tBTA_AV_RC_OPEN) : RC unit :=
  if open_status p_rc_open =? BTA_AV_SUCCESS then
    do s <- get_state;
    if rc_connected (rc_cb s)
       && negb (rc_handle (rc_cb s) =? open_rc_handle p_rc_open)
       && negb (rc_addr (rc_cb s) =? open_peer_addr p_rc_open)
    then log (BTA_AvCloseRc (open_rc_handle p_rc_open))
    else
      run modify_rc_cb (fun cb =>
            set_rc_handle (open_rc_handle p_rc_open)
              (set_rc_connected true
                 (set_rc_volume MAX_VOLUME
                    (set_rc_vol_label MAX_LABEL
                       (set_rc_features (open_peer_features p_rc_open)
                          (set_rc_addr (open_peer_addr p_rc_open) cb))))));
      do cb1 <- get_rc_cb;
      run rc_when (negb (rc_features cb1 =? 0)) (handle_rc_features (rc_addr cb1));
      do s1 <- get_state;
      run (if bt_rc_callbacks s1 then
             if uinput_driver_check (env s1) =? BT_STATUS_SUCCESS then
               do _ <- init_uinput;
               rc_ret tt
             else rc_ret tt
           else rc_ret tt);
      run modify_rc_cb (set_rc_playing_uid RC_INVALID_TRACK_ID);
      do s2 <- get_state;
      run rc_when (bt_rc_ctrl_callbacks s2)
            (HAL_CBACK_on bt_rc_ctrl_callbacks
               (connection_state_cb true (rc_addr (rc_cb s2))));
      let f := rc_features (rc_cb s2) in
      rc_when (has_feat f BTA_AV_FEAT_RCTG
               || (has_feat f BTA_AV_FEAT_RCCT && has_feat f BTA_AV_FEAT_ADV_CTRL))
        (handle_rc_ctrl_features (rc_addr (rc_cb s2)))
  else modify_rc_cb (set_rc_connected false).

(** [handle_rc_disconnect] *)
Definition handle_rc_disconnect (p_rc_close : tBTA_AV_RC_CLOSE) : RC unit :=
  do s <- get_state;
  if negb (close_rc_handle p_rc_close =? rc_handle (rc_cb s))
     && negb (rc_addr (rc_cb s) =? close_peer_addr p_rc_close)
  then rc_ret tt
  else
    let rc_addr0 := rc_addr (rc_cb s) in
    run modify_rc_cb (fun cb =>
          set_rc_procedure_complete false
            (set_rc_features_processed false
               (set_rc_app_settings (zero_app_settings _) cb)));
    run lift rc_stop_play_status_timer;
    run modify_rc_cb (set_rc_supported_event_list None);
    run modify_rc_cb (fun cb => set_rc_addr 0 (set_rc_connected false (set_rc_handle 0 cb)));
    run modify_state (set_rc_notif (replicate MAX_RC_NOTIFICATIONS zero_notif));
    run modify_rc_cb (fun cb =>
          set_rc_volume MAX_VOLUME (set_rc_vol_label MAX_LABEL (set_rc_features 0 cb)));
    run modify_rc_device init_all_transactions;
    do s1 <- get_state;
    run (if bt_rc_callbacks s1 then close_uinput else rc_ret tt);
    rc_when (bt_rc_ctrl_callbacks s1)
      (HAL_CBACK_on bt_rc_ctrl_callbacks (connection_state_cb false rc_addr0)).

(** ** Pass-through commands and responses *)

(** The loop over [key_map]: the first entry for the operation id. *)
Fixpoint key_map_find (rc_id : avrc_op_id) (m : list key_map_entry) : option key_map_entry :=
  match m with
  | [] => None
  | e :: m' => if bool_decide (rc_id = avrcp e) then Some e else key_map_find rc_id m'
  end.

(** [handle_rc_passthrough_cmd] *)
Definition handle_rc_passthrough_cmd (p_remote_cmd : tBTA_AV_REMOTE_CMD) : RC unit :=
  do s <- get_state;
  let rc_id := cmd_rc_id p_remote_cmd in
  if bool_decide (rc_id = AVRC_ID_PLAY) && negb (btif_av_is_connected (env s)) then
    rc_when (cmd_key_state p_remote_cmd =? AVRC_STATE_PRESS)
      (modify_state (set_rc_pending_play true))
  else if bool_decide (rc_id = AVRC_ID_PAUSE) && rc_pending_play s then
    modify_state (set_rc_pending_play false)
  else if bool_decide (rc_id = AVRC_ID_VOL_UP) || bool_decide (rc_id = AVRC_ID_VOL_DOWN) then
    rc_ret tt
  else if bool_decide (rc_id = AVRC_ID_STOP)
          && negb (btif_av_stream_started_ready (env s)) then
    rc_ret tt
  else
    let pressed := if cmd_key_state p_remote_cmd =? AVRC_STATE_RELEASE then 0 else 1 in
    if bool_decide (rc_id = AVRC_ID_FAST_FOR) || bool_decide (rc_id = AVRC_ID_REWIND) then
      HAL_CBACK_on bt_rc_callbacks (passthrough_cmd_cb rc_id pressed)
    else
      match key_map_find rc_id key_map with
      | Some e =>
          if (release_quirk e =? 1) && (pressed =? 0) then rc_ret tt
          else
            run send_key (uinput_fd s) (mapped_id e) pressed;
            rc_when ((release_quirk e =? 1) && (pressed =? 1))
              (run log (sleep_ms 30);
               send_key (uinput_fd s) (mapped_id e) 0)
      | None => rc_ret tt
      end.

(** [handle_rc_passthrough_rsp] *)
Definition handle_rc_passthrough_rsp (p_remote_rsp : tBTA_AV_REMOTE_RSP) : RC unit :=
  do cb <- get_rc_cb;
  if has_feat (rc_features cb) BTA_AV_FEAT_RCTG then
    let key_state := if rsp_key_state p_remote_rsp =? AVRC_STATE_RELEASE then 1 else 0 in
    run modify_rc_device (release_transaction (rsp_label p_remote_rsp));
    do s <- get_state;
    rc_when (bt_rc_ctrl_callbacks s)
      (HAL_CBACK_on bt_rc_ctrl_callbacks
         (passthrough_rsp_cb (rsp_rc_id p_remote_rsp) key_state))
  else rc_ret tt.

(** [handle_rc_vendorunique_rsp] *)
Definition handle_rc_vendorunique_rsp (p_remote_rsp : tBTA_AV_REMOTE_RSP) : RC unit :=
  do cb <- get_rc_cb;
  if has_feat (rc_features cb) BTA_AV_FEAT_RCTG then
    let key_state := if rsp_key_state p_remote_rsp =? AVRC_STATE_RELEASE then 1 else 0 in
    do vendor_id <-
      (if (0 <? rsp_len p_remote_rsp)%nat
          && (AVRC_PASS_THRU_GROUP_LEN <=? rsp_len p_remote_rsp)%nat
       then
         match rsp_p_data p_remote_rsp !! (AVRC_PASS_THRU_GROUP_LEN - 1)%nat with
         | Some b => rc_ret b
         | None => rc_undefined
         end
       else rc_ret 0);
    run modify_rc_device (release_transaction (rsp_label p_remote_rsp));
    HAL_CBACK_on bt_rc_ctrl_callbacks (groupnavigation_rsp_cb vendor_id key_state)
  else rc_ret tt.

(** [btif_rc_check_handle_pending_play]; the address passed in is not
    used. *)
Definition btif_rc_check_handle_pending_play (bSendToApp : bool) : RC unit :=
  do s <- get_state;
  if rc_pending_play s then
    run rc_when bSendToApp
          (let remote_cmd := fun key_state =>
             {| cmd_rc_handle := rc_handle (rc_cb s); cmd_rc_id := AVRC_ID_PLAY;
                cmd_key_state := key_state |} in
           run log (sleep_ms 200);
           run handle_rc_passthrough_cmd (remote_cmd AVRC_STATE_PRESS);
           run log (sleep_ms 100);
           handle_rc_passthrough_cmd (remote_cmd AVRC_STATE_RELEASE));
    modify_state (set_rc_pending_play false)
  else rc_ret tt.

(** ** Responses to the commands of the peer *)

Definition is_pdu (raw : Z) (pdu : avrc_pdu) : bool :=
  match pdu with
  | AVRC_PDU_OTHER r => r =? raw
  | _ => false
  end.

(** [opcode_from_pdu] *)
Definition opcode_from_pdu (pdu : avrc_pdu) : Z :=
  if is_pdu AVRC_PDU_NEXT_GROUP pdu || is_pdu AVRC_PDU_PREV_GROUP pdu
  then AVRC_OP_PASS_THRU else AVRC_OP_VENDOR.

(** [send_reject_response] *)
Definition send_reject_response (rc_handle : Z) (label : nat) (pdu : avrc_pdu) (status : Z)
  : RC unit :=
  let avrc_rsp := out_rsp pdu (opcode_from_pdu pdu) status in
  if AVRC_BldResponse rc_handle avrc_rsp =? AVRC_STS_NO_ERROR then
    log (BTA_AvMetaRsp rc_handle label AVRC_RSP_REJ avrc_rsp)
  else rc_ret tt.

(** [rc_notif[event_id-1]]: an event id of zero, or one behind
    [MAX_RC_NOTIFICATIONS], is outside the array. *)
Definition notif_index (event_id : avrc_evt) : option nat :=
  if 1 <=? avrc_evt_code event_id then Some (Z.to_nat (avrc_evt_code event_id - 1))
  else None.

Definition read_notif (event_id : avrc_evt) : RC btif_rc_reg_notifications_t :=
  do s <- get_state;
  match notif_index event_id with
  | Some i =>
      match rc_notif s !! i with
      | Some n => rc_ret n
      | None => rc_undefined
      end
  | None => rc_undefined
  end.

Definition write_notif (event_id : avrc_evt)
  (f : btif_rc_reg_notifications_t -> btif_rc_reg_notifications_t) : RC unit :=
  do n <- read_notif event_id;
  match notif_index event_id with
  | Some i => modify_state (fun s => set_rc_notif (<[i := f n]> (rc_notif s)) s)
  | None => rc_undefined
  end.

Definition set_bNotify (b : bool) (n : btif_rc_reg_notifications_t)
  : btif_rc_reg_notifications_t :=
  {| bNotify := b; notif_label := notif_label n |}.

(** The response type [send_metamsg_rsp] chooses from the code it is
    given and the status of the response. *)
Definition metamsg_ctype (code : Z) (pmetamsg_resp : tAVRC_RESPONSE_OUT) : Z :=
  if negb (out_status pmetamsg_resp =? AVRC_STS_NO_ERROR) then AVRC_RSP_REJ
  else if code <? AVRC_RSP_NOT_IMPL then
    if code =? avrc_cmd_code AVRC_CMD_NOTIF then AVRC_RSP_INTERIM
    else if code =? avrc_cmd_code AVRC_CMD_STATUS then AVRC_RSP_IMPL_STBL _
    else AVRC_RSP_ACCEPT
  else code.

(** [send_metamsg_rsp]; every caller passes a response.  The parameter
    [rc_handle] of the source is [rc_handle_arg] here, the field of the
    control block keeps its name. *)
Definition send_metamsg_rsp (rc_handle_arg : Z) (label : nat) (code : Z)
  (pmetamsg_resp : tAVRC_RESPONSE_OUT) : RC unit :=
  let ctype := metamsg_ctype code pmetamsg_resp in
  if bool_decide (out_pdu pmetamsg_resp = AVRC_PDU_REGISTER_NOTIFICATION)
     && (code =? AVRC_RSP_CHANGED)
  then
    match pmetamsg_resp with
    | out_reg_notif _ _ event_id _ =>
        do cb <- get_rc_cb;
        do n <- read_notif event_id;
        let bNotify := rc_connected cb && bNotify n in
        run write_notif event_id (set_bNotify false);
        if bNotify then
          if AVRC_BldResponse (rc_handle cb) pmetamsg_resp =? AVRC_STS_NO_ERROR then
            do n1 <- read_notif event_id;
            log (BTA_AvMetaRsp (rc_handle cb) (notif_label n1) ctype pmetamsg_resp)
          else rc_ret tt
        else rc_ret tt
    | _ => rc_undefined
    end
  else
    if AVRC_BldResponse rc_handle_arg pmetamsg_resp =? AVRC_STS_NO_ERROR then
      log (BTA_AvMetaRsp rc_handle_arg label ctype pmetamsg_resp)
    else rc_ret tt.

(** [handle_uid_changed_notification]; its caller has checked that the
    PDU of the command is REGISTER_NOTIFICATION. *)
Definition handle_uid_changed_notification (pmeta_msg : tBTA_AV_META_MSG)
  (pavrc_command : tAVRC_COMMAND_IN) : RC unit :=
  let avrc_rsp :=
    out_reg_notif (in_opcode pavrc_command) AVRC_STS_NO_ERROR
      (in_reg_event_id pavrc_command) (notif_uid_counter 0) in
  run send_metamsg_rsp (msg_rc_handle pmeta_msg) (msg_label pmeta_msg) AVRC_RSP_INTERIM avrc_rsp;
  send_metamsg_rsp (msg_rc_handle pmeta_msg) (msg_label pmeta_msg) AVRC_RSP_CHANGED avrc_rsp.

(** [FILL_PDU_QUEUE] *)
Definition FILL_PDU_QUEUE (index : nat) (ctype : Z) (label : nat) (pending : bool) : RC unit :=
  do s <- get_state;
  match rc_pdu_info s !! index with
  | Some _ =>
      modify_state
        (set_rc_pdu_info
           (<[index := {| ctxt_label := label; ctxt_ctype := ctype;
                          is_rsp_pending := pending |}]> (rc_pdu_info s)))
  | None => rc_undefined
  end.

(** [SEND_METAMSG_RSP]: [false] when the macro returns
    [BT_STATUS_UNHANDLED] from the function that uses it. *)
Definition SEND_METAMSG_RSP (index : nat) (avrc_rsp : tAVRC_RESPONSE_OUT) : RC bool :=
  do s <- get_state;
  match rc_pdu_info s !! index with
  | Some c =>
      if negb (is_rsp_pending c) then rc_ret false
      else
        run send_metamsg_rsp (rc_handle (rc_cb s)) (ctxt_label c) (ctxt_ctype c) avrc_rsp;
        run FILL_PDU_QUEUE index 0 0%nat false;
        rc_ret true
  | None => rc_undefined
  end.

(** The loop of [btif_rc_upstreams_evt] over the attribute ids of a
    GET_ELEMENT_ATTR command: [count] ids are left from index [attr_cnt]
    on; [num_attr] entries of [element_attrs] are filled. *)
Fixpoint fill_element_attrs (attrs : list Z) (count attr_cnt : nat)
  (element_attrs : list Z) (num_attr : nat) : option (list Z * nat) :=
  match count with
  | O => Some (element_attrs, num_attr)
  | S count' =>
      if (num_attr <? AVRC_MAX_NUM_MEDIA_ATTR_ID)%nat then
        match attrs !! attr_cnt with
        | Some a =>
            if (0 <? a) && (a <=? Z.of_nat AVRC_MAX_NUM_MEDIA_ATTR_ID) then
              if bool_decide (a ∈ take num_attr element_attrs) then
                fill_element_attrs attrs count' (S attr_cnt) element_attrs num_attr
              else if (num_attr <? length element_attrs)%nat then
                fill_element_attrs attrs count' (S attr_cnt)
                  (<[num_attr := a]> element_attrs) (S num_attr)
              else None
            else fill_element_attrs attrs count' (S attr_cnt) element_attrs num_attr
        | None => None
        end
      else Some (element_attrs, num_attr)
  end.

(** [btif_rc_upstreams_evt] *)
Definition btif_rc_upstreams_evt (event : avrc_pdu) (pavrc_cmd : tAVRC_COMMAND_IN)
  (ctype : Z) (label : nat) : RC unit :=
  do cb <- get_rc_cb;
  let reject := fun status =>
    send_reject_response (rc_handle cb) label (in_pdu pavrc_cmd) status in
  let default :=
    reject (if is_pdu AVRC_PDU_SEARCH (in_pdu pavrc_cmd) then AVRC_STS_SEARCH_NOT_SUP
            else AVRC_STS_BAD_CMD) in
  match event with
  | AVRC_PDU_GET_PLAY_STATUS =>
      run FILL_PDU_QUEUE IDX_GET_PLAY_STATUS_RSP ctype label true;
      HAL_CBACK_on bt_rc_callbacks get_play_status_cb
  | AVRC_PDU_LIST_PLAYER_APP_ATTR
  | AVRC_PDU_LIST_PLAYER_APP_VALUES
  | AVRC_PDU_GET_CUR_PLAYER_APP_VALUE
  | AVRC_PDU_SET_PLAYER_APP_VALUE
  | AVRC_PDU_GET_PLAYER_APP_ATTR_TEXT
  | AVRC_PDU_GET_PLAYER_APP_VALUE_TEXT => reject AVRC_STS_BAD_CMD
  | AVRC_PDU_GET_ELEMENT_ATTR =>
      let element_attrs := replicate BTRC_MAX_ELEM_ATTR_SIZE 0 in
      if in_elem_num_attr pavrc_cmd =? 0 then
        run FILL_PDU_QUEUE IDX_GET_ELEMENT_ATTR_RSP ctype label true;
        HAL_CBACK_on bt_rc_callbacks
          (get_element_attr_cb BTRC_MAX_ELEM_ATTR_SIZE
             ((fun attr_cnt => Z.of_nat (attr_cnt + 1)) <$> seq 0 BTRC_MAX_ELEM_ATTR_SIZE))
      else if in_elem_num_attr pavrc_cmd =? 255 then reject AVRC_STS_BAD_PARAM
      else
        match fill_element_attrs (in_elem_attrs pavrc_cmd)
                (Z.to_nat (in_elem_num_attr pavrc_cmd)) 0 element_attrs 0 with
        | Some (element_attrs1, num_attr) =>
            run FILL_PDU_QUEUE IDX_GET_ELEMENT_ATTR_RSP ctype label true;
            HAL_CBACK_on bt_rc_callbacks (get_element_attr_cb num_attr element_attrs1)
        | None => rc_undefined
        end
  | AVRC_PDU_REGISTER_NOTIFICATION =>
      if bool_decide (in_reg_event_id pavrc_cmd = AVRC_EVT_PLAY_POS_CHANGED)
         && (in_reg_param pavrc_cmd =? 0)
      then
        run reject AVRC_STS_BAD_PARAM;
        write_notif AVRC_EVT_PLAY_POS_CHANGED (set_bNotify false)
      else
        HAL_CBACK_on bt_rc_callbacks
          (register_notification_cb (in_reg_event_id pavrc_cmd) (in_reg_param pavrc_cmd))
  | AVRC_PDU_OTHER raw =>
      if raw =? AVRC_PDU_INFORM_DISPLAY_CHARSET then
        rc_when (rc_connected cb)
          (send_metamsg_rsp (rc_handle cb) label ctype
             (out_rsp (AVRC_PDU_OTHER AVRC_PDU_INFORM_DISPLAY_CHARSET)
                (opcode_from_pdu (AVRC_PDU_OTHER AVRC_PDU_INFORM_DISPLAY_CHARSET))
                AVRC_STS_NO_ERROR))
      else if raw =? AVRC_PDU_REQUEST_CONTINUATION_RSP then
        rc_when (rc_connected cb)
          (send_metamsg_rsp (rc_handle cb) label ctype
             (out_next (AVRC_PDU_OTHER AVRC_PDU_REQUEST_CONTINUATION_RSP)
                (opcode_from_pdu (AVRC_PDU_OTHER AVRC_PDU_REQUEST_CONTINUATION_RSP))
                AVRC_STS_NO_ERROR (in_target_pdu pavrc_cmd)))
      else if raw =? AVRC_PDU_ABORT_CONTINUATION_RSP then
        rc_when (rc_connected cb)
          (send_metamsg_rsp (rc_handle cb) label ctype
             (out_next (AVRC_PDU_OTHER AVRC_PDU_ABORT_CONTINUATION_RSP)
                (opcode_from_pdu (AVRC_PDU_OTHER AVRC_PDU_ABORT_CONTINUATION_RSP))
                AVRC_STS_NO_ERROR (in_target_pdu pavrc_cmd)))
      else default
  | AVRC_PDU_GET_CAPABILITIES
  | AVRC_PDU_SET_ABSOLUTE_VOLUME => default
  end.

(** [handle_rc_metamsg_cmd] *)
Definition handle_rc_metamsg_cmd (pmeta_msg : tBTA_AV_META_MSG_IN) : RC unit :=
  let m := meta pmeta_msg in
  if negb (msg_opcode m =? AVRC_OP_VENDOR) then rc_ret tt
  else if msg_len m <? 3 then rc_ret tt
  else if AVRC_RSP_NOT_IMPL <=? msg_code m then
    do s <- get_state;
    match get_transaction_by_lbl (msg_label m) (rc_device s) with
    | Some _ => lift (handle_rc_metamsg_rsp m)
    | None => rc_ret tt
    end
  else
    let avrc_command := pars_command pmeta_msg in
    let status := pars_command_status pmeta_msg in
    if negb (status =? AVRC_STS_NO_ERROR) then
      send_reject_response (msg_rc_handle m) (msg_label m) (in_pdu avrc_command) status
    else
      do pass_on <-
        (if bool_decide (in_pdu avrc_command = AVRC_PDU_REGISTER_NOTIFICATION) then
           let event_id := in_reg_event_id avrc_command in
           run write_notif event_id
                 (fun _ => {| bNotify := true; notif_label := msg_label m |});
           if bool_decide (event_id = AVRC_EVT_UIDS_CHANGE) then
             run handle_uid_changed_notification m avrc_command;
             rc_ret false
           else rc_ret true
         else rc_ret true);
      rc_when pass_on
        (btif_rc_upstreams_evt (in_pdu avrc_command) avrc_command (msg_code m) (msg_label m)).

(** [btif_rc_ctrl_upstreams_rsp_cmd] *)
Definition btif_rc_ctrl_upstreams_rsp_cmd (event : avrc_pdu) (pavrc_cmd : tAVRC_COMMAND_IN)
  (label : nat) : RC unit :=
  do cb <- get_rc_cb;
  match event with
  | AVRC_PDU_SET_ABSOLUTE_VOLUME =>
      HAL_CBACK_on bt_rc_ctrl_callbacks
        (setabsvol_cmd_cb (rc_addr cb) (in_volume pavrc_cmd) label)
  | AVRC_PDU_REGISTER_NOTIFICATION =>
      rc_when (bool_decide (in_reg_event_id pavrc_cmd = AVRC_EVT_VOLUME_CHANGE))
        (HAL_CBACK_on bt_rc_ctrl_callbacks (registernotification_absvol_cb (rc_addr cb) label))
  | _ => rc_ret tt
  end.

(** [handle_avk_rc_metamsg_cmd] *)
Definition handle_avk_rc_metamsg_cmd (pmeta_msg : tBTA_AV_META_MSG_IN) : RC unit :=
  let m := meta pmeta_msg in
  if (AVRC_OP_VENDOR =? msg_opcode m) && (msg_code m <=? AVRC_CMD_GEN_INQ) then
    let avrc_cmd := ctrl_pars_command pmeta_msg in
    let status := ctrl_pars_command_status pmeta_msg in
    if negb (status =? AVRC_STS_NO_ERROR) then
      send_reject_response (msg_rc_handle m) (msg_label m) (in_pdu avrc_cmd) status
    else btif_rc_ctrl_upstreams_rsp_cmd (in_pdu avrc_cmd) avrc_cmd (msg_label m)
  else rc_ret tt.

(** [btif_rc_handler] *)
Definition btif_rc_handler (p_data : tBTA_AV) : RC unit :=
  match p_data with
  | BTA_AV_RC_OPEN_EVT rc_open => handle_rc_connect rc_open
  | BTA_AV_RC_CLOSE_EVT rc_close => handle_rc_disconnect rc_close
  | BTA_AV_REMOTE_CMD_EVT remote_cmd =>
      do s <- get_state;
      if bt_rc_callbacks s then
        rc_when (rc_handle (rc_cb s) =? cmd_rc_handle remote_cmd)
          (handle_rc_passthrough_cmd remote_cmd)
      else rc_ret tt
  | BTA_AV_REMOTE_RSP_EVT remote_rsp =>
      if bool_decide (rsp_rc_id remote_rsp = AVRC_ID_VENDOR) then
        handle_rc_vendorunique_rsp remote_rsp
      else handle_rc_passthrough_rsp remote_rsp
  | BTA_AV_RC_FEAT_EVT rc_feat =>
      run modify_rc_cb (set_rc_features (feat_peer_features rc_feat));
      run handle_rc_features (feat_peer_addr rc_feat);
      do s <- get_state;
      rc_when (rc_connected (rc_cb s) && bt_rc_ctrl_callbacks s)
        (handle_rc_ctrl_features (rc_addr (rc_cb s)))
  | BTA_AV_META_MSG_EVT meta_msg =>
      do s <- get_state;
      if bt_rc_callbacks s then handle_rc_metamsg_cmd meta_msg
      else if bt_rc_ctrl_callbacks s then
        let code := msg_code (meta meta_msg) in
        if (AVRC_RSP_NOT_IMPL <=? code) && (code <=? AVRC_RSP_INTERIM) then
          lift (handle_avk_rc_metamsg_rsp (meta meta_msg))
        else if code <=? AVRC_CMD_GEN_INQ then handle_avk_rc_metamsg_cmd meta_msg
        else rc_ret tt
      else rc_ret tt
  | BTA_AV_OTHER_EVT _ => rc_ret tt
  end.

(** [btif_rc_get_connected_peer]: the address when a peer is connected. *)
Definition btif_rc_get_connected_peer : RC (option Z) :=
  do cb <- get_rc_cb;
  rc_ret (if rc_connected cb then Some (rc_addr cb) else None).

(** [btif_rc_get_connected_peer_handle] *)
Definition btif_rc_get_connected_peer_handle : RC Z :=
  do cb <- get_rc_cb;
  rc_ret (rc_handle cb).

(** ** The functions of [bt_rc_interface] and [bt_rc_ctrl_interface] *)

(** What [memset] to zero followed by the two assignments leaves in
    [btif_rc_cb], and [lbl_init]. *)
Definition init_cb (s : rc_state) : rc_state :=
  set_rc_device lbl_init
    (set_rc_notif (replicate MAX_RC_NOTIFICATIONS zero_notif)
       (set_rc_pdu_info (replicate MAX_CMD_QUEUE_LEN zero_ctxt)
          (set_rc_pending_play false
             (set_rc_cb (set_rc_volume MAX_VOLUME (set_rc_vol_label MAX_LABEL (zero_cb _))) s)))).

(** [init]; the callbacks given are not NULL. *)
Definition init : RC Z :=
  do s <- get_state;
  if bt_rc_callbacks s then rc_ret BT_STATUS_DONE
  else
    run modify_state (set_bt_rc_callbacks true);
    run modify_state init_cb;
    rc_ret BT_STATUS_SUCCESS.

(** [init_ctrl]; the callbacks given are not NULL. *)
Definition init_ctrl : RC Z :=
  do s <- get_state;
  if bt_rc_ctrl_callbacks s then rc_ret BT_STATUS_DONE
  else
    run modify_state (set_bt_rc_ctrl_callbacks true);
    run modify_state init_cb;
    rc_ret BT_STATUS_SUCCESS.

(** [btif_rc_cb] after the [memset] of [cleanup]; the label table is
    left as it is. *)
Definition cleanup_cb (s : rc_state) : rc_state :=
  set_rc_notif (replicate MAX_RC_NOTIFICATIONS zero_notif)
    (set_rc_pdu_info (replicate MAX_CMD_QUEUE_LEN zero_ctxt)
       (set_rc_pending_play false (set_rc_cb (zero_cb _) s))).

(** [cleanup] *)
Definition cleanup : RC unit :=
  run close_uinput;
  run modify_state (set_bt_rc_callbacks false);
  modify_state cleanup_cb.

(** [cleanup_ctrl] *)
Definition cleanup_ctrl : RC unit :=
  run modify_state (set_bt_rc_ctrl_callbacks false);
  modify_state cleanup_cb.

(** [get_play_status_rsp] *)
Definition get_play_status_rsp (play_status song_len song_pos : Z) : RC Z :=
  do cb <- get_rc_cb;
  if negb (rc_connected cb) then rc_ret BT_STATUS_NOT_READY
  else
    let avrc_rsp :=
      out_get_play_status (opcode_from_pdu AVRC_PDU_GET_PLAY_STATUS) AVRC_STS_NO_ERROR
        song_len song_pos play_status in
    do sent <- SEND_METAMSG_RSP IDX_GET_PLAY_STATUS_RSP avrc_rsp;
    rc_ret (if sent then BT_STATUS_SUCCESS else BT_STATUS_UNHANDLED).

(** The loop of [get_element_attr_rsp]: the entries of [element_attrs]
    for the first [num_attr] attributes given. *)
Definition element_attr_entry (a : btrc_element_attr_val_t) : Z * Z * Z * list Z :=
  (val_attr_id a, AVRC_CHARSET_ID_UTF8, Z.of_nat (length (val_text a)) mod 65536, val_text a).

(** [get_element_attr_rsp] *)
Definition get_element_attr_rsp (num_attr : nat) (p_attrs : list btrc_element_attr_val_t)
  : RC Z :=
  do cb <- get_rc_cb;
  if negb (rc_connected cb) then rc_ret BT_STATUS_NOT_READY
  else if (BTRC_MAX_ELEM_ATTR_SIZE <? num_attr)%nat then rc_undefined
  else if (length p_attrs <? num_attr)%nat then rc_undefined
  else
    let status := if (num_attr =? 0)%nat then AVRC_STS_BAD_PARAM else AVRC_STS_NO_ERROR in
    let avrc_rsp :=
      out_get_elem_attrs (opcode_from_pdu AVRC_PDU_GET_ELEMENT_ATTR) status num_attr
        (element_attr_entry <$> take num_attr p_attrs) in
    do sent <- SEND_METAMSG_RSP IDX_GET_ELEMENT_ATTR_RSP avrc_rsp;
    rc_ret (if sent then BT_STATUS_SUCCESS else BT_STATUS_UNHANDLED).

(** [register_notification_rsp] *)
Definition register_notification_rsp (event_id : avrc_evt) (type : btrc_notification_type_t)
  (p_param : btrc_register_notification_t) : RC Z :=
  do cb <- get_rc_cb;
  if negb (rc_connected cb) then rc_ret BT_STATUS_NOT_READY
  else
    do n <- read_notif event_id;
    if negb (bNotify n) then rc_ret BT_STATUS_NOT_READY
    else
      let code :=
        match type with
        | BTRC_NOTIFICATION_TYPE_INTERIM => avrc_cmd_code AVRC_CMD_NOTIF
        | BTRC_NOTIFICATION_TYPE_CHANGED => AVRC_RSP_CHANGED
        end in
      let send := fun param =>
        run send_metamsg_rsp (rc_handle cb) (notif_label n) code
              (out_reg_notif (opcode_from_pdu AVRC_PDU_REGISTER_NOTIFICATION)
                 AVRC_STS_NO_ERROR event_id param);
        rc_ret BT_STATUS_SUCCESS in
      match event_id with
      | AVRC_EVT_PLAY_STATUS_CHANGE =>
          run rc_when (reg_play_status p_param =? PLAY_STATUS_PLAYING)
                (log btif_av_clear_remote_suspend_flag);
          send (notif_play_status (reg_play_status p_param))
      | AVRC_EVT_TRACK_CHANGE => send (notif_track (reg_track p_param))
      | AVRC_EVT_PLAY_POS_CHANGED => send (notif_play_pos (reg_song_pos p_param))
      | _ => rc_ret BT_STATUS_UNHANDLED
      end.

(** [set_volume] *)
Definition set_volume (volume : Z) : RC Z :=
  do cb <- get_rc_cb;
  if negb (rc_connected cb) then rc_ret BT_STATUS_NOT_READY
  else if rc_volume cb =? volume then rc_ret BT_STATUS_DONE
  else if has_feat (rc_features cb) BTA_AV_FEAT_RCTG
          && has_feat (rc_features cb) BTA_AV_FEAT_ADV_CTRL
  then
    let avrc_cmd := cmd_volume volume in
    if AVRC_BldCommand avrc_cmd =? AVRC_STS_NO_ERROR then
      do '(tran_status, p_transaction) <- lift call_get_transaction;
      match p_transaction with
      | Some p =>
          if tran_status =? BT_STATUS_SUCCESS then
            do l <- lift (transaction_lbl p);
            run lift (emit (BTA_AvMetaCmd (rc_handle cb) l AVRC_CMD_CTRL avrc_cmd));
            rc_ret BT_STATUS_SUCCESS
          else rc_ret BT_STATUS_FAIL
      | None => rc_ret BT_STATUS_FAIL
      end
    else rc_ret BT_STATUS_FAIL
  else rc_ret BT_STATUS_NOT_READY.

(** [change_player_app_setting]; the address passed in is not used. *)
Definition change_player_app_setting (num_attrib : nat) (attrib_ids attrib_vals : list Z)
  : RC Z :=
  do cb <- get_rc_cb;
  if negb (rc_connected cb) then rc_ret BT_STATUS_NOT_READY
  else
    do '(tran_status, p_transaction) <- lift call_get_transaction;
    if negb (tran_status =? BT_STATUS_SUCCESS) then rc_ret BT_STATUS_FAIL
    else
      do p_txn <- lift (lift_option p_transaction);
      do ids <- lift (array_prefix attrib_ids num_attrib);
      do vals <- lift (array_prefix attrib_vals num_attrib);
      let p_vals :=
        zip_with (fun i v => {| setting_attr_id := i; setting_attr_val := v |}) ids vals in
      let status := AVRC_BldCommand_set_app_val num_attrib p_vals in
      if status =? AVRC_STS_NO_ERROR then
        do l <- lift (transaction_lbl p_txn);
        run log (BTA_AvVendorCmd_set_app_val (rc_handle cb) l AVRC_CMD_CTRL num_attrib p_vals);
        run modify_rc_device (start_control_command_timer AVRC_PDU_SET_PLAYER_APP_VALUE p_txn);
        rc_ret BT_STATUS_SUCCESS
      else rc_ret status.

(** [set_volume_rsp]; the address passed in is not used. *)
Definition set_volume_rsp (abs_vol : Z) (label : nat) : RC Z :=
  do cb <- get_rc_cb;
  if negb (rc_connected cb) then rc_ret BT_STATUS_NOT_READY
  else
    let avrc_rsp := out_volume AVRC_OP_VENDOR AVRC_STS_NO_ERROR abs_vol in
    let status := AVRC_BldResponse (rc_handle cb) avrc_rsp in
    if status =? AVRC_STS_NO_ERROR then
      run log (BTA_AvVendorRsp (rc_handle cb) label BTA_AV_RSP_ACCEPT avrc_rsp);
      rc_ret BT_STATUS_SUCCESS
    else rc_ret status.

(** [volume_change_notification_rsp]; the address passed in is not used. *)
Definition volume_change_notification_rsp (rsp_type : btrc_notification_type_t)
  (abs_vol : Z) (label : nat) : RC Z :=
  do cb <- get_rc_cb;
  if negb (rc_connected cb) then rc_ret BT_STATUS_NOT_READY
  else
    let avrc_rsp :=
      out_reg_notif AVRC_OP_VENDOR AVRC_STS_NO_ERROR AVRC_EVT_VOLUME_CHANGE
        (notif_volume abs_vol) in
    let status := AVRC_BldResponse (rc_handle cb) avrc_rsp in
    if status =? AVRC_STS_NO_ERROR then
      run log (BTA_AvVendorRsp (rc_handle cb) label
                 match rsp_type with
                 | BTRC_NOTIFICATION_TYPE_INTERIM => AVRC_RSP_INTERIM
                 | BTRC_NOTIFICATION_TYPE_CHANGED => AVRC_RSP_CHANGED
                 end avrc_rsp);
      rc_ret BT_STATUS_SUCCESS
    else rc_ret status.

(** The five bytes [send_groupnavigation_cmd] writes into its buffer of
    [AVRC_PASS_THRU_GROUP_LEN] bytes. *)
Definition group_navigation_buffer (key_code : Z) : list Z :=
  [ (AVRC_CO_METADATA / 65536) mod 256; (AVRC_CO_METADATA / 256) mod 256;
    AVRC_CO_METADATA mod 256; 0; key_code ].

(** [send_groupnavigation_cmd]; the address passed in is not used. *)
Definition send_groupnavigation_cmd (key_code key_state : Z) : RC Z :=
  do cb <- get_rc_cb;
  if negb (rc_connected cb) then rc_ret BT_STATUS_NOT_READY
  else if has_feat (rc_features cb) BTA_AV_FEAT_RCTG then
    do '(tran_status, p_transaction) <- lift call_get_transaction;
    match p_transaction with
    | Some p =>
        if tran_status =? BT_STATUS_SUCCESS then
          if (AVRC_PASS_THRU_GROUP_LEN <? 5)%nat then rc_undefined
          else
            do l <- lift (transaction_lbl p);
            run log (BTA_AvRemoteVendorUniqueCmd (rc_handle cb) l key_state
                       (group_navigation_buffer key_code
                          ++ replicate (AVRC_PASS_THRU_GROUP_LEN - 5) 0)
                       AVRC_PASS_THRU_GROUP_LEN);
            rc_ret BT_STATUS_SUCCESS
        else rc_ret BT_STATUS_FAIL
    | None => rc_ret BT_STATUS_FAIL
    end
  else rc_ret BT_STATUS_FAIL.

(** [send_passthrough_cmd]; the address passed in is not used. *)
Definition send_passthrough_cmd (key_code key_state : Z) : RC Z :=
  do cb <- get_rc_cb;
  if negb (rc_connected cb) then rc_ret BT_STATUS_NOT_READY
  else if has_feat (rc_features cb) BTA_AV_FEAT_RCTG then
    do '(tran_status, p_transaction) <- lift call_get_transaction;
    match p_transaction with
    | Some p =>
        if tran_status =? BT_STATUS_SUCCESS then
          do l <- lift (transaction_lbl p);
          run log (BTA_AvRemoteCmd (rc_handle cb) l key_code key_state);
          rc_ret BT_STATUS_SUCCESS
        else rc_ret BT_STATUS_FAIL
    | None => rc_ret BT_STATUS_FAIL
    end
  else rc_ret BT_STATUS_FAIL.

End Interface.
(** * Properties *)

(** ** Vocabulary for the transaction pool *)

(** The table has its sixteen slots and slot [i] carries label [i]; this
    is what [lbl_init] establishes. *)
Definition pool_wf (d : rc_device_t) : Prop :=
  length d = MAX_TRANSACTIONS_PER_SESSION /\
  forall i t, d !! i = Some t -> lbl t = i.

Fixpoint in_use_count (d : rc_device_t) : nat :=
  match d with
  | [] => 0
  | t :: d' => (if in_use t then 1 else 0) + in_use_count d'
  end.

Definition label_in_use (l : nat) (d : rc_device_t) : Prop :=
  exists t, d !! l = Some t /\ in_use t = true.

Inductive pool_op : Type :=
| Acquire
| Release (l : nat).

Section PoolRuns.
Context `{AvrcDefs}.

Definition run_pool_op (d : rc_device_t) (op : pool_op) : rc_device_t :=
  match op with
  | Acquire => (get_transaction d).2
  | Release l => release_transaction l d
  end.

Definition run_pool_ops (ops : list pool_op) (d : rc_device_t) : rc_device_t :=
  fold_left run_pool_op ops d.

End PoolRuns.


(** ** Vocabulary for runs of the module *)

(** A computation relates the world it starts in to the world it ends in
    by [R] whenever it has a result. *)
Definition rel (R : world -> world -> Prop) {A : Type} (m : M A) : Prop :=
  forall w a w', m w = Some (a, w') -> R w w'.

(** A computation that only reads. *)
Definition readonly {A : Type} (m : M A) : Prop :=
  forall w a w', m w = Some (a, w') -> w' = w.

(** The event a REGISTER_NOTIFICATION vendor command asks for. *)
Definition reg_cmd_event (e : effect) : option avrc_evt :=
  match e with
  | BTA_AvVendorCmd _ _ _ (cmd_reg_notif ev _) => Some ev
  | _ => None
  end.

(** The PDU of a vendor command. *)
Definition vendor_cmd_pdu (e : effect) : option avrc_pdu :=
  match e with
  | BTA_AvVendorCmd _ _ _ c => Some (cmd_pdu c)
  | _ => None
  end.

Definition effect_ok (S : avrc_evt -> Prop) (e : effect) : Prop :=
  forall ev, reg_cmd_event e = Some ev -> S ev.

(** Every entry of the supported-event list is for an event in [S]. *)
Definition events_ok (S : avrc_evt -> Prop) (w : world) : Prop :=
  forall l, rc_supported_event_list (btif_rc_cb w) = Some l -> Forall S (fmap event_id l).

Definition procedure_complete (w : world) : bool :=
  rc_procedure_complete (btif_rc_cb w).

Definition app_query_started (w : world) : bool :=
  query_started (rc_app_settings (btif_rc_cb w)).

(** What every step of the controller does, for a set [S] of events:
    the two flags are never cleared, the list stays within [S], the trace
    grows by calls that register only events of [S], and the table stays
    well formed. *)
Record G (S : avrc_evt -> Prop) (w w' : world) : Prop := {
  G_complete : procedure_complete w = true -> procedure_complete w' = true;
  G_started : app_query_started w = true -> app_query_started w' = true;
  G_events : events_ok S w -> events_ok S w';
  G_trace : events_ok S w ->
            exists delta, trace w' = delta ++ trace w /\ Forall (effect_ok S) delta;
  G_pool : pool_wf (device w) -> pool_wf (device w')
}.

(** What the handlers do to the table before the dispatcher releases the
    label of the response: the slots in use are not touched. *)
Definition K (w w' : world) : Prop :=
  pool_wf (device w) ->
  pool_wf (device w') /\
  forall j t, device w !! j = Some t -> in_use t = true -> device w' !! j = Some t.

Definition GK (S : avrc_evt -> Prop) (w w' : world) : Prop := G S w w' /\ K w w'.

(** The three events the controller registers for. *)
Definition registered_event (ev : avrc_evt) : Prop :=
  ev = AVRC_EVT_PLAY_STATUS_CHANGE \/ ev = AVRC_EVT_TRACK_CHANGE \/
  ev = AVRC_EVT_APP_SETTING_CHANGE.

(** The effects a world has gained over an earlier one. *)
Definition new_effects (w w' : world) : list effect :=
  take (length (trace w') - length (trace w)) (trace w').

(** The events of the supported-event list, in list order. *)
Definition event_ids (w : world) : option (list avrc_evt) :=
  match rc_supported_event_list (btif_rc_cb w) with
  | Some l => Some (event_id <$> l)
  | None => None
  end.

(** A capabilities response advertises supported events within [S]:
    the entries it puts on the list are for events of [S]. *)
Definition caps_within `{AvrcDefs} (S : avrc_evt -> Prop) (r : tAVRC_GET_CAPS_RSP) : Prop :=
  caps_status r = AVRC_STS_NO_ERROR -> capability_id r = AVRC_CAP_EVENTS_SUPPORTED ->
  Forall S (event_id <$> supported_events_of (take (count r) (param_event_id r))).

Definition input_within `{AvrcDefs} (S : avrc_evt -> Prop) (i : input) : Prop :=
  match i with
  | in_response m =>
      match parsed m with
      | rsp_get_caps r => caps_within S r
      | _ => True
      end
  | _ => True
  end.

(** A computation has a result in a world. *)
Definition defined {A : Type} (m : M A) (w : world) : Prop :=
  exists a w', m w = Some (a, w').

(** The world gains exactly the effects [delta], newest first, whose
    REGISTER_NOTIFICATION commands are for the events [evs]. *)
Definition sends_registrations (evs : list avrc_evt) (w w' : world) : Prop :=
  exists delta, trace w' = delta ++ trace w /\ omap reg_cmd_event delta = evs.

(** No REGISTER_NOTIFICATION command is sent. *)
Definition Q (w w' : world) : Prop := sends_registrations [] w w'.

#[global] Instance registered_event_dec (ev : avrc_evt) : Decision (registered_event ev).
Proof. unfold registered_event. solve_decision. Defined.

(** The two flags are kept and every effect gained satisfies [P]. *)
Definition sends_only (P : effect -> Prop) (w w' : world) : Prop :=
  procedure_complete w' = procedure_complete w /\
  app_query_started w' = app_query_started w /\
  exists delta, trace w' = delta ++ trace w /\ Forall P delta.

Definition is_cmd (pdu : avrc_pdu) (e : effect) : Prop := vendor_cmd_pdu e = Some pdu.

(** The responses the dispatcher of the controller acts on: vendor
    dependent, with a response code from NOT_IMPL to INTERIM. *)
Definition response_gate `{AvrcDefs} (m : tBTA_AV_META_MSG) : bool :=
  (msg_opcode m =? AVRC_OP_VENDOR)
  && (AVRC_RSP_NOT_IMPL <=? msg_code m)
  && (msg_code m <=? AVRC_RSP_INTERIM).

(** An interim response to REGISTER_NOTIFICATION. *)
Definition interim_notification `{AvrcDefs} (m : tBTA_AV_META_MSG) : bool :=
  match parsed m with
  | rsp_reg_notif _ => msg_code m =? AVRC_RSP_INTERIM
  | _ => false
  end.

(** From a world in [P] the computation has a result, and the result
    and the world it ends in are in [R]. *)
Definition terminates {A : Type} (P : world -> Prop) (m : M A) (R : A -> world -> Prop) : Prop :=
  forall w, P w -> exists a w', m w = Some (a, w') /\ R a w'.

(** The supported-event list exists and has an entry. *)
Definition has_entry (w : world) : Prop :=
  exists e l, rc_supported_event_list (btif_rc_cb w) = Some (e :: l).

(** The handler the dispatcher runs for a response: the one of its PDU. *)
Definition pdu_handler `{AvrcDefs} (m : tBTA_AV_META_MSG) : M unit :=
  match parsed m with
  | rsp_reg_notif r => handle_notification_response m r
  | rsp_get_caps r => handle_get_capability_response m r
  | rsp_list_app_attr r => handle_app_attr_response m r
  | rsp_list_app_values r => handle_app_val_response m r
  | rsp_get_cur_app_val r => handle_app_cur_val_response m r
  | rsp_get_app_attr_txt r => handle_app_attr_txt_response m r
  | rsp_get_app_val_txt r => handle_app_attr_val_txt_response m r
  | rsp_set_app_val r => handle_set_app_attr_val_response m r
  | rsp_get_elem_attrs r => handle_get_elem_attr_response m r
  | rsp_get_play_status r => handle_get_playstatus_response m r
  | rsp_volume _ | rsp_other _ => ret tt
  end.

(** What the dispatcher does to the label table once the handler is
    back. *)
Definition settle_label `{AvrcDefs} (m : tBTA_AV_META_MSG) (d : rc_device_t) : rc_device_t :=
  if interim_notification m then clear_cmd_timeout (msg_label m) d
  else release_transaction (msg_label m) d.

(** A slot whose REGISTER_NOTIFICATION command waits for its response:
    in use, with the alarm of that command scheduled. *)
Definition awaiting_interim (t : rc_transaction_t) : bool :=
  in_use t && alarm_is_scheduled (txn_timer t)
  && bool_decide (ctx_pdu_id (txn_timer_context t) = AVRC_PDU_REGISTER_NOTIFICATION).

Definition registrations_in_flight (d : rc_device_t) : nat :=
  length (List.filter awaiting_interim d).


(** ** Vocabulary for the label pool, continued *)

(** [l] is the lowest label that is not in use. *)
Definition lowest_free (l : nat) (d : rc_device_t) : Prop :=
  (l < MAX_TRANSACTIONS_PER_SESSION)%nat /\ ~ label_in_use l d /\
  forall j, (j < l)%nat -> label_in_use j d.

(** Every label is in use. *)
Definition exhausted (d : rc_device_t) : Prop :=
  forall l, (l < MAX_TRANSACTIONS_PER_SESSION)%nat -> label_in_use l d.

(** The alarm of a status command, as [start_status_command_timer] sets
    it. *)
Definition status_cmd_alarm : option alarm_t :=
  Some (alarm_set btif_rc_status_cmd_timer_timeout BTIF_TIMEOUT_RC_STATUS_CMD_MS).

(** A slot agrees with its alarm: it has no handle, and when the alarm
    is set the slot is in use, the timer context carries the label of the
    slot, and the callback is one of the two command time-outs. *)
Definition slot_ok (i : nat) (t : rc_transaction_t) : Prop :=
  handle t = 0 /\
  forall cb ms, txn_timer t = Some (alarm_set cb ms) ->
    in_use t = true /\ ctx_label (txn_timer_context t) = i /\
    cb <> btif_rc_play_status_timer_timeout.

(** The table is well formed and every slot agrees with its alarm. *)
Definition timers_wf (d : rc_device_t) : Prop :=
  pool_wf d /\ forall i t, d !! i = Some t -> slot_ok i t.

(** A step keeps a property of the label table. *)
Definition keeps (P : rc_device_t -> Prop) (w w' : world) : Prop :=
  P (device w) -> P (device w').

(** The request that starts the application-settings query. *)
Definition starts_query (e : effect) : bool :=
  match e with
  | BTA_AvVendorCmd _ _ _ cmd_list_app_attr => true
  | _ => false
  end.

(** How often the query is started among the effects. *)
Definition queries_started (delta : list effect) : nat :=
  length (List.filter starts_query delta).

(** A step that does not start the query and leaves the query-started
    flag as it is. *)
Definition no_query (w w' : world) : Prop :=
  app_query_started w' = app_query_started w /\
  exists delta, trace w' = delta ++ trace w /\ queries_started delta = 0%nat.

(** The query is started only by a step that sets the query-started
    flag: with the flag set it is not started, and the flag stays set;
    with the flag clear it is started at most once, and then the flag is
    set. *)
Definition query_once (w w' : world) : Prop :=
  exists delta, trace w' = delta ++ trace w /\
    (queries_started delta + (if app_query_started w then 1 else 0)
     <= (if app_query_started w' then 1 else 0))%nat.

(** ** A second instance of the parameters: no packet buffers

    As [reference_defs], but [AVRC_BldCommand] fails with
    [AVRC_STS_INTERNAL_ERR], the status of the builder when it cannot get
    a buffer. *)
#[refine] Definition no_packet_defs : AvrcDefs := {|
  BT_STATUS_SUCCESS := 0;
  BT_STATUS_FAIL := 1;
  BT_STATUS_NOT_READY := 2;
  BT_STATUS_NOMEM := 3;
  AVRC_STS_NO_ERROR := 4;
  AVRC_OP_VENDOR := 0;
  AVRC_RSP_NOT_IMPL := 8;
  AVRC_RSP_ACCEPT := 9;
  AVRC_RSP_REJ := 10;
  AVRC_RSP_CHANGED := 13;
  AVRC_RSP_INTERIM := 15;
  AVRC_PLAYSTATE_PLAYING := 1;
  AVRC_PLAYER_SETTING_LOW_MENU_EXT := 128;
  BTA_AV_FEAT_APP_SETTING := 8192;
  AVRC_MAX_APP_ATTR_SIZE := 16;
  BTRC_MAX_APP_ATTR_SIZE := 16;
  BTRC_MAX_APP_SETTINGS := 8;
  AVRC_MAX_NUM_MEDIA_ATTR_ID := 7;
  AVRC_BldCommand := fun _ => 3
|}.
Proof. all: unfold BTIF_RC_STS_TIMEOUT; lia. Defined.

(** A world with a supported-event list: [w] after a capabilities
    response that lists [ids]. *)
Definition with_events (H : AvrcDefs) (ids : list avrc_evt) (w : world) : world :=
  match handle_avk_rc_metamsg_rsp (meta_msg H 1 (AVRC_RSP_IMPL_STBL H)
                                     (events_supported_rsp H ids)) w with
  | Some (_, w') => w'
  | None => w
  end.

(** ** Vocabulary for the interface part *)

(** The assigned numbers of the headers for the parameters of the
    interface part ([bluetooth.h], [bta_av_api.h], [bt_rc.h],
    [avrc_defs.h]), over [reference_defs], and a response builder that
    always succeeds. *)
#[refine] Definition reference_target_defs : @TargetDefs reference_defs := {|
  BT_STATUS_DONE := 5;
  BT_STATUS_UNHANDLED := 8;
  BTA_AV_SUCCESS := 0;
  BTA_AV_RSP_ACCEPT := 9;
  BTA_AV_FEAT_RCTG := 1;
  BTA_AV_FEAT_RCCT := 2;
  BTA_AV_FEAT_VENDOR := 8;
  BTA_AV_FEAT_METADATA := 64;
  BTA_AV_FEAT_ADV_CTRL := 512;
  BTA_AV_FEAT_BROWSE := 16;
  BTRC_FEAT_NONE := 0;
  BTRC_FEAT_METADATA := 1;
  BTRC_FEAT_ABSOLUTE_VOLUME := 2;
  BTRC_FEAT_BROWSE := 4;
  AVRC_STS_BAD_CMD := 0;
  AVRC_STS_BAD_PARAM := 1;
  AVRC_STS_SEARCH_NOT_SUP := 15;
  AVRC_OP_PASS_THRU := 124;
  AVRC_STATE_PRESS := 0;
  AVRC_STATE_RELEASE := 1;
  AVRC_CMD_GEN_INQ := 4;
  AVRC_CHARSET_ID_UTF8 := 106;
  AVRC_CO_METADATA := 6488;
  AVRC_PASS_THRU_GROUP_LEN := 5;
  BTRC_MAX_ELEM_ATTR_SIZE := 7;
  AVRC_PDU_NEXT_GROUP := 0;
  AVRC_PDU_PREV_GROUP := 1;
  AVRC_PDU_INFORM_DISPLAY_CHARSET := 23;
  AVRC_PDU_REQUEST_CONTINUATION_RSP := 64;
  AVRC_PDU_ABORT_CONTINUATION_RSP := 65;
  AVRC_PDU_SEARCH := 128;
  avrc_cmd_code := fun c =>
    match c with
    | AVRC_CMD_CTRL => 0
    | AVRC_CMD_STATUS => 1
    | AVRC_CMD_NOTIF => 3
    end;
  avrc_evt_code := fun e =>
    match e with
    | AVRC_EVT_PLAY_STATUS_CHANGE => 1
    | AVRC_EVT_TRACK_CHANGE => 2
    | AVRC_EVT_TRACK_REACHED_END => 3
    | AVRC_EVT_TRACK_REACHED_START => 4
    | AVRC_EVT_PLAY_POS_CHANGED => 5
    | AVRC_EVT_BATTERY_STATUS_CHANGE => 6
    | AVRC_EVT_SYSTEM_STATUS_CHANGE => 7
    | AVRC_EVT_APP_SETTING_CHANGE => 8
    | AVRC_EVT_NOW_PLAYING_CHANGE => 9
    | AVRC_EVT_AVAL_PLAYERS_CHANGE => 10
    | AVRC_EVT_ADDR_PLAYER_CHANGE => 11
    | AVRC_EVT_UIDS_CHANGE => 12
    | AVRC_EVT_VOLUME_CHANGE => 13
    | AVRC_EVT_OTHER raw => raw
    end;
  AVRC_BldResponse := fun _ _ => 4;
  AVRC_BldCommand_set_app_val := fun _ _ => 4
|}.
Proof.
  all: try (simpl; lia).
  - intros []; simpl; lia.
  - intros [] []; simpl; intros; first [reflexivity|lia].
  - apply (bool_decide_unpack _). reflexivity.
Defined.

(** What the other modules answer in the witnesses: the stream is up
    and started, the device is a source, the peer of the stream has
    address 1, no interoperability entry, the uinput device can be
    created with descriptor 3. *)
Definition reference_env : rc_env :=
  {| btif_av_is_connected := true; btif_av_stream_started_ready := true;
     btif_av_is_sink_enabled := false; btif_av_get_addr := 1;
     interop_disable_absolute_volume := fun _ => false;
     persist_bluetooth_disableabsvol := false;
     uinput_driver_check := 0; uinput_create := 3 |}.

(** The module before [init]: static storage, all zero. *)
Definition boot_state `{TargetDefs} (e : rc_env) : rc_state :=
  {| rc_cb := zero_cb _; rc_device := replicate MAX_TRANSACTIONS_PER_SESSION zero_transaction;
     rc_pending_play := false; rc_pdu_info := replicate MAX_CMD_QUEUE_LEN zero_ctxt;
     rc_notif := replicate MAX_RC_NOTIFICATIONS zero_notif;
     bt_rc_callbacks := false; bt_rc_ctrl_callbacks := false;
     uinput_fd := -1; env := e; rc_log := [] |}.

(** The state after a function has run, for building the states of the
    witnesses. *)
Definition state_after {A : Type} (m : RC A) (s : rc_state) : rc_state :=
  match m s with
  | Some (_, s') => s'
  | None => s
  end.

(** The same state but for the log. *)
Definition same_but_log (s s' : rc_state) : Prop :=
  rc_cb s' = rc_cb s /\ rc_device s' = rc_device s /\
  rc_pending_play s' = rc_pending_play s /\ rc_pdu_info s' = rc_pdu_info s /\
  rc_notif s' = rc_notif s /\ bt_rc_callbacks s' = bt_rc_callbacks s /\
  bt_rc_ctrl_callbacks s' = bt_rc_ctrl_callbacks s /\ uinput_fd s' = uinput_fd s /\
  env s' = env s.

(** Every alarm of the label table is idle or absent. *)
Definition no_alarm_set (d : rc_device_t) : Prop :=
  forall i t, d !! i = Some t -> alarm_is_scheduled (txn_timer t) = false.

(** No label is in use. *)
Definition all_free (d : rc_device_t) : Prop :=
  forall l, ~ label_in_use l d.

(** [timers_wf], decided slot by slot. *)
Definition slot_ok_b (i : nat) (t : rc_transaction_t) : bool :=
  (lbl t =? i)%nat && (handle t =? 0) &&
  match txn_timer t with
  | Some (alarm_set cb _) =>
      in_use t && (ctx_label (txn_timer_context t) =? i)%nat &&
      match cb with
      | btif_rc_play_status_timer_timeout => false
      | _ => true
      end
  | _ => true
  end.

Fixpoint slots_ok_b (i : nat) (d : rc_device_t) : bool :=
  match d with
  | [] => true
  | t :: d' => slot_ok_b i t && slots_ok_b (S i) d'
  end.

Definition timers_wf_b (d : rc_device_t) : bool :=
  (length d =? MAX_TRANSACTIONS_PER_SESSION)%nat && slots_ok_b 0 d.

(** What the loop of [btif_rc_upstreams_evt] over the requested
    attribute ids has established when it has looked at the first [k] of
    them. *)
Definition filled `{TargetDefs} (attrs : list Z) (k : nat) (element_attrs : list Z)
  (num_attr : nat) : Prop :=
  length element_attrs = BTRC_MAX_ELEM_ATTR_SIZE /\
  (num_attr <= AVRC_MAX_NUM_MEDIA_ATTR_ID)%nat /\
  NoDup (take num_attr element_attrs) /\
  (forall a, a ∈ take num_attr element_attrs <->
             a ∈ take k attrs /\ 0 < a <= Z.of_nat AVRC_MAX_NUM_MEDIA_ATTR_ID) /\
  drop num_attr element_attrs = replicate (BTRC_MAX_ELEM_ATTR_SIZE - num_attr) 0.

(** ** States of the witnesses *)

Section WitnessStates.
#[local] Existing Instance reference_defs.
#[local] Existing Instance reference_target_defs.

(** A connection event of the peer with address 1, the peer of the
    stream, on handle 1. *)
Definition rc_open_with (peer_features : Z) : tBTA_AV_RC_OPEN :=
  {| open_rc_handle := 1; open_peer_features := peer_features; open_peer_addr := 1;
     open_status := 0 |}.

(** The target role: [init], then the connection of a peer with the
    features RCTG and ADV_CTRL.  The connection registers for the volume
    event under label 0. *)
Definition tg_state : rc_state :=
  state_after (handle_rc_connect (rc_open_with 513))
    (state_after init (boot_state reference_env)).

(** The controller role: [init_ctrl], then the connection of a peer with
    the feature RCTG. *)
Definition ct_state : rc_state :=
  state_after (handle_rc_connect (rc_open_with 1))
    (state_after init_ctrl (boot_state reference_env)).

(** The controller with GET_PLAY_STATUS outstanding under label 0. *)
Definition ct_state_waiting : rc_state :=
  state_after (lift get_play_status_cmd) ct_state.

(** The target role with a PLAY queued. *)
Definition tg_state_queued : rc_state := set_rc_pending_play true tg_state.

(** The target role when the features of the peer arrive: [init], then
    the connection written to the control block, nothing registered. *)
Definition tg_state_opening : rc_state :=
  let s := state_after init (boot_state reference_env) in
  set_rc_cb
    (set_rc_handle 1
       (set_rc_connected true (set_rc_features 513 (set_rc_addr 1 (rc_cb s))))) s.

(** The close event of the connection of the witnesses. *)
Definition rc_close_peer : tBTA_AV_RC_CLOSE :=
  {| close_rc_handle := 1; close_peer_addr := 1 |}.

End WitnessStates.

(** ** Messages of the witnesses *)

Section WitnessMessages.
#[local] Existing Instance reference_defs.
#[local] Existing Instance reference_target_defs.

(** A command as the parser fills it, all members zero but the PDU. *)
Definition command_in (pdu : avrc_pdu) : tAVRC_COMMAND_IN :=
  {| in_pdu := pdu; in_opcode := 0; in_elem_num_attr := 0; in_elem_attrs := [];
     in_reg_event_id := AVRC_EVT_OTHER 0; in_reg_param := 0; in_target_pdu := 0;
     in_volume := 0 |}.

(** REGISTER_NOTIFICATION for an event, with its parameter. *)
Definition reg_notif_in (ev : avrc_evt) (param : Z) : tAVRC_COMMAND_IN :=
  {| in_pdu := AVRC_PDU_REGISTER_NOTIFICATION; in_opcode := 0; in_elem_num_attr := 0;
     in_elem_attrs := []; in_reg_event_id := ev; in_reg_param := param;
     in_target_pdu := 0; in_volume := 0 |}.

(** SET_ABSOLUTE_VOLUME with its volume. *)
Definition set_volume_in (volume : Z) : tAVRC_COMMAND_IN :=
  {| in_pdu := AVRC_PDU_SET_ABSOLUTE_VOLUME; in_opcode := 0; in_elem_num_attr := 0;
     in_elem_attrs := []; in_reg_event_id := AVRC_EVT_OTHER 0; in_reg_param := 0;
     in_target_pdu := 0; in_volume := volume |}.

(** A vendor command of the peer on handle 1, as [btif_rc_handler]
    receives it; the response parsers have nothing to say about it. *)
Definition command_msg (label : nat) (code : Z) (cmd : tAVRC_COMMAND_IN)
  : tBTA_AV_META_MSG_IN :=
  {| meta := {| msg_rc_handle := 1; msg_len := 8; msg_label := label; msg_code := code;
                msg_opcode := AVRC_OP_VENDOR; parse_status := AVRC_STS_NO_ERROR;
                parsed := rsp_other 0 |};
     pars_command_status := AVRC_STS_NO_ERROR; pars_command := cmd;
     ctrl_pars_command_status := AVRC_STS_NO_ERROR; ctrl_pars_command := cmd |}.

(** A vendor response of the peer on handle 1. *)
Definition response_msg (label : nat) (code : Z) (r : tAVRC_RESPONSE)
  : tBTA_AV_META_MSG_IN :=
  {| meta := {| msg_rc_handle := 1; msg_len := 8; msg_label := label; msg_code := code;
                msg_opcode := AVRC_OP_VENDOR; parse_status := AVRC_STS_NO_ERROR;
                parsed := r |};
     pars_command_status := AVRC_STS_NO_ERROR;
     pars_command := command_in (rsp_pdu r);
     ctrl_pars_command_status := AVRC_STS_NO_ERROR;
     ctrl_pars_command := command_in (rsp_pdu r) |}.

End WitnessMessages.

(** What [send_key] writes to the uinput device for one key event,
    newest first: nothing without a device. *)
Definition key_event (fd : Z) (key : uinput_key) (pressed : Z) : list rc_call :=
  if fd <? 0 then []
  else [uinput_write fd EV_SYN_REPORT 0; uinput_write fd (EV_KEY key) pressed].

(** The key events among the calls of a log. *)
Definition is_key_write (c : rc_call) : bool :=
  match c with
  | uinput_write _ (EV_KEY _) _ => true
  | _ => false
  end.

Definition key_writes (l : list rc_call) : list rc_call := List.filter is_key_write l.

(** A pass-through command of the peer is not held back: it is no PLAY
    without a stream connection, no PAUSE that cancels a queued PLAY and
    no STOP without a started stream. *)
Definition key_passes (id : avrc_op_id) (s : rc_state) : Prop :=
  (id = AVRC_ID_PLAY -> btif_av_is_connected (env s) = true) /\
  (id = AVRC_ID_PAUSE -> rc_pending_play s = false) /\
  (id = AVRC_ID_STOP -> btif_av_stream_started_ready (env s) = true).

(** Absolute volume is switched off for the peer: an interoperability
    entry for its address, the system property, or a stream connection
    to another address. *)
Definition absvol_disabled (s : rc_state) : bool :=
  interop_disable_absolute_volume (env s) (rc_addr (rc_cb s))
  || persist_bluetooth_disableabsvol (env s)
  || negb (btif_av_get_addr (env s) =? rc_addr (rc_cb s)).

(** The registration for the volume event is outstanding: the volume
    label is a label in use. *)
Definition volume_registration_outstanding (s : rc_state) : Prop :=
  rc_vol_label (rc_cb s) <> MAX_LABEL /\ label_in_use (rc_vol_label (rc_cb s)) (rc_device s).

(** ** Everything that can be asked of the module

    The events of the stack, the expiry of an alarm, and the functions of
    [bt_rc_interface] and [bt_rc_ctrl_interface]. *)

(** A call keeps a property of the label table whenever it returns. *)
Definition rc_keeps (P : rc_device_t -> Prop) {A : Type} (m : RC A) : Prop :=
  forall s a s', m s = Some (a, s') -> P (rc_device s) -> P (rc_device s').

Section Requests.
Context `{TargetDefs}.
Local Open Scope rc_scope.

Inductive rc_request : Type :=
| req_event (p_data : tBTA_AV)
| req_check_pending_play (bSendToApp : bool)
| req_txn_alarm (p_txn : nat)
| req_play_status_alarm
| req_init
| req_init_ctrl
| req_cleanup
| req_cleanup_ctrl
| req_get_play_status_rsp (play_status song_len song_pos : Z)
| req_get_element_attr_rsp (num_attr : nat) (p_attrs : list btrc_element_attr_val_t)
| req_register_notification_rsp (event_id : avrc_evt) (type : btrc_notification_type_t)
    (p_param : btrc_register_notification_t)
| req_set_volume (volume : Z)
| req_send_passthrough_cmd (key_code key_state : Z)
| req_send_groupnavigation_cmd (key_code key_state : Z)
| req_change_player_app_setting (num_attrib : nat) (attrib_ids attrib_vals : list Z)
| req_set_volume_rsp (abs_vol : Z) (label : nat)
| req_volume_change_notification_rsp (rsp_type : btrc_notification_type_t) (abs_vol : Z)
    (label : nat).

(** The status a function of the interface returns is dropped. *)
Definition rc_request_run (r : rc_request) : RC unit :=
  match r with
  | req_event p_data => btif_rc_handler p_data
  | req_check_pending_play bSendToApp => btif_rc_check_handle_pending_play bSendToApp
  | req_txn_alarm p_txn => lift (txn_timer_expired p_txn)
  | req_play_status_alarm => lift play_status_timer_expired
  | req_init => do _ <- init; rc_ret tt
  | req_init_ctrl => do _ <- init_ctrl; rc_ret tt
  | req_cleanup => cleanup
  | req_cleanup_ctrl => cleanup_ctrl
  | req_get_play_status_rsp play_status song_len song_pos =>
      do _ <- get_play_status_rsp play_status song_len song_pos; rc_ret tt
  | req_get_element_attr_rsp num_attr p_attrs =>
      do _ <- get_element_attr_rsp num_attr p_attrs; rc_ret tt
  | req_register_notification_rsp event_id type p_param =>
      do _ <- register_notification_rsp event_id type p_param; rc_ret tt
  | req_set_volume volume => do _ <- set_volume volume; rc_ret tt
  | req_send_passthrough_cmd key_code key_state =>
      do _ <- send_passthrough_cmd key_code key_state; rc_ret tt
  | req_send_groupnavigation_cmd key_code key_state =>
      do _ <- send_groupnavigation_cmd key_code key_state; rc_ret tt
  | req_change_player_app_setting num_attrib attrib_ids attrib_vals =>
      do _ <- change_player_app_setting num_attrib attrib_ids attrib_vals; rc_ret tt
  | req_set_volume_rsp abs_vol label => do _ <- set_volume_rsp abs_vol label; rc_ret tt
  | req_volume_change_notification_rsp rsp_type abs_vol label =>
      do _ <- volume_change_notification_rsp rsp_type abs_vol label; rc_ret tt
  end.

Fixpoint rc_requests_run (rs : list rc_request) : RC unit :=
  match rs with
  | [] => rc_ret tt
  | r :: rs' =>
      run rc_request_run r;
      rc_requests_run rs'
  end.

End Requests.

Section WitnessRequests.
#[local] Existing Instance reference_defs.
#[local] Existing Instance reference_target_defs.

(** A session of the target role: [init], the connection of a peer with
    RCTG and ADV_CTRL, a volume set by the application, a pass-through
    command sent, an expiry of the alarm of label 0, and the end of the
    connection. *)
Definition session_requests : list rc_request :=
  [req_init; req_event (BTA_AV_RC_OPEN_EVT (rc_open_with 513)); req_set_volume 10;
   req_send_passthrough_cmd 68 0; req_txn_alarm 0;
   req_event (BTA_AV_RC_CLOSE_EVT rc_close_peer)].

End WitnessRequests.
(** ** The transaction pool *)

Lemma in_use_count_le (d : rc_device_t) : (in_use_count d <= length d)%nat.
Proof. induction d as [|t d IH]; simpl; [lia|]. destruct (in_use t); lia. Qed.

Lemma in_use_count_full (d : rc_device_t) :
  in_use_count d = length d -> forall i t, d !! i = Some t -> in_use t = true.
Proof.
  induction d as [|a d IH]; simpl; intros Hc i t Hi; [done|].
  pose proof (in_use_count_le d) as Hle.
  destruct (in_use a) eqn:Ha; [|lia].
  destruct i as [|i]; simpl in Hi.
  - congruence.
  - apply (IH ltac:(lia) i t Hi).
Qed.

Lemma first_unused_none (i n : nat) (d : rc_device_t) :
  (forall j t, d !! j = Some t -> in_use t = true) -> first_unused i n d = None.
Proof.
  intros Hall. revert i. induction n as [|n IH]; intros i; simpl; [done|].
  destruct (d !! i) as [t|] eqn:Hi; [|done].
  rewrite (Hall i t Hi). apply IH.
Qed.

Lemma first_unused_some (i n k : nat) (d : rc_device_t) :
  first_unused i n d = Some k ->
  (i <= k < i + n)%nat /\
  (exists t, d !! k = Some t /\ in_use t = false) /\
  (forall j, (i <= j < k)%nat -> exists t, d !! j = Some t /\ in_use t = true).
Proof.
  revert i. induction n as [|n IH]; intros i; simpl; [done|].
  destruct (d !! i) as [t|] eqn:Hi; [|done].
  destruct (in_use t) eqn:Ht.
  - intros Hk. destruct (IH _ Hk) as (Hr & Hf & Hb).
    split; [lia|]. split; [done|].
    intros j Hj. destruct (decide (j = i)) as [->|Hne]; [eauto|].
    apply Hb. lia.
  - intros [= <-]. split; [lia|]. split; [eauto|]. intros j Hj. lia.
Qed.

Lemma first_unused_find (i n k : nat) (d : rc_device_t) (t : rc_transaction_t) :
  (i <= k < i + n)%nat -> d !! k = Some t -> in_use t = false ->
  (forall j, (i <= j < k)%nat -> exists t', d !! j = Some t' /\ in_use t' = true) ->
  first_unused i n d = Some k.
Proof.
  revert i. induction n as [|n IH]; intros i Hr Hk Ht Hb; [lia|]. simpl.
  destruct (decide (i = k)) as [->|Hne].
  - rewrite Hk, Ht. done.
  - destruct (Hb i ltac:(lia)) as (t' & Hi & Hu). rewrite Hi, Hu.
    apply IH; [lia|done|done|]. intros j Hj. apply Hb. lia.
Qed.

Lemma get_transaction_by_lbl_some (l i : nat) (d : rc_device_t) :
  get_transaction_by_lbl l d = Some i ->
  i = l /\ (l < MAX_TRANSACTIONS_PER_SESSION)%nat /\ label_in_use l d.
Proof.
  unfold get_transaction_by_lbl, label_in_use.
  destruct (l <? _)%nat eqn:Hl; [|done].
  apply Nat.ltb_lt in Hl.
  destruct (d !! l) as [t|] eqn:Hd; [|done].
  destruct (in_use t) eqn:Ht; [|done].
  intros [= <-]. eauto.
Qed.

Lemma get_transaction_by_lbl_in_use (l : nat) (d : rc_device_t) :
  (l < MAX_TRANSACTIONS_PER_SESSION)%nat -> label_in_use l d ->
  get_transaction_by_lbl l d = Some l.
Proof.
  intros Hl (t & Hd & Ht). unfold get_transaction_by_lbl.
  apply Nat.ltb_lt in Hl. rewrite Hl, Hd, Ht. done.
Qed.

Lemma get_transaction_by_lbl_none (l : nat) (d : rc_device_t) :
  get_transaction_by_lbl l d = None <->
  ~ ((l < MAX_TRANSACTIONS_PER_SESSION)%nat /\ label_in_use l d).
Proof.
  split.
  - intros Hn [Hl Hu]. rewrite (get_transaction_by_lbl_in_use l d Hl Hu) in Hn. done.
  - intros Hn. destruct (get_transaction_by_lbl l d) as [i|] eqn:Hg; [|done].
    destruct (get_transaction_by_lbl_some _ _ _ Hg) as (_ & Hl & Hu). tauto.
Qed.

Lemma clear_cmd_timeout_length (l : nat) (d : rc_device_t) :
  length (clear_cmd_timeout l d) = length d.
Proof.
  unfold clear_cmd_timeout. destruct (get_transaction_by_lbl l d); [|done].
  destruct (d !! n); [|done]. destruct (txn_timer r); [|done].
  apply length_insert.
Qed.

Lemma clear_cmd_timeout_lookup (l : nat) (d : rc_device_t) (t : rc_transaction_t) :
  (l < MAX_TRANSACTIONS_PER_SESSION)%nat -> d !! l = Some t -> in_use t = true ->
  clear_cmd_timeout l d !! l = Some (set_txn_timer (alarm_cancel (txn_timer t)) t).
Proof.
  intros Hl Hd Ht. unfold clear_cmd_timeout.
  rewrite (get_transaction_by_lbl_in_use l d Hl) by (exists t; done).
  rewrite Hd. destruct (txn_timer t) eqn:Htm; cbn.
  - rewrite list_lookup_insert_eq; [done|]. by eapply lookup_lt_Some.
  - rewrite Hd. destruct t; simpl in *. subst. done.
Qed.

Lemma clear_cmd_timeout_other (l j : nat) (d : rc_device_t) :
  j <> l -> clear_cmd_timeout l d !! j = d !! j.
Proof.
  intros Hne. unfold clear_cmd_timeout.
  destruct (get_transaction_by_lbl l d) as [i|] eqn:Hg; [|done].
  apply get_transaction_by_lbl_some in Hg as (-> & _ & _).
  destruct (d !! l); [|done]. destruct (txn_timer r); [|done].
  by rewrite list_lookup_insert_ne.
Qed.

Lemma initialize_transaction_length (l : nat) (d : rc_device_t) :
  length (initialize_transaction l d) = length d.
Proof.
  unfold initialize_transaction. destruct (l <? _)%nat; [|done].
  destruct (d !! l) as [t|]; [|done].
  destruct (alarm_is_scheduled (txn_timer t)).
  - destruct (clear_cmd_timeout l d !! l);
      rewrite ?length_insert; apply clear_cmd_timeout_length.
  - destruct (d !! l); rewrite ?length_insert; done.
Qed.

Lemma initialize_transaction_other (l j : nat) (d : rc_device_t) :
  j <> l -> initialize_transaction l d !! j = d !! j.
Proof.
  intros Hne. unfold initialize_transaction. destruct (l <? _)%nat; [|done].
  destruct (d !! l) as [t|]; [|done].
  destruct (alarm_is_scheduled (txn_timer t)).
  - destruct (clear_cmd_timeout l d !! l);
      rewrite ?list_lookup_insert_ne by done; by apply clear_cmd_timeout_other.
  - destruct (d !! l); rewrite ?list_lookup_insert_ne by done; done.
Qed.

(** What [initialize_transaction] leaves in the slot of an in-use label:
    the label, no user, handle zero, the old timer context, and the old
    alarm, cancelled if it was set. *)
Lemma initialize_transaction_lookup (l : nat) (d : rc_device_t) (t : rc_transaction_t) :
  (l < MAX_TRANSACTIONS_PER_SESSION)%nat -> d !! l = Some t -> in_use t = true ->
  initialize_transaction l d !! l =
    Some {| in_use := false; lbl := l; handle := 0;
            txn_timer_context := txn_timer_context t;
            txn_timer := if alarm_is_scheduled (txn_timer t)
                         then Some alarm_idle else txn_timer t |}.
Proof.
  intros Hl Hd Ht. unfold initialize_transaction.
  pose proof (lookup_lt_Some _ _ _ Hd) as Hlen.
  apply Nat.ltb_lt in Hl as Hl'. rewrite Hl', Hd.
  destruct (alarm_is_scheduled (txn_timer t)) eqn:Hs.
  - rewrite (clear_cmd_timeout_lookup l d t Hl Hd Ht).
    rewrite list_lookup_insert_eq by (rewrite clear_cmd_timeout_length; done).
    simpl. destruct (txn_timer t) as [[|]|]; simpl in *; done.
  - rewrite Hd. rewrite list_lookup_insert_eq by done. done.
Qed.

Lemma release_transaction_length (l : nat) (d : rc_device_t) :
  length (release_transaction l d) = length d.
Proof.
  unfold release_transaction. destruct (get_transaction_by_lbl l d); [|done].
  apply initialize_transaction_length.
Qed.

Lemma release_transaction_other (l j : nat) (d : rc_device_t) :
  j <> l -> release_transaction l d !! j = d !! j.
Proof.
  intros Hne. unfold release_transaction. destruct (get_transaction_by_lbl l d); [|done].
  by apply initialize_transaction_other.
Qed.

Lemma release_transaction_lookup (l : nat) (d : rc_device_t) (t : rc_transaction_t) :
  (l < MAX_TRANSACTIONS_PER_SESSION)%nat -> d !! l = Some t -> in_use t = true ->
  release_transaction l d !! l =
    Some {| in_use := false; lbl := l; handle := 0;
            txn_timer_context := txn_timer_context t;
            txn_timer := if alarm_is_scheduled (txn_timer t)
                         then Some alarm_idle else txn_timer t |}.
Proof.
  intros Hl Hd Ht. unfold release_transaction.
  rewrite (get_transaction_by_lbl_in_use l d Hl) by (exists t; done).
  by apply initialize_transaction_lookup.
Qed.

Lemma release_transaction_free (l : nat) (d : rc_device_t) :
  get_transaction_by_lbl l d = None -> release_transaction l d = d.
Proof. intros Hn. unfold release_transaction. by rewrite Hn. Qed.

(** After a release the label is not in use, whatever the table was. *)
Lemma release_transaction_not_in_use (l : nat) (d : rc_device_t) :
  get_transaction_by_lbl l (release_transaction l d) = None.
Proof.
  destruct (get_transaction_by_lbl l d) as [i|] eqn:Hg.
  - apply get_transaction_by_lbl_some in Hg as (_ & Hl & (t & Hd & Ht)).
    apply get_transaction_by_lbl_none. intros [_ (t' & Hd' & Ht')].
    rewrite (release_transaction_lookup l d t Hl Hd Ht) in Hd'.
    injection Hd' as <-. done.
  - by rewrite release_transaction_free.
Qed.

Lemma release_transaction_wf (l : nat) (d : rc_device_t) :
  pool_wf d -> pool_wf (release_transaction l d).
Proof.
  intros [Hlen Hlbl]. split; [by rewrite release_transaction_length|].
  intros i t Hi. destruct (decide (i = l)) as [->|Hne].
  - destruct (get_transaction_by_lbl l d) as [k|] eqn:Hg.
    + apply get_transaction_by_lbl_some in Hg as (_ & Hl & (t0 & Hd & Ht)).
      rewrite (release_transaction_lookup l d t0 Hl Hd Ht) in Hi.
      injection Hi as <-. done.
    + rewrite release_transaction_free in Hi by done. by apply Hlbl.
  - rewrite release_transaction_other in Hi by done. by apply Hlbl.
Qed.

Lemma clear_cmd_timeout_wf (l : nat) (d : rc_device_t) :
  pool_wf d -> pool_wf (clear_cmd_timeout l d).
Proof.
  intros [Hlen Hlbl]. split; [by rewrite clear_cmd_timeout_length|].
  intros i t Hi. destruct (decide (i = l)) as [->|Hne].
  - destruct (get_transaction_by_lbl l d) as [k|] eqn:Hg.
    + apply get_transaction_by_lbl_some in Hg as (_ & Hl & (t0 & Hd & Ht)).
      rewrite (clear_cmd_timeout_lookup l d t0 Hl Hd Ht) in Hi.
      injection Hi as <-. simpl. by apply Hlbl.
    + unfold clear_cmd_timeout in Hi. rewrite Hg in Hi. by apply Hlbl.
  - rewrite clear_cmd_timeout_other in Hi by done. by apply Hlbl.
Qed.

Lemma arm_txn_timer_length cb ms pdu (p : nat) (d : rc_device_t) :
  length (arm_txn_timer cb ms pdu p d) = length d.
Proof. unfold arm_txn_timer. destruct (d !! p); [apply length_insert|done]. Qed.

Lemma arm_txn_timer_other cb ms pdu (p j : nat) (d : rc_device_t) :
  j <> p -> arm_txn_timer cb ms pdu p d !! j = d !! j.
Proof.
  intros Hne. unfold arm_txn_timer. destruct (d !! p); [|done].
  by rewrite list_lookup_insert_ne.
Qed.

Lemma arm_txn_timer_wf cb ms pdu (p : nat) (d : rc_device_t) :
  pool_wf d -> pool_wf (arm_txn_timer cb ms pdu p d).
Proof.
  intros [Hlen Hlbl]. split; [by rewrite arm_txn_timer_length|].
  intros i t Hi. destruct (decide (i = p)) as [->|Hne].
  - unfold arm_txn_timer in Hi. destruct (d !! p) as [t0|] eqn:Hp.
    + rewrite list_lookup_insert_eq in Hi by (by eapply lookup_lt_Some).
      injection Hi as <-. simpl. by apply Hlbl.
    + by apply Hlbl.
  - rewrite arm_txn_timer_other in Hi by done. by apply Hlbl.
Qed.

Lemma lbl_init_wf : pool_wf lbl_init.
Proof.
  split; [reflexivity|].
  intros i t Hi.
  assert (Hlt : (i < 16)%nat) by (apply lookup_lt_Some in Hi; exact Hi).
  do 16 (destruct i as [|i]; [vm_compute in Hi; injection Hi as <-; reflexivity|]).
  lia.
Qed.

Section PoolCapacity.
Context `{AvrcDefs}.

Lemma get_transaction_length (d : rc_device_t) :
  length (get_transaction d).2 = length d.
Proof.
  unfold get_transaction. destruct (first_unused _ _ d) as [i|]; [|done].
  destruct (d !! i); [|done]. simpl. apply length_insert.
Qed.

Lemma get_transaction_wf (d : rc_device_t) :
  pool_wf d -> pool_wf (get_transaction d).2.
Proof.
  intros [Hlen Hlbl]. split; [by rewrite get_transaction_length|].
  unfold get_transaction. destruct (first_unused _ _ d) as [k|]; [|done].
  destruct (d !! k) as [t0|] eqn:Hk; [|done]. simpl.
  intros i t Hi. destruct (decide (i = k)) as [->|Hne].
  - rewrite list_lookup_insert_eq in Hi by (by eapply lookup_lt_Some).
    injection Hi as <-. simpl. by apply Hlbl.
  - rewrite list_lookup_insert_ne in Hi by done. by apply Hlbl.
Qed.

Lemma run_pool_ops_wf (ops : list pool_op) (d : rc_device_t) :
  pool_wf d -> pool_wf (run_pool_ops ops d).
Proof.
  revert d. induction ops as [|op ops IH]; intros d Hwf; [done|].
  simpl. apply IH. destruct op; simpl.
  - by apply get_transaction_wf.
  - by apply release_transaction_wf.
Qed.

Lemma get_transaction_exhausted (d : rc_device_t) :
  (forall j t, d !! j = Some t -> in_use t = true) ->
  get_transaction d = (BT_STATUS_NOMEM, None, d).
Proof.
  intros Hall. unfold get_transaction. by rewrite first_unused_none.
Qed.

Lemma get_transaction_first (d : rc_device_t) (k : nat) (t : rc_transaction_t) :
  (k < MAX_TRANSACTIONS_PER_SESSION)%nat -> d !! k = Some t -> in_use t = false ->
  (forall j, (j < k)%nat -> exists t', d !! j = Some t' /\ in_use t' = true) ->
  get_transaction d = (BT_STATUS_SUCCESS, Some k, <[k := set_in_use true t]> d).
Proof.
  intros Hk Hd Ht Hb. unfold get_transaction.
  rewrite (first_unused_find 0 _ k d t); [by rewrite Hd|lia|done|done|].
  intros j Hj. apply Hb. lia.
Qed.

(** C1.  In every table reached from [lbl_init] by calls of
    [get_transaction] and [release_transaction], at most sixteen labels
    are in use; when all sixteen are, [get_transaction] returns
    [BT_STATUS_NOMEM] and leaves the table as it was; and after the
    release of any one label the next [get_transaction] succeeds and
    hands out a slot that was free, the one just released. *)
Theorem C1_pool_capacity (ops : list pool_op) :
  let d := run_pool_ops ops lbl_init in
  (in_use_count d <= 16)%nat /\
  (in_use_count d = 16%nat -> get_transaction d = (BT_STATUS_NOMEM, None, d)) /\
  (in_use_count d = 16%nat -> forall l, (l < 16)%nat ->
     let d1 := release_transaction l d in
     exists t, d1 !! l = Some t /\ in_use t = false /\ lbl t = l /\
       get_transaction d1 = (BT_STATUS_SUCCESS, Some l, <[l := set_in_use true t]> d1)).
Proof.
  intros d.
  assert (Hwf : pool_wf d) by (apply run_pool_ops_wf, lbl_init_wf).
  destruct Hwf as [Hlen Hlbl].
  assert (Hfull : in_use_count d = 16%nat ->
                  forall j t, d !! j = Some t -> in_use t = true).
  { intros Hc. apply in_use_count_full. by rewrite Hlen. }
  split; [|split].
  - pose proof (in_use_count_le d) as Hle. rewrite Hlen in Hle. exact Hle.
  - intros Hc. by apply get_transaction_exhausted, Hfull.
  - intros Hc l Hl d1.
    destruct (lookup_lt_is_Some_2 d l) as [t Hd]; [rewrite Hlen; exact Hl|].
    pose proof (Hfull Hc l t Hd) as Ht.
    pose proof (release_transaction_lookup l d t Hl Hd Ht) as Hl1.
    eexists. split; [exact Hl1|]. split; [done|]. split; [done|].
    apply get_transaction_first; [exact Hl|exact Hl1|done|].
    intros j Hj. unfold d1. rewrite release_transaction_other by lia.
    destruct (lookup_lt_is_Some_2 d j) as [t' Hd']; [rewrite Hlen; unfold MAX_TRANSACTIONS_PER_SESSION; lia|].
    exists t'. split; [done|]. by eapply Hfull.
Qed.

(** The time-out as one step is the callback followed at once by the
    handler it posts. *)
Lemma txn_timer_expired_hand_over (p : nat) (w : world) :
  txn_timer_expired p w =
    (do c <- txn_timer_fires p;
     match c with
     | Some c => btif_posted_run c
     | None => ret tt
     end) w.
Proof.
  unfold txn_timer_expired, txn_timer_fires, bind, get_device, array_get.
  destruct (device w !! p) as [t|]; [|done]. simpl.
  destruct (txn_timer t) as [[|cb ms]|]; try done. simpl. by destruct cb.
Qed.

(** [release_transaction] on a label in use leaves its slot unused with
    no alarm set and does not touch the other slots, so that the alarm of
    the slot posts nothing from then on; on a label that is not in use it
    leaves the whole table as it was, and releasing twice is releasing
    once. *)
Lemma release_transaction_cancels (d : rc_device_t) (l : nat) :
  (forall t, (l < 16)%nat -> d !! l = Some t -> in_use t = true ->
     exists t', release_transaction l d !! l = Some t' /\
       in_use t' = false /\ lbl t' = l /\ handle t' = 0 /\
       alarm_is_scheduled (txn_timer t') = false /\
       (forall j, j <> l -> release_transaction l d !! j = d !! j) /\
       (forall w, device w = release_transaction l d ->
                  txn_timer_fires l w = Some (None, w))) /\
  (get_transaction_by_lbl l d = None -> release_transaction l d = d) /\
  release_transaction l (release_transaction l d) = release_transaction l d.
Proof.
  split; [|split].
  - intros t Hl Hd Ht.
    pose proof (release_transaction_lookup l d t Hl Hd Ht) as Hr.
    eexists. split; [exact Hr|]. simpl.
    assert (Hs : alarm_is_scheduled
                   (if alarm_is_scheduled (txn_timer t) then Some alarm_idle
                    else txn_timer t) = false).
    { destruct (alarm_is_scheduled (txn_timer t)) eqn:E; [done|exact E]. }
    repeat split; try done.
    + intros j Hj. by apply release_transaction_other.
    + intros w Hw. unfold txn_timer_fires, bind, get_device, array_get.
      rewrite Hw, Hr. simpl.
      destruct (alarm_is_scheduled (txn_timer t)) eqn:E; [done|].
      destruct (txn_timer t) as [[|]|]; simpl in *; done.
  - apply release_transaction_free.
  - apply release_transaction_free, release_transaction_not_in_use.
Qed.

End PoolCapacity.

Section PoolWitnesses.
#[local] Existing Instance reference_defs.

Lemma C1_pool_capacity_witness :
  let d := run_pool_ops (replicate 16 Acquire) lbl_init in
  in_use_count d = 16%nat /\
  get_transaction d = (BT_STATUS_NOMEM, None, d) /\
  exists t, release_transaction 5 d !! 5%nat = Some t /\
    get_transaction (release_transaction 5 d) =
      (BT_STATUS_SUCCESS, Some 5%nat, <[5%nat := set_in_use true t]> (release_transaction 5 d)).
Proof.
  intros d.
  destruct (C1_pool_capacity (replicate 16 Acquire)) as (Hle & Hfull & Hrel).
  assert (Hc : in_use_count d = 16%nat) by (vm_compute; reflexivity).
  split; [exact Hc|]. split; [exact (Hfull Hc)|].
  destruct (Hrel Hc 5%nat ltac:(lia)) as (t & Ht & _ & _ & Hg). eauto.
Defined.

(** C7.  The time-out handler of a request can run after the label of
    the request was released.  GET_PLAY_STATUS goes out under label 0 and
    its alarm goes off: the callback posts the handler with the context
    of label 0.  Before the BTIF thread gets to it the response arrives,
    and the dispatcher releases label 0; the next GET_PLAY_STATUS takes
    label 0 again.  The posted handler then runs all the same: nothing in
    it asks whether the label is still the one of its request, and its
    [release_transaction] frees label 0 under the second request and
    cancels the alarm of that request.  [release_transaction] itself does
    what is said of it: the alarm of the released slot is not set, and a
    second release changes nothing. *)
Theorem C7_posted_timeout_runs_after_release :
  let w0 := connected_world reference_defs 0 in
  let rsp := meta_msg _ 0 (AVRC_RSP_IMPL_STBL _)
               (rsp_get_play_status {| play_status_status := AVRC_STS_NO_ERROR;
                                       song_len := 200; song_pos := 10 |}) in
  let posted := posted_status_cmd_timeout
                  {| ctx_label := 0; ctx_pdu_id := AVRC_PDU_GET_PLAY_STATUS |} in
  let slot w := (fun t => (in_use t, alarm_is_scheduled (txn_timer t))) <$> device w !! 0%nat in
  exists w1 w2 w3 w4 w5,
    get_play_status_cmd w0 = Some (BT_STATUS_SUCCESS, w1) /\
    slot w1 = Some (true, true) /\
    txn_timer_fires 0 w1 = Some (Some posted, w2) /\
    slot w2 = Some (true, false) /\
    handle_avk_rc_metamsg_rsp rsp w2 = Some (tt, w3) /\
    device w3 = release_transaction 0 (device w2) /\
    slot w3 = Some (false, false) /\
    txn_timer_fires 0 w3 = Some (None, w3) /\
    release_transaction 0 (device w3) = device w3 /\
    get_play_status_cmd w3 = Some (BT_STATUS_SUCCESS, w4) /\
    head (trace w4) = Some (BTA_AvVendorCmd 1 0 AVRC_CMD_STATUS cmd_get_play_status) /\
    slot w4 = Some (true, true) /\
    btif_posted_run posted w4 = Some (tt, w5) /\
    slot w5 = Some (false, false) /\
    in_use_count (device w5) = 0%nat.
Proof.
  intros w0 rsp posted slot.
  let r1 := eval vm_compute in (get_play_status_cmd w0) in
  lazymatch r1 with
  | Some (_, ?w1) =>
      exists w1;
      let r2 := eval vm_compute in (txn_timer_fires 0 w1) in
      lazymatch r2 with
      | Some (_, ?w2) =>
          exists w2;
          let r3 := eval vm_compute in (handle_avk_rc_metamsg_rsp rsp w2) in
          lazymatch r3 with
          | Some (_, ?w3) =>
              exists w3;
              let r4 := eval vm_compute in (get_play_status_cmd w3) in
              lazymatch r4 with
              | Some (_, ?w4) =>
                  exists w4;
                  let r5 := eval vm_compute in (btif_posted_run posted w4) in
                  lazymatch r5 with
                  | Some (_, ?w5) => exists w5
                  end
              end
          end
      end
  end.
  repeat split; vm_compute; reflexivity.
Qed.

End PoolWitnesses.

(** ** Reasoning about computations *)

Lemma run_bind_inv {A B : Type} (m : M A) (k : A -> M B) (w : world) (r : B * world) :
  bind m k w = Some r <-> exists a w1, m w = Some (a, w1) /\ k a w1 = Some r.
Proof.
  unfold bind. split.
  - destruct (m w) as [[a w1]|]; [eauto|done].
  - intros (a & w1 & -> & Hk). done.
Qed.

Lemma rel_ret (R : world -> world -> Prop) `{!Reflexive R} {A : Type} (a : A) :
  rel R (ret a).
Proof. intros w a' w' [= _ <-]. reflexivity. Qed.

Lemma rel_undefined (R : world -> world -> Prop) {A : Type} : rel R (@undefined A).
Proof. intros w a w' [=]. Qed.

Lemma rel_bind (R : world -> world -> Prop) `{!Transitive R} {A B : Type}
  (m : M A) (k : A -> M B) :
  rel R m -> (forall a, rel R (k a)) -> rel R (bind m k).
Proof.
  intros Hm Hk w b w' Hb. apply run_bind_inv in Hb as (a & w1 & H1 & H2).
  transitivity w1; [by eapply Hm|by eapply Hk].
Qed.

Lemma rel_readonly (R : world -> world -> Prop) `{!Reflexive R} {A : Type} (m : M A) :
  readonly m -> rel R m.
Proof. intros Hm w a w' Hw. rewrite (Hm _ _ _ Hw). reflexivity. Qed.

Lemma rel_weaken (R R' : world -> world -> Prop) {A : Type} (m : M A) :
  (forall w w', R w w' -> R' w w') -> rel R m -> rel R' m.
Proof. intros Himp Hm w a w' Hw. by eapply Himp, Hm. Qed.

Lemma readonly_ret {A : Type} (a : A) : readonly (ret a).
Proof. by intros w a' w' [= _ <-]. Qed.

Lemma readonly_undefined {A : Type} : readonly (@undefined A).
Proof. intros w a w' [=]. Qed.

Lemma readonly_bind {A B : Type} (m : M A) (k : A -> M B) :
  readonly m -> (forall a, readonly (k a)) -> readonly (bind m k).
Proof.
  intros Hm Hk w b w' Hb. apply run_bind_inv in Hb as (a & w1 & H1 & H2).
  rewrite (Hk _ _ _ _ H2). by eapply Hm.
Qed.

Lemma readonly_get_cb : readonly get_cb.
Proof. by intros w a w' [= _ <-]. Qed.

Lemma readonly_get_device : readonly get_device.
Proof. by intros w a w' [= _ <-]. Qed.

Lemma readonly_lift_option {A : Type} (o : option A) : readonly (lift_option o).
Proof. destruct o; [apply readonly_ret|apply readonly_undefined]. Qed.

Lemma readonly_array_get {A : Type} (l : list A) (i : nat) : readonly (array_get l i).
Proof.
  unfold array_get. destruct (l !! i); [apply readonly_ret|apply readonly_undefined].
Qed.

Lemma readonly_array_prefix {A : Type} (l : list A) (n : nat) : readonly (array_prefix l n).
Proof.
  unfold array_prefix. destruct (n <=? length l)%nat;
    [apply readonly_ret|apply readonly_undefined].
Qed.

Lemma readonly_supported_event_list : readonly supported_event_list.
Proof.
  apply readonly_bind; [apply readonly_get_cb|]. intros cb. apply readonly_lift_option.
Qed.

#[global] Instance G_refl (S : avrc_evt -> Prop) : Reflexive (G S).
Proof.
  intros w. split; try done. intros _. exists []. split; [done|constructor].
Qed.

#[global] Instance G_trans (S : avrc_evt -> Prop) : Transitive (G S).
Proof.
  intros w1 w2 w3 [c1 s1 e1 t1 p1] [c2 s2 e2 t2 p2]. split; [auto..| |auto].
  intros Hok. destruct (t1 Hok) as (d1 & Ht1 & Hf1).
  destruct (t2 (e1 Hok)) as (d2 & Ht2 & Hf2).
  exists (d2 ++ d1). split; [by rewrite Ht2, Ht1, app_assoc|by apply Forall_app].
Qed.

#[global] Instance K_refl : Reflexive K.
Proof. intros w Hwf. done. Qed.

#[global] Instance K_trans : Transitive K.
Proof.
  intros w1 w2 w3 H12 H23 Hwf. destruct (H12 Hwf) as [Hwf2 Hk2].
  destruct (H23 Hwf2) as [Hwf3 Hk3]. split; [done|].
  intros j t Hj Ht. apply Hk3; [by apply Hk2|done].
Qed.

#[global] Instance GK_refl (S : avrc_evt -> Prop) : Reflexive (GK S).
Proof. intros w. split; reflexivity. Qed.

#[global] Instance GK_trans (S : avrc_evt -> Prop) : Transitive (GK S).
Proof. intros w1 w2 w3 [? ?] [? ?]. split; etransitivity; eauto. Qed.

(** Writes to the control block. *)
Lemma rel_modify_cb (S : avrc_evt -> Prop) (f : btif_rc_cb_t -> btif_rc_cb_t) :
  (forall cb, rc_procedure_complete cb = true -> rc_procedure_complete (f cb) = true) ->
  (forall cb, query_started (rc_app_settings cb) = true ->
              query_started (rc_app_settings (f cb)) = true) ->
  (forall cb l', rc_supported_event_list (f cb) = Some l' ->
                 (forall l, rc_supported_event_list cb = Some l ->
                            Forall S (fmap event_id l)) ->
                 Forall S (fmap event_id l')) ->
  rel (GK S) (modify_cb f).
Proof.
  intros Hc Hs He w a w' [= _ <-]. split; [|by intros Hwf].
  split; simpl; unfold procedure_complete, app_query_started; simpl; auto.
  - intros Hok l' Hl'. by eapply He.
  - intros _. exists []. split; [done|constructor].
Qed.

Lemma rel_emit (S : avrc_evt -> Prop) (e : effect) :
  reg_cmd_event e = None -> rel (GK S) (emit e).
Proof.
  intros He w a w' [= _ <-]. split; [|by intros Hwf].
  split; simpl; auto.
  intros _. exists [e]. split; [done|]. constructor; [|constructor].
  intros ev Hev. congruence.
Qed.

Lemma rel_update_event_list (S : avrc_evt -> Prop)
  (f : list btif_rc_supported_event_t -> option (list btif_rc_supported_event_t)) :
  (forall l l', f l = Some l' -> Forall S (fmap event_id l) -> Forall S (fmap event_id l')) ->
  rel (GK S) (update_event_list f).
Proof.
  intros Hf w a w' Hw. unfold update_event_list in Hw.
  apply run_bind_inv in Hw as (l & w1 & H1 & Hw).
  apply run_bind_inv in Hw as (l1 & w2 & H2 & Hw).
  pose proof (readonly_supported_event_list _ _ _ H1) as ->.
  pose proof (readonly_lift_option _ _ _ _ H2) as ->.
  unfold supported_event_list, bind, get_cb, lift_option in H1.
  destruct (rc_supported_event_list (btif_rc_cb w)) as [l0|] eqn:Hl0; [|done].
  injection H1 as <-.
  destruct (f l0) as [l1'|] eqn:Hfl; [|done]. injection H2 as <-.
  injection Hw as _ <-. split; [|by intros Hwf].
  split; simpl; unfold procedure_complete, app_query_started, events_ok; simpl; auto.
  - intros Hok l' [= <-]. eapply Hf; [done|]. by apply Hok.
  - intros _. exists []. split; [done|constructor].
Qed.

Lemma rel_update_app_settings (S : avrc_evt -> Prop)
  (f : btif_rc_player_app_settings_t -> option btif_rc_player_app_settings_t) :
  (forall s s', f s = Some s' -> query_started s = true -> query_started s' = true) ->
  rel (GK S) (update_app_settings f).
Proof.
  intros Hf w a w' Hw. unfold update_app_settings, bind, get_cb, lift_option in Hw.
  destruct (f (rc_app_settings (btif_rc_cb w))) as [s'|] eqn:Hfs; [|done].
  injection Hw as _ <-. split; [|by intros Hwf].
  split; simpl; unfold procedure_complete, app_query_started, events_ok; simpl; auto.
  - by apply Hf.
  - intros _. exists []. split; [done|constructor].
Qed.

(** Inversion of a run, one primitive at a time. *)
Lemma get_cb_inv (w w1 : world) (a : btif_rc_cb_t) :
  get_cb w = Some (a, w1) -> a = btif_rc_cb w /\ w1 = w.
Proof. by intros [= <- <-]. Qed.

Lemma get_device_inv (w w1 : world) (a : list rc_transaction_t) :
  get_device w = Some (a, w1) -> a = device w /\ w1 = w.
Proof. by intros [= <- <-]. Qed.

Lemma ret_inv {A : Type} (x a : A) (w w1 : world) :
  ret x w = Some (a, w1) -> a = x /\ w1 = w.
Proof. by intros [= <- <-]. Qed.

Lemma lift_option_inv {A : Type} (o : option A) (a : A) (w w1 : world) :
  lift_option o w = Some (a, w1) -> o = Some a /\ w1 = w.
Proof. destruct o; [by intros [= <- <-]|done]. Qed.

Lemma array_get_inv {A : Type} (l : list A) (i : nat) (a : A) (w w1 : world) :
  array_get l i w = Some (a, w1) -> l !! i = Some a /\ w1 = w.
Proof. unfold array_get. destruct (l !! i); [by intros [= <- <-]|done]. Qed.

Lemma array_prefix_inv {A : Type} (l : list A) (n : nat) (a : list A) (w w1 : world) :
  array_prefix l n w = Some (a, w1) -> (n <= length l)%nat /\ a = take n l /\ w1 = w.
Proof.
  unfold array_prefix. destruct (n <=? length l)%nat eqn:Hn; [|done].
  apply Nat.leb_le in Hn. by intros [= <- <-].
Qed.

Lemma supported_event_list_inv (l : list btif_rc_supported_event_t) (w w1 : world) :
  supported_event_list w = Some (l, w1) ->
  rc_supported_event_list (btif_rc_cb w) = Some l /\ w1 = w.
Proof.
  unfold supported_event_list, bind, get_cb, lift_option.
  destruct (rc_supported_event_list (btif_rc_cb w)); [by intros [= <- <-]|done].
Qed.

Lemma modify_cb_inv (f : btif_rc_cb_t -> btif_rc_cb_t) (a : unit) (w w1 : world) :
  modify_cb f w = Some (a, w1) ->
  w1 = {| btif_rc_cb := f (btif_rc_cb w); device := device w; trace := trace w |}.
Proof. by intros [= _ <-]. Qed.

Lemma modify_device_inv (f : list rc_transaction_t -> list rc_transaction_t)
  (a : unit) (w w1 : world) :
  modify_device f w = Some (a, w1) ->
  w1 = {| btif_rc_cb := btif_rc_cb w; device := f (device w); trace := trace w |}.
Proof. by intros [= _ <-]. Qed.

Lemma emit_inv (e : effect) (a : unit) (w w1 : world) :
  emit e w = Some (a, w1) ->
  w1 = {| btif_rc_cb := btif_rc_cb w; device := device w; trace := e :: trace w |}.
Proof. by intros [= _ <-]. Qed.

Lemma update_event_list_inv
  (f : list btif_rc_supported_event_t -> option (list btif_rc_supported_event_t))
  (a : unit) (w w1 : world) :
  update_event_list f w = Some (a, w1) ->
  exists l l1, rc_supported_event_list (btif_rc_cb w) = Some l /\ f l = Some l1 /\
    w1 = {| btif_rc_cb := set_rc_supported_event_list (Some l1) (btif_rc_cb w);
            device := device w; trace := trace w |}.
Proof.
  intros Hw. unfold update_event_list in Hw.
  apply run_bind_inv in Hw as (l & w2 & H1 & Hw).
  apply supported_event_list_inv in H1 as [Hl ->].
  apply run_bind_inv in Hw as (l1 & w3 & H2 & Hw).
  apply lift_option_inv in H2 as [Hf ->].
  apply modify_cb_inv in Hw. eauto.
Qed.

Lemma update_event_inv (p : nat)
  (f : btif_rc_supported_event_t -> btif_rc_supported_event_t)
  (a : unit) (w w1 : world) :
  update_event p f w = Some (a, w1) ->
  exists l e, rc_supported_event_list (btif_rc_cb w) = Some l /\ l !! p = Some e /\
    w1 = {| btif_rc_cb :=
              set_rc_supported_event_list (Some (<[p := f e]> l)) (btif_rc_cb w);
            device := device w; trace := trace w |}.
Proof.
  intros Hw. apply update_event_list_inv in Hw as (l & l1 & Hl & Hf & ->).
  destruct (l !! p) as [e|] eqn:He; [|done]. injection Hf as <-. eauto.
Qed.

Lemma update_app_settings_inv
  (f : btif_rc_player_app_settings_t -> option btif_rc_player_app_settings_t)
  (s : btif_rc_player_app_settings_t) (w w1 : world) :
  update_app_settings f w = Some (s, w1) ->
  f (rc_app_settings (btif_rc_cb w)) = Some s /\
  w1 = {| btif_rc_cb := set_rc_app_settings s (btif_rc_cb w);
          device := device w; trace := trace w |}.
Proof.
  intros Hw. unfold update_app_settings in Hw.
  apply run_bind_inv in Hw as (cb & w2 & H1 & Hw).
  apply get_cb_inv in H1 as [-> ->].
  apply run_bind_inv in Hw as (s1 & w3 & H2 & Hw).
  apply lift_option_inv in H2 as [Hf ->].
  apply run_bind_inv in Hw as (u & w4 & H3 & Hw).
  apply modify_cb_inv in H3 as ->.
  apply ret_inv in Hw as [-> ->]. done.
Qed.

Ltac inv_run H :=
  cbv beta zeta in H;
  lazymatch type of H with
  | bind _ _ _ = Some _ =>
      let a := fresh "a" in
      let w1 := fresh "w" in
      let Hm := fresh "Hm" in
      apply run_bind_inv in H as (a & w1 & Hm & H);
      inv_run Hm; inv_run H
  | ret _ _ = Some _ =>
      apply ret_inv in H as [? ?]; subst
  | get_cb _ = Some _ =>
      apply get_cb_inv in H as [? ?]; subst
  | get_device _ = Some _ =>
      apply get_device_inv in H as [? ?]; subst
  | undefined _ = Some _ => discriminate H
  | lift_option _ _ = Some _ =>
      apply lift_option_inv in H as [? ?]; subst
  | array_get _ _ _ = Some _ =>
      apply array_get_inv in H as [? ?]; subst
  | array_prefix _ _ _ = Some _ =>
      apply array_prefix_inv in H as (? & ? & ?); subst
  | supported_event_list _ = Some _ =>
      apply supported_event_list_inv in H as [? ?]; subst
  | update_event _ _ _ = Some _ =>
      let l := fresh "evs" in
      let e := fresh "e" in
      let Hl := fresh "Hevs" in
      let He := fresh "He" in
      apply update_event_inv in H as (l & e & Hl & He & ?); subst
  | update_event_list _ _ = Some _ =>
      let l := fresh "evs" in
      let l1 := fresh "evs" in
      let Hl := fresh "Hevs" in
      let Hf := fresh "Hf" in
      apply update_event_list_inv in H as (l & l1 & Hl & Hf & ?); subst
  | update_app_settings _ _ = Some _ =>
      let Hf := fresh "Hf" in
      apply update_app_settings_inv in H as (Hf & ?); subst
  | modify_cb _ _ = Some _ =>
      apply modify_cb_inv in H; subst
  | modify_device _ _ = Some _ =>
      apply modify_device_inv in H; subst
  | emit _ _ = Some _ =>
      apply emit_inv in H; subst
  | when ?b _ _ = Some _ =>
      unfold when in H; inv_run H
  | (if ?b then _ else _) _ = Some _ =>
      let E := fresh "E" in
      destruct b eqn:E; inv_run H
  | (match ?x with _ => _ end) _ = Some _ =>
      let E := fresh "E" in
      destruct x eqn:E; inv_run H
  | _ => idtac
  end.

(** ** Commands and registration *)

Section Commands.
Context `{AvrcDefs}.

Lemma get_transaction_cases (d d1 : rc_device_t) (st : Z) (ptx : option nat) :
  get_transaction d = (st, ptx, d1) ->
  (st = BT_STATUS_NOMEM /\ ptx = None /\ d1 = d) \/
  (st = BT_STATUS_SUCCESS /\
   exists i t, ptx = Some i /\ d !! i = Some t /\ in_use t = false /\
               d1 = <[i := set_in_use true t]> d).
Proof.
  unfold get_transaction. destruct (first_unused _ _ d) as [i|] eqn:Hf.
  - destruct (first_unused_some _ _ _ _ Hf) as (_ & (t & Hd & Ht) & _).
    rewrite Hd. intros [= <- <- <-]. right. split; [done|]. by exists i, t.
  - intros [= <- <- <-]. by left.
Qed.

Lemma call_get_transaction_inv (w w1 : world) (st : Z) (ptx : option nat) :
  call_get_transaction w = Some ((st, ptx), w1) ->
  exists d1, get_transaction (device w) = (st, ptx, d1) /\
             w1 = {| btif_rc_cb := btif_rc_cb w; device := d1; trace := trace w |}.
Proof.
  unfold call_get_transaction. destruct (get_transaction (device w)) as [[st' p'] d'].
  intros [= <- <- <-]. eauto.
Qed.

Lemma GK_frame (S : avrc_evt -> Prop) (w w' : world) (delta : list effect) :
  btif_rc_cb w' = btif_rc_cb w -> trace w' = delta ++ trace w ->
  Forall (effect_ok S) delta -> K w w' -> GK S w w'.
Proof.
  intros Hcb Htr Hd HK. split; [|done].
  split; unfold procedure_complete, app_query_started, events_ok; rewrite ?Hcb; auto.
  - eauto.
  - intros Hwf. by apply HK.
Qed.

Lemma transaction_lbl_inv (p l : nat) (w w1 : world) :
  transaction_lbl p w = Some (l, w1) ->
  (exists t, device w !! p = Some t /\ l = lbl t) /\ w1 = w.
Proof. intros Hw. unfold transaction_lbl in Hw. inv_run Hw. eauto. Qed.

(** A table that differs from [d] at most in slot [i], where [d] had a
    slot that was not in use. *)
Lemma K_one_slot (d d' : rc_device_t) (i : nat) (t : rc_transaction_t) :
  d !! i = Some t -> in_use t = false ->
  (forall j, j <> i -> d' !! j = d !! j) ->
  forall j t', d !! j = Some t' -> in_use t' = true -> d' !! j = Some t'.
Proof.
  intros Hd Ht Hsame j t' Hj Ht'. rewrite Hsame; [done|].
  intros ->. congruence.
Qed.

Lemma K_device (w w' : world) (i : nat) (t : rc_transaction_t) :
  device w !! i = Some t -> in_use t = false ->
  (pool_wf (device w) ->
   pool_wf (device w') /\ forall j, j <> i -> device w' !! j = device w !! j) ->
  K w w'.
Proof.
  intros Hd Ht HK Hwf. destruct (HK Hwf) as [Hwf' Hsame]. split; [done|].
  by apply (K_one_slot _ _ i t).
Qed.

Lemma insert_in_use_wf (d : rc_device_t) (i : nat) (t : rc_transaction_t) :
  pool_wf d -> d !! i = Some t -> pool_wf (<[i := set_in_use true t]> d).
Proof.
  intros [Hlen Hlbl] Hd. split; [by rewrite length_insert|].
  intros j t' Hj. destruct (decide (j = i)) as [->|Hne].
  - rewrite list_lookup_insert_eq in Hj by (by eapply lookup_lt_Some).
    injection Hj as <-. simpl. by apply Hlbl.
  - rewrite list_lookup_insert_ne in Hj by done. by apply Hlbl.
Qed.

Lemma rel_send_status_cmd (S : avrc_evt -> Prop) (cmd : tAVRC_COMMAND) :
  cmd_pdu cmd <> AVRC_PDU_REGISTER_NOTIFICATION ->
  rel (GK S) (send_status_cmd cmd).
Proof.
  intros Hpdu w a w' Hw.
  assert (Hreg : forall h l c, effect_ok S (BTA_AvVendorCmd h l c cmd)).
  { intros h l c ev. destruct cmd; simpl in *; congruence. }
  unfold send_status_cmd in Hw. inv_run Hw; try reflexivity.
  all: match goal with
       | Hg : call_get_transaction _ = _ |- _ =>
           apply call_get_transaction_inv in Hg as (d1 & Hg & ->);
           apply get_transaction_cases in Hg as [(-> & ? & ->)|(-> & i & t & ? & Hd & Ht & ->)]
       end; simplify_eq; try reflexivity.
  all: try match goal with
       | Hl : transaction_lbl _ _ = _ |- _ =>
           apply transaction_lbl_inv in Hl as [(t1 & Hl1 & ->) ->]
       end; simpl in *.
  all: first
    [ eapply (GK_frame S _ _ []); simpl; [done|done|by constructor|]
    | eapply (GK_frame S _ _ [_]); simpl; [done|done|by constructor|] ].
  all: intros Hwf; simpl; try done.
  - split; [by apply insert_in_use_wf|].
    apply (K_one_slot _ _ i t Hd Ht). intros j Hj. by rewrite list_lookup_insert_ne.
  - split; [apply arm_txn_timer_wf; by apply insert_in_use_wf|].
    apply (K_one_slot _ _ i t Hd Ht). intros j Hj.
    unfold start_status_command_timer. rewrite arm_txn_timer_other by done.
    by rewrite list_lookup_insert_ne.
  - split; [by apply insert_in_use_wf|].
    apply (K_one_slot _ _ i t Hd Ht). intros j Hj. by rewrite list_lookup_insert_ne.
Qed.

(** A result of [get_player_app_setting_attr_text_cmd] is a result of the
    shared body: the two differ only on the path where the former has
    none. *)
Lemma get_player_app_setting_attr_text_cmd_result (l : list Z) (n : nat)
  (w w' : world) (st : Z) :
  get_player_app_setting_attr_text_cmd l n w = Some (st, w') ->
  send_status_cmd (cmd_get_app_attr_txt n l) w = Some (st, w').
Proof.
  unfold get_player_app_setting_attr_text_cmd, send_status_cmd, bind.
  repeat (case_match; try done).
Qed.

Lemma rel_of_send_status_cmd (R : world -> world -> Prop) (l : list Z) (n : nat) :
  rel R (send_status_cmd (cmd_get_app_attr_txt n l)) ->
  rel R (get_player_app_setting_attr_text_cmd l n).
Proof.
  intros HR w st w' Hw. apply (HR w st w').
  by apply get_player_app_setting_attr_text_cmd_result.
Qed.

Lemma register_notification_cmd_inv (l : nat) (ev : avrc_evt) (v st : Z) (w w1 : world) :
  register_notification_cmd l ev v w = Some (st, w1) ->
  (w1 = w /\ (st = BT_STATUS_NOT_READY \/ st = AVRC_BldCommand (cmd_reg_notif ev v))) \/
  (st = BT_STATUS_SUCCESS /\
   w1 = {| btif_rc_cb := btif_rc_cb w; device := device w;
           trace := BTA_AvVendorCmd (rc_handle (btif_rc_cb w)) l AVRC_CMD_NOTIF
                      (cmd_reg_notif ev v) :: trace w |}).
Proof.
  intros Hw. unfold register_notification_cmd in Hw. inv_run Hw; eauto.
Qed.

(** What one call of [register_for_event_notification] does: the slots
    in use are not touched, the control block changes in the list only
    and the list keeps its events in their order; and either nothing is
    sent, or one REGISTER_NOTIFICATION for the event of the entry goes out
    and the entry becomes [eREGISTERED] under the label of the command. *)
Lemma register_for_event_notification_spec (p : nat) (w w' : world) :
  register_for_event_notification p w = Some (tt, w') ->
  K w w' /\
  btif_rc_cb w' =
    set_rc_supported_event_list (rc_supported_event_list (btif_rc_cb w')) (btif_rc_cb w) /\
  event_ids w' = event_ids w /\
  (trace w' = trace w \/
   exists evs e l,
     rc_supported_event_list (btif_rc_cb w) = Some evs /\ evs !! p = Some e /\
     trace w' = BTA_AvVendorCmd (rc_handle (btif_rc_cb w)) l AVRC_CMD_NOTIF
                  (cmd_reg_notif (event_id e) 0) :: trace w /\
     rc_supported_event_list (btif_rc_cb w') =
       Some (<[p := {| event_id := event_id e; label := Some l; status := eREGISTERED |}]> evs)).
Proof.
  intros Hw. unfold register_for_event_notification in Hw. inv_run Hw.
  all: match goal with
       | Hg : call_get_transaction _ = _ |- _ =>
           apply call_get_transaction_inv in Hg as (d1 & Hg & ->);
           apply get_transaction_cases in Hg as [(-> & ? & ->)|(-> & i & t & ? & Hd & Ht & ->)]
       end; simplify_eq.
  all: try match goal with
       | Hl : transaction_lbl _ _ = _ |- _ =>
           apply transaction_lbl_inv in Hl as [(t1 & Hl1 & ->) ->]
       end; simpl in *.
  all: try match goal with
       | Hl : register_notification_cmd _ _ _ _ = _ |- _ =>
           apply register_notification_cmd_inv in Hl as [[-> Hst]|[-> ->]]
       end; simpl in *.
  all: try (rewrite Z.eqb_refl in *; discriminate).
  all: simplify_eq.
  all: assert (Heta : forall cb, cb = set_rc_supported_event_list
                                         (rc_supported_event_list cb) cb)
         by (by intros []).
  all: try assert (Ht1 : pool_wf (device w) -> forall t1,
                 <[i := set_in_use true t]> (device w) !! i = Some t1 -> lbl t1 = i)
         by (intros Hwf t1' Hi; by apply (proj2 (insert_in_use_wf _ _ _ Hwf Hd) i)).
  all: split; [|split; [simpl; try apply Heta|split]]; try done.
  all: try (left; done).
  - apply (K_device _ _ i t Hd Ht). intros Hwf. simpl.
    rewrite (Ht1 Hwf _ Hl1). split.
    + by apply release_transaction_wf, insert_in_use_wf.
    + intros j Hj. rewrite release_transaction_other by done.
      by rewrite list_lookup_insert_ne.
  - apply (K_device _ _ i t Hd Ht). intros Hwf. simpl. split.
    + by apply arm_txn_timer_wf, insert_in_use_wf.
    + intros j Hj. rewrite arm_txn_timer_other by done. by rewrite list_lookup_insert_ne.
  - unfold event_ids. simpl.
    match goal with
    | Hl : rc_supported_event_list (btif_rc_cb w) = Some ?l, He : ?l !! p = Some _ |- _ =>
        rewrite Hl; simpl; f_equal; rewrite list_fmap_insert; simpl;
        apply list_insert_id; by rewrite list_lookup_fmap, He
    end.
  - apply (K_device _ _ i t Hd Ht). intros Hwf. simpl. split.
    + by apply arm_txn_timer_wf, insert_in_use_wf.
    + intros j Hj. rewrite arm_txn_timer_other by done. by rewrite list_lookup_insert_ne.
  - unfold event_ids. simpl.
    match goal with
    | Hl : rc_supported_event_list (btif_rc_cb w) = Some ?l, He : ?l !! p = Some _ |- _ =>
        rewrite Hl; simpl; f_equal; rewrite list_fmap_insert; simpl;
        apply list_insert_id; by rewrite list_lookup_fmap, He
    end.
  - right. simplify_eq. eauto 10.
Qed.

Lemma rel_register_for_event_notification (S : avrc_evt -> Prop) (p : nat) :
  rel (GK S) (register_for_event_notification p).
Proof.
  intros w [] w' Hw.
  destruct (register_for_event_notification_spec p w w' Hw) as (HK & Hcb & Hids & Htr).
  split; [|done]. split.
  - unfold procedure_complete. rewrite Hcb. by destruct (btif_rc_cb w).
  - unfold app_query_started. rewrite Hcb. by destruct (btif_rc_cb w).
  - intros Hok l Hl. unfold event_ids in Hids. rewrite Hl in Hids. simpl in Hids.
    destruct (rc_supported_event_list (btif_rc_cb w)) as [l0|] eqn:Hl0; [|done].
    injection Hids as ->. by apply Hok.
  - intros Hok. destruct Htr as [Htr|(evs & e & l & Hl & He & Htr & _)].
    + exists []. split; [done|constructor].
    + eexists [_]. split; [exact Htr|]. constructor; [|constructor].
      intros ev [= <-]. specialize (Hok _ Hl).
      rewrite Forall_lookup in Hok. apply (Hok p). by rewrite list_lookup_fmap, He.
  - intros Hwf. by apply HK.
Qed.

End Commands.

(** ** The handlers *)

Section Handlers.
Context `{AvrcDefs}.

Create HintDb rel discriminated.

#[local] Hint Resolve readonly_get_cb readonly_get_device readonly_lift_option
  readonly_array_get readonly_array_prefix readonly_supported_event_list
  readonly_ret readonly_undefined : rel.

Ltac rel_setter :=
  apply rel_modify_cb; [by intros []..| intros [] ? ? Hok; simpl in *; by eapply Hok].

Ltac rel_step side :=
  cbv zeta;
  lazymatch goal with
  | |- rel _ (bind _ _) => apply rel_bind; [typeclasses eauto| |intros ?]
  | |- rel _ (ret _) => apply rel_ret; typeclasses eauto
  | |- rel _ undefined => apply rel_undefined
  | |- rel _ (emit _) => apply rel_emit; reflexivity
  | |- rel _ (modify_cb _) => rel_setter
  | |- rel _ (update_app_settings _) => apply rel_update_app_settings; side
  | |- rel _ (when _ _) => unfold when
  | |- rel _ (if ?b then _ else _) => destruct b
  | |- rel _ (match ?x with _ => _ end) => destruct x
  | |- rel _ _ =>
      first [ solve [auto with rel]
            | apply rel_readonly; [typeclasses eauto|solve [auto with rel]] ]
  end.

Ltac rel_auto := repeat rel_step idtac.

Lemma rel_getcapabilities_cmd (S : avrc_evt -> Prop) (c : avrc_cap) :
  rel (GK S) (getcapabilities_cmd c).
Proof. by apply rel_send_status_cmd. Qed.

Lemma rel_list_player_app_setting_attrib_cmd (S : avrc_evt -> Prop) :
  rel (GK S) list_player_app_setting_attrib_cmd.
Proof. by apply rel_send_status_cmd. Qed.

Lemma rel_list_player_app_setting_value_cmd (S : avrc_evt -> Prop) (a : Z) :
  rel (GK S) (list_player_app_setting_value_cmd a).
Proof. by apply rel_send_status_cmd. Qed.

Lemma rel_get_player_app_setting_cmd (S : avrc_evt -> Prop) (n : nat) (l : list Z) :
  rel (GK S) (get_player_app_setting_cmd n l).
Proof. by apply rel_send_status_cmd. Qed.

Lemma rel_get_player_app_setting_attr_text_cmd (S : avrc_evt -> Prop) (l : list Z) (n : nat) :
  rel (GK S) (get_player_app_setting_attr_text_cmd l n).
Proof. by apply rel_of_send_status_cmd, rel_send_status_cmd. Qed.

Lemma rel_get_player_app_setting_value_text_cmd (S : avrc_evt -> Prop) (l : list Z) (n : nat) :
  rel (GK S) (get_player_app_setting_value_text_cmd l n).
Proof. by apply rel_send_status_cmd. Qed.

Lemma rel_get_play_status_cmd (S : avrc_evt -> Prop) : rel (GK S) get_play_status_cmd.
Proof. by apply rel_send_status_cmd. Qed.

Lemma rel_get_element_attribute_cmd (S : avrc_evt -> Prop) (n : nat)
  (l : list avrc_media_attr) :
  rel (GK S) (get_element_attribute_cmd n l).
Proof.
  unfold get_element_attribute_cmd. apply rel_bind; [typeclasses eauto| |intros ids].
  - apply rel_readonly; [typeclasses eauto|apply readonly_array_prefix].
  - by apply rel_send_status_cmd.
Qed.

#[local] Hint Resolve rel_getcapabilities_cmd rel_list_player_app_setting_attrib_cmd
  rel_list_player_app_setting_value_cmd rel_get_player_app_setting_cmd
  rel_get_player_app_setting_attr_text_cmd rel_get_player_app_setting_value_text_cmd
  rel_get_play_status_cmd rel_get_element_attribute_cmd
  rel_register_for_event_notification : rel.

Lemma rel_rc_ctrl_procedure_complete (S : avrc_evt -> Prop) :
  rel (GK S) rc_ctrl_procedure_complete.
Proof. unfold rc_ctrl_procedure_complete. rel_auto. Qed.

Lemma rel_rc_start_play_status_timer (S : avrc_evt -> Prop) :
  rel (GK S) rc_start_play_status_timer.
Proof.
  unfold rc_start_play_status_timer. apply rel_modify_cb.
  - intros []; simpl. by destruct (alarm_is_scheduled _).
  - intros []; simpl. by destruct (alarm_is_scheduled _).
  - intros [] l'; simpl. destruct (alarm_is_scheduled _); simpl; intros ? Hok; by eapply Hok.
Qed.

Lemma rel_rc_stop_play_status_timer (S : avrc_evt -> Prop) :
  rel (GK S) rc_stop_play_status_timer.
Proof. unfold rc_stop_play_status_timer. rel_setter. Qed.

#[local] Hint Resolve rel_rc_ctrl_procedure_complete rel_rc_start_play_status_timer
  rel_rc_stop_play_status_timer : rel.

Lemma rel_register_first_not_registered (S : avrc_evt -> Prop) :
  rel (GK S) register_first_not_registered.
Proof. unfold register_first_not_registered. rel_auto. Qed.

#[local] Hint Resolve rel_register_first_not_registered : rel.

Lemma store_app_attrs_started (ids : list Z) (s s' : btif_rc_player_app_settings_t) :
  store_app_attrs ids s = Some s' -> query_started s' = query_started s.
Proof.
  revert s. induction ids as [|a ids IH]; intros s; simpl; [by intros [= <-]|].
  destruct (a >? _).
  - destruct (ext_attrs s !! _); [|done]. intros Hs. by rewrite (IH _ Hs).
  - destruct (attrs s !! _); [|done]. intros Hs. by rewrite (IH _ Hs).
Qed.

Ltac settings_side :=
  let s := fresh "s" in
  let s' := fresh "s'" in
  let Hf := fresh "Hf" in
  intros s s' Hf;
  unfold store_attr_values, store_ext_attr_values, drop_ext_attr_texts, drop_ext_attr_values,
    store_value_texts, free_app_settings in Hf;
  cbv beta in Hf;
  repeat (case_match; simplify_eq);
  simplify_eq;
  try match goal with
      | Hs : store_app_attrs _ _ = Some _ |- _ => apply store_app_attrs_started in Hs
      end;
  simpl in *; try done; try congruence.

Ltac rel_handler := repeat rel_step settings_side.

Lemma rel_handle_app_attr_response (S : avrc_evt -> Prop) m r :
  rel (GK S) (handle_app_attr_response m r).
Proof. unfold handle_app_attr_response. rel_handler. Qed.

Lemma rel_handle_app_val_response (S : avrc_evt -> Prop) m r :
  rel (GK S) (handle_app_val_response m r).
Proof. unfold handle_app_val_response. rel_handler. Qed.

Lemma rel_handle_app_cur_val_response (S : avrc_evt -> Prop) m r :
  rel (GK S) (handle_app_cur_val_response m r).
Proof. unfold handle_app_cur_val_response. rel_handler. Qed.

Lemma rel_report_standard_settings (S : avrc_evt -> Prop) :
  rel (GK S) report_standard_settings.
Proof. unfold report_standard_settings. rel_handler. Qed.

#[local] Hint Resolve rel_report_standard_settings : rel.

Lemma readonly_ext_attr_values (e : btrc_player_app_ext_attr_t) :
  readonly (ext_attr_values e).
Proof.
  unfold ext_attr_values. destruct (negb _); [apply readonly_undefined|].
  apply readonly_bind; [apply readonly_array_prefix|]. intros pv. apply readonly_ret.
Qed.

#[local] Hint Resolve readonly_ext_attr_values : rel.

Lemma rel_handle_app_attr_txt_response (S : avrc_evt -> Prop) m r :
  rel (GK S) (handle_app_attr_txt_response m r).
Proof. unfold handle_app_attr_txt_response. rel_handler. Qed.

Lemma rel_handle_app_attr_val_txt_response (S : avrc_evt -> Prop) m r :
  rel (GK S) (handle_app_attr_val_txt_response m r).
Proof. unfold handle_app_attr_val_txt_response. rel_handler. Qed.

Lemma rel_handle_set_app_attr_val_response (S : avrc_evt -> Prop) m r :
  rel (GK S) (handle_set_app_attr_val_response m r).
Proof. unfold handle_set_app_attr_val_response. rel_handler. Qed.

Lemma rel_handle_get_elem_attr_response (S : avrc_evt -> Prop) m r :
  rel (GK S) (handle_get_elem_attr_response m r).
Proof. unfold handle_get_elem_attr_response. rel_handler. Qed.

Lemma rel_handle_get_playstatus_response (S : avrc_evt -> Prop) m r :
  rel (GK S) (handle_get_playstatus_response m r).
Proof. unfold handle_get_playstatus_response. rel_handler. Qed.

Lemma foreach_interim_rsp_ids (ev : avrc_evt) (l : list btif_rc_supported_event_t) :
  event_id <$> foreach_interim_rsp ev l = event_id <$> l.
Proof.
  induction l as [|e l IH]; [done|]. cbn [foreach_interim_rsp].
  destruct (bool_decide _); rewrite !fmap_cons; [done|]. by rewrite IH.
Qed.

Lemma foreach_timeout_Forall (P : avrc_evt -> Prop) (cb_data : nat)
  (l l' : list btif_rc_supported_event_t) :
  foreach_timeout cb_data l = Some l' ->
  Forall P (event_id <$> l) -> Forall P (event_id <$> l').
Proof.
  revert l'. induction l as [|e l IH]; intros l'; cbn [foreach_timeout].
  - by intros [= <-].
  - rewrite fmap_cons, Forall_cons. intros Hf [He Hl].
    destruct (label e) as [x|]; [|done]. destruct (x =? cb_data)%nat.
    + by injection Hf as <-.
    + destruct (foreach_timeout cb_data l) as [l''|]; [|done].
      injection Hf as <-. rewrite fmap_cons, Forall_cons. split; [done|]. by apply IH.
Qed.

Lemma rel_update_event (S : avrc_evt -> Prop) (p : nat)
  (f : btif_rc_supported_event_t -> btif_rc_supported_event_t) :
  (forall e, event_id (f e) = event_id e) -> rel (GK S) (update_event p f).
Proof.
  intros Hf. apply rel_update_event_list. intros l l' Hl Hok.
  destruct (l !! p) as [e|] eqn:He; [|done]. injection Hl as <-.
  rewrite list_fmap_insert, Hf, list_insert_id; [done|].
  by rewrite list_lookup_fmap, He.
Qed.

Lemma rel_handle_notification_response (S : avrc_evt -> Prop) m r :
  rel (GK S) (handle_notification_response m r).
Proof.
  unfold handle_notification_response.
  repeat first
    [ lazymatch goal with
      | |- rel _ (update_event_list _) =>
          apply rel_update_event_list; intros ? ? [= <-]; by rewrite foreach_interim_rsp_ids
      | |- rel _ (update_event _ _) => by apply rel_update_event
      end
    | rel_step settings_side ].
Qed.

Lemma rel_rc_notification_interim_timout (S : avrc_evt -> Prop) (l : nat) :
  rel (GK S) (rc_notification_interim_timout l).
Proof.
  unfold rc_notification_interim_timout.
  apply rel_bind; [typeclasses eauto| |intros ?].
  - apply rel_update_event_list. intros evs evs' Hf Hok.
    by eapply foreach_timeout_Forall.
  - rel_auto.
Qed.

Lemma rel_handle_get_capability_response (S : avrc_evt -> Prop) m r :
  caps_within S r -> rel (GK S) (handle_get_capability_response m r).
Proof.
  intros Hcaps. unfold handle_get_capability_response.
  destruct (negb _) eqn:Hst; [rel_auto|].
  apply negb_false_iff, Z.eqb_eq in Hst.
  destruct (capability_id r) eqn:Hcap; [rel_auto| |rel_auto].
  intros w a w' Hw. apply run_bind_inv in Hw as (evl & w1 & Hp & Hw).
  apply array_prefix_inv in Hp as (Hle & Hevl & Hw1). subst evl w1.
  revert w a w' Hw. apply rel_bind; [typeclasses eauto| |intros ?; rel_auto].
  apply rel_modify_cb; [by intros []..|].
  intros [] l'; simpl. intros [= <-] _. by apply Hcaps.
Qed.

(** *** The dispatcher and the time-out handlers *)

Lemma rel_G_modify_device (S : avrc_evt -> Prop)
  (f : list rc_transaction_t -> list rc_transaction_t) :
  (forall d, pool_wf d -> pool_wf (f d)) -> rel (G S) (modify_device f).
Proof.
  intros Hf w a w' [= _ <-]. split; simpl; auto.
  intros _. exists []. split; [done|constructor].
Qed.

Lemma GK_G (S : avrc_evt -> Prop) {A : Type} (m : M A) : rel (GK S) m -> rel (G S) m.
Proof. apply rel_weaken. by intros w w' [? ?]. Qed.

Lemma rel_release (S : avrc_evt -> Prop) (l : nat) :
  rel (G S) (modify_device (release_transaction l)).
Proof. apply rel_G_modify_device. intros d. apply release_transaction_wf. Qed.

Lemma rel_handle_avk_rc_metamsg_rsp (S : avrc_evt -> Prop) (m : tBTA_AV_META_MSG) :
  input_within S (in_response m) -> rel (G S) (handle_avk_rc_metamsg_rsp m).
Proof.
  intros Hin. unfold handle_avk_rc_metamsg_rsp. simpl in Hin.
  destruct (_ && _); [|apply rel_ret; typeclasses eauto].
  destruct (parsed m); try apply rel_release.
  all: apply rel_bind; [typeclasses eauto| |intros ?].
  all: try apply rel_release.
  all: try (destruct (_ =? _); [|apply rel_release];
            apply rel_G_modify_device; intros d; apply clear_cmd_timeout_wf).
  all: apply GK_G.
  - by apply rel_handle_get_capability_response.
  - apply rel_handle_app_attr_response.
  - apply rel_handle_app_val_response.
  - apply rel_handle_app_cur_val_response.
  - apply rel_handle_set_app_attr_val_response.
  - apply rel_handle_app_attr_txt_response.
  - apply rel_handle_app_attr_val_txt_response.
  - apply rel_handle_get_elem_attr_response.
  - apply rel_handle_get_playstatus_response.
  - apply rel_handle_notification_response.
Qed.

Lemma caps_within_timeout (S : avrc_evt -> Prop) (c : avrc_cap) (n : nat)
  (ids : list avrc_evt) (cs : list Z) :
  caps_within S {| caps_status := BTIF_RC_STS_TIMEOUT; capability_id := c; count := n;
                   param_event_id := ids; param_company_id := cs |}.
Proof. intros Hst. simpl in Hst. by apply avrc_sts_timeout_ne in Hst. Qed.

Lemma rel_btif_rc_status_cmd_timeout_handler (S : avrc_evt -> Prop)
  (c : btif_rc_timer_context_t) :
  rel (G S) (btif_rc_status_cmd_timeout_handler c).
Proof.
  unfold btif_rc_status_cmd_timeout_handler.
  apply rel_bind; [typeclasses eauto| |intros cb].
  { apply rel_readonly; [typeclasses eauto|apply readonly_get_cb]. }
  apply rel_bind; [typeclasses eauto| |intros ?; apply rel_release].
  apply GK_G. destruct (ctx_pdu_id c); try (apply rel_ret; typeclasses eauto).
  - apply rel_handle_get_capability_response, caps_within_timeout.
  - apply rel_handle_app_attr_response.
  - apply rel_handle_app_val_response.
  - apply rel_handle_app_cur_val_response.
  - apply rel_handle_app_attr_txt_response.
  - apply rel_handle_app_attr_txt_response.
  - apply rel_handle_get_elem_attr_response.
  - apply rel_handle_get_playstatus_response.
  - apply rel_rc_notification_interim_timout.
Qed.

Lemma rel_btif_rc_control_cmd_timeout_handler (S : avrc_evt -> Prop)
  (c : btif_rc_timer_context_t) :
  rel (G S) (btif_rc_control_cmd_timeout_handler c).
Proof.
  unfold btif_rc_control_cmd_timeout_handler.
  apply rel_bind; [typeclasses eauto| |intros cb].
  { apply rel_readonly; [typeclasses eauto|apply readonly_get_cb]. }
  apply rel_bind; [typeclasses eauto| |intros ?; apply rel_release].
  apply GK_G. destruct (ctx_pdu_id c); try (apply rel_ret; typeclasses eauto).
  apply rel_handle_set_app_attr_val_response.
Qed.

Lemma rel_btif_rc_play_status_timeout_handler (S : avrc_evt -> Prop) :
  rel (G S) btif_rc_play_status_timeout_handler.
Proof. apply GK_G. unfold btif_rc_play_status_timeout_handler. rel_auto. Qed.

Lemma insert_timer_wf (d : list rc_transaction_t) (p : nat) (t : rc_transaction_t)
  (a : option alarm_t) :
  pool_wf d -> d !! p = Some t -> pool_wf (<[p := set_txn_timer a t]> d).
Proof.
  intros [Hlen Hlbl] Hd. split; [by rewrite length_insert|].
  intros j t' Hj. destruct (decide (j = p)) as [->|Hne].
  - rewrite list_lookup_insert_eq in Hj by (by eapply lookup_lt_Some).
    injection Hj as <-. simpl. by apply Hlbl.
  - rewrite list_lookup_insert_ne in Hj by done. by apply Hlbl.
Qed.

Lemma rel_txn_timer_expired (S : avrc_evt -> Prop) (p : nat) :
  rel (G S) (txn_timer_expired p).
Proof.
  intros w a w' Hw. unfold txn_timer_expired in Hw.
  apply run_bind_inv in Hw as (d & w1 & Hd & Hw). apply get_device_inv in Hd as [-> ->].
  apply run_bind_inv in Hw as (t & w1 & Ht & Hw). apply array_get_inv in Ht as [Ht ->].
  destruct (txn_timer t) as [[|cb ms]|]; try (apply ret_inv in Hw as [_ ->]; reflexivity).
  apply run_bind_inv in Hw as (u & w1 & Hm & Hw).
  transitivity w1.
  - apply modify_device_inv in Hm as ->. split; simpl; auto.
    + intros _. exists []. split; [done|constructor].
    + intros Hwf. by apply insert_timer_wf.
  - destruct cb.
    + by eapply rel_btif_rc_status_cmd_timeout_handler.
    + by eapply rel_btif_rc_control_cmd_timeout_handler.
    + by eapply rel_btif_rc_play_status_timeout_handler.
Qed.

Lemma rel_play_status_timer_expired (S : avrc_evt -> Prop) :
  rel (G S) play_status_timer_expired.
Proof.
  unfold play_status_timer_expired.
  apply rel_bind; [typeclasses eauto| |intros cb].
  { apply rel_readonly; [typeclasses eauto|apply readonly_get_cb]. }
  destruct (rc_play_status_timer cb) as [[|? ?]|]; try (apply rel_ret; typeclasses eauto).
  apply rel_bind; [typeclasses eauto| |intros ?].
  - apply GK_G. rel_auto.
  - apply rel_btif_rc_play_status_timeout_handler.
Qed.

Lemma rel_step (S : avrc_evt -> Prop) (i : input) :
  input_within S i -> rel (G S) (step i).
Proof.
  intros Hin. destruct i; simpl.
  - by apply rel_handle_avk_rc_metamsg_rsp.
  - apply rel_txn_timer_expired.
  - apply rel_play_status_timer_expired.
Qed.

Lemma rel_steps (S : avrc_evt -> Prop) (ins : list input) :
  Forall (input_within S) ins -> rel (G S) (steps ins).
Proof.
  induction 1 as [|i ins Hi Hins IH]; simpl.
  - apply rel_ret. typeclasses eauto.
  - apply rel_bind; [typeclasses eauto| |intros ?; exact IH]. by apply rel_step.
Qed.

End Handlers.

(** ** Exact behaviour of the commands *)

(** One step of a run: the primitives are unfolded, nothing else. *)
Ltac mstep :=
  repeat progress
    (unfold bind, ret, get_cb, get_device, lift_option, array_get, supported_event_list,
       transaction_lbl, modify_cb, modify_device, emit, update_event, update_event_list,
       when, undefined;
     cbn [btif_rc_cb device trace negb]).

Section Specs.
Context `{AvrcDefs}.

#[global] Instance Q_refl : Reflexive Q.
Proof. intros w. by exists []. Qed.

#[global] Instance Q_trans : Transitive Q.
Proof.
  intros w1 w2 w3 (d1 & H1 & E1) (d2 & H2 & E2). exists (d2 ++ d1).
  split; [by rewrite H2, H1, app_assoc|]. by rewrite omap_app, E1, E2.
Qed.

Lemma Q_same_trace (w w' : world) : trace w' = trace w -> Q w w'.
Proof. intros Ht. by exists []. Qed.

Lemma Q_one (w w' : world) (e : effect) :
  trace w' = e :: trace w -> reg_cmd_event e = None -> Q w w'.
Proof. intros Ht He. exists [e]. split; [done|]. simpl. by rewrite He. Qed.

(** The command in full: what is returned, what is sent, and what
    becomes of the table. *)
Lemma send_status_cmd_cases (cmd : tAVRC_COMMAND) (w w' : world) (st : Z) :
  send_status_cmd cmd w = Some (st, w') ->
  btif_rc_cb w' = btif_rc_cb w /\
  (trace w' = trace w \/
   exists l, trace w' =
               BTA_AvVendorCmd (rc_handle (btif_rc_cb w)) l AVRC_CMD_STATUS cmd :: trace w).
Proof.
  intros Hw. unfold send_status_cmd in Hw. inv_run Hw; auto.
  all: match goal with
       | Hg : call_get_transaction _ = _ |- _ =>
           apply call_get_transaction_inv in Hg as (d1 & Hg & ->)
       end; simpl; auto.
  all: try match goal with
       | Hl : transaction_lbl _ _ = _ |- _ =>
           apply transaction_lbl_inv in Hl as [(t1 & Hl1 & ->) ->]
       end; simpl in *; eauto.
Qed.

Lemma rel_Q_send_status_cmd (cmd : tAVRC_COMMAND) :
  cmd_pdu cmd <> AVRC_PDU_REGISTER_NOTIFICATION -> rel Q (send_status_cmd cmd).
Proof.
  intros Hpdu w st w' Hw.
  destruct (send_status_cmd_cases _ _ _ _ Hw) as (_ & [Ht|(l & Ht)]).
  - by apply Q_same_trace.
  - eapply Q_one; [exact Ht|]. destruct cmd; simpl in *; congruence.
Qed.

Lemma send_status_cmd_defined (cmd : tAVRC_COMMAND) (w : world) :
  defined (send_status_cmd cmd) w.
Proof.
  unfold defined, send_status_cmd, bind, get_cb, call_get_transaction.
  destruct (rc_connected (btif_rc_cb w)); simpl; [|by eauto].
  destruct (get_transaction (device w)) as [[st ptx] d1] eqn:Hg.
  apply get_transaction_cases in Hg as [(-> & -> & ->)|(-> & i & t & -> & Hd & Ht & ->)].
  - pose proof bt_status_nomem_ne as Hne. apply Z.eqb_neq in Hne. rewrite Hne. simpl.
    by eauto.
  - rewrite Z.eqb_refl. simpl. destruct (_ =? AVRC_STS_NO_ERROR); [|by eauto].
    unfold transaction_lbl, bind, get_device, array_get. simpl.
    rewrite list_lookup_insert_eq by (by eapply lookup_lt_Some). simpl. by eauto.
Qed.

(** With a connection, a free slot and a packet, the command goes out
    under the label of the first free slot and its timer is set. *)
Lemma send_status_cmd_sent (cmd : tAVRC_COMMAND) (w : world) (i : nat)
  (t : rc_transaction_t) :
  rc_connected (btif_rc_cb w) = true ->
  first_unused 0 MAX_TRANSACTIONS_PER_SESSION (device w) = Some i ->
  device w !! i = Some t ->
  AVRC_BldCommand cmd = AVRC_STS_NO_ERROR ->
  send_status_cmd cmd w =
    Some (BT_STATUS_SUCCESS,
          {| btif_rc_cb := btif_rc_cb w;
             device := start_status_command_timer (cmd_pdu cmd) i
                         (<[i := set_in_use true t]> (device w));
             trace := BTA_AvVendorCmd (rc_handle (btif_rc_cb w)) (lbl t) AVRC_CMD_STATUS cmd
                        :: trace w |}).
Proof.
  intros Hc Hf Hd Hb.
  assert (Hg : get_transaction (device w) =
               (BT_STATUS_SUCCESS, Some i, <[i := set_in_use true t]> (device w)))
    by (unfold get_transaction; by rewrite Hf, Hd).
  unfold send_status_cmd, bind, get_cb, call_get_transaction.
  rewrite Hc. cbn [negb]. cbn beta iota. rewrite Hg. cbn beta iota.
  rewrite Z.eqb_refl. cbn [negb lift_option]. cbn beta iota. rewrite Hb, Z.eqb_refl.
  unfold transaction_lbl, bind, get_device, array_get. simpl.
  rewrite list_lookup_insert_eq by (by eapply lookup_lt_Some). done.
Qed.

Lemma get_element_attribute_cmd_defined (w : world) :
  defined (get_element_attribute_cmd AVRC_MAX_NUM_MEDIA_ATTR_ID attr_list) w.
Proof.
  unfold defined, get_element_attribute_cmd, bind, array_prefix.
  pose proof avrc_media_attr_count as Hn.
  assert (Hle : (AVRC_MAX_NUM_MEDIA_ATTR_ID <=? length attr_list)%nat = true)
    by (apply Nat.leb_le; exact Hn).
  rewrite Hle. simpl. apply send_status_cmd_defined.
Qed.

Lemma rel_Q_get_element_attribute_cmd (n : nat) (l : list avrc_media_attr) :
  rel Q (get_element_attribute_cmd n l).
Proof.
  unfold get_element_attribute_cmd. apply rel_bind; [typeclasses eauto| |intros ids].
  - apply rel_readonly; [typeclasses eauto|apply readonly_array_prefix].
  - by apply rel_Q_send_status_cmd.
Qed.

Lemma rel_Q_modify_cb (f : btif_rc_cb_t -> btif_rc_cb_t) : rel Q (modify_cb f).
Proof. intros w a w' [= _ <-]. by apply Q_same_trace. Qed.

Lemma rel_Q_rc_ctrl_procedure_complete : rel Q rc_ctrl_procedure_complete.
Proof.
  unfold rc_ctrl_procedure_complete. apply rel_bind; [typeclasses eauto| |intros cb].
  { apply rel_readonly; [typeclasses eauto|apply readonly_get_cb]. }
  destruct (rc_procedure_complete cb); [apply rel_ret; typeclasses eauto|].
  apply rel_bind; [typeclasses eauto|apply rel_Q_modify_cb|intros ?].
  apply rel_bind; [typeclasses eauto|apply rel_Q_get_element_attribute_cmd|intros ?].
  apply rel_ret. typeclasses eauto.
Qed.

Lemma rc_ctrl_procedure_complete_defined (w : world) :
  defined rc_ctrl_procedure_complete w.
Proof.
  unfold defined, rc_ctrl_procedure_complete, bind, get_cb.
  destruct (rc_procedure_complete (btif_rc_cb w)); [by eauto|]. simpl.
  destruct (get_element_attribute_cmd_defined
              {| btif_rc_cb := set_rc_procedure_complete true (btif_rc_cb w);
                 device := device w; trace := trace w |}) as (st & w' & Hw).
  rewrite Hw. by eauto.
Qed.

Lemma rc_ctrl_procedure_complete_sets (w w' : world) :
  rc_ctrl_procedure_complete w = Some (tt, w') -> procedure_complete w' = true.
Proof.
  intros Hw. unfold rc_ctrl_procedure_complete in Hw. inv_run Hw; [done|].
  match goal with
  | Hg : get_element_attribute_cmd _ _ _ = _ |- _ =>
      unfold get_element_attribute_cmd in Hg; inv_run Hg;
      apply send_status_cmd_cases in Hg as [Hcb _]
  end.
  unfold procedure_complete. by rewrite Hcb.
Qed.

Lemma register_for_event_notification_defined (p : nat) (w : world)
  (evs : list btif_rc_supported_event_t) (e : btif_rc_supported_event_t) :
  rc_supported_event_list (btif_rc_cb w) = Some evs -> evs !! p = Some e ->
  defined (register_for_event_notification p) w.
Proof.
  intros Hl He.
  unfold defined, register_for_event_notification, call_get_transaction.
  mstep.
  destruct (get_transaction (device w)) as [[st ptx] d1] eqn:Hg.
  apply get_transaction_cases in Hg as [(-> & -> & ->)|(-> & i & t & -> & Hd & Ht & ->)];
    mstep.
  - pose proof bt_status_nomem_ne as Hne. apply Z.eqb_neq in Hne. rewrite Hne. by eauto.
  - rewrite Z.eqb_refl. mstep.
    rewrite list_lookup_insert_eq by (by eapply lookup_lt_Some). mstep.
    rewrite Hl. mstep. rewrite He. mstep.
    unfold register_notification_cmd. mstep.
    destruct (rc_connected (btif_rc_cb w)); mstep.
    + destruct (AVRC_BldCommand _ =? AVRC_STS_NO_ERROR) eqn:Hb; mstep.
      * rewrite Z.eqb_refl. mstep. rewrite Hl. mstep. rewrite He. mstep. by eauto.
      * destruct (negb _); mstep; [by eauto|].
        rewrite Hl. mstep. rewrite He. mstep. by eauto.
    + pose proof bt_status_not_ready_ne as Hne. apply Z.eqb_neq in Hne. rewrite Hne.
      mstep. by eauto.
Qed.

(** With a connection, a transaction to take and a packet, the
    registration goes out, the entry is awaiting the interim response
    under the label taken, and the timer of the slot is set. *)
Lemma register_for_event_notification_sent (p : nat) (w : world)
  (evs : list btif_rc_supported_event_t) (e : btif_rc_supported_event_t)
  (i : nat) (d1 : rc_device_t) :
  rc_supported_event_list (btif_rc_cb w) = Some evs -> evs !! p = Some e ->
  rc_connected (btif_rc_cb w) = true ->
  get_transaction (device w) = (BT_STATUS_SUCCESS, Some i, d1) ->
  AVRC_BldCommand (cmd_reg_notif (event_id e) 0) = AVRC_STS_NO_ERROR ->
  exists t, d1 !! i = Some t /\
    register_for_event_notification p w =
      Some (tt,
            {| btif_rc_cb :=
                 set_rc_supported_event_list
                   (Some (<[p := {| event_id := event_id e; label := Some (lbl t);
                                    status := eREGISTERED |}]> evs)) (btif_rc_cb w);
               device := arm_txn_timer btif_rc_status_cmd_timer_timeout
                           BTIF_TIMEOUT_RC_INTERIM_RSP_MS AVRC_PDU_REGISTER_NOTIFICATION i d1;
               trace := BTA_AvVendorCmd (rc_handle (btif_rc_cb w)) (lbl t) AVRC_CMD_NOTIF
                          (cmd_reg_notif (event_id e) 0) :: trace w |}).
Proof.
  intros Hl He Hc Hg Hb.
  destruct (get_transaction_cases _ _ _ _ Hg)
    as [(Hst & _)|(_ & i' & t & [= <-] & Hd & Ht & ->)].
  { symmetry in Hst. by apply bt_status_nomem_ne in Hst. }
  exists (set_in_use true t).
  split; [apply list_lookup_insert_eq; by eapply lookup_lt_Some|].
  unfold register_for_event_notification, call_get_transaction. mstep.
  rewrite Hg. rewrite Z.eqb_refl. mstep.
  rewrite list_lookup_insert_eq by (by eapply lookup_lt_Some). mstep.
  rewrite Hl. mstep. rewrite He. mstep.
  unfold register_notification_cmd. mstep. rewrite Hc. mstep.
  rewrite Hb, Z.eqb_refl. mstep. rewrite Z.eqb_refl. mstep.
  rewrite Hl. mstep. rewrite He. done.
Qed.

Lemma first_not_registered_lookup (l : list btif_rc_supported_event_t) (k i : nat) :
  first_not_registered k l = Some i ->
  (k <= i)%nat /\
  exists e, l !! (i - k)%nat = Some e /\ status e = eNOT_REGISTERED /\
            Forall (fun x => status x <> eNOT_REGISTERED) (take (i - k) l).
Proof.
  revert k. induction l as [|x l IH]; intros k; simpl; [done|].
  case_bool_decide as Hx.
  - intros [= <-]. split; [lia|]. rewrite Nat.sub_diag. simpl. eauto.
  - intros Hk. destruct (IH _ Hk) as (Hle & e & He & Hs & Hall).
    split; [lia|]. exists e.
    replace (i - k)%nat with (S (i - S k)) by lia. simpl. auto.
Qed.

Lemma register_first_not_registered_defined (w : world)
  (evs : list btif_rc_supported_event_t) :
  rc_supported_event_list (btif_rc_cb w) = Some evs ->
  defined register_first_not_registered w.
Proof.
  intros Hl. unfold defined, register_first_not_registered. mstep. rewrite Hl. mstep.
  destruct (first_not_registered 0 evs) as [i|] eqn:Hf; [|by eauto].
  destruct (first_not_registered_lookup _ _ _ Hf) as (_ & e & He & _).
  rewrite Nat.sub_0_r in He.
  destruct (register_for_event_notification_defined i w evs e Hl He) as ([] & w' & Hw).
  rewrite Hw. by eauto.
Qed.

Lemma register_first_not_registered_inv (w w' : world) (b : bool) :
  register_first_not_registered w = Some (b, w') ->
  exists evs, rc_supported_event_list (btif_rc_cb w) = Some evs /\
    match first_not_registered 0 evs with
    | Some p => b = true /\ register_for_event_notification p w = Some (tt, w')
    | None => b = false /\ w' = w
    end.
Proof.
  intros Hw. unfold register_first_not_registered in Hw.
  apply run_bind_inv in Hw as (evs & w1 & Hl & Hw).
  apply supported_event_list_inv in Hl as [Hl ->]. exists evs. split; [done|].
  destruct (first_not_registered 0 evs) as [p|].
  - apply run_bind_inv in Hw as ([] & w2 & Hr & Hw). apply ret_inv in Hw as [<- ->]. done.
  - apply ret_inv in Hw as [<- ->]. done.
Qed.

(** What the loop sends: nothing, or the registration of the first entry
    that is not registered. *)
Lemma register_first_not_registered_spec (w w' : world) (b : bool) :
  register_first_not_registered w = Some (b, w') ->
  K w w' /\ event_ids w' = event_ids w /\
  btif_rc_cb w' =
    set_rc_supported_event_list (rc_supported_event_list (btif_rc_cb w')) (btif_rc_cb w) /\
  exists evs, rc_supported_event_list (btif_rc_cb w) = Some evs /\
    (b = true <-> is_Some (first_not_registered 0 evs)) /\
    (trace w' = trace w \/
     exists p e l, first_not_registered 0 evs = Some p /\ evs !! p = Some e /\
       trace w' = BTA_AvVendorCmd (rc_handle (btif_rc_cb w)) l AVRC_CMD_NOTIF
                    (cmd_reg_notif (event_id e) 0) :: trace w).
Proof.
  intros Hw. apply register_first_not_registered_inv in Hw as (evs & Hl & Hw).
  destruct (first_not_registered 0 evs) as [p|] eqn:Hf.
  - destruct Hw as [-> Hr].
    destruct (register_for_event_notification_spec _ _ _ Hr) as (HK & Hcb & Hev & Ht).
    split; [done|]. split; [done|]. split; [done|].
    exists evs. split; [done|]. split; [by split; eauto|].
    destruct Ht as [Ht|(evs' & e & l & Hl' & He & Ht & _)]; [by left|].
    right. rewrite Hl in Hl'. injection Hl' as <-. by exists p, e, l.
  - destruct Hw as [-> ->]. split; [by intros ?|]. split; [done|].
    split; [by destruct (btif_rc_cb w)|].
    exists evs. split; [done|]. split; [|by left].
    split; [done|]. intros [? ?]. congruence.
Qed.

Lemma foreach_timeout_first (L : nat) (pre post : list btif_rc_supported_event_t)
  (e : btif_rc_supported_event_t) :
  label e = Some L ->
  Forall (fun x => exists l, label x = Some l /\ l <> L) pre ->
  foreach_timeout L (pre ++ e :: post) = Some (pre ++ post).
Proof.
  intros He Hpre. induction Hpre as [|x pre (l & Hx & Hne) _ IH]; simpl.
  - by rewrite He, Nat.eqb_refl.
  - rewrite Hx. apply Nat.eqb_neq in Hne. by rewrite Hne, IH.
Qed.

End Specs.

(** ** Notifications in detail *)

Section Notifications.
Context `{AvrcDefs}.

Lemma rsp_code_facts :
  (AVRC_RSP_NOT_IMPL <=? AVRC_RSP_CHANGED) = true /\
  (AVRC_RSP_CHANGED <=? AVRC_RSP_INTERIM) = true /\
  (AVRC_RSP_NOT_IMPL <=? AVRC_RSP_INTERIM) = true /\
  (AVRC_RSP_INTERIM <=? AVRC_RSP_INTERIM) = true /\
  (AVRC_RSP_CHANGED =? AVRC_RSP_INTERIM) = false.
Proof.
  destruct avrc_rsp_order as (? & ? & ? & ?).
  repeat split; first [apply Z.leb_le; lia | apply Z.eqb_neq; lia].
Qed.

#[global] Instance sends_only_refl (P : effect -> Prop) : Reflexive (sends_only P).
Proof. intros w. repeat split. by exists []. Qed.

#[global] Instance sends_only_trans (P : effect -> Prop) : Transitive (sends_only P).
Proof.
  intros w1 w2 w3 (Hc1 & Hq1 & d1 & Ht1 & Hd1) (Hc2 & Hq2 & d2 & Ht2 & Hd2).
  split; [congruence|]. split; [congruence|]. exists (d2 ++ d1).
  split; [by rewrite Ht2, Ht1, app_assoc|]. by apply Forall_app.
Qed.

Lemma sends_only_weaken (P P' : effect -> Prop) (w w' : world) :
  (forall e, P e -> P' e) -> sends_only P w w' -> sends_only P' w w'.
Proof.
  intros HP (Hc & Hq & d & Ht & Hd). repeat split; [done..|].
  exists d. split; [done|]. eapply Forall_impl; eauto.
Qed.

Lemma sends_only_list (P : effect -> Prop) (w : world)
  (l : option (list btif_rc_supported_event_t)) :
  sends_only P w {| btif_rc_cb := set_rc_supported_event_list l (btif_rc_cb w);
                    device := device w; trace := trace w |}.
Proof. repeat split. by exists []. Qed.


Lemma send_status_cmd_sends (cmd : tAVRC_COMMAND) :
  rel (sends_only (is_cmd (cmd_pdu cmd))) (send_status_cmd cmd).
Proof.
  intros w st w' Hw. destruct (send_status_cmd_cases _ _ _ _ Hw) as (Hcb & Ht).
  unfold sends_only, procedure_complete, app_query_started. rewrite Hcb.
  split; [done|]. split; [done|].
  destruct Ht as [Ht|(l & Ht)].
  - exists []. by rewrite Ht.
  - eexists [_]. split; [exact Ht|]. by repeat constructor.
Qed.


Lemma sends_registrations_app (a b : list avrc_evt) (w1 w2 w3 : world) :
  sends_registrations a w1 w2 -> sends_registrations b w2 w3 ->
  sends_registrations (b ++ a) w1 w3.
Proof.
  intros (d1 & H1 & E1) (d2 & H2 & E2). exists (d2 ++ d1).
  split; [by rewrite H2, H1, app_assoc|]. by rewrite omap_app, E1, E2.
Qed.

Lemma sends_registrations_Q_l (a : list avrc_evt) (w1 w2 w3 : world) :
  Q w1 w2 -> sends_registrations a w2 w3 -> sends_registrations a w1 w3.
Proof.
  intros HQ Hs. pose proof (sends_registrations_app _ _ _ _ _ HQ Hs) as Hr.
  by rewrite app_nil_r in Hr.
Qed.

Lemma sends_registrations_Q_r (a : list avrc_evt) (w1 w2 w3 : world) :
  sends_registrations a w1 w2 -> Q w2 w3 -> sends_registrations a w1 w3.
Proof. intros Hs HQ. exact (sends_registrations_app _ _ _ _ _ Hs HQ). Qed.

(** The handled part of an interim response for one of the three
    events: at most a callback, and neither the list nor the
    query-started flag changes. *)
Lemma interim_event_block (r : tAVRC_REG_NOTIF_RSP) (cb : btif_rc_cb_t) (w w1 : world)
  (handled : bool) :
  registered_event (reg_notif_event_id r) ->
  match reg_notif_event_id r with
  | AVRC_EVT_PLAY_STATUS_CHANGE =>
      run when (param_play_status r =? AVRC_PLAYSTATE_PLAYING) rc_start_play_status_timer;
      run emit (HAL_CBACK (play_status_changed_cb (rc_addr cb) (param_play_status r)));
      ret true
  | AVRC_EVT_TRACK_CHANGE =>
      run when (rc_is_track_id_valid (param_track r))
            (modify_cb (set_rc_playing_uid (be_stream_to_uint64 (param_track r))));
      ret true
  | AVRC_EVT_APP_SETTING_CHANGE
  | AVRC_EVT_NOW_PLAYING_CHANGE
  | AVRC_EVT_AVAL_PLAYERS_CHANGE
  | AVRC_EVT_ADDR_PLAYER_CHANGE
  | AVRC_EVT_UIDS_CHANGE => ret true
  | _ => ret false
  end w = Some (handled, w1) ->
  handled = true /\ Q w w1 /\
  rc_supported_event_list (btif_rc_cb w1) = rc_supported_event_list (btif_rc_cb w) /\
  app_query_started w1 = app_query_started w /\
  procedure_complete w1 = procedure_complete w /\
  rc_features (btif_rc_cb w1) = rc_features (btif_rc_cb w).
Proof.
  intros Hev Hh. unfold when, rc_start_play_status_timer in Hh.
  destruct Hev as [Hev|[Hev|Hev]]; rewrite Hev in Hh; inv_run Hh.
  all: split; [done|].
  all: split; [first [by apply Q_same_trace | by eapply Q_one]|].
  all: unfold app_query_started, procedure_complete; simpl.
  all: try done.
  all: try (destruct (alarm_is_scheduled _); [done|]).
  all: try by destruct (btif_rc_cb w).
Qed.

(** An interim response for one of the three events: at most one
    registration goes out, for the first entry that is not registered
    once the entry of the event is marked; when there is none, the
    query-started flag is set. *)
Lemma handle_notification_response_interim_spec (m : tBTA_AV_META_MSG)
  (r : tAVRC_REG_NOTIF_RSP) (w w' : world) :
  registered_event (reg_notif_event_id r) -> msg_code m = AVRC_RSP_INTERIM ->
  handle_notification_response m r w = Some (tt, w') ->
  exists l, rc_supported_event_list (btif_rc_cb w) = Some l /\
    let l1 := foreach_interim_rsp (reg_notif_event_id r) l in
    match first_not_registered 0 l1 with
    | Some p =>
        app_query_started w' = app_query_started w /\
        procedure_complete w' = procedure_complete w /\
        exists e, l1 !! p = Some e /\
          (sends_registrations [] w w' \/ sends_registrations [event_id e] w w')
    | None =>
        sends_registrations [] w w' /\ app_query_started w' = true /\
        (app_query_started w = false ->
         Z.land (rc_features (btif_rc_cb w)) BTA_AV_FEAT_APP_SETTING = 0 ->
         procedure_complete w' = true)
    end.
Proof.
  intros Hev Hcode Hw. unfold handle_notification_response in Hw.
  rewrite Hcode, Z.eqb_refl in Hw.
  apply run_bind_inv in Hw as (cb & w0 & Hcb & Hw). apply get_cb_inv in Hcb as [-> ->].
  apply run_bind_inv in Hw as (handled & w1 & Hh & Hw).
  apply (interim_event_block _ _ _ _ _ Hev) in Hh as (-> & HQ1 & Hl1 & Hq1 & Hc1 & Hf1).
  cbn [negb] in Hw.
  apply run_bind_inv in Hw as ([] & w2 & Hu & Hw).
  apply update_event_list_inv in Hu as (l & l1 & Hl & [= <-] & ->).
  rewrite Hl1 in Hl. exists l. split; [exact Hl|]. cbv zeta.
  apply run_bind_inv in Hw as (l1 & w2 & Hs & Hw).
  apply supported_event_list_inv in Hs as [[= <-] ->].
  apply run_bind_inv in Hw as (found & w3 & Hr & Hw).
  apply register_first_not_registered_spec in Hr
    as (_ & _ & Hcb3 & evs & [= <-] & Hfound & Ht3).
  simpl in Ht3, Hcb3.
  apply run_bind_inv in Hw as (p_event_null & w4 & Hp & Hw).
  apply run_bind_inv in Hw as (cb1 & w5 & Hcb1 & Hw). apply get_cb_inv in Hcb1 as [-> ->].
  assert (Hq : app_query_started w3 = app_query_started w).
  { rewrite <- Hq1. unfold app_query_started. by rewrite Hcb3. }
  assert (Hc : procedure_complete w3 = procedure_complete w).
  { rewrite <- Hc1. unfold procedure_complete. by rewrite Hcb3. }
  assert (Hfeat : rc_features (btif_rc_cb w3) = rc_features (btif_rc_cb w)).
  { rewrite <- Hf1. by rewrite Hcb3. }
  destruct (first_not_registered 0 (foreach_interim_rsp (reg_notif_event_id r) l))
    as [p|] eqn:Hfnr.
  - assert (found = true) as -> by (apply Hfound; eauto).
    apply ret_inv in Hp as [-> ->]. cbn [andb] in Hw. apply ret_inv in Hw as [_ ->].
    split; [exact Hq|]. split; [exact Hc|].
    destruct Ht3 as [Ht3|(p' & e & lb & [= <-] & He & Ht3)].
    + destruct (first_not_registered_lookup _ _ _ Hfnr) as (_ & e & He & _).
      rewrite Nat.sub_0_r in He. exists e. split; [exact He|]. left.
      eapply sends_registrations_Q_l; [exact HQ1|]. by exists [].
    + exists e. split; [exact He|]. right.
      eapply sends_registrations_Q_l; [exact HQ1|]. eexists [_]. split; [exact Ht3|done].
  - assert (found = false) as ->.
    { destruct found; [|done]. destruct Hfound as [Hf _]. by destruct (Hf eq_refl). }
    destruct Ht3 as [Ht3|(p' & e & lb & [=] & _)].
    assert (HQ3 : Q w w3).
    { transitivity w1; [exact HQ1|]. by apply Q_same_trace. }
    destruct (foreach_interim_rsp (reg_notif_event_id r) l) as [|x l1]; [done|].
    apply ret_inv in Hp as [-> ->]. cbn [andb] in Hw.
    unfold app_query_started in Hq.
    destruct (query_started (rc_app_settings (btif_rc_cb w3))) eqn:Hqs; cbn [negb] in Hw.
    + apply ret_inv in Hw as [_ ->]. split; [exact HQ3|].
      split; [exact Hqs|]. intros Hn. unfold app_query_started in Hn. congruence.
    + apply run_bind_inv in Hw as (s & w6 & Hs & Hw).
      apply update_app_settings_inv in Hs as ([= <-] & ->).
      set (w6 := {| btif_rc_cb := _; device := device w3; trace := trace w3 |}) in Hw.
      assert (HQ6 : Q w w6) by (transitivity w3; [exact HQ3|by apply Q_same_trace]).
      destruct (negb _) eqn:Hfb.
      * apply run_bind_inv in Hw as (st & w7 & Hs & Hw). apply ret_inv in Hw as [_ ->].
        pose proof (rel_Q_send_status_cmd cmd_list_app_attr ltac:(done) _ _ _ Hs) as HQ7.
        apply send_status_cmd_cases in Hs as [Hcb7 _].
        split; [by transitivity w6|]. unfold app_query_started. rewrite Hcb7.
        split; [subst w6; simpl; by destruct (btif_rc_cb w3)|].
        intros _ Hz. rewrite <- Hfeat in Hz. rewrite Hz in Hfb. done.
      * pose proof (rel_Q_rc_ctrl_procedure_complete _ _ _ Hw) as HQ7.
        split; [by transitivity w6|]. split.
        -- destruct (rel_rc_ctrl_procedure_complete (fun _ => True) _ _ _ Hw) as [HG _].
           apply (G_started _ _ _ HG). subst w6. unfold app_query_started. simpl.
           by destruct (btif_rc_cb w3).
        -- intros _ _. by eapply rc_ctrl_procedure_complete_sets.
Qed.

Lemma sends_only_step (P : effect -> Prop) (w w' : world) :
  procedure_complete w' = procedure_complete w ->
  app_query_started w' = app_query_started w ->
  (trace w' = trace w \/ exists e, trace w' = e :: trace w /\ P e) ->
  sends_only P w w'.
Proof.
  intros Hc Hq [Ht|(e & Ht & He)]; (split; [done|]; split; [done|]).
  - by exists [].
  - exists [e]. split; [done|]. by repeat constructor.
Qed.

Lemma first_of_event_lookup (id : avrc_evt) (l : list btif_rc_supported_event_t) (k i : nat) :
  first_of_event id k l = Some i ->
  (k <= i)%nat /\ exists e, l !! (i - k)%nat = Some e /\ event_id e = id.
Proof.
  revert k. induction l as [|x l IH]; intros k; simpl; [done|].
  case_bool_decide as Hx.
  - intros [= <-]. split; [lia|]. rewrite Nat.sub_diag. simpl. eauto.
  - intros Hk. destruct (IH _ Hk) as (Hle & e & He & Hid).
    split; [lia|]. exists e. replace (i - k)%nat with (S (i - S k)) by lia. auto.
Qed.

(** A registration sends nothing but the REGISTER_NOTIFICATION command
    of its entry. *)
Lemma register_for_event_notification_sends_event (p : nat) (w w' : world)
  (evs : list btif_rc_supported_event_t) (e : btif_rc_supported_event_t) :
  rc_supported_event_list (btif_rc_cb w) = Some evs -> evs !! p = Some e ->
  register_for_event_notification p w = Some (tt, w') ->
  sends_only (fun x => reg_cmd_event x = Some (event_id e)) w w'.
Proof.
  intros Hl He Hw.
  destruct (register_for_event_notification_spec _ _ _ Hw) as (_ & Hcb & _ & Ht).
  apply sends_only_step.
  - unfold procedure_complete. by rewrite Hcb.
  - unfold app_query_started. by rewrite Hcb.
  - destruct Ht as [Ht|(evs' & e' & l & Hl' & He' & Ht & _)]; [by left|].
    right. eexists. split; [exact Ht|]. simpl. congruence.
Qed.

(** A changed response registers the event of the response again, at
    once, and no other; the two flags stay. *)
Lemma handle_notification_response_changed_spec (m : tBTA_AV_META_MSG)
  (r : tAVRC_REG_NOTIF_RSP) (w w' : world) :
  msg_code m = AVRC_RSP_CHANGED ->
  handle_notification_response m r w = Some (tt, w') ->
  sends_only (fun x => forall ev, reg_cmd_event x = Some ev -> ev = reg_notif_event_id r) w w'.
Proof.
  intros Hcode Hw. destruct rsp_code_facts as (_ & _ & _ & _ & Hne).
  unfold handle_notification_response in Hw. rewrite Hcode, Hne, Z.eqb_refl in Hw.
  apply run_bind_inv in Hw as (cb & w0 & Hcb & Hw). apply get_cb_inv in Hcb as [-> ->].
  apply run_bind_inv in Hw as (l & w0 & Hl & Hw).
  apply supported_event_list_inv in Hl as [Hl ->].
  apply run_bind_inv in Hw as ([] & w2 & Hreg & Hw).
  transitivity w2.
  - destruct (first_of_event (reg_notif_event_id r) 0 l) as [i|] eqn:Hf.
    + apply first_of_event_lookup in Hf as (_ & e & He & Hid). rewrite Nat.sub_0_r in He.
      apply run_bind_inv in Hreg as ([] & w1 & Hu & Hreg).
      apply update_event_inv in Hu as (l' & e' & Hl' & He' & ->).
      rewrite Hl in Hl'. injection Hl' as <-. rewrite He in He'. injection He' as <-.
      transitivity {| btif_rc_cb :=
                        set_rc_supported_event_list
                          (Some (<[i := set_event_status eNOT_REGISTERED e]> l)) (btif_rc_cb w);
                      device := device w; trace := trace w |}; [apply sends_only_list|].
      eapply sends_only_weaken;
        [|eapply (register_for_event_notification_sends_event i _ _ _
                    (set_event_status eNOT_REGISTERED e)); [reflexivity| |exact Hreg]].
      * simpl. intros x Hx ev Hev. rewrite Hx in Hev. injection Hev as <-. exact Hid.
      * simpl. apply list_lookup_insert_eq. by eapply lookup_lt_Some.
    + apply ret_inv in Hreg as [_ ->]. reflexivity.
  - eapply (sends_only_weaken (fun x => reg_cmd_event x = None)).
    { intros x Hx ev Hev. congruence. }
    unfold rc_start_play_status_timer, rc_stop_play_status_timer in Hw.
    destruct (reg_notif_event_id r); inv_run Hw; try reflexivity.
    all: try match goal with
         | Hg : get_element_attribute_cmd _ _ _ = Some _ |- _ =>
             unfold get_element_attribute_cmd in Hg; inv_run Hg;
             apply send_status_cmd_sends in Hg;
             eapply sends_only_weaken; [|exact Hg];
             intros x Hx; unfold is_cmd in Hx; destruct x as [? ? ? []| |]; simpl in *; congruence
         end.
    all: apply sends_only_step; unfold procedure_complete, app_query_started; simpl.
    all: try (destruct (alarm_is_scheduled _)).
    all: try (by destruct (btif_rc_cb w2)).
    all: try (right; eexists; split; [reflexivity|done]).
    all: try by left.
Qed.

(** The removal after a time-out: at most one registration goes out,
    for the first entry left that is not registered, and neither flag
    changes, whether or not an entry is left to register. *)
Lemma rc_notification_interim_timout_spec (L : nat) (w w' : world) :
  rc_notification_interim_timout L w = Some (tt, w') ->
  exists l l1, rc_supported_event_list (btif_rc_cb w) = Some l /\
    foreach_timeout L l = Some l1 /\
    app_query_started w' = app_query_started w /\
    procedure_complete w' = procedure_complete w /\
    match first_not_registered 0 l1 with
    | Some p => exists e, l1 !! p = Some e /\
        (trace w' = trace w \/
         exists lb, trace w' = BTA_AvVendorCmd (rc_handle (btif_rc_cb w)) lb AVRC_CMD_NOTIF
                                 (cmd_reg_notif (event_id e) 0) :: trace w)
    | None => trace w' = trace w
    end.
Proof.
  intros Hw. unfold rc_notification_interim_timout in Hw.
  apply run_bind_inv in Hw as ([] & w1 & Hu & Hw).
  apply update_event_list_inv in Hu as (l & l1 & Hl & Hf & ->).
  apply run_bind_inv in Hw as (found & w2 & Hr & Hw). apply ret_inv in Hw as [_ ->].
  apply register_first_not_registered_spec in Hr
    as (_ & _ & Hcb & evs & [= <-] & Hfound & Ht).
  simpl in Hcb, Ht. exists l, l1. split; [exact Hl|]. split; [exact Hf|].
  split; [unfold app_query_started; by rewrite Hcb|].
  split; [unfold procedure_complete; by rewrite Hcb|].
  destruct (first_not_registered 0 l1) as [p|] eqn:Hfnr.
  - destruct Ht as [Ht|(p' & e & lb & [= <-] & He & Ht)].
    + destruct (first_not_registered_lookup _ _ _ Hfnr) as (_ & e & He & _).
      rewrite Nat.sub_0_r in He. exists e. split; [exact He|by left].
    + exists e. split; [exact He|]. right. by exists lb.
  - destruct Ht as [Ht|(p' & e & lb & [=] & _)]. exact Ht.
Qed.

End Notifications.

(** ** The dispatcher in detail *)

Section Dispatch.
Context `{AvrcDefs}.

Lemma caps_within_all (r : tAVRC_GET_CAPS_RSP) : caps_within (fun _ => True) r.
Proof. intros _ _. apply Forall_forall. done. Qed.

(** A response the dispatcher does not act on changes nothing; one it
    acts on runs the handler of its PDU, which leaves the slots in use as
    they are, and then clears the timer of the label (interim notification)
    or releases the label (everything else). *)
Lemma handle_avk_rc_metamsg_rsp_inv (m : tBTA_AV_META_MSG) (w w' : world) :
  handle_avk_rc_metamsg_rsp m w = Some (tt, w') ->
  if response_gate m then
    exists w1, GK (fun _ => True) w w1 /\
      w' = {| btif_rc_cb := btif_rc_cb w1;
              device := (if interim_notification m then clear_cmd_timeout
                         else release_transaction) (msg_label m) (device w1);
              trace := trace w1 |}
  else w' = w.
Proof.
  intros Hw. unfold handle_avk_rc_metamsg_rsp in Hw. unfold response_gate, interim_notification.
  destruct (_ && _); [|by apply ret_inv in Hw as [_ ->]].
  destruct (parsed m) eqn:Hp.
  all: try (apply modify_device_inv in Hw as ->; exists w; split; [reflexivity|done]).
  all: apply run_bind_inv in Hw as ([] & w1 & Hh & Hw); exists w1.
  all: try match type of Hw with context [msg_code ?x =? AVRC_RSP_INTERIM] =>
             destruct (msg_code x =? AVRC_RSP_INTERIM) end.
  all: apply modify_device_inv in Hw as ->; split; [|done].
  all: first
    [ eapply rel_handle_get_capability_response; [apply caps_within_all|exact Hh]
    | eapply rel_handle_app_attr_response; exact Hh
    | eapply rel_handle_app_val_response; exact Hh
    | eapply rel_handle_app_cur_val_response; exact Hh
    | eapply rel_handle_set_app_attr_val_response; exact Hh
    | eapply rel_handle_app_attr_txt_response; exact Hh
    | eapply rel_handle_app_attr_val_txt_response; exact Hh
    | eapply rel_handle_get_elem_attr_response; exact Hh
    | eapply rel_handle_get_playstatus_response; exact Hh
    | eapply rel_handle_notification_response; exact Hh ].
Qed.

Lemma terminates_ret {A : Type} (P : world -> Prop) (R : A -> world -> Prop) (a : A) :
  (forall w, P w -> R a w) -> terminates P (ret a) R.
Proof. intros HR w Hw. exists a, w. split; [done|auto]. Qed.

Lemma terminates_bind {A B : Type} (P : world -> Prop) (R1 : A -> world -> Prop)
  (R : B -> world -> Prop) (m : M A) (k : A -> M B) :
  terminates P m R1 -> (forall a, terminates (R1 a) (k a) R) -> terminates P (bind m k) R.
Proof.
  intros Hm Hk w Hw. destruct (Hm w Hw) as (a & w1 & Hr & H1).
  destruct (Hk a w1 H1) as (b & w2 & Hr2 & H2). exists b, w2.
  split; [|done]. apply run_bind_inv. eauto.
Qed.

Lemma terminates_pre {A : Type} (P P' : world -> Prop) (m : M A) (R : A -> world -> Prop) :
  (forall w, P w -> P' w) -> terminates P' m R -> terminates P m R.
Proof. intros HP Hm w Hw. apply Hm, HP, Hw. Qed.

Lemma terminates_defined {A : Type} (P : world -> Prop) (m : M A) :
  (forall w, defined m w) -> terminates P m (fun _ _ => True).
Proof. intros Hm w _. destruct (Hm w) as (a & w' & Hw). eauto. Qed.

Lemma terminates_get_cb (P : world -> Prop) : terminates P get_cb (fun _ w => P w).
Proof. intros w Hw. exists (btif_rc_cb w), w. done. Qed.

Lemma terminates_modify_cb (P : world -> Prop) (R : unit -> world -> Prop)
  (f : btif_rc_cb_t -> btif_rc_cb_t) :
  (forall w, P w -> R tt {| btif_rc_cb := f (btif_rc_cb w); device := device w;
                           trace := trace w |}) ->
  terminates P (modify_cb f) R.
Proof. intros HR w Hw. eexists tt, _. split; [reflexivity|auto]. Qed.

Lemma terminates_emit (P : world -> Prop) (R : unit -> world -> Prop) (e : effect) :
  (forall w, P w -> R tt {| btif_rc_cb := btif_rc_cb w; device := device w;
                           trace := e :: trace w |}) ->
  terminates P (emit e) R.
Proof. intros HR w Hw. eexists tt, _. split; [reflexivity|auto]. Qed.

Lemma update_app_settings_defined
  (f : btif_rc_player_app_settings_t -> btif_rc_player_app_settings_t) (w : world) :
  defined (update_app_settings (fun s => Some (f s))) w.
Proof. unfold defined, update_app_settings. mstep. eauto. Qed.

Lemma terminates_register_first_not_registered :
  terminates has_entry register_first_not_registered (fun _ w => has_entry w).
Proof.
  intros w (e & l & Hl).
  destruct (register_first_not_registered_defined w _ Hl) as (b & w' & Hw).
  exists b, w'. split; [done|].
  destruct (register_first_not_registered_spec _ _ _ Hw) as (_ & Hev & _).
  unfold event_ids in Hev. rewrite Hl in Hev. unfold has_entry.
  destruct (rc_supported_event_list (btif_rc_cb w')) as [[|e' l']|]; [done| |done].
  by exists e', l'.
Qed.

(** An interim response has a result when the supported-event list has
    an entry. *)
Lemma handle_notification_response_interim_defined (m : tBTA_AV_META_MSG)
  (r : tAVRC_REG_NOTIF_RSP) :
  msg_code m = AVRC_RSP_INTERIM ->
  terminates has_entry (handle_notification_response m r) (fun _ _ => True).
Proof.
  intros Hcode. unfold handle_notification_response.
  eapply terminates_bind; [apply terminates_get_cb|intros cb; cbv beta].
  rewrite Hcode, Z.eqb_refl.
  eapply (terminates_bind _ (fun _ w => has_entry w)).
  { destruct (reg_notif_event_id r); try (by apply terminates_ret).
    - unfold when. destruct (_ =? _).
      + eapply (terminates_bind _ (fun _ w => has_entry w)).
        * apply terminates_modify_cb. intros w (e & l & Hl). exists e, l.
          simpl. destruct (alarm_is_scheduled _); [done|by destruct (btif_rc_cb w)].
        * intros _. eapply (terminates_bind _ (fun _ w => has_entry w)).
          -- by apply terminates_emit.
          -- intros _. by apply terminates_ret.
      + eapply (terminates_bind _ (fun _ w => has_entry w)); [by apply terminates_ret|intros _].
        eapply (terminates_bind _ (fun _ w => has_entry w)).
        -- by apply terminates_emit.
        -- intros _. by apply terminates_ret.
    - unfold when. destruct (rc_is_track_id_valid _).
      + eapply (terminates_bind _ (fun _ w => has_entry w)); [|intros _; by apply terminates_ret].
        apply terminates_modify_cb. intros w (e & l & Hl). exists e, l.
        simpl. by destruct (btif_rc_cb w).
      + eapply (terminates_bind _ (fun _ w => has_entry w)); [by apply terminates_ret|intros _].
        by apply terminates_ret. }
  intros [|]; cbn [negb]; [|by apply terminates_ret].
  eapply (terminates_bind _ (fun _ w => has_entry w)).
  { intros w (e & l & Hl). unfold update_event_list. mstep. rewrite Hl. mstep.
    eexists tt, _. split; [reflexivity|]. simpl.
    destruct (bool_decide (event_id e = reg_notif_event_id r)); by eexists _, _. }
  intros _.
  eapply (terminates_bind _ (fun l1 w => l1 <> [] /\ has_entry w)).
  { intros w (e & l & Hl). exists (e :: l), w. unfold supported_event_list. mstep.
    rewrite Hl. split; [done|]. split; [done|]. by exists e, l. }
  intros [|x l1]; [intros w [? _]; done|].
  eapply terminates_pre; [intros w [_ Hw]; exact Hw|].
  eapply terminates_bind; [apply terminates_register_first_not_registered|intros found; cbv beta].
  eapply (terminates_bind _ (fun _ _ => True)).
  { destruct found; by apply terminates_ret. }
  intros p_event_null. apply terminates_defined. intros w.
  unfold defined. mstep.
  destruct (p_event_null && _); [|by eauto].
  destruct (update_app_settings_defined (set_query_started true) w) as (s & w1 & Hs).
  rewrite Hs.
  destruct (negb _).
  - destruct (send_status_cmd_defined cmd_list_app_attr w1) as (st & w2 & Hw2).
    unfold list_player_app_setting_attrib_cmd. rewrite Hw2. by eauto.
  - apply rc_ctrl_procedure_complete_defined.
Qed.

End Dispatch.

(** ** Responses with a label that is not in use *)

Section UnusedLabel.
Context `{AvrcDefs}.

(** The dispatcher does not look the label of a response up: a response
    that is not vendor dependent, or whose response code is outside
    NOT_IMPL..INTERIM, is dropped; every other response is given to the
    handler of its PDU, and the label is then settled (timer cleared for
    an interim notification, released otherwise), which is all the label
    is used for. *)
Lemma handle_avk_rc_metamsg_rsp_gate (m : tBTA_AV_META_MSG) (w : world) :
  handle_avk_rc_metamsg_rsp m w =
    if response_gate m then (run pdu_handler m; modify_device (settle_label m)) w
    else Some (tt, w).
Proof.
  unfold handle_avk_rc_metamsg_rsp, pdu_handler. fold (response_gate m).
  destruct (response_gate m); [|done].
  assert (Hs : settle_label m =
               if interim_notification m then clear_cmd_timeout (msg_label m)
               else release_transaction (msg_label m)).
  { unfold settle_label. by destruct (interim_notification m). }
  rewrite Hs. unfold interim_notification.
  destruct (parsed m); try reflexivity.
  unfold bind. destruct (handle_notification_response m _ w) as [[[] w1]|]; [|done].
  by destruct (msg_code m =? AVRC_RSP_INTERIM).
Qed.

End UnusedLabel.

(** ** The label of a response *)

Section ResponseLabel.
Context `{AvrcDefs}.

(** C5.  For a response the dispatcher acts on, in a well-formed label
    table.  An interim response to REGISTER_NOTIFICATION has a result
    whenever the supported-event list has an entry.  Whatever the
    response, the slots in use under other labels are left as they are.
    After an interim response to REGISTER_NOTIFICATION whose label is in
    use, the slot of the label is the slot it was with its timer
    cancelled, so the label is still in use; after any other response the
    label of the response is not in use. *)
Theorem C5_interim_keeps_transaction (m : tBTA_AV_META_MSG) (w : world) :
  pool_wf (device w) -> response_gate m = true ->
  (interim_notification m = true -> has_entry w ->
   defined (handle_avk_rc_metamsg_rsp m) w) /\
  forall w', handle_avk_rc_metamsg_rsp m w = Some (tt, w') ->
    (forall j t, j <> msg_label m -> device w !! j = Some t -> in_use t = true ->
       device w' !! j = Some t) /\
    (interim_notification m = true ->
     forall t, device w !! msg_label m = Some t -> in_use t = true ->
       device w' !! msg_label m = Some (set_txn_timer (alarm_cancel (txn_timer t)) t) /\
       get_transaction_by_lbl (msg_label m) (device w') = Some (msg_label m)) /\
    (interim_notification m = false ->
     get_transaction_by_lbl (msg_label m) (device w') = None).
Proof.
  intros Hwf Hgate. split.
  - intros Hint Hent. unfold interim_notification in Hint.
    destruct (parsed m) as [| | | | | | | | | |r|] eqn:Hp; try done.
    apply Z.eqb_eq in Hint.
    destruct (handle_notification_response_interim_defined m r Hint w Hent)
      as ([] & w1 & Hw1 & _).
    unfold defined, handle_avk_rc_metamsg_rsp. unfold response_gate in Hgate.
    rewrite Hgate, Hp. unfold bind. rewrite Hw1, Hint, Z.eqb_refl. by eauto.
  - intros w' Hw. apply handle_avk_rc_metamsg_rsp_inv in Hw. rewrite Hgate in Hw.
    destruct Hw as (w1 & [_ HK] & ->). destruct (HK Hwf) as [Hwf1 Hkeep]. simpl.
    split; [|split].
    + intros j t Hj Hd Hu. destruct (interim_notification m).
      * rewrite clear_cmd_timeout_other by done. by apply Hkeep.
      * rewrite release_transaction_other by done. by apply Hkeep.
    + intros -> t Hd Hu.
      assert (Hl : (msg_label m < MAX_TRANSACTIONS_PER_SESSION)%nat).
      { destruct Hwf as [Hlen _]. rewrite <- Hlen. by eapply lookup_lt_Some. }
      pose proof (clear_cmd_timeout_lookup _ _ _ Hl (Hkeep _ _ Hd Hu) Hu) as Hc.
      split; [exact Hc|]. apply get_transaction_by_lbl_in_use; [exact Hl|].
      eexists. split; [exact Hc|]. done.
    + intros ->. apply release_transaction_not_in_use.
Qed.

End ResponseLabel.

Section ResponseLabelWitness.
#[local] Existing Instance reference_defs.

Lemma C5_interim_keeps_transaction_witness :
  let m0 := meta_msg _ 1 (AVRC_RSP_IMPL_STBL _)
              (events_supported_rsp _ [AVRC_EVT_PLAY_STATUS_CHANGE; AVRC_EVT_TRACK_CHANGE]) in
  let m1 := meta_msg _ 0 AVRC_RSP_INTERIM
              (rsp_reg_notif (notification_rsp _ AVRC_EVT_PLAY_STATUS_CHANGE [])) in
  let m2 := meta_msg _ 0 AVRC_RSP_CHANGED
              (rsp_reg_notif (notification_rsp _ AVRC_EVT_PLAY_STATUS_CHANGE [])) in
  exists w w1 w2 t,
    steps [in_response m0] (requesting_world reference_defs 0) = Some (tt, w) /\
    device w !! 0%nat = Some t /\ alarm_is_scheduled (txn_timer t) = true /\
    handle_avk_rc_metamsg_rsp m1 w = Some (tt, w1) /\
    device w1 !! 0%nat = Some (set_txn_timer (Some alarm_idle) t) /\
    get_transaction_by_lbl 0 (device w1) = Some 0%nat /\
    handle_avk_rc_metamsg_rsp m2 w1 = Some (tt, w2) /\
    get_transaction_by_lbl 0 (device w2) = None.
Proof.
  intros m0 m1 m2.
  let r0 := eval vm_compute in (steps [in_response m0] (requesting_world reference_defs 0)) in
  lazymatch r0 with
  | Some (_, ?w) =>
      exists w;
      let r1 := eval vm_compute in (handle_avk_rc_metamsg_rsp m1 w) in
      lazymatch r1 with
      | Some (_, ?w1) =>
          exists w1;
          assert (Hw1 : handle_avk_rc_metamsg_rsp m1 w = Some (tt, w1))
            by (vm_compute; reflexivity);
          let r2 := eval vm_compute in (handle_avk_rc_metamsg_rsp m2 w1) in
          lazymatch r2 with
          | Some (_, ?w2) =>
              exists w2;
              assert (Hw2 : handle_avk_rc_metamsg_rsp m2 w1 = Some (tt, w2))
                by (vm_compute; reflexivity)
          end;
          let o := eval vm_compute in (device w !! 0%nat) in
          lazymatch o with
          | Some ?t =>
              exists t;
              assert (Hwf : pool_wf (device w) /\ pool_wf (device w1))
                by (split; (split; [reflexivity|]); intros i x Hi;
                    do 16 (destruct i as [|i]; [injection Hi as <-; reflexivity|]);
                    discriminate Hi);
              assert (Hg1 : response_gate m1 = true) by (vm_compute; reflexivity);
              assert (Hg2 : response_gate m2 = true) by (vm_compute; reflexivity);
              destruct (C5_interim_keeps_transaction m1 w (proj1 Hwf) Hg1) as [_ Hpost1];
              destruct (C5_interim_keeps_transaction m2 w1 (proj2 Hwf) Hg2) as [_ Hpost2]
          end
      end
  end.
  destruct (Hpost1 _ Hw1) as (_ & Hint & _).
  destruct (Hpost2 _ Hw2) as (_ & _ & Hrel).
  destruct (Hint ltac:(vm_compute; reflexivity) _ eq_refl eq_refl) as [Hslot Hused].
  split; [vm_compute; reflexivity|]. split; [reflexivity|]. split; [reflexivity|].
  split; [exact Hw1|]. split; [exact Hslot|]. split; [exact Hused|].
  split; [exact Hw2|]. apply Hrel. vm_compute. reflexivity.
Defined.

End ResponseLabelWitness.

(** ** A registration that times out *)

Section InterimTimeout.
Context `{AvrcDefs}.

(** The alarm of a REGISTER_NOTIFICATION transaction expires while the
    entry of the event is the first of the list that carries the label of
    the transaction.  The expiry has a result; the entry is gone from the
    supported-event list and the other entries keep their order; the
    label is not in use afterwards; and, when the event was listed once
    and no later capabilities response advertises it again, neither the
    expiry nor any later sequence of responses and time-outs sends a
    REGISTER_NOTIFICATION command for the event or puts it back on the
    list. *)
Lemma interim_timeout_removes_entry (w : world) (L : nat) (t : rc_transaction_t) (ms : Z)
  (pre post : list btif_rc_supported_event_t) (e : btif_rc_supported_event_t) :
  device w !! L = Some t -> in_use t = true ->
  txn_timer t = Some (alarm_set btif_rc_status_cmd_timer_timeout ms) ->
  txn_timer_context t = {| ctx_label := L; ctx_pdu_id := AVRC_PDU_REGISTER_NOTIFICATION |} ->
  rc_supported_event_list (btif_rc_cb w) = Some (pre ++ e :: post) ->
  label e = Some L -> status e = eREGISTERED ->
  Forall (fun x => exists l, label x = Some l /\ l <> L) pre ->
  exists w',
    txn_timer_expired L w = Some (tt, w') /\
    event_ids w' = Some (event_id <$> pre ++ post) /\
    get_transaction_by_lbl L (device w') = None /\
    (event_id e ∉ event_id <$> pre ++ post ->
     (exists delta, trace w' = delta ++ trace w /\
        Forall (fun x => reg_cmd_event x <> Some (event_id e)) delta) /\
     forall ins w'',
       Forall (input_within (fun ev => ev <> event_id e)) ins ->
       steps ins w' = Some (tt, w'') ->
       (forall ids, event_ids w'' = Some ids -> event_id e ∉ ids) /\
       exists delta, trace w'' = delta ++ trace w' /\
         Forall (fun x => reg_cmd_event x <> Some (event_id e)) delta).
Proof.
  intros Hd Hu Htm Hctx Hl He Hst Hpre.
  set (w1 := {| btif_rc_cb := set_rc_supported_event_list (Some (pre ++ post)) (btif_rc_cb w);
                device := <[L := set_txn_timer (Some alarm_idle) t]> (device w);
                trace := trace w |}).
  destruct (register_first_not_registered_defined w1 (pre ++ post) eq_refl) as (b & w2 & Hr).
  exists {| btif_rc_cb := btif_rc_cb w2; device := release_transaction L (device w2);
            trace := trace w2 |}.
  destruct (register_first_not_registered_spec _ _ _ Hr)
    as (_ & Hev & _ & evs & [= <-] & _ & Ht).
  assert (Hids : event_ids w2 = Some (event_id <$> pre ++ post)) by (by rewrite Hev).
  split; [|split; [exact Hids|split; [apply release_transaction_not_in_use|]]].
  - unfold txn_timer_expired.
    apply run_bind_inv. exists (device w), w. split; [done|].
    apply run_bind_inv. exists t, w. split; [unfold array_get; by rewrite Hd|].
    rewrite Htm.
    apply run_bind_inv. eexists tt, _. split; [reflexivity|].
    unfold btif_rc_status_cmd_timeout_handler. rewrite Hctx. cbn [ctx_pdu_id ctx_label].
    apply run_bind_inv. eexists _, _. split; [reflexivity|]. cbv zeta.
    apply run_bind_inv. exists tt, w2. split; [|reflexivity].
    unfold rc_notification_interim_timout.
    apply run_bind_inv. exists tt, w1. split.
    + unfold update_event_list. mstep. rewrite Hl. mstep.
      by rewrite (foreach_timeout_first L pre post e He Hpre).
    + apply run_bind_inv. exists b, w2. split; [exact Hr|reflexivity].
  - intros Hnotin.
    assert (Hsent : exists delta, trace w2 = delta ++ trace w /\
              Forall (fun x => reg_cmd_event x <> Some (event_id e)) delta).
    { destruct Ht as [Ht|(p & e' & l & _ & He' & Ht)].
      - exists []. split; [exact Ht|constructor].
      - eexists [_]. split; [exact Ht|]. constructor; [|constructor]. simpl.
        intros [= Heq]. apply Hnotin. rewrite <- Heq.
        apply list_elem_of_fmap. exists e'. split; [done|]. by eapply list_elem_of_lookup_2. }
    split; [exact Hsent|].
    intros ins w'' Hins Hw''.
    pose proof (rel_steps _ ins Hins _ _ _ Hw'') as HG.
    assert (Hok : events_ok (fun ev => ev <> event_id e)
                    {| btif_rc_cb := btif_rc_cb w2;
                       device := release_transaction L (device w2); trace := trace w2 |}).
    { intros l Hl2. unfold event_ids in Hids. simpl in Hl2. rewrite Hl2 in Hids.
      injection Hids as ->. apply Forall_forall. intros ev Hev' ->. done. }
    split.
    + intros ids Hids''. pose proof (G_events _ _ _ HG Hok) as Hok''.
      unfold event_ids in Hids''.
      destruct (rc_supported_event_list (btif_rc_cb w'')) as [l|] eqn:Hl''; [|done].
      injection Hids'' as <-. specialize (Hok'' l Hl'').
      intros Hin. eapply Forall_forall in Hok''; [|exact Hin]. done.
    + destruct (G_trace _ _ _ HG Hok) as (delta & Hdt & Hdelta).
      exists delta. split; [exact Hdt|].
      eapply Forall_impl; [exact Hdelta|]. intros x Hx Heq. by apply (Hx _ Heq).
Qed.

End InterimTimeout.

Section InterimTimeoutWitness.
#[local] Existing Instance reference_defs.

(** C6.  An event whose registration timed out is requested again on
    the same connection.  When the peer lists PLAY_STATUS_CHANGE twice,
    the list has two entries for it; the registration of the first goes
    out under label 0 and its alarm expires: the first entry is removed
    and label 0 is released, and the same time-out handler registers the
    second entry, so REGISTER_NOTIFICATION for PLAY_STATUS_CHANGE goes out
    a second time.  When the peer lists the event once, the time-out
    leaves the list empty; a capabilities response received afterwards
    builds the list anew and the event is registered again. *)
Theorem C6_timed_out_event_requested_again :
  let caps ids :=
    in_response (meta_msg _ 1 (AVRC_RSP_IMPL_STBL _) (events_supported_rsp _ ids)) in
  let reg l := BTA_AvVendorCmd 1 l AVRC_CMD_NOTIF
                 (cmd_reg_notif AVRC_EVT_PLAY_STATUS_CHANGE 0) in
  let entry l :=
    {| event_id := AVRC_EVT_PLAY_STATUS_CHANGE; label := l; status := eREGISTERED |} in
  let w0 := requesting_world reference_defs 0 in
  (exists w1 w2,
     steps [caps [AVRC_EVT_PLAY_STATUS_CHANGE; AVRC_EVT_PLAY_STATUS_CHANGE]] w0
       = Some (tt, w1) /\
     trace w1 = reg 0%nat :: trace w0 /\
     rc_supported_event_list (btif_rc_cb w1) =
       Some [entry (Some 0%nat);
             {| event_id := AVRC_EVT_PLAY_STATUS_CHANGE; label := None;
                status := eNOT_REGISTERED |}] /\
     (awaiting_interim <$> device w1 !! 0%nat) = Some true /\
     step (in_txn_timer 0) w1 = Some (tt, w2) /\
     get_transaction_by_lbl 0 (device w2) = None /\
     rc_supported_event_list (btif_rc_cb w2) = Some [entry (Some 1%nat)] /\
     trace w2 = reg 1%nat :: trace w1) /\
  (exists w1 w2 w3,
     steps [caps [AVRC_EVT_PLAY_STATUS_CHANGE]] w0 = Some (tt, w1) /\
     trace w1 = reg 0%nat :: trace w0 /\
     step (in_txn_timer 0) w1 = Some (tt, w2) /\
     get_transaction_by_lbl 0 (device w2) = None /\
     rc_supported_event_list (btif_rc_cb w2) = Some [] /\
     trace w2 = trace w1 /\
     step (caps [AVRC_EVT_PLAY_STATUS_CHANGE]) w2 = Some (tt, w3) /\
     rc_supported_event_list (btif_rc_cb w3) = Some [entry (Some 0%nat)] /\
     trace w3 = reg 0%nat :: trace w2).
Proof.
  intros caps reg entry w0. split.
  - let r1 := eval vm_compute in
      (steps [caps [AVRC_EVT_PLAY_STATUS_CHANGE; AVRC_EVT_PLAY_STATUS_CHANGE]] w0) in
    lazymatch r1 with
    | Some (_, ?w1) =>
        exists w1;
        let r2 := eval vm_compute in (step (in_txn_timer 0) w1) in
        lazymatch r2 with
        | Some (_, ?w2) => exists w2
        end
    end.
    repeat split; vm_compute; reflexivity.
  - let r1 := eval vm_compute in (steps [caps [AVRC_EVT_PLAY_STATUS_CHANGE]] w0) in
    lazymatch r1 with
    | Some (_, ?w1) =>
        exists w1;
        let r2 := eval vm_compute in (step (in_txn_timer 0) w1) in
        lazymatch r2 with
        | Some (_, ?w2) =>
            exists w2;
            let r3 := eval vm_compute in (step (caps [AVRC_EVT_PLAY_STATUS_CHANGE]) w2) in
            lazymatch r3 with
            | Some (_, ?w3) => exists w3
            end
        end
    end.
    repeat split; vm_compute; reflexivity.
Qed.

End InterimTimeoutWitness.

(** ** Absolute volume *)

Section AbsoluteVolume.
Context `{AvrcDefs}.

Lemma release_max_label (d : rc_device_t) : release_transaction MAX_LABEL d = d.
Proof. reflexivity. Qed.





End AbsoluteVolume.

Section AbsoluteVolumeWitness.
#[local] Existing Instance reference_defs.



End AbsoluteVolumeWitness.

(** ** The procedure-complete flag *)

Section ProcedureComplete.
Context `{AvrcDefs}.



End ProcedureComplete.

Section ProcedureCompleteWitness.
#[local] Existing Instance reference_defs.


End ProcedureCompleteWitness.

(** ** The events the controller registers for *)

Section RegisteredEvents.
Context `{AvrcDefs}.

Lemma supported_events_of_ids (ids : list avrc_evt) :
  event_id <$> supported_events_of ids = filter registered_event ids.
Proof.
  induction ids as [|id ids IH]; [done|]. rewrite filter_cons.
  destruct (decide (registered_event id)) as [Hr|Hr].
  - destruct Hr as [-> | [-> | ->]]; cbn [supported_events_of]; rewrite fmap_cons;
      cbn [event_id]; by rewrite IH.
  - destruct id; cbn [supported_events_of]; try done; exfalso; apply Hr;
      unfold registered_event; auto.
Qed.

Lemma caps_within_registered (r : tAVRC_GET_CAPS_RSP) : caps_within registered_event r.
Proof.
  intros _ _. rewrite supported_events_of_ids. apply Forall_forall.
  intros ev Hev. apply list_elem_of_filter in Hev. tauto.
Qed.

Lemma input_within_registered (ins : list input) :
  Forall (input_within registered_event) ins.
Proof.
  apply Forall_forall. intros [m| |] _; simpl; [|done..].
  destruct (parsed m); try done. apply caps_within_registered.
Qed.

(** A capabilities response that lists supported events of which none
    is PLAY_STATUS_CHANGE, TRACK_CHANGE or APP_SETTING_CHANGE has no
    result: the list is empty when its front is taken. *)
Lemma handle_get_capability_response_no_event (m : tBTA_AV_META_MSG)
  (r : tAVRC_GET_CAPS_RSP) (w : world) :
  caps_status r = AVRC_STS_NO_ERROR -> capability_id r = AVRC_CAP_EVENTS_SUPPORTED ->
  filter registered_event (take (count r) (param_event_id r)) = [] ->
  handle_get_capability_response m r w = None.
Proof.
  intros Hst Hcap Hnone.
  unfold handle_get_capability_response. rewrite Hst, Z.eqb_refl, Hcap.
  unfold array_prefix. mstep. destruct (_ <=? _)%nat; [|done]. mstep.
  pose proof (supported_events_of_ids (take (count r) (param_event_id r))) as Hids.
  rewrite Hnone in Hids. apply fmap_nil_inv in Hids. by rewrite Hids.
Qed.

(** With one of the three events among those advertised the response
    has a result whenever its count is within the array; the
    supported-event list is then the advertised ids that are
    PLAY_STATUS_CHANGE, TRACK_CHANGE or APP_SETTING_CHANGE, in the order
    advertised; the handler sends at most one REGISTER_NOTIFICATION
    command, for the first of them, and does send it when the connection
    is up, a transaction is free and the packet is built. *)
Lemma handle_get_capability_response_events (m : tBTA_AV_META_MSG)
  (r : tAVRC_GET_CAPS_RSP) (w : world) :
  caps_status r = AVRC_STS_NO_ERROR -> capability_id r = AVRC_CAP_EVENTS_SUPPORTED ->
  (count r <= length (param_event_id r))%nat ->
  let ids := filter registered_event (take (count r) (param_event_id r)) in
  ids <> [] ->
  exists w' evs,
    handle_get_capability_response m r w = Some (tt, w') /\
    event_ids w' = Some ids /\
    sends_registrations evs w w' /\
    (evs = [] \/ exists ev, head ids = Some ev /\ evs = [ev]) /\
    (forall ev i d1,
       head ids = Some ev -> rc_connected (btif_rc_cb w) = true ->
       get_transaction (device w) = (BT_STATUS_SUCCESS, Some i, d1) ->
       AVRC_BldCommand (cmd_reg_notif ev 0) = AVRC_STS_NO_ERROR ->
       evs = [ev]).
Proof.
  intros Hst Hcap Hcnt ids Hne.
  unfold handle_get_capability_response. rewrite Hst, Z.eqb_refl, Hcap.
  apply Nat.leb_le in Hcnt. unfold array_prefix. mstep. rewrite Hcnt. mstep.
  pose proof (supported_events_of_ids (take (count r) (param_event_id r))) as Hids.
  fold ids in Hids.
  destruct (supported_events_of (take (count r) (param_event_id r))) as [|e l] eqn:Hl.
  { exfalso. apply Hne. by rewrite <- Hids. }
  set (w1 := {| btif_rc_cb := set_rc_supported_event_list (Some (e :: l)) (btif_rc_cb w);
                device := device w; trace := trace w |}).
  destruct (register_for_event_notification_defined 0 w1 (e :: l) e eq_refl eq_refl)
    as ([] & w' & Hw).
  destruct (register_for_event_notification_spec _ _ _ Hw) as (_ & _ & Hev & Ht).
  assert (Hev' : event_ids w' = Some ids).
  { rewrite Hev. unfold event_ids. simpl. by rewrite <- Hids. }
  assert (Hhd : head ids = Some (event_id e)) by (by rewrite <- Hids).
  destruct Ht as [Ht|(evs & e' & lb & [= <-] & [= <-] & Ht & _)].
  - exists w', []. split; [exact Hw|]. split; [exact Hev'|].
    split; [by exists []|]. split; [by left|].
    intros ev i d1 Hh Hc Hg Hb. rewrite Hhd in Hh. injection Hh as <-.
    destruct (register_for_event_notification_sent 0 w1 (e :: l) e i d1
                eq_refl eq_refl Hc Hg Hb) as (t & _ & Hw').
    rewrite Hw in Hw'. injection Hw' as ->. simpl in Ht.
    apply (f_equal length) in Ht. simpl in Ht. lia.
  - exists w', [event_id e]. split; [exact Hw|]. split; [exact Hev'|].
    split; [eexists [_]; split; [exact Ht|done]|]. split; [right; eauto|].
    intros ev i d1 Hh _ _ _. rewrite Hhd in Hh. by injection Hh as <-.
Qed.

(** From a list within the three events, every sequence of responses and
    time-outs keeps the list within them and sends REGISTER_NOTIFICATION
    commands for these three events only. *)
Lemma steps_register_three_events (ins : list input) (w w' : world) :
  events_ok registered_event w -> steps ins w = Some (tt, w') ->
  events_ok registered_event w' /\
  exists delta, trace w' = delta ++ trace w /\ Forall (effect_ok registered_event) delta.
Proof.
  intros Hok Hw.
  pose proof (rel_steps registered_event ins (input_within_registered ins) w tt w' Hw) as HG.
  split; [by apply (G_events _ _ _ HG)|by apply (G_trace _ _ _ HG)].
Qed.

End RegisteredEvents.

Section RegisteredEventsWitness.
#[local] Existing Instance reference_defs.

(** C10.  A peer that supports none of PLAY_STATUS_CHANGE, TRACK_CHANGE
    and APP_SETTING_CHANGE is not ignored in silence.  Its capabilities
    response, here with the events VOLUME_CHANGE and PLAY_POS_CHANGED or
    with no event at all, leaves the supported-event list empty, and
    [list_front] of that list has no result: the handler, the dispatcher
    and the run have none.  With TRACK_CHANGE added to the same events
    the response is handled and the two other events are passed over:
    the list holds TRACK_CHANGE alone and the one REGISTER_NOTIFICATION
    command is for it. *)
Theorem C10_no_kept_event_has_no_result :
  let w := requesting_world reference_defs 0 in
  let caps ids := meta_msg _ 1 (AVRC_RSP_IMPL_STBL _) (events_supported_rsp _ ids) in
  let others := [AVRC_EVT_VOLUME_CHANGE; AVRC_EVT_PLAY_POS_CHANGED] in
  pdu_handler (caps others) w = None /\
  handle_avk_rc_metamsg_rsp (caps others) w = None /\
  steps [in_response (caps others)] w = None /\
  handle_avk_rc_metamsg_rsp (caps []) w = None /\
  exists w',
    handle_avk_rc_metamsg_rsp (caps (others ++ [AVRC_EVT_TRACK_CHANGE])) w = Some (tt, w') /\
    event_ids w' = Some [AVRC_EVT_TRACK_CHANGE] /\
    omap reg_cmd_event (trace w') = [AVRC_EVT_TRACK_CHANGE].
Proof.
  intros w caps others.
  do 4 (split; [vm_compute; reflexivity|]).
  let r := eval vm_compute in
    (handle_avk_rc_metamsg_rsp (caps (others ++ [AVRC_EVT_TRACK_CHANGE])) w) in
  lazymatch r with
  | Some (_, ?w') => exists w'
  end.
  repeat split; vm_compute; reflexivity.
Qed.

End RegisteredEventsWitness.
(** ** More on the label pool and on the commands *)

Lemma first_unused_none_inv (i n : nat) (d : rc_device_t) :
  first_unused i n d = None -> (i + n <= length d)%nat ->
  forall j, (i <= j < i + n)%nat -> label_in_use j d.
Proof.
  revert i. induction n as [|n IH]; intros i Hf Hlen j Hj; [lia|].
  simpl in Hf. destruct (d !! i) as [t|] eqn:Hi.
  - destruct (in_use t) eqn:Ht; [|done].
    destruct (decide (j = i)) as [->|Hne]; [by exists t|].
    apply (IH (S i)); [done|lia|lia].
  - apply lookup_ge_None in Hi. lia.
Qed.

Lemma in_use_count_insert (d : rc_device_t) (i : nat) (t t' : rc_transaction_t) :
  d !! i = Some t ->
  (in_use_count (<[i := t']> d) + (if in_use t then 1 else 0) =
   in_use_count d + (if in_use t' then 1 else 0))%nat.
Proof.
  revert i. induction d as [|a d IH]; intros i Hi; [done|].
  destruct i as [|i]; simpl in *.
  - injection Hi as ->. lia.
  - specialize (IH i Hi). lia.
Qed.

Section PoolFirstFit.
Context `{AvrcDefs}.

Lemma first_unused_lowest_free (d : rc_device_t) (l : nat) :
  first_unused 0 MAX_TRANSACTIONS_PER_SESSION d = Some l -> lowest_free l d.
Proof.
  intros Hf. destruct (first_unused_some _ _ _ _ Hf) as (Hr & (t & Hd & Ht) & Hb).
  split; [lia|]. split.
  - intros (t' & Hd' & Ht'). congruence.
  - intros j Hj. apply Hb. lia.
Qed.

Lemma lowest_free_first_unused (d : rc_device_t) (l l' : nat) :
  lowest_free l d -> first_unused 0 MAX_TRANSACTIONS_PER_SESSION d = Some l' -> l = l'.
Proof.
  intros (Hl & Hfree & Hbelow) Hfu.
  destruct (first_unused_some _ _ _ _ Hfu) as (Hr & (t & Hd & Ht) & Hb).
  destruct (Nat.lt_trichotomy l l') as [Hlt|[->|Hgt]]; [|done|].
  - exfalso. destruct (Hb l) as (t' & Hd' & Ht'); [lia|]. apply Hfree. by exists t'.
  - exfalso. destruct (Hbelow l' Hgt) as (t' & Hd' & Ht'). congruence.
Qed.

Lemma first_unused_exhausted (d : rc_device_t) :
  pool_wf d -> first_unused 0 MAX_TRANSACTIONS_PER_SESSION d = None -> exhausted d.
Proof.
  intros [Hlen _] Hf l Hl.
  apply (first_unused_none_inv 0 MAX_TRANSACTIONS_PER_SESSION d Hf); lia.
Qed.

(** X1.  [get_transaction] hands out the lowest label that is not in use:
    on a well-formed table it either fails with [BT_STATUS_NOMEM], leaves
    the table as it was and every one of the sixteen labels is in use, or
    it succeeds with the lowest free label, marks it in use, touches no
    other slot and raises the number of labels in use by one. *)
Theorem X1_get_transaction_lowest_free (d d' : rc_device_t) (st : Z) (p : option nat) :
  pool_wf d -> get_transaction d = (st, p, d') ->
  (st = BT_STATUS_NOMEM /\ p = None /\ d' = d /\ exhausted d) \/
  (st = BT_STATUS_SUCCESS /\
   exists l, p = Some l /\ lowest_free l d /\ label_in_use l d' /\
     (forall j, j <> l -> d' !! j = d !! j) /\
     in_use_count d' = S (in_use_count d)).
Proof.
  intros Hwf Hg. unfold get_transaction in Hg.
  destruct (first_unused 0 MAX_TRANSACTIONS_PER_SESSION d) as [k|] eqn:Hf.
  - destruct (first_unused_some _ _ _ _ Hf) as (Hr & (t & Hd & Ht) & Hb).
    rewrite Hd in Hg. injection Hg as <- <- <-. right. split; [done|].
    exists k. split; [done|]. split; [by apply first_unused_lowest_free|].
    split; [|split].
    + exists (set_in_use true t). split; [|done].
      apply list_lookup_insert_eq. by eapply lookup_lt_Some.
    + intros j Hj. by apply list_lookup_insert_ne.
    + pose proof (in_use_count_insert d k t (set_in_use true t) Hd) as Hc.
      rewrite Ht in Hc. simpl in Hc. lia.
  - injection Hg as <- <- <-. left. repeat split; try done.
    by apply first_unused_exhausted.
Qed.

End PoolFirstFit.

Section PoolFirstFitWitness.
#[local] Existing Instance reference_defs.

Lemma X1_get_transaction_lowest_free_witness :
  let d := release_transaction 1 (run_pool_ops [Acquire; Acquire; Acquire] lbl_init) in
  exists d', get_transaction d = (BT_STATUS_SUCCESS, Some 1%nat, d') /\
             lowest_free 1 d /\ label_in_use 1 d' /\ in_use_count d' = 3%nat.
Proof.
  intros d.
  assert (Hwf : pool_wf d)
    by (apply release_transaction_wf, run_pool_ops_wf, lbl_init_wf).
  let r := eval vm_compute in (get_transaction d) in
  lazymatch r with
  | (?st, ?p, ?d') =>
      assert (Hg : get_transaction d = (st, p, d')) by (vm_compute; reflexivity);
      destruct (X1_get_transaction_lowest_free d d' st p Hwf Hg)
        as [(Hst & _)|(_ & l & Hp & Hlow & Hused & _ & Hc)];
      [discriminate Hst|exists d']
  end.
  injection Hp as <-. split; [exact Hg|]. split; [exact Hlow|].
  split; [exact Hused|]. rewrite Hc. vm_compute. reflexivity.
Defined.

End PoolFirstFitWitness.
(** ** What a status command returns and leaves behind *)

Section StatusCommands.
Context `{AvrcDefs}.

Lemma get_transaction_lowest (d : rc_device_t) (l : nat) (t : rc_transaction_t) :
  first_unused 0 MAX_TRANSACTIONS_PER_SESSION d = Some l -> d !! l = Some t ->
  get_transaction d = (BT_STATUS_SUCCESS, Some l, <[l := set_in_use true t]> d).
Proof. intros Hf Hd. unfold get_transaction. by rewrite Hf, Hd. Qed.

(** Without a packet the command returns the status of the builder and
    keeps the slot it took. *)
Lemma send_status_cmd_not_built (cmd : tAVRC_COMMAND) (w : world) (i : nat)
  (t : rc_transaction_t) :
  rc_connected (btif_rc_cb w) = true ->
  first_unused 0 MAX_TRANSACTIONS_PER_SESSION (device w) = Some i ->
  device w !! i = Some t ->
  AVRC_BldCommand cmd <> AVRC_STS_NO_ERROR ->
  send_status_cmd cmd w =
    Some (AVRC_BldCommand cmd,
          {| btif_rc_cb := btif_rc_cb w;
             device := <[i := set_in_use true t]> (device w);
             trace := trace w |}).
Proof.
  intros Hc Hf Hd Hb. pose proof (get_transaction_lowest _ _ _ Hf Hd) as Hg.
  apply Z.eqb_neq in Hb.
  unfold send_status_cmd, bind, get_cb, call_get_transaction.
  rewrite Hc. cbn [negb]. cbn beta iota. rewrite Hg. cbn beta iota.
  rewrite Z.eqb_refl. cbn [negb lift_option]. cbn beta iota. by rewrite Hb.
Qed.

Lemma send_status_cmd_not_connected (cmd : tAVRC_COMMAND) (w : world) :
  rc_connected (btif_rc_cb w) = false ->
  send_status_cmd cmd w = Some (BT_STATUS_NOT_READY, w).
Proof.
  intros Hc. unfold send_status_cmd, bind, get_cb. by rewrite Hc.
Qed.

Lemma send_status_cmd_no_label (cmd : tAVRC_COMMAND) (w : world) :
  rc_connected (btif_rc_cb w) = true ->
  first_unused 0 MAX_TRANSACTIONS_PER_SESSION (device w) = None ->
  send_status_cmd cmd w = Some (BT_STATUS_FAIL, w).
Proof.
  intros Hc Hf.
  assert (Hg : get_transaction (device w) = (BT_STATUS_NOMEM, None, device w))
    by (unfold get_transaction; by rewrite Hf).
  unfold send_status_cmd, bind, get_cb, call_get_transaction.
  rewrite Hc. cbn [negb]. cbn beta iota. rewrite Hg. cbn beta iota.
  pose proof bt_status_nomem_ne as Hne. apply Z.eqb_neq in Hne. rewrite Hne.
  by destruct w.
Qed.

(** The shared body in full. *)
Lemma send_status_cmd_outcomes (cmd : tAVRC_COMMAND) (w : world) :
  pool_wf (device w) ->
  exists st w', send_status_cmd cmd w = Some (st, w') /\
    btif_rc_cb w' = btif_rc_cb w /\
    ((rc_connected (btif_rc_cb w) = false /\ st = BT_STATUS_NOT_READY /\ w' = w) \/
     (rc_connected (btif_rc_cb w) = true /\ exhausted (device w) /\
      st = BT_STATUS_FAIL /\ w' = w) \/
     (rc_connected (btif_rc_cb w) = true /\
      exists l t, lowest_free l (device w) /\ device w !! l = Some t /\
        (forall j, j <> l -> device w' !! j = device w !! j) /\
        in_use_count (device w') = S (in_use_count (device w)) /\
        ((AVRC_BldCommand cmd = AVRC_STS_NO_ERROR /\ st = BT_STATUS_SUCCESS /\
          trace w' = BTA_AvVendorCmd (rc_handle (btif_rc_cb w)) l AVRC_CMD_STATUS cmd
                       :: trace w /\
          device w' !! l =
            Some {| in_use := true; lbl := l; handle := handle t;
                    txn_timer_context := {| ctx_label := l; ctx_pdu_id := cmd_pdu cmd |};
                    txn_timer := status_cmd_alarm |}) \/
         (AVRC_BldCommand cmd <> AVRC_STS_NO_ERROR /\ st = AVRC_BldCommand cmd /\
          trace w' = trace w /\
          device w' !! l = Some (set_in_use true t))))).
Proof.
  intros Hwf.
  destruct (rc_connected (btif_rc_cb w)) eqn:Hc.
  2:{ exists BT_STATUS_NOT_READY, w. split; [by apply send_status_cmd_not_connected|].
      split; [done|]. by left. }
  destruct (first_unused 0 MAX_TRANSACTIONS_PER_SESSION (device w)) as [l|] eqn:Hf.
  2:{ exists BT_STATUS_FAIL, w. split; [by apply send_status_cmd_no_label|].
      split; [done|]. right. left. split; [done|].
      split; [by apply first_unused_exhausted|done]. }
  destruct (first_unused_some _ _ _ _ Hf) as (Hr & (t & Hd & Ht) & Hb).
  pose proof (first_unused_lowest_free _ _ Hf) as Hlow.
  assert (Hlt : (l < length (device w))%nat) by (by eapply lookup_lt_Some).
  assert (Hlbl : lbl t = l) by (by apply (proj2 Hwf)).
  assert (Hcount : forall t', in_use t' = true ->
            in_use_count (<[l := t']> (device w)) = S (in_use_count (device w))).
  { intros t' Ht'. pose proof (in_use_count_insert (device w) l t t' Hd) as E.
    rewrite Ht, Ht' in E. lia. }
  destruct (decide (AVRC_BldCommand cmd = AVRC_STS_NO_ERROR)) as [Hbld|Hbld].
  - eexists _, _. split; [by apply (send_status_cmd_sent cmd w l t)|].
    split; [done|]. right. right. split; [done|]. exists l, t.
    split; [done|]. split; [done|]. cbn [device trace].
    unfold start_status_command_timer, arm_txn_timer.
    rewrite list_lookup_insert_eq by done. rewrite list_insert_insert_eq.
    split; [intros j Hj; by apply list_lookup_insert_ne|].
    split; [by apply Hcount|]. left. split; [done|]. split; [done|].
    split; [by rewrite Hlbl|]. rewrite list_lookup_insert_eq by done.
    simpl. by rewrite Hlbl.
  - eexists _, _. split; [by apply (send_status_cmd_not_built cmd w l t)|].
    split; [done|]. right. right. split; [done|]. exists l, t.
    split; [done|]. split; [done|]. cbn [device trace].
    split; [intros j Hj; by apply list_lookup_insert_ne|].
    split; [by apply Hcount|]. right. split; [done|]. split; [done|].
    split; [done|]. by apply list_lookup_insert_eq.
Qed.

(** What the shared body adds to the trace. *)
Lemma send_status_cmd_trace (cmd : tAVRC_COMMAND) (w : world) :
  pool_wf (device w) ->
  exists st w', send_status_cmd cmd w = Some (st, w') /\
    btif_rc_cb w' = btif_rc_cb w /\
    (rc_connected (btif_rc_cb w) = false \/ exhausted (device w) \/
     AVRC_BldCommand cmd <> AVRC_STS_NO_ERROR -> trace w' = trace w) /\
    (forall l, rc_connected (btif_rc_cb w) = true -> lowest_free l (device w) ->
       AVRC_BldCommand cmd = AVRC_STS_NO_ERROR ->
       trace w' = BTA_AvVendorCmd (rc_handle (btif_rc_cb w)) l AVRC_CMD_STATUS cmd :: trace w).
Proof.
  intros Hwf.
  destruct (send_status_cmd_outcomes cmd w Hwf)
    as (st & w' & Hrun & Hcb &
        [(Hc & _ & ->)|[(Hc & Hex & _ & ->)|(Hc & l & t & Hlow & Hd & _ & _ & Hout)]]).
  - exists st, w. repeat split; try done. intros l Hc'. congruence.
  - exists st, w. repeat split; try done. intros l _ (Hl & Hfree & _) _.
    exfalso. by apply Hfree, Hex.
  - exists st, w'. split; [exact Hrun|]. split; [exact Hcb|].
    assert (Hnex : ~ exhausted (device w)).
    { intros Hex. destruct Hlow as (Hl & Hfree & _). by apply Hfree, Hex. }
    destruct Hout as [(Hb & _ & Ht & _)|(Hb & _ & Ht & _)].
    + split; [intros [Hc'|[Hex|Hb']]; [congruence|done|done]|].
      intros l' _ Hlow' _. rewrite Ht. do 2 f_equal.
      destruct Hlow as (Hl & Hfree & Hbelow). destruct Hlow' as (Hl' & Hfree' & Hbelow').
      destruct (Nat.lt_trichotomy l l') as [Hlt|[->|Hgt]]; [|done|].
      * exfalso. by apply Hfree, Hbelow'.
      * exfalso. by apply Hfree', Hbelow.
    + split; [done|]. intros l' _ _ Hb'. done.
Qed.

(** Where [get_player_app_setting_attr_text_cmd] parts from the shared
    body: with a connection, a label and a packet it has no result;
    everywhere else it is the shared body. *)
Lemma get_player_app_setting_attr_text_cmd_eq (attrs : list Z) (n : nat) (w : world) :
  get_player_app_setting_attr_text_cmd attrs n w =
    if rc_connected (btif_rc_cb w)
       && ((get_transaction (device w)).1.1 =? BT_STATUS_SUCCESS)
       && (AVRC_BldCommand (cmd_get_app_attr_txt n attrs) =? AVRC_STS_NO_ERROR)
    then None
    else send_status_cmd (cmd_get_app_attr_txt n attrs) w.
Proof.
  unfold get_player_app_setting_attr_text_cmd, send_status_cmd, bind, get_cb,
    call_get_transaction.
  destruct (rc_connected (btif_rc_cb w)); [|done]. cbn [negb andb]. cbn beta iota.
  destruct (get_transaction (device w)) as [[st p] d]. cbn [fst]. cbn beta iota.
  destruct (st =? BT_STATUS_SUCCESS); [|done]. cbn [negb andb].
  destruct p as [p|]; [|by destruct (_ =? _)]. cbn [lift_option]. cbn beta iota.
  destruct (_ =? AVRC_STS_NO_ERROR); [|done].
  unfold transaction_lbl, bind, get_device, array_get, ret, emit, modify_device, undefined.
  cbn [device]. by destruct (d !! p).
Qed.

(** X2.  The status commands of the controller that share one body
    ([getcapabilities_cmd], [list_player_app_setting_attrib_cmd],
    [list_player_app_setting_value_cmd], [get_player_app_setting_cmd],
    [get_player_app_setting_value_text_cmd], [get_element_attribute_cmd]
    and [get_play_status_cmd]) always return, never touch the control
    block, and do one of four things.  Without a connection:
    [BT_STATUS_NOT_READY], nothing changes.  With every label in use:
    [BT_STATUS_FAIL], nothing changes.  With a free label and a packet:
    [BT_STATUS_SUCCESS], the command goes out under the lowest free label,
    and the slot of that label is in use with its status-command alarm set
    for this PDU.  With a free label and no packet: the status of
    [AVRC_BldCommand] is returned as it is, nothing is sent, and the
    lowest free label is taken all the same, with its alarm as it was, so
    that no time-out of this command will free it.
    [get_player_app_setting_attr_text_cmd] is the exception: with a
    connection, a free label and a packet it frees the packet twice and
    has no result; in the three other cases it does what the shared body
    does. *)
Theorem X2_status_cmd_outcomes (w : world) :
  pool_wf (device w) ->
  (forall cmd : tAVRC_COMMAND,
   exists st w', send_status_cmd cmd w = Some (st, w') /\
    btif_rc_cb w' = btif_rc_cb w /\
    ((rc_connected (btif_rc_cb w) = false /\ st = BT_STATUS_NOT_READY /\ w' = w) \/
     (rc_connected (btif_rc_cb w) = true /\ exhausted (device w) /\
      st = BT_STATUS_FAIL /\ w' = w) \/
     (rc_connected (btif_rc_cb w) = true /\
      exists l t, lowest_free l (device w) /\ device w !! l = Some t /\
        (forall j, j <> l -> device w' !! j = device w !! j) /\
        in_use_count (device w') = S (in_use_count (device w)) /\
        ((AVRC_BldCommand cmd = AVRC_STS_NO_ERROR /\ st = BT_STATUS_SUCCESS /\
          trace w' = BTA_AvVendorCmd (rc_handle (btif_rc_cb w)) l AVRC_CMD_STATUS cmd
                       :: trace w /\
          device w' !! l =
            Some {| in_use := true; lbl := l; handle := handle t;
                    txn_timer_context := {| ctx_label := l; ctx_pdu_id := cmd_pdu cmd |};
                    txn_timer := status_cmd_alarm |}) \/
         (AVRC_BldCommand cmd <> AVRC_STS_NO_ERROR /\ st = AVRC_BldCommand cmd /\
          trace w' = trace w /\
          device w' !! l = Some (set_in_use true t)))))) /\
  (forall (attrs : list Z) (n : nat),
     (rc_connected (btif_rc_cb w) = true -> ~ exhausted (device w) ->
      AVRC_BldCommand (cmd_get_app_attr_txt n attrs) = AVRC_STS_NO_ERROR ->
      get_player_app_setting_attr_text_cmd attrs n w = None) /\
     (rc_connected (btif_rc_cb w) = false \/ exhausted (device w) \/
      AVRC_BldCommand (cmd_get_app_attr_txt n attrs) <> AVRC_STS_NO_ERROR ->
      get_player_app_setting_attr_text_cmd attrs n w =
        send_status_cmd (cmd_get_app_attr_txt n attrs) w)).
Proof.
  intros Hwf. split; [intros cmd; by apply send_status_cmd_outcomes|].
  intros attrs n. rewrite get_player_app_setting_attr_text_cmd_eq.
  unfold get_transaction.
  destruct (first_unused 0 MAX_TRANSACTIONS_PER_SESSION (device w)) as [l|] eqn:Hf.
  - destruct (first_unused_some _ _ _ _ Hf) as (Hr & (t & Hd & Ht) & _).
    rewrite Hd. cbn [fst]. rewrite Z.eqb_refl, andb_true_r. split.
    + intros -> _ ->. by rewrite Z.eqb_refl.
    + intros [->|[Hex|Hb]]; [done| |].
      * exfalso. destruct (Hex l) as (t' & Ht' & Hu); [lia|]. congruence.
      * apply Z.eqb_neq in Hb. rewrite Hb. by rewrite andb_false_r.
  - cbn [fst]. pose proof bt_status_nomem_ne as Hne. apply Z.eqb_neq in Hne.
    rewrite Hne, andb_false_r. cbn [andb]. split; [|done].
    intros _ Hex. exfalso. by apply Hex, first_unused_exhausted.
Qed.

End StatusCommands.

Section StatusCommandsWitness.
#[local] Existing Instance reference_defs.

Lemma X2_status_cmd_outcomes_witness :
  let w := connected_world reference_defs 0 in
  (exists w', send_status_cmd cmd_get_play_status w = Some (BT_STATUS_SUCCESS, w') /\
     trace w' = [BTA_AvVendorCmd 1 0 AVRC_CMD_STATUS cmd_get_play_status] /\
     in_use_count (device w') = 1%nat) /\
  get_player_app_setting_attr_text_cmd [129] 1 w = None.
Proof.
  intros w.
  assert (Hfree : ~ label_in_use 0 (device w)).
  { intros (t & Ht & Hu). vm_compute in Ht. injection Ht as <-. discriminate Hu. }
  assert (Hnex : ~ exhausted (device w)).
  { intros Hex. apply Hfree, Hex. unfold MAX_TRANSACTIONS_PER_SESSION. lia. }
  destruct (X2_status_cmd_outcomes w lbl_init_wf) as [Hcmd Htxt]. split.
  - destruct (Hcmd cmd_get_play_status)
      as (st & w' & Hrun & _ &
          [(Hc & _)|[(_ & Hex & _)|(_ & l & t & Hlow & Hd & _ & Hcount & Hout)]]).
    + discriminate Hc.
    + exfalso. by apply Hnex.
    + assert (l = 0%nat) as ->.
      { destruct l as [|l]; [done|]. exfalso. apply Hfree.
        destruct Hlow as (_ & _ & Hbelow). apply Hbelow. lia. }
      destruct Hout as [(_ & -> & Htr & _)|(Hb & _)]; [|exfalso; by apply Hb].
      exists w'. split; [exact Hrun|]. split; [exact Htr|]. rewrite Hcount.
      vm_compute. reflexivity.
  - apply (Htxt [129] 1%nat); [reflexivity|exact Hnex|reflexivity].
Defined.

End StatusCommandsWitness.
(** ** Labels and alarms agree in every reachable world *)

#[global] Instance keeps_refl (P : rc_device_t -> Prop) : Reflexive (keeps P).
Proof. intros w Hw. done. Qed.

#[global] Instance keeps_trans (P : rc_device_t -> Prop) : Transitive (keeps P).
Proof. intros w1 w2 w3 H12 H23 Hw. by apply H23, H12. Qed.

Lemma rel_keeps_same_device (P : rc_device_t -> Prop) {A : Type} (m : M A) :
  (forall w a w', m w = Some (a, w') -> device w' = device w) -> rel (keeps P) m.
Proof. intros Hm w a w' Hw HP. by rewrite (Hm _ _ _ Hw). Qed.

Lemma rel_keeps_modify_cb (P : rc_device_t -> Prop) (f : btif_rc_cb_t -> btif_rc_cb_t) :
  rel (keeps P) (modify_cb f).
Proof. apply rel_keeps_same_device. by intros w a w' [= _ <-]. Qed.

Lemma rel_keeps_emit (P : rc_device_t -> Prop) (e : effect) : rel (keeps P) (emit e).
Proof. apply rel_keeps_same_device. by intros w a w' [= _ <-]. Qed.

Lemma rel_keeps_update_event_list (P : rc_device_t -> Prop)
  (f : list btif_rc_supported_event_t -> option (list btif_rc_supported_event_t)) :
  rel (keeps P) (update_event_list f).
Proof.
  apply rel_keeps_same_device. intros w a w' Hw.
  by apply update_event_list_inv in Hw as (l & l1 & _ & _ & ->).
Qed.

Lemma rel_keeps_update_event (P : rc_device_t -> Prop) (p : nat)
  (f : btif_rc_supported_event_t -> btif_rc_supported_event_t) :
  rel (keeps P) (update_event p f).
Proof. apply rel_keeps_update_event_list. Qed.

Lemma rel_keeps_update_app_settings (P : rc_device_t -> Prop)
  (f : btif_rc_player_app_settings_t -> option btif_rc_player_app_settings_t) :
  rel (keeps P) (update_app_settings f).
Proof.
  apply rel_keeps_same_device. intros w a w' Hw.
  by apply update_app_settings_inv in Hw as (_ & ->).
Qed.

Lemma rel_keeps_modify_device (P : rc_device_t -> Prop) (f : rc_device_t -> rc_device_t) :
  (forall d, P d -> P (f d)) -> rel (keeps P) (modify_device f).
Proof. intros Hf w a w' [= _ <-] HP. by apply Hf. Qed.

(** *** What the operations on a slot do to the agreement *)

Lemma timers_wf_insert (d : rc_device_t) (i : nat) (t' : rc_transaction_t) :
  timers_wf d -> (i < length d)%nat -> lbl t' = i -> slot_ok i t' ->
  timers_wf (<[i := t']> d).
Proof.
  intros [[Hlen Hlbl] Hok] Hi Hl Ht'. split; [split|].
  - by rewrite length_insert.
  - intros j t Hj. destruct (decide (j = i)) as [->|Hne].
    + rewrite list_lookup_insert_eq in Hj by done. by injection Hj as <-.
    + rewrite list_lookup_insert_ne in Hj by done. by apply Hlbl.
  - intros j t Hj. destruct (decide (j = i)) as [->|Hne].
    + rewrite list_lookup_insert_eq in Hj by done. by injection Hj as <-.
    + rewrite list_lookup_insert_ne in Hj by done. by apply Hok.
Qed.

Lemma timers_wf_acquire (d : rc_device_t) (i : nat) (t : rc_transaction_t) :
  timers_wf d -> d !! i = Some t -> timers_wf (<[i := set_in_use true t]> d).
Proof.
  intros Hwf Hd. pose proof Hwf as [[Hlen Hlbl] Hok].
  apply timers_wf_insert; [done|by eapply lookup_lt_Some|exact (Hlbl i t Hd)|].
  destruct (Hok i t Hd) as [Hh Hs]. split; [done|].
  intros cb ms Hsch. destruct (Hs cb ms Hsch) as (_ & Hc & Hcb). done.
Qed.

Lemma timers_wf_arm cb ms pdu (p : nat) (d : rc_device_t) (t : rc_transaction_t) :
  cb <> btif_rc_play_status_timer_timeout ->
  timers_wf d -> d !! p = Some t -> in_use t = true ->
  timers_wf (arm_txn_timer cb ms pdu p d).
Proof.
  intros Hcb Hwf Hd Ht. pose proof Hwf as [[Hlen Hlbl] Hok].
  unfold arm_txn_timer. rewrite Hd.
  apply timers_wf_insert; [done|by eapply lookup_lt_Some|exact (Hlbl p t Hd)|].
  split; [by apply (Hok p t Hd)|]. simpl. intros cb' ms' [= <- <-].
  split; [done|]. split; [by apply Hlbl|done].
Qed.

Lemma timers_wf_release (l : nat) (d : rc_device_t) :
  timers_wf d -> timers_wf (release_transaction l d).
Proof.
  intros Hwf. destruct (get_transaction_by_lbl l d) as [k|] eqn:Hg.
  - apply get_transaction_by_lbl_some in Hg as (_ & Hl & (t & Hd & Ht)).
    assert (E : release_transaction l d =
                <[l := {| in_use := false; lbl := l; handle := 0;
                          txn_timer_context := txn_timer_context t;
                          txn_timer := if alarm_is_scheduled (txn_timer t)
                                       then Some alarm_idle else txn_timer t |}]> d).
    { apply list_eq. intros j. destruct (decide (j = l)) as [->|Hne].
      - rewrite (release_transaction_lookup l d t Hl Hd Ht).
        by rewrite list_lookup_insert_eq by (by eapply lookup_lt_Some).
      - rewrite release_transaction_other by done. by rewrite list_lookup_insert_ne. }
    rewrite E. apply timers_wf_insert; [done|by eapply lookup_lt_Some|done|].
    split; [done|]. simpl. intros cb ms Hs'.
    destruct (txn_timer t) as [[|cb' ms']|]; simpl in Hs'; done.
  - by rewrite release_transaction_free.
Qed.

Lemma timers_wf_clear (l : nat) (d : rc_device_t) :
  timers_wf d -> timers_wf (clear_cmd_timeout l d).
Proof.
  intros Hwf. unfold clear_cmd_timeout.
  destruct (get_transaction_by_lbl l d) as [k|] eqn:Hg; [|done].
  destruct (d !! k) as [t|] eqn:Hd; [|done].
  destruct (txn_timer t) as [a|] eqn:Ha; [|done].
  pose proof Hwf as [[Hlen Hlbl] Hok].
  apply timers_wf_insert; [done|by eapply lookup_lt_Some|exact (Hlbl k t Hd)|].
  split; [by apply (Hok k t Hd)|]. simpl. done.
Qed.

Lemma timers_wf_idle (p : nat) (d : rc_device_t) (t : rc_transaction_t) :
  timers_wf d -> d !! p = Some t ->
  timers_wf (<[p := set_txn_timer (Some alarm_idle) t]> d).
Proof.
  intros Hwf Hd. pose proof Hwf as [[Hlen Hlbl] Hok].
  apply timers_wf_insert; [done|by eapply lookup_lt_Some|exact (Hlbl p t Hd)|].
  split; [by apply (Hok p t Hd)|]. simpl. done.
Qed.

Lemma lbl_init_timers_wf : timers_wf lbl_init.
Proof.
  split; [apply lbl_init_wf|].
  intros i t Hi.
  assert (Hlt : (i < 16)%nat) by (apply lookup_lt_Some in Hi; exact Hi).
  do 16 (destruct i as [|i];
         [vm_compute in Hi; injection Hi as <-; split; [reflexivity|intros ? ?; discriminate]|]).
  lia.
Qed.

Section Invariant.
Context `{AvrcDefs}.

Create HintDb keeps discriminated.

#[local] Hint Resolve readonly_get_cb readonly_get_device readonly_lift_option
  readonly_array_get readonly_array_prefix readonly_supported_event_list
  readonly_ret readonly_undefined : keeps.

Ltac keeps_step :=
  cbv zeta;
  lazymatch goal with
  | |- rel _ (bind _ _) => apply rel_bind; [typeclasses eauto| |intros ?]
  | |- rel _ (ret _) => apply rel_ret; typeclasses eauto
  | |- rel _ undefined => apply rel_undefined
  | |- rel _ (emit _) => apply rel_keeps_emit
  | |- rel _ (modify_cb _) => apply rel_keeps_modify_cb
  | |- rel _ (update_app_settings _) => apply rel_keeps_update_app_settings
  | |- rel _ (update_event_list _) => apply rel_keeps_update_event_list
  | |- rel _ (update_event _ _) => apply rel_keeps_update_event
  | |- rel _ (modify_device (release_transaction _)) =>
      apply rel_keeps_modify_device; intros ?; apply timers_wf_release
  | |- rel _ (modify_device (clear_cmd_timeout _)) =>
      apply rel_keeps_modify_device; intros ?; apply timers_wf_clear
  | |- rel _ (when _ _) => unfold when
  | |- rel _ (if ?b then _ else _) => destruct b
  | |- rel _ (match ?x with _ => _ end) => destruct x
  | |- rel _ _ =>
      first [ solve [auto with keeps]
            | apply rel_readonly; [typeclasses eauto|solve [auto with keeps]] ]
  end.

Ltac keeps_auto := repeat keeps_step.

Lemma keeps_send_status_cmd (cmd : tAVRC_COMMAND) :
  rel (keeps timers_wf) (send_status_cmd cmd).
Proof.
  intros w st w' Hw Hwf. unfold send_status_cmd in Hw. inv_run Hw; try done.
  all: match goal with
       | Hg : call_get_transaction _ = _ |- _ =>
           apply call_get_transaction_inv in Hg as (d1 & Hg & ->);
           apply get_transaction_cases in Hg as [(-> & ? & ->)|(-> & i & t & ? & Hd & Ht & ->)]
       end; simplify_eq; try done.
  all: try match goal with
       | Hl : transaction_lbl _ _ = _ |- _ =>
           apply transaction_lbl_inv in Hl as [(t1 & Hl1 & ->) ->]
       end; simpl in *.
  all: try (by apply timers_wf_acquire).
  unfold start_status_command_timer.
  eapply timers_wf_arm; [done|by apply timers_wf_acquire|exact Hl1|].
  rewrite list_lookup_insert_eq in Hl1 by (by eapply lookup_lt_Some).
  by injection Hl1 as <-.
Qed.

Lemma keeps_get_element_attribute_cmd (n : nat) (l : list avrc_media_attr) :
  rel (keeps timers_wf) (get_element_attribute_cmd n l).
Proof.
  unfold get_element_attribute_cmd. apply rel_bind; [typeclasses eauto| |intros ids].
  - apply rel_readonly; [typeclasses eauto|apply readonly_array_prefix].
  - apply keeps_send_status_cmd.
Qed.

Lemma keeps_register_for_event_notification (p : nat) :
  rel (keeps timers_wf) (register_for_event_notification p).
Proof.
  intros w [] w' Hw Hwf. unfold register_for_event_notification in Hw. inv_run Hw.
  all: match goal with
       | Hg : call_get_transaction _ = _ |- _ =>
           apply call_get_transaction_inv in Hg as (d1 & Hg & ->);
           apply get_transaction_cases in Hg as [(-> & ? & ->)|(-> & i & t & ? & Hd & Ht & ->)]
       end; simplify_eq; try done.
  all: try match goal with
       | Hl : transaction_lbl _ _ = _ |- _ =>
           apply transaction_lbl_inv in Hl as [(t1 & Hl1 & ->) ->]
       end; simpl in *.
  all: try match goal with
       | Hl : register_notification_cmd _ _ _ _ = _ |- _ =>
           apply register_notification_cmd_inv in Hl as [[-> Hst]|[-> ->]]
       end; simpl in *.
  all: try (rewrite Z.eqb_refl in *; discriminate).
  all: try (by apply timers_wf_release, timers_wf_acquire).
  all: eapply timers_wf_arm; [done|by apply timers_wf_acquire|exact Hl1|];
    rewrite list_lookup_insert_eq in Hl1 by (by eapply lookup_lt_Some);
    by injection Hl1 as <-.
Qed.

#[local] Hint Resolve keeps_send_status_cmd keeps_get_element_attribute_cmd
  keeps_register_for_event_notification : keeps.

Ltac keeps_cmd :=
  try apply rel_of_send_status_cmd;
  unfold getcapabilities_cmd, list_player_app_setting_attrib_cmd,
    list_player_app_setting_value_cmd, get_player_app_setting_cmd,
    get_player_app_setting_value_text_cmd, get_play_status_cmd;
  apply keeps_send_status_cmd.

#[local] Hint Extern 1 (rel _ (getcapabilities_cmd _)) => keeps_cmd : keeps.
#[local] Hint Extern 1 (rel _ list_player_app_setting_attrib_cmd) => keeps_cmd : keeps.
#[local] Hint Extern 1 (rel _ (list_player_app_setting_value_cmd _)) => keeps_cmd : keeps.
#[local] Hint Extern 1 (rel _ (get_player_app_setting_cmd _ _)) => keeps_cmd : keeps.
#[local] Hint Extern 1 (rel _ (get_player_app_setting_attr_text_cmd _ _)) => keeps_cmd : keeps.
#[local] Hint Extern 1 (rel _ (get_player_app_setting_value_text_cmd _ _)) => keeps_cmd : keeps.
#[local] Hint Extern 1 (rel _ get_play_status_cmd) => keeps_cmd : keeps.

Lemma keeps_rc_ctrl_procedure_complete : rel (keeps timers_wf) rc_ctrl_procedure_complete.
Proof. unfold rc_ctrl_procedure_complete. keeps_auto. Qed.

Lemma keeps_rc_start_play_status_timer : rel (keeps timers_wf) rc_start_play_status_timer.
Proof. apply rel_keeps_modify_cb. Qed.

Lemma keeps_rc_stop_play_status_timer : rel (keeps timers_wf) rc_stop_play_status_timer.
Proof. apply rel_keeps_modify_cb. Qed.

#[local] Hint Resolve keeps_rc_ctrl_procedure_complete keeps_rc_start_play_status_timer
  keeps_rc_stop_play_status_timer : keeps.

Lemma keeps_register_first_not_registered :
  rel (keeps timers_wf) register_first_not_registered.
Proof. unfold register_first_not_registered. keeps_auto. Qed.

#[local] Hint Resolve keeps_register_first_not_registered : keeps.

Lemma keeps_handle_get_capability_response m r :
  rel (keeps timers_wf) (handle_get_capability_response m r).
Proof. unfold handle_get_capability_response. keeps_auto. Qed.

Lemma keeps_handle_notification_response m r :
  rel (keeps timers_wf) (handle_notification_response m r).
Proof. unfold handle_notification_response. keeps_auto. Qed.

Lemma keeps_handle_app_attr_response m r :
  rel (keeps timers_wf) (handle_app_attr_response m r).
Proof. unfold handle_app_attr_response. keeps_auto. Qed.

Lemma keeps_handle_app_val_response m r :
  rel (keeps timers_wf) (handle_app_val_response m r).
Proof. unfold handle_app_val_response. keeps_auto. Qed.

Lemma keeps_handle_app_cur_val_response m r :
  rel (keeps timers_wf) (handle_app_cur_val_response m r).
Proof. unfold handle_app_cur_val_response. keeps_auto. Qed.

Lemma keeps_report_standard_settings : rel (keeps timers_wf) report_standard_settings.
Proof. unfold report_standard_settings. keeps_auto. Qed.

#[local] Hint Resolve keeps_report_standard_settings : keeps.

Lemma keeps_ext_attr_values e : rel (keeps timers_wf) (ext_attr_values e).
Proof. unfold ext_attr_values. keeps_auto. Qed.

#[local] Hint Resolve keeps_ext_attr_values : keeps.

Lemma keeps_handle_app_attr_txt_response m r :
  rel (keeps timers_wf) (handle_app_attr_txt_response m r).
Proof. unfold handle_app_attr_txt_response. keeps_auto. Qed.

Lemma keeps_handle_app_attr_val_txt_response m r :
  rel (keeps timers_wf) (handle_app_attr_val_txt_response m r).
Proof. unfold handle_app_attr_val_txt_response. keeps_auto. Qed.

Lemma keeps_handle_set_app_attr_val_response m r :
  rel (keeps timers_wf) (handle_set_app_attr_val_response m r).
Proof. unfold handle_set_app_attr_val_response. keeps_auto. Qed.

Lemma keeps_handle_get_elem_attr_response m r :
  rel (keeps timers_wf) (handle_get_elem_attr_response m r).
Proof. unfold handle_get_elem_attr_response. keeps_auto. Qed.

Lemma keeps_handle_get_playstatus_response m r :
  rel (keeps timers_wf) (handle_get_playstatus_response m r).
Proof. unfold handle_get_playstatus_response. keeps_auto. Qed.

#[local] Hint Resolve keeps_handle_get_capability_response keeps_handle_notification_response
  keeps_handle_app_attr_response keeps_handle_app_val_response
  keeps_handle_app_cur_val_response keeps_handle_app_attr_txt_response
  keeps_handle_app_attr_val_txt_response keeps_handle_set_app_attr_val_response
  keeps_handle_get_elem_attr_response keeps_handle_get_playstatus_response : keeps.

Lemma keeps_handle_avk_rc_metamsg_rsp m :
  rel (keeps timers_wf) (handle_avk_rc_metamsg_rsp m).
Proof. unfold handle_avk_rc_metamsg_rsp. keeps_auto. Qed.

Lemma keeps_rc_notification_interim_timout l :
  rel (keeps timers_wf) (rc_notification_interim_timout l).
Proof. unfold rc_notification_interim_timout. keeps_auto. Qed.

#[local] Hint Resolve keeps_rc_notification_interim_timout : keeps.

Lemma keeps_btif_rc_status_cmd_timeout_handler c :
  rel (keeps timers_wf) (btif_rc_status_cmd_timeout_handler c).
Proof. unfold btif_rc_status_cmd_timeout_handler. keeps_auto. Qed.

Lemma keeps_btif_rc_control_cmd_timeout_handler c :
  rel (keeps timers_wf) (btif_rc_control_cmd_timeout_handler c).
Proof. unfold btif_rc_control_cmd_timeout_handler. keeps_auto. Qed.

Lemma keeps_btif_rc_play_status_timeout_handler :
  rel (keeps timers_wf) btif_rc_play_status_timeout_handler.
Proof. unfold btif_rc_play_status_timeout_handler. keeps_auto. Qed.

#[local] Hint Resolve keeps_btif_rc_status_cmd_timeout_handler
  keeps_btif_rc_control_cmd_timeout_handler keeps_btif_rc_play_status_timeout_handler
  keeps_handle_avk_rc_metamsg_rsp : keeps.

Lemma keeps_txn_timer_expired p : rel (keeps timers_wf) (txn_timer_expired p).
Proof.
  intros w [] w' Hw Hwf. unfold txn_timer_expired in Hw.
  apply run_bind_inv in Hw as (d & w1 & H1 & Hw). apply get_device_inv in H1 as [-> ->].
  apply run_bind_inv in Hw as (t & w1 & H1 & Hw). apply array_get_inv in H1 as [Hd ->].
  destruct (txn_timer t) as [[|cb ms]|]; try (by injection Hw as <-).
  apply run_bind_inv in Hw as (u & w1 & H1 & Hw). apply modify_device_inv in H1 as ->.
  assert (Hwf1 : timers_wf (<[p := set_txn_timer (Some alarm_idle) t]> (device w)))
    by (by apply timers_wf_idle).
  destruct cb.
  - by apply (keeps_btif_rc_status_cmd_timeout_handler _ _ _ _ Hw).
  - by apply (keeps_btif_rc_control_cmd_timeout_handler _ _ _ _ Hw).
  - by apply (keeps_btif_rc_play_status_timeout_handler _ _ _ Hw).
Qed.

Lemma keeps_play_status_timer_expired : rel (keeps timers_wf) play_status_timer_expired.
Proof. unfold play_status_timer_expired. keeps_auto. Qed.

Lemma keeps_step (i : input) : rel (keeps timers_wf) (step i).
Proof.
  destruct i; simpl;
    [apply keeps_handle_avk_rc_metamsg_rsp|apply keeps_txn_timer_expired
    |apply keeps_play_status_timer_expired].
Qed.

Lemma keeps_steps (ins : list input) : rel (keeps timers_wf) (steps ins).
Proof.
  induction ins as [|i ins IH]; simpl.
  - apply rel_ret. typeclasses eauto.
  - apply rel_bind; [typeclasses eauto|apply keeps_step|intros _; exact IH].
Qed.

Lemma keeps_register_volumechange l : rel (keeps timers_wf) (register_volumechange l).
Proof.
  unfold register_volumechange. keeps_auto.
  unfold transaction_lbl. keeps_auto.
Qed.

Lemma keeps_btif_rc_upstreams_rsp_evt r c l :
  rel (keeps timers_wf) (btif_rc_upstreams_rsp_evt r c l).
Proof. unfold btif_rc_upstreams_rsp_evt. keeps_auto. Qed.

#[local] Hint Resolve keeps_register_volumechange keeps_btif_rc_upstreams_rsp_evt : keeps.

Lemma keeps_handle_rc_metamsg_rsp m : rel (keeps timers_wf) (handle_rc_metamsg_rsp m).
Proof. unfold handle_rc_metamsg_rsp. keeps_auto. Qed.

End Invariant.
(** ** Time-outs and failed registrations *)

Section Timeouts.
Context `{AvrcDefs}.

Lemma timers_wf_free_idle (d : rc_device_t) (p : nat) (t : rc_transaction_t) :
  timers_wf d -> d !! p = Some t -> in_use t = false ->
  alarm_is_scheduled (txn_timer t) = false.
Proof.
  intros [_ Hok] Hd Ht. destruct (Hok p t Hd) as [_ Hs].
  destruct (txn_timer t) as [[|cb ms]|]; try done.
  destruct (Hs cb ms eq_refl) as (Hu & _). congruence.
Qed.

Lemma txn_timer_expired_idle (p : nat) (w : world) (t : rc_transaction_t) :
  device w !! p = Some t -> alarm_is_scheduled (txn_timer t) = false ->
  txn_timer_expired p w = Some (tt, w).
Proof.
  intros Hd Hs. unfold txn_timer_expired, bind, get_device, array_get. rewrite Hd. simpl.
  destruct (txn_timer t) as [[|cb ms]|]; done.
Qed.

(** X3.  Labels and alarms agree in every world the controller reaches:
    from a table in which every slot with a set alarm is in use, carries
    its own label in the timer context and times out as a command, and no
    slot has a handle, any sequence of responses and alarm expiries leads
    to such a table again.  So a label that is free never has an alarm
    pending: the expiry of its alarm does nothing. *)
Theorem X3_labels_and_alarms_agree (ins : list input) (w w' : world) :
  timers_wf (device w) -> steps ins w = Some (tt, w') ->
  timers_wf (device w') /\
  forall p t, device w' !! p = Some t -> in_use t = false ->
              txn_timer_expired p w' = Some (tt, w').
Proof.
  intros Hwf Hrun. pose proof (keeps_steps ins w tt w' Hrun Hwf) as Hwf'.
  split; [exact Hwf'|]. intros p t Hd Ht.
  apply (txn_timer_expired_idle p w' t Hd). by eapply timers_wf_free_idle.
Qed.

Lemma timeout_status_neqb : (BTIF_RC_STS_TIMEOUT =? AVRC_STS_NO_ERROR) = false.
Proof. apply Z.eqb_neq, avrc_sts_timeout_ne. Qed.

Lemma status_timeout_defined (c : btif_rc_timer_context_t) (w : world) :
  ctx_pdu_id c <> AVRC_PDU_REGISTER_NOTIFICATION ->
  ctx_pdu_id c <> AVRC_PDU_GET_PLAYER_APP_ATTR_TEXT ->
  ctx_pdu_id c <> AVRC_PDU_GET_PLAYER_APP_VALUE_TEXT ->
  defined (btif_rc_status_cmd_timeout_handler c) w.
Proof.
  intros H1 H2 H3. pose proof timeout_status_neqb as Hne.
  unfold defined, btif_rc_status_cmd_timeout_handler.
  unfold bind at 1. unfold get_cb. cbv beta iota.
  assert (Hbody : forall m : M unit, defined m w ->
            exists a w', bind m (fun _ => modify_device
                                   (release_transaction (ctx_label c))) w = Some (a, w')).
  { intros m (a & w1 & Hm). unfold bind. rewrite Hm. unfold modify_device. eauto. }
  apply Hbody. destruct (ctx_pdu_id c); try done.
  - unfold handle_get_capability_response. cbn [caps_status]. rewrite Hne.
    by eexists _, _.
  - unfold handle_app_attr_response. cbn [list_attr_status]. rewrite Hne.
    apply rc_ctrl_procedure_complete_defined.
  - unfold handle_app_val_response. cbn [list_val_status]. rewrite Hne.
    by eexists _, _.
  - unfold handle_app_cur_val_response. cbn [cur_val_status]. rewrite Hne.
    by eexists _, _.
  - by eexists _, _.
  - unfold handle_get_elem_attr_response. cbn [elem_status]. rewrite Hne, Z.eqb_refl.
    destruct (get_element_attribute_cmd_defined w) as (a & w1 & Hg).
    unfold defined, bind. rewrite Hg. by eexists _, _.
  - unfold handle_get_playstatus_response. cbn [play_status_status]. rewrite Hne.
    by eexists _, _.
  - by eexists _, _.
  - by eexists _, _.
Qed.

Lemma control_timeout_defined (c : btif_rc_timer_context_t) (w : world) :
  defined (btif_rc_control_cmd_timeout_handler c) w.
Proof.
  unfold defined, btif_rc_control_cmd_timeout_handler, bind, get_cb.
  destruct (ctx_pdu_id c); simpl; by eexists _, _.
Qed.

(** X4.  A command alarm that goes off frees its own label.  In a table
    where labels and alarms agree, when the alarm of slot [p] is set and
    expires, the time-out handler leaves label [p] not in use and its
    alarm idle, with labels and alarms still in agreement.  The handler
    has a result at least for every request other than
    REGISTER_NOTIFICATION and the two text requests, whose handlers read
    the event list and the settings arrays. *)
Theorem X4_timeout_frees_label (p : nat) (w : world) (t : rc_transaction_t) :
  timers_wf (device w) -> device w !! p = Some t ->
  alarm_is_scheduled (txn_timer t) = true ->
  (forall w', txn_timer_expired p w = Some (tt, w') ->
     timers_wf (device w') /\
     get_transaction_by_lbl p (device w') = None /\
     exists t', device w' !! p = Some t' /\ in_use t' = false /\
                alarm_is_scheduled (txn_timer t') = false) /\
  (ctx_pdu_id (txn_timer_context t) <> AVRC_PDU_REGISTER_NOTIFICATION ->
   ctx_pdu_id (txn_timer_context t) <> AVRC_PDU_GET_PLAYER_APP_ATTR_TEXT ->
   ctx_pdu_id (txn_timer_context t) <> AVRC_PDU_GET_PLAYER_APP_VALUE_TEXT ->
   defined (txn_timer_expired p) w).
Proof.
  intros Hwf Hd Hs.
  destruct (txn_timer t) as [[|cb ms]|] eqn:Htm; try done.
  destruct (proj2 Hwf p t Hd) as [_ Hok].
  destruct (Hok cb ms Htm) as (Hu & Hctx & Hcb).
  assert (Hp : (p < MAX_TRANSACTIONS_PER_SESSION)%nat).
  { apply lookup_lt_Some in Hd. by rewrite (proj1 (proj1 Hwf)) in Hd. }
  split.
  - intros w' Hrun.
    pose proof (keeps_txn_timer_expired p w tt w' Hrun Hwf) as Hwf'.
    assert (Hfree : get_transaction_by_lbl p (device w') = None).
    { unfold txn_timer_expired in Hrun.
      apply run_bind_inv in Hrun as (d0 & w0 & H0 & Hrun).
      apply get_device_inv in H0 as [-> ->].
      apply run_bind_inv in Hrun as (t0 & w0 & H0 & Hrun).
      apply array_get_inv in H0 as [Hd0 ->].
      assert (t0 = t) as -> by congruence. rewrite Htm in Hrun.
      apply run_bind_inv in Hrun as (u0 & w0 & H0 & Hrun).
      apply modify_device_inv in H0 as ->.
      destruct cb; [| |done].
      - unfold btif_rc_status_cmd_timeout_handler in Hrun.
        apply run_bind_inv in Hrun as (cb & w1 & _ & Hrun).
        apply run_bind_inv in Hrun as (u & w2 & _ & Hrun).
        apply modify_device_inv in Hrun as ->. simpl. rewrite Hctx.
        apply release_transaction_not_in_use.
      - unfold btif_rc_control_cmd_timeout_handler in Hrun.
        apply run_bind_inv in Hrun as (cb & w1 & _ & Hrun).
        apply run_bind_inv in Hrun as (u & w2 & _ & Hrun).
        apply modify_device_inv in Hrun as ->. simpl. rewrite Hctx.
        apply release_transaction_not_in_use. }
    split; [exact Hwf'|]. split; [exact Hfree|].
    destruct (lookup_lt_is_Some_2 (device w') p) as [t' Hd'].
    { by rewrite (proj1 (proj1 Hwf')). }
    assert (Hu' : in_use t' = false).
    { destruct (in_use t') eqn:E; [|done].
      rewrite (get_transaction_by_lbl_in_use p (device w') Hp) in Hfree; [done|].
      by exists t'. }
    exists t'. split; [done|]. split; [done|]. by eapply timers_wf_free_idle.
  - intros H1 H2 H3.
    set (w1 := {| btif_rc_cb := btif_rc_cb w;
                  device := <[p := set_txn_timer (Some alarm_idle) t]> (device w);
                  trace := trace w |}).
    assert (Hh : exists a w', match cb with
                   | btif_rc_status_cmd_timer_timeout =>
                       btif_rc_status_cmd_timeout_handler (txn_timer_context t)
                   | btif_rc_control_cmd_timer_timeout =>
                       btif_rc_control_cmd_timeout_handler (txn_timer_context t)
                   | btif_rc_play_status_timer_timeout =>
                       btif_rc_play_status_timeout_handler
                   end w1 = Some (a, w')).
    { destruct cb; [| |done].
      - by apply status_timeout_defined.
      - apply control_timeout_defined. }
    destruct Hh as (a & w' & Hh). exists a, w'.
    unfold txn_timer_expired, bind, get_device, array_get.
    rewrite Hd. unfold ret. rewrite Htm. exact Hh.
Qed.

(** X5.  A registration that cannot be sent leaves no trace.  When
    labels and alarms agree and [register_notification_cmd] fails, for
    want of a connection or with a builder status that is neither
    [AVRC_STS_NO_ERROR] nor, read as a [bt_status_t], [BT_STATUS_SUCCESS],
    then [register_for_event_notification] gives the label it took back
    and returns with the world exactly as it was: nothing sent, the entry
    untouched, the same labels in use. *)
Theorem X5_failed_registration_restores (p : nat) (w : world)
  (evs : list btif_rc_supported_event_t) (e : btif_rc_supported_event_t) :
  timers_wf (device w) ->
  rc_supported_event_list (btif_rc_cb w) = Some evs -> evs !! p = Some e ->
  rc_connected (btif_rc_cb w) = false \/
  (AVRC_BldCommand (cmd_reg_notif (event_id e) 0) <> AVRC_STS_NO_ERROR /\
   AVRC_BldCommand (cmd_reg_notif (event_id e) 0) <> BT_STATUS_SUCCESS) ->
  register_for_event_notification p w = Some (tt, w).
Proof.
  intros Hwf Hevs He Hfail.
  unfold register_for_event_notification, bind, call_get_transaction.
  destruct (get_transaction (device w)) as [[st ptx] d1] eqn:Hg.
  apply get_transaction_cases in Hg as [(-> & -> & ->)|(-> & i & t & -> & Hd & Ht & ->)].
  - pose proof bt_status_nomem_ne as Hne. apply Z.eqb_neq in Hne. rewrite Hne.
    by destruct w.
  - rewrite Z.eqb_refl. cbn [lift_option ret]. cbv beta iota.
    assert (Hlt : (i < length (device w))%nat) by (by eapply lookup_lt_Some).
    assert (Hlbl : lbl t = i) by (by apply (proj2 (proj1 Hwf))).
    unfold transaction_lbl, bind, get_device, array_get. cbn [device].
    rewrite list_lookup_insert_eq by done. cbn [ret lbl set_in_use]. cbv beta iota.
    unfold supported_event_list, bind, get_cb, lift_option. cbn [btif_rc_cb].
    rewrite Hevs. cbn [ret]. cbv beta iota. rewrite He. cbn [ret]. cbv beta iota.
    assert (Hrestore : release_transaction (lbl t) (<[i := set_in_use true t]> (device w))
                       = device w).
    { rewrite Hlbl. apply list_eq. intros j. destruct (decide (j = i)) as [->|Hne].
      - assert (Hi : (i < MAX_TRANSACTIONS_PER_SESSION)%nat)
          by (by rewrite <- (proj1 (proj1 Hwf))).
        rewrite (release_transaction_lookup i _ (set_in_use true t) Hi);
          [|by apply list_lookup_insert_eq|done].
        rewrite Hd. f_equal. simpl.
        pose proof (timers_wf_free_idle _ _ _ Hwf Hd Ht) as Hidle. rewrite Hidle.
        destruct (proj2 Hwf i t Hd) as [Hh _].
        destruct t; simpl in *. by subst.
      - rewrite release_transaction_other by done. by apply list_lookup_insert_ne. }
    unfold register_notification_cmd, bind, get_cb. cbn [btif_rc_cb].
    destruct Hfail as [Hc|[Hb Hs]].
    + rewrite Hc. cbn [negb ret]. cbv beta iota.
      pose proof bt_status_not_ready_ne as Hne. apply Z.eqb_neq in Hne. rewrite Hne.
      cbn [negb]. unfold modify_device. cbn [device btif_rc_cb trace].
      rewrite Hrestore. by destruct w.
    + apply Z.eqb_neq in Hb, Hs.
      destruct (rc_connected (btif_rc_cb w)); cbn [negb ret]; cbv beta iota.
      * rewrite Hb. cbn [ret]. cbv beta iota. rewrite Hs. cbn [negb].
        unfold modify_device. cbn [device btif_rc_cb trace].
        rewrite Hrestore. by destruct w.
      * pose proof bt_status_not_ready_ne as Hne. apply Z.eqb_neq in Hne. rewrite Hne.
        cbn [negb]. unfold modify_device. cbn [device btif_rc_cb trace].
        rewrite Hrestore. by destruct w.
Qed.

End Timeouts.

Section TimeoutsWitness.
#[local] Existing Instance reference_defs.

Lemma X3_labels_and_alarms_agree_witness :
  let w := connected_world reference_defs 0 in
  let ins := [in_response (meta_msg reference_defs 5 (AVRC_RSP_IMPL_STBL reference_defs)
                             (company_id_rsp reference_defs));
              in_txn_timer 3] in
  exists w', steps ins w = Some (tt, w') /\ timers_wf (device w') /\
             label_in_use 0 (device w') /\ txn_timer_expired 3 w' = Some (tt, w').
Proof.
  intros w ins.
  let r := eval vm_compute in (steps ins w) in
  lazymatch r with
  | Some (_, ?w') =>
      assert (Hrun : steps ins w = Some (tt, w')) by (vm_compute; reflexivity);
      destruct (X3_labels_and_alarms_agree ins w w' lbl_init_timers_wf Hrun) as [Hwf Hidle];
      exists w'; split; [exact Hrun|]; split; [exact Hwf|]; split;
      [eexists; split; [vm_compute; reflexivity|reflexivity]
      |eapply (Hidle 3%nat); [vm_compute; reflexivity|reflexivity]]
  end.
Defined.

Lemma X4_timeout_frees_label_witness :
  let w0 := connected_world reference_defs 0 in
  let ins := [in_response (meta_msg reference_defs 5 (AVRC_RSP_IMPL_STBL reference_defs)
                             (company_id_rsp reference_defs))] in
  exists w w', steps ins w0 = Some (tt, w) /\ label_in_use 0 (device w) /\
    txn_timer_expired 0 w = Some (tt, w') /\
    get_transaction_by_lbl 0 (device w') = None.
Proof.
  intros w0 ins.
  let r := eval vm_compute in (steps ins w0) in
  lazymatch r with
  | Some (_, ?w) =>
      assert (Hrun : steps ins w0 = Some (tt, w)) by (vm_compute; reflexivity);
      pose proof (keeps_steps ins w0 tt w Hrun lbl_init_timers_wf) as Hwf;
      let o := eval vm_compute in (device w !! 0%nat) in
      lazymatch o with
      | Some ?t =>
          destruct (X4_timeout_frees_label 0 w t Hwf eq_refl eq_refl) as [Hfree Hdef];
          destruct Hdef as ([] & w' & Hexp); [discriminate..|];
          exists w, w'; split; [exact Hrun|]; split;
          [exists t; split; reflexivity|];
          split; [exact Hexp|]; exact (proj1 (proj2 (Hfree w' Hexp)))
      end
  end.
Defined.

End TimeoutsWitness.

Section NoPacketWitness.
#[local] Existing Instance no_packet_defs.

Lemma X5_failed_registration_restores_witness :
  let w := with_events no_packet_defs [AVRC_EVT_PLAY_STATUS_CHANGE]
             (connected_world no_packet_defs 0) in
  rc_supported_event_list (btif_rc_cb w) =
    Some [ {| event_id := AVRC_EVT_PLAY_STATUS_CHANGE; label := None;
              status := eNOT_REGISTERED |} ] /\
  register_for_event_notification 0 w = Some (tt, w).
Proof.
  intros w. split; [vm_compute; reflexivity|].
  eapply (X5_failed_registration_restores 0 w).
  - assert (Hd : device w = lbl_init) by (vm_compute; reflexivity).
    rewrite Hd. apply lbl_init_timers_wf.
  - vm_compute. reflexivity.
  - reflexivity.
  - right. split; vm_compute; discriminate.
Defined.

End NoPacketWitness.
(** ** The play-status poll and the retry of the element attributes *)

Section Poll.
Context `{AvrcDefs}.

(** The registration a changed response starts with: it has a result
    whenever there is a list, grows the trace and leaves the play-status
    alarm alone. *)
Lemma changed_registration_block (ev : avrc_evt)
  (l : list btif_rc_supported_event_t) (w : world) :
  rc_supported_event_list (btif_rc_cb w) = Some l ->
  exists w2,
    match first_of_event ev 0 l with
    | Some i =>
        run update_event i (set_event_status eNOT_REGISTERED);
        register_for_event_notification i
    | None => ret tt
    end w = Some (tt, w2) /\
    rc_play_status_timer (btif_rc_cb w2) = rc_play_status_timer (btif_rc_cb w) /\
    exists delta, trace w2 = delta ++ trace w.
Proof.
  intros Hl. destruct (first_of_event ev 0 l) as [i|] eqn:Hf.
  - apply first_of_event_lookup in Hf as (_ & e & He & _). rewrite Nat.sub_0_r in He.
    set (w1 := {| btif_rc_cb :=
                    set_rc_supported_event_list
                      (Some (<[i := set_event_status eNOT_REGISTERED e]> l)) (btif_rc_cb w);
                  device := device w; trace := trace w |}).
    assert (Hu : update_event i (set_event_status eNOT_REGISTERED) w = Some (tt, w1)).
    { unfold update_event, update_event_list, supported_event_list, bind, get_cb,
        lift_option. rewrite Hl. unfold ret. by rewrite He. }
    destruct (register_for_event_notification_defined i w1
                (<[i := set_event_status eNOT_REGISTERED e]> l)
                (set_event_status eNOT_REGISTERED e) eq_refl) as ([] & w2 & Hr).
    { apply list_lookup_insert_eq. by eapply lookup_lt_Some. }
    exists w2. split; [unfold bind; by rewrite Hu|].
    destruct (register_for_event_notification_spec _ _ _ Hr) as (_ & Hcb & _ & Ht).
    split; [rewrite Hcb; by destruct (btif_rc_cb w)|].
    destruct Ht as [Ht|(evs & e' & lb & _ & _ & Ht & _)].
    + exists []. by rewrite Ht.
    + eexists [_]. by rewrite Ht.
  - exists w. split; [done|]. split; [done|]. by exists [].
Qed.

(** X6.  The play-status poll.  A changed response for
    PLAY_STATUS_CHANGE, whenever there is an event list, reports the
    status through [play_status_changed_cb] and leaves the play-status
    alarm scheduled exactly when the reported status is playing.  And an
    alarm that goes off is always set again, whether or not the
    GET_PLAY_STATUS command could be sent; the expiry sends that command
    or nothing. *)
Theorem X6_play_status_poll (w : world) :
  (forall m r l,
     msg_code m = AVRC_RSP_CHANGED ->
     reg_notif_event_id r = AVRC_EVT_PLAY_STATUS_CHANGE ->
     rc_supported_event_list (btif_rc_cb w) = Some l ->
     exists w', handle_notification_response m r w = Some (tt, w') /\
       alarm_is_scheduled (rc_play_status_timer (btif_rc_cb w')) =
         (param_play_status r =? AVRC_PLAYSTATE_PLAYING) /\
       exists delta,
         trace w' = HAL_CBACK (play_status_changed_cb (rc_addr (btif_rc_cb w))
                                 (param_play_status r)) :: delta ++ trace w) /\
  (alarm_is_scheduled (rc_play_status_timer (btif_rc_cb w)) = true ->
   exists w', play_status_timer_expired w = Some (tt, w') /\
     alarm_is_scheduled (rc_play_status_timer (btif_rc_cb w')) = true /\
     (trace w' = trace w \/
      exists l, trace w' = BTA_AvVendorCmd (rc_handle (btif_rc_cb w)) l AVRC_CMD_STATUS
                             cmd_get_play_status :: trace w)).
Proof.
  split.
  - intros m r l Hcode Hev Hl. destruct rsp_code_facts as (_ & _ & _ & _ & Hne).
    destruct (changed_registration_block (reg_notif_event_id r) l w Hl)
      as (w2 & Hreg & Htm & delta & Htr).
    assert (Hrun : forall w3,
              (run (if param_play_status r =? AVRC_PLAYSTATE_PLAYING
                    then rc_start_play_status_timer else rc_stop_play_status_timer);
               emit (HAL_CBACK (play_status_changed_cb (rc_addr (btif_rc_cb w))
                                  (param_play_status r)))) w2 = Some (tt, w3) ->
              handle_notification_response m r w = Some (tt, w3)).
    { intros w3 H3. unfold handle_notification_response. rewrite Hcode, Hne, Z.eqb_refl.
      apply run_bind_inv. exists (btif_rc_cb w), w. split; [reflexivity|]. cbv beta.
      apply run_bind_inv. exists l, w. split.
      { mstep. by rewrite Hl. }
      apply run_bind_inv. exists tt, w2. split; [exact Hreg|]. by rewrite Hev. }
    destruct (param_play_status r =? AVRC_PLAYSTATE_PLAYING) eqn:Hplay.
    + eexists. split; [apply Hrun; reflexivity|]. cbn [btif_rc_cb trace]. rewrite Htm.
      split; [|by exists delta; rewrite Htr].
      destruct (alarm_is_scheduled (rc_play_status_timer (btif_rc_cb w))) eqn:E;
        [by rewrite Htm|done].
    + eexists. split; [apply Hrun; reflexivity|]. cbn [btif_rc_cb trace]. rewrite Htm.
      split; [|by exists delta; rewrite Htr].
      by destruct (rc_play_status_timer (btif_rc_cb w)) as [[|]|].
  - intros Hs.
    destruct (rc_play_status_timer (btif_rc_cb w)) as [[|cb ms]|] eqn:Htm; try done.
    set (w1 := {| btif_rc_cb := set_rc_play_status_timer (Some alarm_idle) (btif_rc_cb w);
                  device := device w; trace := trace w |}).
    destruct (send_status_cmd_defined cmd_get_play_status w1) as (st & w2 & Hsend).
    destruct (send_status_cmd_cases _ _ _ _ Hsend) as (Hcb & Ht).
    eexists. split.
    + unfold play_status_timer_expired.
      apply run_bind_inv. exists (btif_rc_cb w), w. split; [reflexivity|]. cbv beta.
      rewrite Htm.
      apply run_bind_inv. exists tt, w1. split; [reflexivity|].
      unfold btif_rc_play_status_timeout_handler, get_play_status_cmd.
      apply run_bind_inv. exists st, w2. split; [exact Hsend|]. reflexivity.
    + cbn [btif_rc_cb trace]. rewrite Hcb. split; [done|]. exact Ht.
Qed.

(** X7.  A GET_ELEMENT_ATTR request that is not answered is sent again.
    When labels and alarms agree, the controller is connected, a packet
    can be built and the alarm of an element-attribute request under
    label [p] goes off, the time-out handler sends the request for the
    seven attributes again under the lowest free label, which is not
    [p], sets the status-command alarm of that label, and then frees
    [p]; so the retry repeats for as long as the peer stays silent. *)
Theorem X7_element_attr_retry (p l : nat) (w : world) (t : rc_transaction_t) (ms : Z) :
  timers_wf (device w) -> device w !! p = Some t ->
  txn_timer t = Some (alarm_set btif_rc_status_cmd_timer_timeout ms) ->
  ctx_pdu_id (txn_timer_context t) = AVRC_PDU_GET_ELEMENT_ATTR ->
  rc_connected (btif_rc_cb w) = true ->
  lowest_free l (device w) ->
  let cmd := cmd_get_elem_attrs AVRC_MAX_NUM_MEDIA_ATTR_ID
               (take AVRC_MAX_NUM_MEDIA_ATTR_ID attr_list) in
  AVRC_BldCommand cmd = AVRC_STS_NO_ERROR ->
  exists w', txn_timer_expired p w = Some (tt, w') /\
    l <> p /\
    btif_rc_cb w' = btif_rc_cb w /\
    trace w' = BTA_AvVendorCmd (rc_handle (btif_rc_cb w)) l AVRC_CMD_STATUS cmd :: trace w /\
    get_transaction_by_lbl p (device w') = None /\
    exists t', device w' !! l = Some t' /\ in_use t' = true /\
      txn_timer t' = status_cmd_alarm /\
      txn_timer_context t' = {| ctx_label := l; ctx_pdu_id := AVRC_PDU_GET_ELEMENT_ATTR |}.
Proof.
  intros Hwf Hd Htm Hpdu Hc Hlow cmd Hbld.
  destruct (proj2 Hwf p t Hd) as [_ Hok].
  destruct (Hok _ _ Htm) as (Hu & Hctx & _).
  pose proof (proj1 Hwf) as [Hlen Hlbl].
  assert (Hp : (p < MAX_TRANSACTIONS_PER_SESSION)%nat).
  { apply lookup_lt_Some in Hd. by rewrite Hlen in Hd. }
  destruct Hlow as (Hl & Hfree & Hbelow).
  assert (Hlp : l <> p) by (intros ->; apply Hfree; by exists t).
  set (d1 := <[p := set_txn_timer (Some alarm_idle) t]> (device w)).
  destruct (lookup_lt_is_Some_2 (device w) l) as [tl Hdl]; [by rewrite Hlen|].
  assert (Htl : in_use tl = false).
  { destruct (in_use tl) eqn:E; [|done]. exfalso. apply Hfree. by exists tl. }
  assert (Hd1l : d1 !! l = Some tl) by (unfold d1; by rewrite list_lookup_insert_ne).
  assert (Hf : first_unused 0 MAX_TRANSACTIONS_PER_SESSION d1 = Some l).
  { apply (first_unused_find 0 _ l d1 tl); [lia|done|done|].
    intros j Hj. destruct (Hbelow j ltac:(lia)) as (tj & Hdj & Htj).
    destruct (decide (j = p)) as [->|Hne].
    - exists (set_txn_timer (Some alarm_idle) t). split; [|done].
      unfold d1. apply list_lookup_insert_eq. by eapply lookup_lt_Some.
    - exists tj. split; [|done]. unfold d1. by rewrite list_lookup_insert_ne. }
  set (w1 := {| btif_rc_cb := btif_rc_cb w; device := d1; trace := trace w |}).
  pose proof (send_status_cmd_sent cmd w1 l tl Hc Hf Hd1l Hbld) as Hsend.
  assert (Hpre : (AVRC_MAX_NUM_MEDIA_ATTR_ID <=? length attr_list)%nat = true)
    by (apply Nat.leb_le, avrc_media_attr_count).
  assert (Hlbll : lbl tl = l) by (by apply Hlbl).
  eexists. split.
  - unfold txn_timer_expired.
    apply run_bind_inv. exists (device w), w. split; [reflexivity|]. cbv beta.
    apply run_bind_inv. exists t, w. split; [unfold array_get; by rewrite Hd|].
    cbv beta. rewrite Htm.
    apply run_bind_inv. exists tt, w1. split; [reflexivity|].
    unfold btif_rc_status_cmd_timeout_handler.
    apply run_bind_inv. exists (btif_rc_cb w1), w1. split; [reflexivity|]. cbv beta zeta.
    rewrite Hpdu.
    apply run_bind_inv. eexists tt, _. split; [|reflexivity].
    unfold handle_get_elem_attr_response. cbn [elem_status].
    rewrite timeout_status_neqb, Z.eqb_refl.
    apply run_bind_inv. eexists _, _. split; [|reflexivity].
    unfold get_element_attribute_cmd.
    apply run_bind_inv. eexists _, _. split.
    { unfold array_prefix. rewrite Hpre. reflexivity. }
    exact Hsend.
  - cbn [btif_rc_cb device trace]. rewrite Hctx, Hlbll.
    split; [done|]. split; [done|]. split; [done|].
    split; [apply release_transaction_not_in_use|].
    rewrite release_transaction_other by done.
    unfold start_status_command_timer, arm_txn_timer.
    assert (Hll : (l < length d1)%nat) by (by eapply lookup_lt_Some).
    rewrite list_lookup_insert_eq by done. rewrite list_insert_insert_eq.
    rewrite list_lookup_insert_eq by done.
    eexists. split; [reflexivity|]. simpl. by rewrite Hlbll.
Qed.

End Poll.

Section PollWitness.
#[local] Existing Instance reference_defs.

Lemma X6_play_status_poll_witness :
  let w := with_events reference_defs [AVRC_EVT_PLAY_STATUS_CHANGE]
             (requesting_world reference_defs 0) in
  let r := {| reg_notif_status := AVRC_STS_NO_ERROR;
              reg_notif_event_id := AVRC_EVT_PLAY_STATUS_CHANGE;
              param_play_status := AVRC_PLAYSTATE_PLAYING; param_track := [];
              param_player_setting :=
                {| player_setting_num_attr := 0; player_setting_attr_id := [];
                   player_setting_attr_value := [] |};
              param_volume := 0 |} in
  let m := meta_msg reference_defs 0 AVRC_RSP_CHANGED (rsp_reg_notif r) in
  exists w' w'',
    handle_notification_response m r w = Some (tt, w') /\
    alarm_is_scheduled (rc_play_status_timer (btif_rc_cb w')) = true /\
    play_status_timer_expired w' = Some (tt, w'') /\
    alarm_is_scheduled (rc_play_status_timer (btif_rc_cb w'')) = true.
Proof.
  intros w r m.
  destruct (X6_play_status_poll w) as [Hchanged _].
  let o := eval vm_compute in (rc_supported_event_list (btif_rc_cb w)) in
  lazymatch o with
  | Some ?l =>
      assert (Hl : rc_supported_event_list (btif_rc_cb w) = Some l)
        by (vm_compute; reflexivity);
      destruct (Hchanged m r l eq_refl eq_refl Hl) as (w' & Hrun & Hs & _)
  end.
  change (param_play_status r =? AVRC_PLAYSTATE_PLAYING) with true in Hs.
  destruct (X6_play_status_poll w') as [_ Hexpired].
  destruct (Hexpired Hs) as (w'' & Hexp & Hs' & _).
  exists w', w''. auto.
Defined.

Lemma X7_element_attr_retry_witness :
  let w0 := connected_world reference_defs 0 in
  exists w w',
    get_element_attribute_cmd AVRC_MAX_NUM_MEDIA_ATTR_ID attr_list w0
      = Some (BT_STATUS_SUCCESS, w) /\
    label_in_use 0 (device w) /\
    txn_timer_expired 0 w = Some (tt, w') /\
    get_transaction_by_lbl 0 (device w') = None /\
    label_in_use 1 (device w') /\
    trace w' = [BTA_AvVendorCmd 1 1 AVRC_CMD_STATUS (cmd_get_elem_attrs 7 attr_list);
                BTA_AvVendorCmd 1 0 AVRC_CMD_STATUS (cmd_get_elem_attrs 7 attr_list)].
Proof.
  intros w0.
  assert (Hbld : AVRC_BldCommand (cmd_get_elem_attrs AVRC_MAX_NUM_MEDIA_ATTR_ID
                                    (take AVRC_MAX_NUM_MEDIA_ATTR_ID attr_list))
                 = AVRC_STS_NO_ERROR) by (vm_compute; reflexivity).
  let r := eval vm_compute in
             (get_element_attribute_cmd AVRC_MAX_NUM_MEDIA_ATTR_ID attr_list w0) in
  lazymatch r with
  | Some (_, ?w) =>
      assert (Hrun : get_element_attribute_cmd AVRC_MAX_NUM_MEDIA_ATTR_ID attr_list w0
                     = Some (BT_STATUS_SUCCESS, w)) by (vm_compute; reflexivity);
      exists w;
      pose proof (keeps_get_element_attribute_cmd _ _ w0 _ w Hrun lbl_init_timers_wf) as Hwf;
      let o := eval vm_compute in (device w !! 0%nat) in
      lazymatch o with
      | Some ?t =>
          assert (Hd : device w !! 0%nat = Some t) by (vm_compute; reflexivity);
          assert (Htm : txn_timer t = Some (alarm_set btif_rc_status_cmd_timer_timeout
                                              BTIF_TIMEOUT_RC_STATUS_CMD_MS))
            by (vm_compute; reflexivity);
          assert (Hpdu : ctx_pdu_id (txn_timer_context t) = AVRC_PDU_GET_ELEMENT_ATTR)
            by (vm_compute; reflexivity);
          assert (Hu : in_use t = true) by (vm_compute; reflexivity);
          assert (Hc : rc_connected (btif_rc_cb w) = true) by (vm_compute; reflexivity);
          assert (Htr0 : trace w = [BTA_AvVendorCmd 1 0 AVRC_CMD_STATUS
                                      (cmd_get_elem_attrs 7 attr_list)])
            by (vm_compute; reflexivity);
          assert (Hh : rc_handle (btif_rc_cb w) = 1) by (vm_compute; reflexivity);
          assert (Hlow : lowest_free 1 (device w));
          [|destruct (X7_element_attr_retry 0 1 w t BTIF_TIMEOUT_RC_STATUS_CMD_MS
                        Hwf Hd Htm Hpdu Hc Hlow Hbld)
              as (w' & Hexp & _ & _ & Htr & Hfree & t' & Hd' & Hu' & _);
            exists w'; split; [exact Hrun|]; split; [exists t; split; assumption|];
            split; [exact Hexp|]; split; [exact Hfree|]; split;
            [exists t'; split; assumption|];
            rewrite Htr, Htr0, Hh; vm_compute; reflexivity]
      end
  end.
  split; [unfold MAX_TRANSACTIONS_PER_SESSION; lia|]. split.
  - intros (t & Ht & Hu'). vm_compute in Ht. injection Ht as <-. discriminate Hu'.
  - intros j Hj. assert (j = 0%nat) as -> by lia.
    eexists. split; [vm_compute; reflexivity|reflexivity].
Defined.

End PollWitness.
(** ** The attribute ids of a LIST_PLAYER_APP_ATTR response *)

Section AppAttrs.
Context `{AvrcDefs}.

Lemma take_S_insert {A : Type} (l : list A) (n : nat) (x : A) :
  (n < length l)%nat -> take (S n) (<[n := x]> l) = take n l ++ [x].
Proof.
  intros Hn. rewrite (take_S_r _ _ x) by (by apply list_lookup_insert_eq).
  by rewrite take_insert_ge by lia.
Qed.

Lemma store_app_attrs_spec (ids : list Z) (s : btif_rc_player_app_settings_t) :
  (num_attrs s <= length (attrs s) < 256)%nat ->
  (num_ext_attrs s <= length (ext_attrs s) < 256)%nat ->
  let std := filter (fun a => a <= AVRC_PLAYER_SETTING_LOW_MENU_EXT) ids in
  let ext := filter (fun a => AVRC_PLAYER_SETTING_LOW_MENU_EXT < a) ids in
  match store_app_attrs ids s with
  | Some s' =>
      num_attrs s' = (num_attrs s + length std)%nat /\
      num_ext_attrs s' = (num_ext_attrs s + length ext)%nat /\
      app_attr_id <$> attrs s' =
        take (num_attrs s) (app_attr_id <$> attrs s) ++ std
          ++ drop (num_attrs s + length std) (app_attr_id <$> attrs s) /\
      ext_attr_id <$> ext_attrs s' =
        take (num_ext_attrs s) (ext_attr_id <$> ext_attrs s) ++ ext
          ++ drop (num_ext_attrs s + length ext) (ext_attr_id <$> ext_attrs s) /\
      length (attrs s') = length (attrs s) /\
      length (ext_attrs s') = length (ext_attrs s)
  | None =>
      (length (attrs s) < num_attrs s + length std)%nat \/
      (length (ext_attrs s) < num_ext_attrs s + length ext)%nat
  end.
Proof.
  revert s. induction ids as [|a ids IH]; intros s Hn Hx; cbn zeta.
  - simpl. rewrite !Nat.add_0_r, !take_drop. repeat split; lia.
  - cbn [store_app_attrs].
    destruct (a >? AVRC_PLAYER_SETTING_LOW_MENU_EXT) eqn:Ha.
    + assert (Hgt : AVRC_PLAYER_SETTING_LOW_MENU_EXT < a) by lia.
      rewrite (filter_cons_False (fun a => a <= _)) by lia.
      rewrite (filter_cons_True (fun a => _ < a)) by done.
      destruct (ext_attrs s !! num_ext_attrs s) as [e|] eqn:He.
      2:{ apply lookup_ge_None in He. right. simpl. lia. }
      pose proof (lookup_lt_Some _ _ _ He) as Hlt.
      assert (Hinc : uint8_incr (num_ext_attrs s) = S (num_ext_attrs s)).
      { unfold uint8_incr. rewrite Nat.mod_small by lia. lia. }
      remember (set_num_ext_attrs _ _) as s1 eqn:Hs1.
      assert (F1 : num_attrs s1 = num_attrs s) by (by subst s1).
      assert (F2 : attrs s1 = attrs s) by (by subst s1).
      assert (F3 : num_ext_attrs s1 = S (num_ext_attrs s)) by (by subst s1).
      assert (F4 : ext_attrs s1 = <[num_ext_attrs s := set_ext_attr_id a e]> (ext_attrs s))
        by (by subst s1).
      clear Hs1. specialize (IH s1). rewrite F1, F2, F3, F4, length_insert in IH.
      specialize (IH Hn ltac:(lia)). cbv zeta in IH.
      destruct (store_app_attrs ids s1) as [s'|].
      * destruct IH as (E1 & E2 & E3 & E4 & E5 & E6).
        split; [done|]. split; [simpl; lia|]. split; [done|].
        split; [|split; done].
        rewrite E4, list_fmap_insert. cbn [ext_attr_id set_ext_attr_id].
        rewrite take_S_insert by (by rewrite length_fmap).
        rewrite drop_insert_lt by lia.
        rewrite <- app_assoc. cbn [app length]. by rewrite Nat.add_succ_r.
      * destruct IH as [IH|IH]; [by left|right; simpl; lia].
    + assert (Hle : a <= AVRC_PLAYER_SETTING_LOW_MENU_EXT) by lia.
      rewrite (filter_cons_True (fun a => a <= _)) by done.
      rewrite (filter_cons_False (fun a => _ < a)) by lia.
      destruct (attrs s !! num_attrs s) as [e|] eqn:He.
      2:{ apply lookup_ge_None in He. left. simpl. lia. }
      pose proof (lookup_lt_Some _ _ _ He) as Hlt.
      assert (Hinc : uint8_incr (num_attrs s) = S (num_attrs s)).
      { unfold uint8_incr. rewrite Nat.mod_small by lia. lia. }
      remember (set_num_attrs _ _) as s1 eqn:Hs1.
      assert (F1 : num_attrs s1 = S (num_attrs s)) by (by subst s1).
      assert (F2 : attrs s1 = <[num_attrs s := set_app_attr_id a e]> (attrs s))
        by (by subst s1).
      assert (F3 : num_ext_attrs s1 = num_ext_attrs s) by (by subst s1).
      assert (F4 : ext_attrs s1 = ext_attrs s) by (by subst s1).
      clear Hs1. specialize (IH s1). rewrite F1, F2, F3, F4, length_insert in IH.
      specialize (IH ltac:(lia) Hx). cbv zeta in IH.
      destruct (store_app_attrs ids s1) as [s'|].
      * destruct IH as (E1 & E2 & E3 & E4 & E5 & E6).
        split; [simpl; lia|]. split; [done|]. split; [|done].
        rewrite E3, list_fmap_insert. cbn [app_attr_id set_app_attr_id].
        rewrite take_S_insert by (by rewrite length_fmap).
        rewrite drop_insert_lt by lia.
        rewrite <- app_assoc. cbn [app length]. by rewrite Nat.add_succ_r.
      * destruct IH as [IH|IH]; [left; simpl; lia|by right].
Qed.

(** X8.  What a LIST_PLAYER_APP_ATTR response without error does to the
    settings.  The first [num_attr] ids of the response are appended to
    the two arrays in their order, the ids above
    [AVRC_PLAYER_SETTING_LOW_MENU_EXT] to the extended attributes and the
    others to the standard ones, behind the entries counted so far; the
    three cursors are reset; and when the response lists any id at all
    the values of the attribute in the first standard slot are asked for,
    whichever kind the listed ids were.  All of this when the ids fit:
    when there are more ids of a kind than free slots in its array, the
    handler writes behind the array and has no defined result. *)
Theorem X8_app_attr_response (m : tBTA_AV_META_MSG) (r : tAVRC_LIST_APP_ATTR_RSP)
  (w : world) :
  let s := rc_app_settings (btif_rc_cb w) in
  let ids := take (list_attr_num_attr r) (list_attr_attrs r) in
  let std := filter (fun a => a <= AVRC_PLAYER_SETTING_LOW_MENU_EXT) ids in
  let ext := filter (fun a => AVRC_PLAYER_SETTING_LOW_MENU_EXT < a) ids in
  list_attr_status r = AVRC_STS_NO_ERROR ->
  (list_attr_num_attr r <= length (list_attr_attrs r))%nat ->
  (num_attrs s <= length (attrs s) < 256)%nat ->
  (num_ext_attrs s <= length (ext_attrs s) < 256)%nat ->
  (0 < length (attrs s))%nat ->
  ((num_attrs s + length std <= length (attrs s))%nat ->
   (num_ext_attrs s + length ext <= length (ext_attrs s))%nat ->
   exists w', handle_app_attr_response m r w = Some (tt, w') /\
     let s' := rc_app_settings (btif_rc_cb w') in
     num_attrs s' = (num_attrs s + length std)%nat /\
     num_ext_attrs s' = (num_ext_attrs s + length ext)%nat /\
     app_attr_id <$> attrs s' =
       take (num_attrs s) (app_attr_id <$> attrs s) ++ std
         ++ drop (num_attrs s + length std) (app_attr_id <$> attrs s) /\
     ext_attr_id <$> ext_attrs s' =
       take (num_ext_attrs s) (ext_attr_id <$> ext_attrs s) ++ ext
         ++ drop (num_ext_attrs s + length ext) (ext_attr_id <$> ext_attrs s) /\
     attr_index s' = 0%nat /\ ext_attr_index s' = 0%nat /\ ext_val_index s' = 0%nat /\
     (list_attr_num_attr r = 0%nat -> trace w' = trace w) /\
     ((0 < list_attr_num_attr r)%nat ->
      exists e0, attrs s' !! 0%nat = Some e0 /\
        (trace w' = trace w \/
         exists l, trace w' =
           BTA_AvVendorCmd (rc_handle (btif_rc_cb w)) l AVRC_CMD_STATUS
             (cmd_list_app_values (app_attr_id e0)) :: trace w))) /\
  ((length (attrs s) < num_attrs s + length std)%nat \/
   (length (ext_attrs s) < num_ext_attrs s + length ext)%nat ->
   handle_app_attr_response m r w = None).
Proof.
  intros s ids std ext Hst Hnum Hn Hx Hpos.
  pose proof (store_app_attrs_spec ids s Hn Hx) as Hspec. cbv zeta in Hspec.
  fold std ext in Hspec.
  assert (Hne : negb (list_attr_status r =? AVRC_STS_NO_ERROR) = false)
    by (by rewrite Hst, Z.eqb_refl).
  assert (Hpre : (list_attr_num_attr r <=? length (list_attr_attrs r))%nat = true)
    by (by apply Nat.leb_le).
  split.
  - intros Hfit Hxfit.
    destruct (store_app_attrs ids s) as [s1|] eqn:Hstore; [|lia].
    destruct Hspec as (E1 & E2 & E3 & E4 & E5 & E6).
    set (s2 := set_ext_val_index 0 (set_ext_attr_index 0 (set_attr_index 0 s1))).
    set (w1 := {| btif_rc_cb := set_rc_app_settings s2 (btif_rc_cb w);
                  device := device w; trace := trace w |}).
    assert (Hupd : update_app_settings (fun s =>
                     match store_app_attrs ids s with
                     | Some s' => Some (set_ext_val_index 0
                                          (set_ext_attr_index 0 (set_attr_index 0 s')))
                     | None => None
                     end) w = Some (s2, w1)).
    { unfold update_app_settings, bind, get_cb, lift_option. fold s. by rewrite Hstore. }
    destruct (lookup_lt_is_Some_2 (attrs s2) 0) as [e0 He0];
      [change (attrs s2) with (attrs s1); lia|].
    assert (Hhead : forall w2 : world, w2 = w1 \/
              (exists st, list_player_app_setting_value_cmd (app_attr_id e0) w1
                          = Some (st, w2)) ->
              btif_rc_cb w2 = btif_rc_cb w1 /\
              (trace w2 = trace w \/
               exists l, trace w2 =
                 BTA_AvVendorCmd (rc_handle (btif_rc_cb w)) l AVRC_CMD_STATUS
                   (cmd_list_app_values (app_attr_id e0)) :: trace w)).
    { intros w2 [->|(st & Hsend)]; [by auto|].
      destruct (send_status_cmd_cases _ _ _ _ Hsend) as (Hcb & Ht). by split. }
    destruct (0 <? list_attr_num_attr r)%nat eqn:Hany.
    + destruct (send_status_cmd_defined (cmd_list_app_values (app_attr_id e0)) w1)
        as (st & w2 & Hsend).
      destruct (Hhead w2 (or_intror (ex_intro _ st Hsend))) as (Hcb & Ht).
      exists w2. split.
      * unfold handle_app_attr_response. rewrite Hne.
        apply run_bind_inv. exists ids, w. split; [unfold array_prefix; by rewrite Hpre|].
        apply run_bind_inv. exists s2, w1. split; [exact Hupd|]. rewrite Hany.
        apply run_bind_inv. exists e0, w1. split; [unfold array_get; by rewrite He0|].
        apply run_bind_inv. exists st, w2. split; [exact Hsend|reflexivity].
      * cbv zeta. rewrite Hcb. cbn [btif_rc_cb rc_app_settings set_rc_app_settings].
        repeat (split; [done|]). split.
        -- intros H0. apply (proj1 (Nat.ltb_lt _ _)) in Hany. lia.
        -- intros _. by exists e0.
    + exists w1. split.
      * unfold handle_app_attr_response. rewrite Hne.
        apply run_bind_inv. exists ids, w. split; [unfold array_prefix; by rewrite Hpre|].
        apply run_bind_inv. exists s2, w1. split; [exact Hupd|]. by rewrite Hany.
      * cbv zeta. cbn [btif_rc_cb rc_app_settings set_rc_app_settings].
        repeat (split; [done|]).
        intros H0. apply (proj1 (Nat.ltb_ge _ _)) in Hany. lia.
  - intros Hover.
    destruct (store_app_attrs ids s) as [s1|] eqn:Hstore.
    { destruct Hspec as (E1 & E2 & E3 & E4 & E5 & E6).
      assert (L1 : length (app_attr_id <$> attrs s1) = length (attrs s))
        by (by rewrite length_fmap).
      assert (L2 : length (ext_attr_id <$> ext_attrs s1) = length (ext_attrs s))
        by (by rewrite length_fmap).
      rewrite E3 in L1. rewrite E4 in L2.
      rewrite !length_app, length_take, length_drop, length_fmap in L1.
      rewrite !length_app, length_take, length_drop, length_fmap in L2. lia. }
    unfold handle_app_attr_response. rewrite Hne.
    unfold bind, array_prefix. rewrite Hpre. unfold ret.
    unfold update_app_settings, bind, get_cb, lift_option. fold s. fold ids.
    by rewrite Hstore.
Qed.

End AppAttrs.

Section AppAttrsWitness.
#[local] Existing Instance reference_defs.

Lemma X8_app_attr_response_witness :
  let w := connected_world reference_defs 0 in
  let r := {| list_attr_status := AVRC_STS_NO_ERROR; list_attr_num_attr := 2;
              list_attr_attrs := [129; 130] |} in
  let m := meta_msg reference_defs 0 (AVRC_RSP_IMPL_STBL reference_defs)
             (rsp_list_app_attr r) in
  exists w', handle_app_attr_response m r w = Some (tt, w') /\
    num_attrs (rc_app_settings (btif_rc_cb w')) = 0%nat /\
    num_ext_attrs (rc_app_settings (btif_rc_cb w')) = 2%nat /\
    take 2 (ext_attr_id <$> ext_attrs (rc_app_settings (btif_rc_cb w'))) = [129; 130] /\
    trace w' = [BTA_AvVendorCmd 1 0 AVRC_CMD_STATUS (cmd_list_app_values 0)].
Proof.
  intros w r m.
  destruct (X8_app_attr_response m r w) as [Hfit _];
    [reflexivity|simpl; lia|vm_compute; lia|vm_compute; lia|vm_compute; lia|].
  destruct Hfit as (w' & Hrun & _); [vm_compute; lia|vm_compute; lia|].
  exists w'. split; [exact Hrun|].
  assert (Hrun' := Hrun). vm_compute in Hrun'. injection Hrun' as <-.
  repeat split; vm_compute; reflexivity.
Defined.

End AppAttrsWitness.

(** ** The supported-event list in detail *)

Section Registration.
Context `{AvrcDefs}.

(** The walks over the list, said with [list_find]. *)
Lemma foreach_interim_rsp_find (ev : avrc_evt) (l : list btif_rc_supported_event_t) :
  foreach_interim_rsp ev l =
    match list_find (fun e => event_id e = ev) l with
    | Some (i, e) => <[i := set_event_status eINTERIM e]> l
    | None => l
    end.
Proof.
  induction l as [|x l IH]; [done|]. cbn [foreach_interim_rsp list_find].
  case_bool_decide as Hx.
  - by rewrite decide_True by done.
  - rewrite decide_False by done. rewrite IH.
    destruct (list_find _ l) as [[i e]|]; done.
Qed.

Lemma first_not_registered_find (k : nat) (l : list btif_rc_supported_event_t) :
  first_not_registered k l =
    (fun ie => (k + ie.1)%nat) <$> list_find (fun e => status e = eNOT_REGISTERED) l.
Proof.
  revert k. induction l as [|x l IH]; intros k; [done|].
  cbn [first_not_registered list_find]. case_bool_decide as Hx.
  - rewrite decide_True by done. simpl. f_equal. lia.
  - rewrite decide_False by done. rewrite IH.
    destruct (list_find _ l) as [[i e]|]; simpl; [|done]. f_equal. lia.
Qed.

Lemma first_of_event_find (ev : avrc_evt) (k : nat) (l : list btif_rc_supported_event_t) :
  first_of_event ev k l =
    (fun ie => (k + ie.1)%nat) <$> list_find (fun e => event_id e = ev) l.
Proof.
  revert k. induction l as [|x l IH]; intros k; [done|].
  cbn [first_of_event list_find]. case_bool_decide as Hx.
  - rewrite decide_True by done. simpl. f_equal. lia.
  - rewrite decide_False by done. rewrite IH.
    destruct (list_find _ l) as [[i e]|]; simpl; [|done]. f_equal. lia.
Qed.

Lemma foreach_timeout_find (L : nat) (l l1 : list btif_rc_supported_event_t) :
  foreach_timeout L l = Some l1 ->
  l1 = match list_find (fun e => label e = Some L) l with
       | Some (i, _) => delete i l
       | None => l
       end.
Proof.
  revert l1. induction l as [|x l IH]; intros l1; cbn [foreach_timeout list_find].
  - by intros [= <-].
  - destruct (label x) as [lx|] eqn:Hx; [|done].
    destruct (lx =? L)%nat eqn:Hl.
    + apply Nat.eqb_eq in Hl as ->. intros [= <-]. by rewrite decide_True by done.
    + apply Nat.eqb_neq in Hl. rewrite decide_False by congruence.
      destruct (foreach_timeout L l) as [l'|]; [|done]. intros [= <-].
      rewrite (IH l' eq_refl). destruct (list_find _ l) as [[i e]|]; done.
Qed.

(** The lowest free label is the one [get_transaction] hands out. *)
Lemma lowest_free_get_transaction (d : rc_device_t) (lb : nat) :
  pool_wf d -> lowest_free lb d ->
  exists t, d !! lb = Some t /\ lbl t = lb /\
    get_transaction d = (BT_STATUS_SUCCESS, Some lb, <[lb := set_in_use true t]> d).
Proof.
  intros [Hlen Hlbl] (Hl & Hfree & Hbelow).
  destruct (lookup_lt_is_Some_2 d lb) as [t Ht]; [by rewrite Hlen|].
  exists t. split; [done|]. split; [by apply Hlbl|].
  apply get_transaction_first; [done|done| |done].
  destruct (in_use t) eqn:Hu; [|done]. exfalso. apply Hfree. by exists t.
Qed.

(** What a registration leaves behind: the command and the entry
    awaiting its interim response, or nothing sent. *)
Lemma register_for_event_notification_cases (p : nat) (w w' : world)
  (evs : list btif_rc_supported_event_t) (e : btif_rc_supported_event_t) :
  rc_supported_event_list (btif_rc_cb w) = Some evs -> evs !! p = Some e ->
  register_for_event_notification p w = Some (tt, w') ->
  let entry lb := {| event_id := event_id e; label := Some lb; status := eREGISTERED |} in
  (trace w' = trace w /\
   (rc_supported_event_list (btif_rc_cb w') = Some evs \/
    exists lb, rc_supported_event_list (btif_rc_cb w') = Some (<[p := entry lb]> evs))) \/
  (exists lb,
     trace w' = BTA_AvVendorCmd (rc_handle (btif_rc_cb w)) lb AVRC_CMD_NOTIF
                  (cmd_reg_notif (event_id e) 0) :: trace w /\
     rc_supported_event_list (btif_rc_cb w') = Some (<[p := entry lb]> evs)).
Proof.
  intros Hl He Hw entry. unfold register_for_event_notification in Hw. inv_run Hw.
  all: match goal with
       | Hg : call_get_transaction _ = _ |- _ =>
           apply call_get_transaction_inv in Hg as (d1 & Hg & ->)
       end; simplify_eq.
  all: try match goal with
       | Hl : transaction_lbl _ _ = _ |- _ =>
           apply transaction_lbl_inv in Hl as [(t1 & Hl1 & ->) ->]
       end; simpl in *.
  all: try match goal with
       | Hl : register_notification_cmd _ _ _ _ = _ |- _ =>
           apply register_notification_cmd_inv in Hl as [[-> Hst]|[-> ->]]
       end; simpl in *.
  all: simplify_eq.
  all: try (left; split; [done|]; left; done).
  all: try (left; split; [done|]; right; eexists; simpl; reflexivity).
  all: try (rewrite Z.eqb_refl in *; discriminate).
  right. eexists. split; [reflexivity|]. simpl. reflexivity.
Qed.

(** With a well-formed table, a connection, a free label and a packet
    the registration goes out under the lowest free label. *)
Lemma register_for_event_notification_lowest (p : nat) (w w' : world)
  (evs : list btif_rc_supported_event_t) (e : btif_rc_supported_event_t) (lb : nat) :
  rc_supported_event_list (btif_rc_cb w) = Some evs -> evs !! p = Some e ->
  register_for_event_notification p w = Some (tt, w') ->
  pool_wf (device w) -> rc_connected (btif_rc_cb w) = true -> lowest_free lb (device w) ->
  AVRC_BldCommand (cmd_reg_notif (event_id e) 0) = AVRC_STS_NO_ERROR ->
  trace w' = BTA_AvVendorCmd (rc_handle (btif_rc_cb w)) lb AVRC_CMD_NOTIF
               (cmd_reg_notif (event_id e) 0) :: trace w /\
  rc_supported_event_list (btif_rc_cb w') =
    Some (<[p := {| event_id := event_id e; label := Some lb; status := eREGISTERED |}]> evs).
Proof.
  intros Hl He Hw Hwf Hc Hlow Hb.
  destruct (lowest_free_get_transaction _ _ Hwf Hlow) as (t & Ht & Hlbl & Hg).
  destruct (register_for_event_notification_sent p w evs e lb _ Hl He Hc Hg Hb)
    as (t' & Ht' & Hrun).
  rewrite Hw in Hrun. injection Hrun as ->. simpl.
  rewrite list_lookup_insert_eq in Ht' by (by eapply lookup_lt_Some).
  injection Ht' as <-. simpl. by rewrite Hlbl.
Qed.

(** The handled part of an interim response for one of the three
    events: at most a callback; the list, the label table, the flags and
    the connection are as they were. *)
Lemma interim_event_block_exact (r : tAVRC_REG_NOTIF_RSP) (cb : btif_rc_cb_t) (w w1 : world)
  (handled : bool) :
  registered_event (reg_notif_event_id r) ->
  match reg_notif_event_id r with
  | AVRC_EVT_PLAY_STATUS_CHANGE =>
      run when (param_play_status r =? AVRC_PLAYSTATE_PLAYING) rc_start_play_status_timer;
      run emit (HAL_CBACK (play_status_changed_cb (rc_addr cb) (param_play_status r)));
      ret true
  | AVRC_EVT_TRACK_CHANGE =>
      run when (rc_is_track_id_valid (param_track r))
            (modify_cb (set_rc_playing_uid (be_stream_to_uint64 (param_track r))));
      ret true
  | AVRC_EVT_APP_SETTING_CHANGE
  | AVRC_EVT_NOW_PLAYING_CHANGE
  | AVRC_EVT_AVAL_PLAYERS_CHANGE
  | AVRC_EVT_ADDR_PLAYER_CHANGE
  | AVRC_EVT_UIDS_CHANGE => ret true
  | _ => ret false
  end w = Some (handled, w1) ->
  handled = true /\
  (exists cbs, trace w1 = (HAL_CBACK <$> cbs) ++ trace w) /\
  device w1 = device w /\
  rc_supported_event_list (btif_rc_cb w1) = rc_supported_event_list (btif_rc_cb w) /\
  rc_app_settings (btif_rc_cb w1) = rc_app_settings (btif_rc_cb w) /\
  procedure_complete w1 = procedure_complete w /\
  rc_features (btif_rc_cb w1) = rc_features (btif_rc_cb w) /\
  rc_connected (btif_rc_cb w1) = rc_connected (btif_rc_cb w) /\
  rc_handle (btif_rc_cb w1) = rc_handle (btif_rc_cb w).
Proof.
  intros Hev Hh. unfold when, rc_start_play_status_timer in Hh.
  destruct Hev as [Hev|[Hev|Hev]]; rewrite Hev in Hh; inv_run Hh.
  all: split; [done|].
  all: split; [first [by exists [] | by eexists [_]]|].
  all: unfold procedure_complete; simpl.
  all: try done.
  all: try (destruct (alarm_is_scheduled _); [done|]).
  all: try by destruct (btif_rc_cb w).
Qed.

(** An interim response for one of the three events, in full. *)
Lemma handle_notification_response_interim_exact (m : tBTA_AV_META_MSG)
  (r : tAVRC_REG_NOTIF_RSP) (w w' : world) :
  registered_event (reg_notif_event_id r) -> msg_code m = AVRC_RSP_INTERIM ->
  handle_notification_response m r w = Some (tt, w') ->
  exists l cbs,
    rc_supported_event_list (btif_rc_cb w) = Some l /\
    let l1 := match list_find (fun e => event_id e = reg_notif_event_id r) l with
              | Some (i, e) => <[i := set_event_status eINTERIM e]> l
              | None => l
              end in
    let h := rc_handle (btif_rc_cb w) in
    let before := (HAL_CBACK <$> cbs) ++ trace w in
    match list_find (fun e => status e = eNOT_REGISTERED) l1 with
    | Some (p, e) =>
        let entry lb := {| event_id := event_id e; label := Some lb; status := eREGISTERED |} in
        let reg lb := BTA_AvVendorCmd h lb AVRC_CMD_NOTIF (cmd_reg_notif (event_id e) 0) in
        app_query_started w' = app_query_started w /\
        procedure_complete w' = procedure_complete w /\
        ((trace w' = before /\
          (rc_supported_event_list (btif_rc_cb w') = Some l1 \/
           exists lb, rc_supported_event_list (btif_rc_cb w') = Some (<[p := entry lb]> l1))) \/
         (exists lb, trace w' = reg lb :: before /\
            rc_supported_event_list (btif_rc_cb w') = Some (<[p := entry lb]> l1))) /\
        (forall lb, pool_wf (device w) -> rc_connected (btif_rc_cb w) = true ->
           lowest_free lb (device w) ->
           AVRC_BldCommand (cmd_reg_notif (event_id e) 0) = AVRC_STS_NO_ERROR ->
           trace w' = reg lb :: before /\
           rc_supported_event_list (btif_rc_cb w') = Some (<[p := entry lb]> l1))
    | None =>
        rc_supported_event_list (btif_rc_cb w') = Some l1 /\
        app_query_started w' = true /\
        if app_query_started w then
          procedure_complete w' = procedure_complete w /\ trace w' = before
        else if Z.land (rc_features (btif_rc_cb w)) BTA_AV_FEAT_APP_SETTING =? 0 then
          procedure_complete w' = true /\
          exists delta, trace w' = delta ++ before /\
            Forall (is_cmd AVRC_PDU_GET_ELEMENT_ATTR) delta /\ (length delta <= 1)%nat /\
            (procedure_complete w = true -> delta = [])
        else
          let query lb := BTA_AvVendorCmd h lb AVRC_CMD_STATUS cmd_list_app_attr in
          procedure_complete w' = procedure_complete w /\
          (trace w' = before \/ exists lb, trace w' = query lb :: before) /\
          (forall lb, pool_wf (device w) -> rc_connected (btif_rc_cb w) = true ->
             lowest_free lb (device w) ->
             AVRC_BldCommand cmd_list_app_attr = AVRC_STS_NO_ERROR ->
             trace w' = query lb :: before)
    end.
Proof.
  intros Hev Hcode Hw. unfold handle_notification_response in Hw.
  rewrite Hcode, Z.eqb_refl in Hw.
  apply run_bind_inv in Hw as (cb & w0 & Hcb & Hw). apply get_cb_inv in Hcb as [-> ->].
  apply run_bind_inv in Hw as (handled & w1 & Hh & Hw).
  apply (interim_event_block_exact _ _ _ _ _ Hev) in Hh
    as (-> & (cbs & Ht1) & Hd1 & Hl1 & Hs1 & Hc1 & Hf1 & Hn1 & Hh1).
  cbn [negb] in Hw.
  apply run_bind_inv in Hw as ([] & w2 & Hu & Hw).
  apply update_event_list_inv in Hu as (l & l1 & Hl & [= <-] & ->).
  rewrite Hl1 in Hl. exists l, cbs. split; [exact Hl|]. cbv zeta.
  rewrite foreach_interim_rsp_find in Hw. rewrite <- Ht1.
  set (l1 := match list_find _ l with Some (i, e) => _ | None => l end) in *.
  set (w2 := {| btif_rc_cb := _; device := device w1; trace := trace w1 |}) in Hw.
  apply run_bind_inv in Hw as (l1' & w2' & Hs & Hw).
  apply supported_event_list_inv in Hs as [[= <-] ->].
  apply run_bind_inv in Hw as (found & w3 & Hr & Hw).
  apply register_first_not_registered_inv in Hr as (evs & [= <-] & Hr).
  rewrite first_not_registered_find in Hr.
  apply run_bind_inv in Hw as (p_event_null & w4 & Hp & Hw).
  apply run_bind_inv in Hw as (cb1 & w5 & Hcb1 & Hw). apply get_cb_inv in Hcb1 as [-> ->].
  destruct (list_find (fun e => status e = eNOT_REGISTERED) l1) as [[p e]|] eqn:Hfind;
    simpl in Hr.
  - destruct Hr as [-> Hr]. apply ret_inv in Hp as [-> ->]. cbn [andb] in Hw.
    apply ret_inv in Hw as [_ ->].
    apply list_find_Some in Hfind as (He & _ & _).
    destruct (register_for_event_notification_spec _ _ _ Hr) as (_ & Hcb3 & _ & _).
    split; [unfold app_query_started; rewrite Hcb3; simpl; by rewrite <- Hs1;
            destruct (btif_rc_cb w1)|].
    split; [rewrite <- Hc1; unfold procedure_complete; rewrite Hcb3; simpl;
            by destruct (btif_rc_cb w1)|].
    assert (Hh2 : rc_handle (btif_rc_cb w2) = rc_handle (btif_rc_cb w))
      by (rewrite <- Hh1; simpl; by destruct (btif_rc_cb w1)).
    assert (Hn2 : rc_connected (btif_rc_cb w2) = rc_connected (btif_rc_cb w))
      by (rewrite <- Hn1; simpl; by destruct (btif_rc_cb w1)).
    assert (Hl2 : rc_supported_event_list (btif_rc_cb w2) = Some l1)
      by (simpl; by destruct (btif_rc_cb w1)).
    split.
    + destruct (register_for_event_notification_cases p w2 w3 l1 e Hl2 He Hr)
        as [[Ht Hlist]|(lb & Ht & Hlist)].
      * left. split; [exact Ht|exact Hlist].
      * right. exists lb. rewrite Hh2 in Ht. split; [exact Ht|exact Hlist].
    + intros lb Hwf Hc Hlow Hb. rewrite <- Hh2.
      apply (register_for_event_notification_lowest p w2 w3 l1 e lb Hl2 He Hr).
      * simpl. by rewrite Hd1.
      * by rewrite Hn2.
      * simpl. by rewrite Hd1.
      * exact Hb.
  - destruct Hr as [-> ->].
    assert (Hl2 : rc_supported_event_list (btif_rc_cb w2) = Some l1)
      by (simpl; by destruct (btif_rc_cb w1)).
    destruct l1 as [|x l1'] eqn:El1; [done|]. rewrite <- El1 in *.
    apply ret_inv in Hp as [-> ->]. cbn [andb] in Hw.
    assert (Hq2 : query_started (rc_app_settings (btif_rc_cb w2)) = app_query_started w).
    { unfold app_query_started. rewrite <- Hs1. simpl. by destruct (btif_rc_cb w1). }
    assert (Hc2 : procedure_complete w2 = procedure_complete w).
    { rewrite <- Hc1. unfold procedure_complete. simpl. by destruct (btif_rc_cb w1). }
    assert (Hf2 : rc_features (btif_rc_cb w2) = rc_features (btif_rc_cb w)).
    { rewrite <- Hf1. simpl. by destruct (btif_rc_cb w1). }
    rewrite Hq2, Hf2 in Hw.
    destruct (app_query_started w) eqn:Hq; cbn [negb] in Hw.
    + apply ret_inv in Hw as [_ ->]. split; [exact Hl2|]. split; [exact Hq2|].
      split; [exact Hc2|done].
    + apply run_bind_inv in Hw as (s & w6 & Hs & Hw).
      apply update_app_settings_inv in Hs as ([= <-] & ->).
      set (w6 := {| btif_rc_cb := _; device := device w2; trace := trace w2 |}) in Hw.
      assert (Hl6 : rc_supported_event_list (btif_rc_cb w6) = Some l1)
        by (rewrite <- Hl2; simpl; by destruct (btif_rc_cb w1)).
      assert (Hq6 : app_query_started w6 = true)
        by (unfold app_query_started; simpl; by destruct (btif_rc_cb w1)).
      assert (Hc6 : procedure_complete w6 = procedure_complete w)
        by (rewrite <- Hc2; unfold procedure_complete; simpl; by destruct (btif_rc_cb w1)).
      destruct (Z.land _ _ =? 0) eqn:Hfb; cbn [negb] in Hw.
      * pose proof (rc_ctrl_procedure_complete_sets _ _ Hw) as Hdone.
        unfold rc_ctrl_procedure_complete in Hw.
        apply run_bind_inv in Hw as (cb6 & w7 & Hcb6 & Hw).
        apply get_cb_inv in Hcb6 as [-> ->].
        fold (procedure_complete w6) in Hw. rewrite Hc6 in Hw.
        destruct (procedure_complete w) eqn:Hpc.
        -- apply ret_inv in Hw as [_ ->]. split; [exact Hl6|]. split; [exact Hq6|].
           split; [exact Hc6|]. exists []. repeat split; simpl; try done; lia.
        -- apply run_bind_inv in Hw as ([] & w7 & Hm & Hw).
           apply modify_cb_inv in Hm as ->.
           apply run_bind_inv in Hw as (st & w8 & Hg & Hw). apply ret_inv in Hw as [_ ->].
           unfold get_element_attribute_cmd in Hg.
           apply run_bind_inv in Hg as (ids & w9 & Hids & Hg).
           apply array_prefix_inv in Hids as (_ & -> & ->).
           destruct (send_status_cmd_cases _ _ _ _ Hg) as (Hcb8 & Ht8).
           assert (Hl8 : rc_supported_event_list (btif_rc_cb w8)
                         = rc_supported_event_list (btif_rc_cb w6))
             by (rewrite Hcb8; by destruct (btif_rc_cb w6)).
           assert (Hq8 : app_query_started w8 = app_query_started w6)
             by (unfold app_query_started; rewrite Hcb8; by destruct (btif_rc_cb w6)).
           split; [by rewrite Hl8|]. split; [by rewrite Hq8|].
           split; [exact Hdone|].
           destruct Ht8 as [Ht8|(lb & Ht8)].
           ++ exists []. repeat split; simpl; try done; lia.
           ++ eexists [_]. split; [exact Ht8|]. split; [by repeat constructor|].
              split; [simpl; lia|done].
      * apply run_bind_inv in Hw as (st & w7 & Hg & Hw). apply ret_inv in Hw as [_ ->].
        unfold list_player_app_setting_attrib_cmd in Hg.
        destruct (send_status_cmd_cases _ _ _ _ Hg) as (Hcb7 & Ht7).
        split; [by rewrite Hcb7|].
        split; [unfold app_query_started in *; by rewrite Hcb7|].
        split; [unfold procedure_complete in *; by rewrite Hcb7|].
        assert (Hh6 : rc_handle (btif_rc_cb w6) = rc_handle (btif_rc_cb w))
          by (rewrite <- Hh1; simpl; by destruct (btif_rc_cb w1)).
        rewrite Hh6 in Ht7. split.
        -- destruct Ht7 as [Ht7|(lb & Ht7)]; [by left|right; by exists lb].
        -- intros lb Hwf Hc Hlow Hb.
           assert (Hwf6 : pool_wf (device w6)) by (simpl; by rewrite Hd1).
           destruct (send_status_cmd_trace cmd_list_app_attr w6 Hwf6)
             as (st' & w7' & Hg' & _ & _ & Hyes).
           rewrite Hg in Hg'. injection Hg' as <- <-.
           rewrite <- Hh6. apply Hyes; [|by simpl; rewrite Hd1|exact Hb].
           rewrite <- Hc, <- Hn1. simpl. by destruct (btif_rc_cb w1).
Qed.

(** The removal of an entry after a time-out, in full. *)
Lemma rc_notification_interim_timout_exact (L : nat) (w w' : world) :
  rc_notification_interim_timout L w = Some (tt, w') ->
  exists l,
    rc_supported_event_list (btif_rc_cb w) = Some l /\
    let l1 := match list_find (fun e => label e = Some L) l with
              | Some (i, _) => delete i l
              | None => l
              end in
    match list_find (fun e => status e = eNOT_REGISTERED) l1 with
    | Some (p, e) =>
        let entry lb := {| event_id := event_id e; label := Some lb; status := eREGISTERED |} in
        let reg lb := BTA_AvVendorCmd (rc_handle (btif_rc_cb w)) lb AVRC_CMD_NOTIF
                        (cmd_reg_notif (event_id e) 0) in
        app_query_started w' = app_query_started w /\
        procedure_complete w' = procedure_complete w /\
        ((trace w' = trace w /\
          (rc_supported_event_list (btif_rc_cb w') = Some l1 \/
           exists lb, rc_supported_event_list (btif_rc_cb w') = Some (<[p := entry lb]> l1))) \/
         (exists lb, trace w' = reg lb :: trace w /\
            rc_supported_event_list (btif_rc_cb w') = Some (<[p := entry lb]> l1))) /\
        (forall lb, pool_wf (device w) -> rc_connected (btif_rc_cb w) = true ->
           lowest_free lb (device w) ->
           AVRC_BldCommand (cmd_reg_notif (event_id e) 0) = AVRC_STS_NO_ERROR ->
           trace w' = reg lb :: trace w /\
           rc_supported_event_list (btif_rc_cb w') = Some (<[p := entry lb]> l1))
    | None =>
        rc_supported_event_list (btif_rc_cb w') = Some l1 /\ sends_registrations [] w w'
    end.
Proof.
  intros Hw. unfold rc_notification_interim_timout in Hw.
  apply run_bind_inv in Hw as ([] & w1 & Hu & Hw).
  apply update_event_list_inv in Hu as (l & l1 & Hl & Hf & ->).
  apply foreach_timeout_find in Hf. exists l. split; [exact Hl|]. cbv zeta.
  rewrite <- Hf. clear Hf.
  set (w1 := {| btif_rc_cb := _; device := device w; trace := trace w |}) in Hw.
  apply run_bind_inv in Hw as (found & w2 & Hr & Hw). apply ret_inv in Hw as [_ ->].
  apply register_first_not_registered_inv in Hr as (evs & Hevs & Hr).
  assert (Hl1 : rc_supported_event_list (btif_rc_cb w1) = Some l1)
    by (simpl; by destruct (btif_rc_cb w)).
  rewrite Hl1 in Hevs. injection Hevs as <-.
  rewrite first_not_registered_find in Hr.
  destruct (list_find (fun e => status e = eNOT_REGISTERED) l1) as [[p e]|] eqn:Hfind;
    simpl in Hr.
  - destruct Hr as [_ Hr]. apply list_find_Some in Hfind as (He & _ & _).
    assert (Hh1 : rc_handle (btif_rc_cb w1) = rc_handle (btif_rc_cb w))
      by (simpl; by destruct (btif_rc_cb w)).
    assert (Hn1 : rc_connected (btif_rc_cb w1) = rc_connected (btif_rc_cb w))
      by (simpl; by destruct (btif_rc_cb w)).
    destruct (register_for_event_notification_spec _ _ _ Hr) as (_ & Hcb & _).
    assert (Hflags : app_query_started w2 = app_query_started w /\
                     procedure_complete w2 = procedure_complete w).
    { unfold app_query_started, procedure_complete. rewrite Hcb. simpl.
      by destruct (btif_rc_cb w). }
    destruct Hflags as [Hq2 Hp2]. split; [exact Hq2|]. split; [exact Hp2|].
    split.
    + destruct (register_for_event_notification_cases p w1 w2 l1 e Hl1 He Hr)
        as [[Ht Hlist]|(lb & Ht & Hlist)].
      * left. split; [exact Ht|exact Hlist].
      * right. exists lb. rewrite Hh1 in Ht. split; [exact Ht|exact Hlist].
    + intros lb Hwf Hc Hlow Hb. rewrite <- Hh1.
      apply (register_for_event_notification_lowest p w1 w2 l1 e lb Hl1 He Hr);
        [exact Hwf|by rewrite Hn1|exact Hlow|exact Hb].
  - destruct Hr as [_ ->]. split; [exact Hl1|]. by exists [].
Qed.

(** What follows the new registration in the changed branch keeps the
    list and sends no REGISTER_NOTIFICATION command. *)
Lemma changed_report_keeps_list (r : tAVRC_REG_NOTIF_RSP) (cb : btif_rc_cb_t)
  (w w' : world) :
  match reg_notif_event_id r with
  | AVRC_EVT_PLAY_STATUS_CHANGE =>
      run (if param_play_status r =? AVRC_PLAYSTATE_PLAYING
           then rc_start_play_status_timer
           else rc_stop_play_status_timer);
      emit (HAL_CBACK (play_status_changed_cb (rc_addr cb) (param_play_status r)))
  | AVRC_EVT_TRACK_CHANGE =>
      if negb (rc_is_track_id_valid (param_track r)) then ret tt
      else
        do _ <- get_element_attribute_cmd AVRC_MAX_NUM_MEDIA_ATTR_ID attr_list;
        ret tt
  | AVRC_EVT_APP_SETTING_CHANGE =>
      let ps := param_player_setting r in
      let n := player_setting_num_attr ps in
      if negb (n <=? BTRC_MAX_APP_SETTINGS)%nat then undefined
      else
        do ids <- array_prefix (player_setting_attr_id ps) n;
        do vals <- array_prefix (player_setting_attr_value ps) n;
        emit (HAL_CBACK (playerapplicationsetting_changed_cb (rc_addr cb) n ids vals))
  | _ => ret tt
  end w = Some (tt, w') ->
  rc_supported_event_list (btif_rc_cb w') = rc_supported_event_list (btif_rc_cb w) /\
  sends_registrations [] w w'.
Proof.
  intros Hw. unfold rc_start_play_status_timer, rc_stop_play_status_timer in Hw.
  destruct (reg_notif_event_id r); inv_run Hw.
  all: try (split; [done|by exists []]).
  all: try match goal with
       | Hg : get_element_attribute_cmd _ _ _ = Some _ |- _ =>
           pose proof (rel_Q_get_element_attribute_cmd _ _ _ _ _ Hg) as HQ;
           unfold get_element_attribute_cmd in Hg; inv_run Hg;
           apply send_status_cmd_cases in Hg as [Hcb _]; rewrite Hcb; by split
       end.
  all: simpl.
  all: try (destruct (alarm_is_scheduled _)).
  all: split; [by destruct (btif_rc_cb w)|].
  all: first [by exists [] | by eexists [_]].
Qed.

(** A changed response, in full: the entry of the event is registered
    again at once. *)
Lemma handle_notification_response_changed_exact (m : tBTA_AV_META_MSG)
  (r : tAVRC_REG_NOTIF_RSP) (w w' : world) :
  msg_code m = AVRC_RSP_CHANGED ->
  handle_notification_response m r w = Some (tt, w') ->
  exists l,
    rc_supported_event_list (btif_rc_cb w) = Some l /\
    match list_find (fun e => event_id e = reg_notif_event_id r) l with
    | Some (i, e) =>
        let entry lb := {| event_id := reg_notif_event_id r; label := Some lb;
                           status := eREGISTERED |} in
        let reg lb := BTA_AvVendorCmd (rc_handle (btif_rc_cb w)) lb AVRC_CMD_NOTIF
                        (cmd_reg_notif (reg_notif_event_id r) 0) in
        forall lb, pool_wf (device w) -> rc_connected (btif_rc_cb w) = true ->
          lowest_free lb (device w) ->
          AVRC_BldCommand (cmd_reg_notif (reg_notif_event_id r) 0) = AVRC_STS_NO_ERROR ->
          rc_supported_event_list (btif_rc_cb w') = Some (<[i := entry lb]> l) /\
          exists delta, trace w' = delta ++ reg lb :: trace w /\
            omap reg_cmd_event delta = []
    | None =>
        rc_supported_event_list (btif_rc_cb w') = Some l /\ sends_registrations [] w w'
    end.
Proof.
  intros Hcode Hw. destruct rsp_code_facts as (_ & _ & _ & _ & Hne).
  unfold handle_notification_response in Hw. rewrite Hcode, Hne, Z.eqb_refl in Hw.
  apply run_bind_inv in Hw as (cb & w0 & Hcb & Hw). apply get_cb_inv in Hcb as [-> ->].
  apply run_bind_inv in Hw as (l & w0 & Hl & Hw).
  apply supported_event_list_inv in Hl as [Hl ->]. exists l. split; [exact Hl|].
  apply run_bind_inv in Hw as ([] & w2 & Hreg & Hw).
  apply changed_report_keeps_list in Hw as [Hlist (delta & Ht & Hd)].
  rewrite first_of_event_find in Hreg.
  destruct (list_find (fun e => event_id e = reg_notif_event_id r) l) as [[i e]|] eqn:Hfind;
    simpl in Hreg.
  - apply list_find_Some in Hfind as (He & Hid & _).
    apply run_bind_inv in Hreg as ([] & w1 & Hu & Hreg).
    apply update_event_inv in Hu as (l' & e' & Hl' & He' & ->).
    rewrite Hl in Hl'. injection Hl' as <-. rewrite He in He'. injection He' as <-.
    set (w1 := {| btif_rc_cb := _; device := device w; trace := trace w |}) in Hreg.
    cbv zeta. intros lb Hwf Hc Hlow Hb.
    assert (Hl1 : rc_supported_event_list (btif_rc_cb w1)
                  = Some (<[i := set_event_status eNOT_REGISTERED e]> l))
      by (simpl; by destruct (btif_rc_cb w)).
    assert (He1 : <[i := set_event_status eNOT_REGISTERED e]> l !! i
                  = Some (set_event_status eNOT_REGISTERED e))
      by (apply list_lookup_insert_eq; by eapply lookup_lt_Some).
    destruct (register_for_event_notification_lowest i w1 w2 _ _ lb Hl1 He1 Hreg)
      as [Ht2 Hl2].
    + exact Hwf.
    + simpl. by destruct (btif_rc_cb w).
    + exact Hlow.
    + simpl. by rewrite Hid.
    + simpl in Ht2, Hl2. rewrite Hid in Ht2, Hl2. rewrite list_insert_insert_eq in Hl2.
      split; [by rewrite Hlist|]. exists delta. split; [|exact Hd].
      rewrite Ht, Ht2. do 2 f_equal; by destruct (btif_rc_cb w).
  - apply ret_inv in Hreg as [_ ->]. split; [by rewrite Hlist|]. by exists delta.
Qed.

End Registration.

(** ** The application-settings query is started once *)

#[global] Instance no_query_refl : Reflexive no_query.
Proof. intros w. split; [done|]. by exists []. Qed.

#[global] Instance no_query_trans : Transitive no_query.
Proof.
  intros w1 w2 w3 (Hq1 & d1 & Ht1 & Hd1) (Hq2 & d2 & Ht2 & Hd2).
  split; [congruence|]. exists (d2 ++ d1). split; [by rewrite Ht2, Ht1, app_assoc|].
  unfold queries_started in *. rewrite List.filter_app, length_app. lia.
Qed.

#[global] Instance query_once_refl : Reflexive query_once.
Proof. intros w. exists []. split; [done|]. simpl. lia. Qed.

#[global] Instance query_once_trans : Transitive query_once.
Proof.
  intros w1 w2 w3 (d1 & Ht1 & Hd1) (d2 & Ht2 & Hd2).
  exists (d2 ++ d1). split; [by rewrite Ht2, Ht1, app_assoc|].
  unfold queries_started in *. rewrite List.filter_app, length_app. lia.
Qed.

Lemma no_query_once (w w' : world) : no_query w w' -> query_once w w'.
Proof. intros (Hq & d & Ht & Hd). exists d. split; [done|]. rewrite Hq, Hd. lia. Qed.

Lemma no_query_same_cb (w w' : world) (delta : list effect) :
  app_query_started w' = app_query_started w -> trace w' = delta ++ trace w ->
  List.forallb (fun e => negb (starts_query e)) delta = true -> no_query w w'.
Proof.
  intros Hq Ht Hd. split; [done|]. exists delta. split; [done|].
  unfold queries_started. clear Ht. induction delta as [|e delta IH]; [done|].
  simpl in Hd. apply andb_true_iff in Hd as [He Hd]. simpl.
  destruct (starts_query e); [done|]. by apply IH.
Qed.

Lemma rel_nq_modify_cb (f : btif_rc_cb_t -> btif_rc_cb_t) :
  (forall cb, query_started (rc_app_settings (f cb)) = query_started (rc_app_settings cb)) ->
  rel no_query (modify_cb f).
Proof. intros Hf w a w' [= _ <-]. by apply (no_query_same_cb _ _ []); [apply Hf|..]. Qed.

Lemma rel_nq_modify_device (f : rc_device_t -> rc_device_t) : rel no_query (modify_device f).
Proof. intros w a w' [= _ <-]. by apply (no_query_same_cb _ _ []). Qed.

Lemma rel_nq_emit (e : effect) : starts_query e = false -> rel no_query (emit e).
Proof.
  intros He w a w' [= _ <-]. apply (no_query_same_cb _ _ [e]); [done|done|].
  simpl. by rewrite He.
Qed.

Lemma rel_nq_update_event_list
  (f : list btif_rc_supported_event_t -> option (list btif_rc_supported_event_t)) :
  rel no_query (update_event_list f).
Proof.
  intros w a w' Hw. apply update_event_list_inv in Hw as (l & l1 & _ & _ & ->).
  apply (no_query_same_cb _ _ []); [|done..].
  unfold app_query_started. simpl. by destruct (btif_rc_cb w).
Qed.

Lemma rel_nq_update_event (p : nat)
  (f : btif_rc_supported_event_t -> btif_rc_supported_event_t) :
  rel no_query (update_event p f).
Proof. apply rel_nq_update_event_list. Qed.

Lemma rel_nq_update_app_settings
  (f : btif_rc_player_app_settings_t -> option btif_rc_player_app_settings_t) :
  (forall s s', f s = Some s' -> query_started s' = query_started s) ->
  rel no_query (update_app_settings f).
Proof.
  intros Hf w a w' Hw. apply update_app_settings_inv in Hw as (Hfs & ->).
  apply (no_query_same_cb _ _ []); [|done..].
  unfold app_query_started. simpl. rewrite <- (Hf _ _ Hfs). by destruct (btif_rc_cb w).
Qed.

Section QueryOnce.
Context `{AvrcDefs}.

Lemma rel_nq_send_status_cmd (cmd : tAVRC_COMMAND) :
  cmd <> cmd_list_app_attr -> rel no_query (send_status_cmd cmd).
Proof.
  intros Hcmd w st w' Hw. destruct (send_status_cmd_cases _ _ _ _ Hw) as (Hcb & Ht).
  assert (Hq : app_query_started w' = app_query_started w)
    by (unfold app_query_started; by rewrite Hcb).
  destruct Ht as [Ht|(l & Ht)].
  - by apply (no_query_same_cb _ _ []).
  - apply (no_query_same_cb _ _ [_] Hq Ht). simpl. by destruct cmd.
Qed.

Lemma rel_nq_register_for_event_notification (p : nat) :
  rel no_query (register_for_event_notification p).
Proof.
  intros w [] w' Hw.
  destruct (register_for_event_notification_spec _ _ _ Hw) as (_ & Hcb & _ & Ht).
  assert (Hq : app_query_started w' = app_query_started w).
  { unfold app_query_started. rewrite Hcb. by destruct (btif_rc_cb w). }
  destruct Ht as [Ht|(evs & e & l & _ & _ & Ht & _)].
  - by apply (no_query_same_cb _ _ []).
  - by apply (no_query_same_cb _ _ [_] Hq Ht).
Qed.

Create HintDb nq discriminated.

#[local] Hint Resolve readonly_get_cb readonly_get_device readonly_lift_option
  readonly_array_get readonly_array_prefix readonly_supported_event_list
  readonly_ret readonly_undefined readonly_ext_attr_values
  rel_nq_register_for_event_notification : nq.

Ltac nq_settings :=
  let s := fresh "s" in
  let s' := fresh "s'" in
  let Hf := fresh "Hf" in
  intros s s' Hf;
  unfold store_attr_values, store_ext_attr_values, drop_ext_attr_texts, drop_ext_attr_values,
    store_value_texts, free_app_settings in Hf;
  cbv beta in Hf;
  repeat (case_match; simplify_eq);
  simplify_eq;
  try match goal with
      | Hs : store_app_attrs _ _ = Some _ |- _ => apply store_app_attrs_started in Hs
      end;
  simpl in *; try done; try congruence.

Ltac nq_cmd :=
  try apply rel_of_send_status_cmd;
  unfold getcapabilities_cmd, list_player_app_setting_value_cmd, get_player_app_setting_cmd,
    get_player_app_setting_value_text_cmd, get_play_status_cmd;
  apply rel_nq_send_status_cmd; discriminate.

Ltac nq_step :=
  cbv zeta;
  lazymatch goal with
  | |- rel _ (bind _ _) => apply rel_bind; [typeclasses eauto| |intros ?]
  | |- rel _ (ret _) => apply rel_ret; typeclasses eauto
  | |- rel _ undefined => apply rel_undefined
  | |- rel _ (emit _) => apply rel_nq_emit; reflexivity
  | |- rel _ (modify_cb _) =>
      apply rel_nq_modify_cb; intros []; simpl; try done; by destruct (alarm_is_scheduled _)
  | |- rel _ (modify_device _) => apply rel_nq_modify_device
  | |- rel _ (update_app_settings _) => apply rel_nq_update_app_settings; nq_settings
  | |- rel _ (update_event_list _) => apply rel_nq_update_event_list
  | |- rel _ (update_event _ _) => apply rel_nq_update_event
  | |- rel _ (getcapabilities_cmd _) => nq_cmd
  | |- rel _ (list_player_app_setting_value_cmd _) => nq_cmd
  | |- rel _ (get_player_app_setting_cmd _ _) => nq_cmd
  | |- rel _ (get_player_app_setting_attr_text_cmd _ _) => nq_cmd
  | |- rel _ (get_player_app_setting_value_text_cmd _ _) => nq_cmd
  | |- rel _ get_play_status_cmd => nq_cmd
  | |- rel _ (send_status_cmd _) => apply rel_nq_send_status_cmd; discriminate
  | |- rel _ (when _ _) => unfold when
  | |- rel _ (if ?b then _ else _) => destruct b
  | |- rel _ (match ?x with _ => _ end) => destruct x
  | |- rel _ _ =>
      first [ solve [auto with nq]
            | apply rel_readonly; [typeclasses eauto|solve [auto with nq]] ]
  end.

Ltac nq_auto := repeat nq_step.

Lemma rel_nq_get_element_attribute_cmd (n : nat) (l : list avrc_media_attr) :
  rel no_query (get_element_attribute_cmd n l).
Proof. unfold get_element_attribute_cmd. nq_auto. Qed.

#[local] Hint Resolve rel_nq_get_element_attribute_cmd : nq.

Lemma rel_nq_rc_ctrl_procedure_complete : rel no_query rc_ctrl_procedure_complete.
Proof. unfold rc_ctrl_procedure_complete. nq_auto. Qed.

Lemma rel_nq_rc_start_play_status_timer : rel no_query rc_start_play_status_timer.
Proof. unfold rc_start_play_status_timer. nq_auto. Qed.

Lemma rel_nq_rc_stop_play_status_timer : rel no_query rc_stop_play_status_timer.
Proof. unfold rc_stop_play_status_timer. nq_auto. Qed.

#[local] Hint Resolve rel_nq_rc_ctrl_procedure_complete rel_nq_rc_start_play_status_timer
  rel_nq_rc_stop_play_status_timer : nq.

Lemma rel_nq_register_first_not_registered : rel no_query register_first_not_registered.
Proof. unfold register_first_not_registered. nq_auto. Qed.

#[local] Hint Resolve rel_nq_register_first_not_registered : nq.

Lemma rel_nq_report_standard_settings : rel no_query report_standard_settings.
Proof. unfold report_standard_settings. nq_auto. Qed.

#[local] Hint Resolve rel_nq_report_standard_settings : nq.

Lemma rel_nq_handle_get_capability_response m r :
  rel no_query (handle_get_capability_response m r).
Proof. unfold handle_get_capability_response. nq_auto. Qed.

Lemma rel_nq_handle_app_attr_response m r : rel no_query (handle_app_attr_response m r).
Proof. unfold handle_app_attr_response. nq_auto. Qed.

Lemma rel_nq_handle_app_val_response m r : rel no_query (handle_app_val_response m r).
Proof. unfold handle_app_val_response. nq_auto. Qed.

Lemma rel_nq_handle_app_cur_val_response m r :
  rel no_query (handle_app_cur_val_response m r).
Proof. unfold handle_app_cur_val_response. nq_auto. Qed.

Lemma rel_nq_handle_app_attr_txt_response m r :
  rel no_query (handle_app_attr_txt_response m r).
Proof. unfold handle_app_attr_txt_response. nq_auto. Qed.

Lemma rel_nq_handle_app_attr_val_txt_response m r :
  rel no_query (handle_app_attr_val_txt_response m r).
Proof. unfold handle_app_attr_val_txt_response. nq_auto. Qed.

Lemma rel_nq_handle_set_app_attr_val_response m r :
  rel no_query (handle_set_app_attr_val_response m r).
Proof. unfold handle_set_app_attr_val_response. nq_auto. Qed.

Lemma rel_nq_handle_get_elem_attr_response m r :
  rel no_query (handle_get_elem_attr_response m r).
Proof. unfold handle_get_elem_attr_response. nq_auto. Qed.

Lemma rel_nq_handle_get_playstatus_response m r :
  rel no_query (handle_get_playstatus_response m r).
Proof. unfold handle_get_playstatus_response. nq_auto. Qed.

Lemma rel_nq_rc_notification_interim_timout l :
  rel no_query (rc_notification_interim_timout l).
Proof. unfold rc_notification_interim_timout. nq_auto. Qed.

Lemma nq_qo {A : Type} (m : M A) : rel no_query m -> rel query_once m.
Proof. apply rel_weaken. exact no_query_once. Qed.

(** The end of the interim branch: the one place where the flag is set
    and the query is started. *)
Lemma rel_qo_signal (p_event_null : bool) :
  rel query_once
    (do cb1 <- get_cb;
     if p_event_null && negb (query_started (rc_app_settings cb1)) then
       do _ <- update_app_settings (fun s => Some (set_query_started true s));
       if negb (Z.land (rc_features cb1) BTA_AV_FEAT_APP_SETTING =? 0) then
         do _ <- list_player_app_setting_attrib_cmd;
         ret tt
       else rc_ctrl_procedure_complete
     else ret tt).
Proof.
  intros w a w' Hw.
  apply run_bind_inv in Hw as (cb1 & w0 & Hcb & Hw). apply get_cb_inv in Hcb as [-> ->].
  destruct (p_event_null && _) eqn:Hcond; [|apply ret_inv in Hw as [_ ->]; reflexivity].
  apply andb_true_iff in Hcond as [_ Hq]. apply negb_true_iff in Hq.
  apply run_bind_inv in Hw as (s & w6 & Hs & Hw).
  apply update_app_settings_inv in Hs as ([= <-] & ->).
  set (w6 := {| btif_rc_cb := _; device := device w; trace := trace w |}) in Hw.
  assert (Hq6 : app_query_started w6 = true)
    by (unfold app_query_started; simpl; by destruct (btif_rc_cb w)).
  assert (Hstart : forall w7 delta,
            app_query_started w7 = true -> trace w7 = delta ++ trace w ->
            (queries_started delta <= 1)%nat -> query_once w w7).
  { intros w7 delta Hq7 Ht7 Hd7. exists delta. split; [exact Ht7|].
    unfold app_query_started at 1. rewrite Hq, Hq7. lia. }
  destruct (negb _).
  - apply run_bind_inv in Hw as (st & w7 & Hg & Hw). apply ret_inv in Hw as [_ ->].
    unfold list_player_app_setting_attrib_cmd in Hg.
    destruct (send_status_cmd_cases _ _ _ _ Hg) as (Hcb7 & Ht7).
    assert (Hq7 : app_query_started w7 = true)
      by (unfold app_query_started in *; by rewrite Hcb7).
    destruct Ht7 as [Ht7|(lb & Ht7)].
    + apply (Hstart w7 []); [done|done|unfold queries_started; simpl; lia].
    + apply (Hstart w7 [_] Hq7 Ht7). unfold queries_started. simpl. lia.
  - destruct (rel_nq_rc_ctrl_procedure_complete _ _ _ Hw) as (Hq7 & delta & Ht7 & Hd7).
    apply (Hstart w' delta); [by rewrite Hq7|exact Ht7|lia].
Qed.

Lemma rel_qo_handle_notification_response m r :
  rel query_once (handle_notification_response m r).
Proof.
  unfold handle_notification_response.
  apply rel_bind; [typeclasses eauto|apply nq_qo; nq_auto|intros cb].
  destruct (msg_code m =? AVRC_RSP_INTERIM).
  - apply rel_bind; [typeclasses eauto|apply nq_qo; nq_auto|intros handled].
    destruct (negb handled); [apply rel_ret; typeclasses eauto|].
    apply rel_bind; [typeclasses eauto|apply nq_qo; nq_auto|intros ?].
    apply rel_bind; [typeclasses eauto|apply nq_qo; nq_auto|intros l1].
    apply rel_bind; [typeclasses eauto|apply nq_qo; nq_auto|intros found].
    apply rel_bind; [typeclasses eauto|apply nq_qo; nq_auto|intros p_event_null].
    apply rel_qo_signal.
  - apply nq_qo. nq_auto.
Qed.

Lemma rel_qo_handle_avk_rc_metamsg_rsp m : rel query_once (handle_avk_rc_metamsg_rsp m).
Proof.
  unfold handle_avk_rc_metamsg_rsp.
  destruct (_ && _); [|apply rel_ret; typeclasses eauto].
  destruct (parsed m).
  all: try (apply nq_qo; nq_auto; fail).
  all: try (apply rel_bind; [typeclasses eauto| |intros ?; apply nq_qo; nq_auto]).
  all: first
    [ apply rel_qo_handle_notification_response
    | apply nq_qo;
      first [ apply rel_nq_handle_get_capability_response
            | apply rel_nq_handle_app_attr_response
            | apply rel_nq_handle_app_val_response
            | apply rel_nq_handle_app_cur_val_response
            | apply rel_nq_handle_app_attr_txt_response
            | apply rel_nq_handle_app_attr_val_txt_response
            | apply rel_nq_handle_set_app_attr_val_response
            | apply rel_nq_handle_get_elem_attr_response
            | apply rel_nq_handle_get_playstatus_response ] ].
Qed.

Lemma rel_nq_btif_rc_status_cmd_timeout_handler c :
  rel no_query (btif_rc_status_cmd_timeout_handler c).
Proof.
  unfold btif_rc_status_cmd_timeout_handler.
  apply rel_bind; [typeclasses eauto|nq_auto|intros cb]. cbv zeta.
  apply rel_bind; [typeclasses eauto| |intros ?; nq_auto].
  destruct (ctx_pdu_id c); try (apply rel_ret; typeclasses eauto).
  - apply rel_nq_handle_get_capability_response.
  - apply rel_nq_handle_app_attr_response.
  - apply rel_nq_handle_app_val_response.
  - apply rel_nq_handle_app_cur_val_response.
  - apply rel_nq_handle_app_attr_txt_response.
  - apply rel_nq_handle_app_attr_txt_response.
  - apply rel_nq_handle_get_elem_attr_response.
  - apply rel_nq_handle_get_playstatus_response.
  - apply rel_nq_rc_notification_interim_timout.
Qed.

Lemma rel_nq_btif_rc_control_cmd_timeout_handler c :
  rel no_query (btif_rc_control_cmd_timeout_handler c).
Proof.
  unfold btif_rc_control_cmd_timeout_handler.
  apply rel_bind; [typeclasses eauto|nq_auto|intros cb]. cbv zeta.
  apply rel_bind; [typeclasses eauto| |intros ?; nq_auto].
  destruct (ctx_pdu_id c); try (apply rel_ret; typeclasses eauto).
  apply rel_nq_handle_set_app_attr_val_response.
Qed.

Lemma rel_nq_btif_rc_play_status_timeout_handler :
  rel no_query btif_rc_play_status_timeout_handler.
Proof. unfold btif_rc_play_status_timeout_handler. nq_auto. Qed.

Lemma rel_nq_txn_timer_expired p : rel no_query (txn_timer_expired p).
Proof.
  unfold txn_timer_expired.
  apply rel_bind; [typeclasses eauto|nq_auto|intros d].
  apply rel_bind; [typeclasses eauto|nq_auto|intros t].
  destruct (txn_timer t) as [[|cb ms]|]; try (apply rel_ret; typeclasses eauto).
  apply rel_bind; [typeclasses eauto|nq_auto|intros ?].
  destruct cb.
  - apply rel_nq_btif_rc_status_cmd_timeout_handler.
  - apply rel_nq_btif_rc_control_cmd_timeout_handler.
  - apply rel_nq_btif_rc_play_status_timeout_handler.
Qed.

Lemma rel_nq_play_status_timer_expired : rel no_query play_status_timer_expired.
Proof.
  unfold play_status_timer_expired.
  apply rel_bind; [typeclasses eauto|nq_auto|intros cb].
  destruct (rc_play_status_timer cb) as [[|? ?]|]; try (apply rel_ret; typeclasses eauto).
  apply rel_bind; [typeclasses eauto|nq_auto|intros ?].
  apply rel_nq_btif_rc_play_status_timeout_handler.
Qed.

Lemma rel_qo_step (i : input) : rel query_once (step i).
Proof.
  destruct i; simpl.
  - apply rel_qo_handle_avk_rc_metamsg_rsp.
  - apply nq_qo, rel_nq_txn_timer_expired.
  - apply nq_qo, rel_nq_play_status_timer_expired.
Qed.

Lemma rel_qo_steps (ins : list input) : rel query_once (steps ins).
Proof.
  induction ins as [|i ins IH]; simpl.
  - apply rel_ret. typeclasses eauto.
  - apply rel_bind; [typeclasses eauto|apply rel_qo_step|intros _; exact IH].
Qed.

End QueryOnce.

(** * The interface part: basic facts *)

Lemma rc_bind_eq {A B : Type} (m : RC A) (k : A -> RC B) (s s1 : rc_state) (a : A) :
  m s = Some (a, s1) -> rc_bind m k s = k a s1.
Proof. intros E. unfold rc_bind. by rewrite E. Qed.

Lemma rc_bind_inv {A B : Type} (m : RC A) (k : A -> RC B) (s s' : rc_state) (b : B) :
  rc_bind m k s = Some (b, s') <-> exists a s1, m s = Some (a, s1) /\ k a s1 = Some (b, s').
Proof.
  unfold rc_bind. split.
  - destruct (m s) as [[a s1]|]; [|done]. intros E. by exists a, s1.
  - intros (a & s1 & -> & E). done.
Qed.

(** Reading a field of a state built by the setters. *)
Ltac rc_fields :=
  cbn [rc_cb rc_device rc_pending_play rc_pdu_info rc_notif bt_rc_callbacks
       bt_rc_ctrl_callbacks uinput_fd env rc_log
       set_rc_cb set_rc_device set_rc_pending_play set_rc_pdu_info set_rc_notif
       set_bt_rc_callbacks set_bt_rc_ctrl_callbacks set_uinput_fd add_rc_log
       after_ctrl ctrl_world btif_rc_cb device trace].

Tactic Notation "rc_fields" "in" hyp(H) :=
  cbn [rc_cb rc_device rc_pending_play rc_pdu_info rc_notif bt_rc_callbacks
       bt_rc_ctrl_callbacks uinput_fd env rc_log
       set_rc_cb set_rc_device set_rc_pending_play set_rc_pdu_info set_rc_notif
       set_bt_rc_callbacks set_bt_rc_ctrl_callbacks set_uinput_fd add_rc_log
       after_ctrl ctrl_world btif_rc_cb device trace] in H.

(** Reading a member of a control block built by the setters. *)
Ltac cb_fields :=
  cbn [rc_connected rc_handle rc_features rc_addr rc_volume rc_vol_label
       rc_supported_event_list rc_app_settings rc_play_status_timer
       rc_features_processed rc_playing_uid rc_procedure_complete
       set_rc_connected set_rc_handle set_rc_features set_rc_addr set_rc_volume
       set_rc_vol_label set_rc_supported_event_list set_rc_app_settings
       set_rc_play_status_timer set_rc_features_processed set_rc_playing_uid
       set_rc_procedure_complete].

(** Decisions between constructors are evaluated. *)
Ltac eval_decisions :=
  repeat match goal with
         | |- context [bool_decide ?P] =>
             let b := eval vm_compute in (bool_decide P) in
             change (bool_decide P) with b
         end.

Lemma rc_state_ext (s s' : rc_state) :
  rc_cb s' = rc_cb s -> rc_device s' = rc_device s ->
  rc_pending_play s' = rc_pending_play s -> rc_pdu_info s' = rc_pdu_info s ->
  rc_notif s' = rc_notif s -> bt_rc_callbacks s' = bt_rc_callbacks s ->
  bt_rc_ctrl_callbacks s' = bt_rc_ctrl_callbacks s -> uinput_fd s' = uinput_fd s ->
  env s' = env s -> rc_log s' = rc_log s -> s' = s.
Proof. destruct s, s'. simpl. by intros -> -> -> -> -> -> -> -> -> ->. Qed.

#[global] Instance same_but_log_refl : Reflexive same_but_log.
Proof. intros s. by repeat split. Qed.

#[global] Instance same_but_log_trans : Transitive same_but_log.
Proof.
  intros s1 s2 s3 (A1 & A2 & A3 & A4 & A5 & A6 & A7 & A8 & A9)
    (B1 & B2 & B3 & B4 & B5 & B6 & B7 & B8 & B9).
  repeat split; congruence.
Qed.

Lemma add_rc_log_app (a b : list rc_call) (s : rc_state) :
  add_rc_log a (add_rc_log b s) = add_rc_log (a ++ b) s.
Proof. destruct s. unfold add_rc_log. rc_fields. by rewrite app_assoc. Qed.

Lemma same_but_log_log (c : list rc_call) (s : rc_state) : same_but_log s (add_rc_log c s).
Proof. by destruct s. Qed.

(** Functions of the first part, run on the state of the module. *)
Lemma lift_eq {A : Type} (m : M A) (s : rc_state) (a : A) (w : world) :
  m (ctrl_world s) = Some (a, w) -> lift m s = Some (a, after_ctrl w s).
Proof. intros E. unfold lift. by rewrite E. Qed.

Lemma lift_inv {A : Type} (m : M A) (s s' : rc_state) (a : A) :
  lift m s = Some (a, s') ->
  exists w, m (ctrl_world s) = Some (a, w) /\ s' = after_ctrl w s.
Proof.
  unfold lift. destruct (m (ctrl_world s)) as [[a' w]|]; [|done].
  intros [= <- <-]. by exists w.
Qed.

Lemma after_ctrl_device (d : rc_device_t) (s : rc_state) :
  after_ctrl {| btif_rc_cb := rc_cb s; device := d; trace := [] |} s = set_rc_device d s.
Proof. by destruct s. Qed.

Lemma after_ctrl_same (s : rc_state) : after_ctrl (ctrl_world s) s = s.
Proof. by destruct s. Qed.

Lemma lift_emit (e : effect) (s : rc_state) :
  lift (emit e) s = Some (tt, add_rc_log [ctrl_call e] s).
Proof. by destruct s. Qed.

Lemma slots_ok_b_spec (d : rc_device_t) (k : nat) :
  slots_ok_b k d = true ->
  forall i t, d !! i = Some t -> lbl t = (k + i)%nat /\ slot_ok (k + i) t.
Proof.
  revert k. induction d as [|t0 d IH]; intros k Hb i t Hi; [done|].
  cbn [slots_ok_b] in Hb. apply andb_true_iff in Hb as [H0 Hrest].
  destruct i as [|i].
  - injection Hi as <-. rewrite Nat.add_0_r. unfold slot_ok_b in H0.
    apply andb_true_iff in H0 as [H1 H2]. apply andb_true_iff in H1 as [Hl Hh].
    apply Nat.eqb_eq in Hl. apply Z.eqb_eq in Hh. split; [done|]. split; [done|].
    intros cb ms Ht. rewrite Ht in H2.
    apply andb_true_iff in H2 as [H3 Hcb]. apply andb_true_iff in H3 as [Hu Hc].
    apply Nat.eqb_eq in Hc. split; [done|]. split; [done|]. by intros ->.
  - cbn in Hi. destruct (IH (S k) Hrest i t Hi) as [E1 E2].
    replace (k + S i)%nat with (S k + i)%nat by lia. done.
Qed.

Lemma timers_wf_b_spec (d : rc_device_t) : timers_wf_b d = true -> timers_wf d.
Proof.
  unfold timers_wf_b. intros Hb. apply andb_true_iff in Hb as [Hlen Hs].
  apply Nat.eqb_eq in Hlen. split; [split; [done|]|].
  - intros i t Hi. by destruct (slots_ok_b_spec d 0 Hs i t Hi).
  - intros i t Hi. by destruct (slots_ok_b_spec d 0 Hs i t Hi).
Qed.

Lemma timers_wf_pool_wf (d : rc_device_t) : timers_wf d -> pool_wf d.
Proof. by intros [? _]. Qed.

Section InterfaceBasics.
Context `{TargetDefs}.

Lemma lift_get_transaction (s : rc_state) :
  lift call_get_transaction s =
  Some ((get_transaction (rc_device s)).1, set_rc_device (get_transaction (rc_device s)).2 s).
Proof.
  unfold lift, call_get_transaction. cbn [ctrl_world device btif_rc_cb trace].
  destruct (get_transaction (rc_device s)) as [[st p] d]. cbn [fst snd].
  by rewrite after_ctrl_device.
Qed.

Lemma lift_get_transaction_some (s : rc_state) (l : nat) (t : rc_transaction_t) :
  first_unused 0 MAX_TRANSACTIONS_PER_SESSION (rc_device s) = Some l ->
  rc_device s !! l = Some t ->
  lift call_get_transaction s =
  Some ((BT_STATUS_SUCCESS, Some l), set_rc_device (<[l := set_in_use true t]> (rc_device s)) s).
Proof.
  intros Hf Hd. rewrite lift_get_transaction.
  by rewrite (get_transaction_lowest _ _ _ Hf Hd).
Qed.

Lemma lift_get_transaction_none (s : rc_state) :
  first_unused 0 MAX_TRANSACTIONS_PER_SESSION (rc_device s) = None ->
  lift call_get_transaction s = Some ((BT_STATUS_NOMEM, None), s).
Proof.
  intros Hf. rewrite lift_get_transaction. unfold get_transaction. rewrite Hf. cbn [fst snd].
  by destruct s.
Qed.

Lemma lift_transaction_lbl (s : rc_state) (p : nat) (t : rc_transaction_t) :
  rc_device s !! p = Some t -> lift (transaction_lbl p) s = Some (lbl t, s).
Proof.
  intros Hd. unfold lift, transaction_lbl, bind, get_device, array_get.
  cbn [ctrl_world device]. rewrite Hd. cbn. by rewrite after_ctrl_same.
Qed.

End InterfaceBasics.

(** * set_volume and the way back of its response *)

(** Taking a free label and releasing it again restores the table. *)
Lemma release_after_acquire (d : rc_device_t) (l : nat) (t : rc_transaction_t) :
  timers_wf d -> d !! l = Some t -> in_use t = false ->
  release_transaction l (<[l := set_in_use true t]> d) = d.
Proof.
  intros [[Hlen Hlbl] Hok] Hd Hu.
  assert (Hl : (l < MAX_TRANSACTIONS_PER_SESSION)%nat)
    by (rewrite <- Hlen; by eapply lookup_lt_Some).
  assert (Hll : (l < length d)%nat) by (by eapply lookup_lt_Some).
  destruct (Hok l t Hd) as [Hh Hs].
  assert (Hidle : alarm_is_scheduled (txn_timer t) = false).
  { destruct (txn_timer t) as [[|cb ms]|] eqn:E; try done.
    destruct (Hs cb ms eq_refl) as (Hin & _). congruence. }
  assert (Hlb : lbl t = l) by (by apply Hlbl).
  unfold release_transaction, get_transaction_by_lbl.
  apply Nat.ltb_lt in Hl as Hlb'. rewrite Hlb'.
  rewrite list_lookup_insert_eq by done. cbn [set_in_use in_use].
  unfold initialize_transaction. rewrite Hlb'.
  rewrite list_lookup_insert_eq by done. cbn [set_in_use txn_timer].
  rewrite Hidle. rewrite list_lookup_insert_eq by done.
  rewrite list_insert_insert_eq. cbn [txn_timer_context txn_timer].
  apply list_eq. intros j. destruct (decide (j = l)) as [->|Hne].
  - rewrite list_lookup_insert_eq by done. rewrite Hd. f_equal.
    destruct t as [u lb h c a]. simpl in *. by subst.
  - by rewrite list_lookup_insert_ne.
Qed.

Section Volume.
Context `{TargetDefs}.

Lemma set_volume_not_connected (volume : Z) (s : rc_state) :
  rc_connected (rc_cb s) = false -> set_volume volume s = Some (BT_STATUS_NOT_READY, s).
Proof.
  intros Hc. unfold set_volume, rc_bind, get_rc_cb, get_state, rc_ret. cbn. by rewrite Hc.
Qed.

Lemma set_volume_done (volume : Z) (s : rc_state) :
  rc_connected (rc_cb s) = true -> rc_volume (rc_cb s) = volume ->
  set_volume volume s = Some (BT_STATUS_DONE, s).
Proof.
  intros Hc Hv. unfold set_volume, rc_bind, get_rc_cb, get_state, rc_ret. cbn.
  rewrite Hc. cbn. by rewrite Hv, Z.eqb_refl.
Qed.

Lemma set_volume_sent (volume : Z) (s : rc_state) (l : nat) (t : rc_transaction_t) :
  rc_connected (rc_cb s) = true -> rc_volume (rc_cb s) <> volume ->
  has_feat (rc_features (rc_cb s)) BTA_AV_FEAT_RCTG
    && has_feat (rc_features (rc_cb s)) BTA_AV_FEAT_ADV_CTRL = true ->
  AVRC_BldCommand (cmd_volume volume) = AVRC_STS_NO_ERROR ->
  first_unused 0 MAX_TRANSACTIONS_PER_SESSION (rc_device s) = Some l ->
  rc_device s !! l = Some t ->
  set_volume volume s =
  Some (BT_STATUS_SUCCESS,
        add_rc_log [ctrl_call (BTA_AvMetaCmd (rc_handle (rc_cb s)) (lbl t) AVRC_CMD_CTRL
                                 (cmd_volume volume))]
          (set_rc_device (<[l := set_in_use true t]> (rc_device s)) s)).
Proof.
  intros Hc Hv Hf Hb Hfu Hd.
  unfold set_volume. unfold rc_bind at 1. unfold get_rc_cb, rc_bind, get_state, rc_ret.
  cbn beta iota. rewrite Hc. cbn [negb].
  apply Z.eqb_neq in Hv. rewrite Hv, Hf, Hb, Z.eqb_refl.
  rewrite (lift_get_transaction_some s l t Hfu Hd). rewrite Z.eqb_refl.
  erewrite lift_transaction_lbl
    by (destruct s; cbn; apply list_lookup_insert_eq; by eapply lookup_lt_Some).
  cbn [set_in_use lbl]. rewrite lift_emit. by destruct s.
Qed.

(** X9.  [set_volume] always returns, leaves the control block alone
    and has one of these outcomes.  Nothing changes and the status is
    [BT_STATUS_NOT_READY] without a connection or without the features
    RCTG and ADV_CTRL of the peer, [BT_STATUS_DONE] when the volume is
    the one recorded, [BT_STATUS_FAIL] when the command cannot be built
    or every label is in use.  Otherwise the status is
    [BT_STATUS_SUCCESS]: SET_ABSOLUTE_VOLUME is sent under the lowest free
    label, that label is in use afterwards, no other slot changes, and
    the alarm of the label is left as it was, so no time-out guards the
    command. *)
Theorem X9_set_volume_outcomes (volume : Z) (s : rc_state) :
  pool_wf (rc_device s) ->
  exists st s', set_volume volume s = Some (st, s') /\ rc_cb s' = rc_cb s /\
    ((st <> BT_STATUS_SUCCESS /\ s' = s /\
      ((rc_connected (rc_cb s) = false /\ st = BT_STATUS_NOT_READY) \/
       (rc_connected (rc_cb s) = true /\ rc_volume (rc_cb s) = volume /\
        st = BT_STATUS_DONE) \/
       (rc_connected (rc_cb s) = true /\ rc_volume (rc_cb s) <> volume /\
        has_feat (rc_features (rc_cb s)) BTA_AV_FEAT_RCTG
          && has_feat (rc_features (rc_cb s)) BTA_AV_FEAT_ADV_CTRL = false /\
        st = BT_STATUS_NOT_READY) \/
       (rc_connected (rc_cb s) = true /\ rc_volume (rc_cb s) <> volume /\
        (AVRC_BldCommand (cmd_volume volume) <> AVRC_STS_NO_ERROR \/
         exhausted (rc_device s)) /\
        st = BT_STATUS_FAIL))) \/
     (st = BT_STATUS_SUCCESS /\
      rc_connected (rc_cb s) = true /\ rc_volume (rc_cb s) <> volume /\
      exists l t, lowest_free l (rc_device s) /\ rc_device s !! l = Some t /\
        rc_log s' = ctrl_call (BTA_AvMetaCmd (rc_handle (rc_cb s)) l AVRC_CMD_CTRL
                                 (cmd_volume volume)) :: rc_log s /\
        rc_device s' = <[l := set_in_use true t]> (rc_device s))).
Proof.
  intros Hwf.
  destruct (rc_connected (rc_cb s)) eqn:Hc; cycle 1.
  { exists BT_STATUS_NOT_READY, s. split; [by apply set_volume_not_connected|].
    split; [done|]. left. split; [apply bt_status_not_ready_ne|]. split; [done|].
    by left. }
  destruct (decide (rc_volume (rc_cb s) = volume)) as [Hv|Hv].
  { exists BT_STATUS_DONE, s. split; [by apply set_volume_done|].
    split; [done|]. left. split; [apply bt_status_done_ne|]. split; [done|].
    right. by left. }
  assert (Hstart : forall k,
            (rc_bind get_rc_cb k s : option (Z * rc_state)) = k (rc_cb s) s) by done.
  destruct (has_feat (rc_features (rc_cb s)) BTA_AV_FEAT_RCTG
            && has_feat (rc_features (rc_cb s)) BTA_AV_FEAT_ADV_CTRL) eqn:Hf; cycle 1.
  { exists BT_STATUS_NOT_READY, s. split.
    - unfold set_volume. rewrite Hstart, Hc. cbn [negb].
      apply Z.eqb_neq in Hv. by rewrite Hv, Hf.
    - split; [done|]. left. split; [apply bt_status_not_ready_ne|]. split; [done|].
      right. right. by left. }
  destruct (decide (AVRC_BldCommand (cmd_volume volume) = AVRC_STS_NO_ERROR)) as [Hb|Hb];
    cycle 1.
  { exists BT_STATUS_FAIL, s. split.
    - unfold set_volume. rewrite Hstart, Hc. cbn [negb].
      apply Z.eqb_neq in Hv. rewrite Hv, Hf. apply Z.eqb_neq in Hb. by rewrite Hb.
    - split; [done|]. left. split; [apply bt_status_fail_ne|]. split; [done|].
      right. right. right. repeat split; try done. by left. }
  destruct (first_unused 0 MAX_TRANSACTIONS_PER_SESSION (rc_device s)) as [l|] eqn:Hfu;
    cycle 1.
  { exists BT_STATUS_FAIL, s. split.
    - unfold set_volume. rewrite Hstart, Hc. cbn [negb].
      apply Z.eqb_neq in Hv. rewrite Hv, Hf, Hb, Z.eqb_refl.
      unfold rc_bind. by rewrite (lift_get_transaction_none s Hfu).
    - split; [done|]. left. split; [apply bt_status_fail_ne|]. split; [done|].
      right. right. right. repeat split; try done. right.
      by apply first_unused_exhausted. }
  destruct (first_unused_some _ _ _ _ Hfu) as (Hr & (t & Hd & Ht) & Hbelow).
  pose proof Hwf as [Hlen Hlbl].
  eexists _, _. split; [by apply (set_volume_sent volume s l t)|].
  split; [by destruct s|]. right. split; [done|]. split; [done|]. split; [done|].
  exists l, t. split; [by apply first_unused_lowest_free|]. split; [done|].
  rewrite (Hlbl l t Hd). by destruct s.
Qed.

Lemma set_volume_success_inv (vol : Z) (s s1 : rc_state) :
  set_volume vol s = Some (BT_STATUS_SUCCESS, s1) ->
  exists l t, first_unused 0 MAX_TRANSACTIONS_PER_SESSION (rc_device s) = Some l /\
    rc_device s !! l = Some t /\ in_use t = false /\
    rc_connected (rc_cb s) = true /\
    s1 = add_rc_log [ctrl_call (BTA_AvMetaCmd (rc_handle (rc_cb s)) (lbl t) AVRC_CMD_CTRL
                                  (cmd_volume vol))]
           (set_rc_device (<[l := set_in_use true t]> (rc_device s)) s).
Proof.
  intros Hrun.
  assert (Hstart : forall k,
            (rc_bind get_rc_cb k s : option (Z * rc_state)) = k (rc_cb s) s) by done.
  destruct (rc_connected (rc_cb s)) eqn:Hc; cycle 1.
  { rewrite set_volume_not_connected in Hrun by done. injection Hrun as E _.
    by apply bt_status_not_ready_ne in E. }
  destruct (decide (rc_volume (rc_cb s) = vol)) as [Hv|Hv].
  { rewrite set_volume_done in Hrun by done. injection Hrun as E _.
    by apply bt_status_done_ne in E. }
  pose proof Hv as Hv'. apply Z.eqb_neq in Hv'.
  destruct (has_feat (rc_features (rc_cb s)) BTA_AV_FEAT_RCTG
            && has_feat (rc_features (rc_cb s)) BTA_AV_FEAT_ADV_CTRL) eqn:Hf; cycle 1.
  { unfold set_volume in Hrun. rewrite Hstart, Hc in Hrun. cbn [negb] in Hrun.
    rewrite Hv', Hf in Hrun. injection Hrun as E _.
    by apply bt_status_not_ready_ne in E. }
  destruct (decide (AVRC_BldCommand (cmd_volume vol) = AVRC_STS_NO_ERROR)) as [Hb|Hb];
    cycle 1.
  { unfold set_volume in Hrun. rewrite Hstart, Hc in Hrun. cbn [negb] in Hrun.
    rewrite Hv', Hf in Hrun. apply Z.eqb_neq in Hb. rewrite Hb in Hrun.
    injection Hrun as E _. by apply bt_status_fail_ne in E. }
  destruct (first_unused 0 MAX_TRANSACTIONS_PER_SESSION (rc_device s)) as [l|] eqn:Hfu;
    cycle 1.
  { unfold set_volume in Hrun. rewrite Hstart, Hc in Hrun. cbn [negb] in Hrun.
    rewrite Hv', Hf, Hb, Z.eqb_refl in Hrun. unfold rc_bind in Hrun.
    rewrite (lift_get_transaction_none s Hfu) in Hrun.
    injection Hrun as E _. by apply bt_status_fail_ne in E. }
  destruct (first_unused_some _ _ _ _ Hfu) as (Hr & (t & Hd & Ht) & Hbelow).
  rewrite (set_volume_sent vol s l t Hc Hv Hf Hb Hfu Hd) in Hrun.
  injection Hrun as <-. by exists l, t.
Qed.

(** An accepted SET_ABSOLUTE_VOLUME response in [handle_rc_metamsg_rsp]. *)
Lemma handle_rc_metamsg_rsp_accept (m : tBTA_AV_META_MSG) (r : tAVRC_SET_VOLUME_RSP)
  (w : world) :
  msg_opcode m = AVRC_OP_VENDOR -> msg_code m = AVRC_RSP_ACCEPT ->
  parse_status m = AVRC_STS_NO_ERROR -> parsed m = rsp_volume r ->
  handle_rc_metamsg_rsp m w =
  Some (tt, {| btif_rc_cb := set_rc_volume (volume r) (btif_rc_cb w);
               device := release_transaction (msg_label m) (device w);
               trace := HAL_CBACK (volume_change_cb (volume r) AVRC_RSP_ACCEPT) :: trace w |}).
Proof.
  intros Ho Hcode Hp Hr. unfold handle_rc_metamsg_rsp.
  rewrite Ho, Hcode, Hp, Hr, !Z.eqb_refl.
  rewrite !orb_true_r. cbn [andb negb is_volume_change_rsp is_set_absolute_volume_rsp].
  unfold bind, get_cb, modify_device, btif_rc_upstreams_rsp_evt, when, modify_cb, emit.
  cbn. by rewrite Z.eqb_refl.
Qed.

(** X10.  The way back of SET_ABSOLUTE_VOLUME, through
    [btif_rc_handler] with the target callbacks registered.  After a
    [set_volume] that was sent, the accepted response under the label of
    the command (the lowest label that was free) records the volume the
    peer reports, tells the application through [volume_change_cb], and
    frees the label, so that the label table is again exactly what it was
    before the command.  [set_volume] with the recorded volume then
    returns [BT_STATUS_DONE], and the same response a second time finds
    its label free and is discarded without any effect. *)
Theorem X10_set_volume_round_trip (vol : Z) (s s1 : rc_state) (l : nat)
  (m : tBTA_AV_META_MSG_IN) (r : tAVRC_SET_VOLUME_RSP) :
  timers_wf (rc_device s) -> bt_rc_callbacks s = true ->
  set_volume vol s = Some (BT_STATUS_SUCCESS, s1) ->
  lowest_free l (rc_device s) ->
  msg_opcode (meta m) = AVRC_OP_VENDOR -> 3 <= msg_len (meta m) ->
  msg_code (meta m) = AVRC_RSP_ACCEPT -> msg_label (meta m) = l ->
  parse_status (meta m) = AVRC_STS_NO_ERROR -> parsed (meta m) = rsp_volume r ->
  exists s2, btif_rc_handler (BTA_AV_META_MSG_EVT m) s1 = Some (tt, s2) /\
    rc_device s2 = rc_device s /\
    rc_cb s2 = set_rc_volume (volume r) (rc_cb s) /\
    rc_log s2 = ctrl_call (HAL_CBACK (volume_change_cb (volume r) AVRC_RSP_ACCEPT))
                  :: rc_log s1 /\
    set_volume (volume r) s2 = Some (BT_STATUS_DONE, s2) /\
    btif_rc_handler (BTA_AV_META_MSG_EVT m) s2 = Some (tt, s2).
Proof.
  intros Hwf Htg Hrun Hlow Ho Hlen Hcode Hlab Hp Hr.
  destruct (set_volume_success_inv vol s s1 Hrun) as (l' & t & Hfu & Hd & Ht & Hc & ->).
  assert (l = l') as <- by (by eapply lowest_free_first_unused).
  pose proof Hwf as [[Hdlen Hlbl] Hok].
  assert (Hll : (l < length (rc_device s))%nat) by (by eapply lookup_lt_Some).
  assert (Hl16 : (l <? MAX_TRANSACTIONS_PER_SESSION)%nat = true)
    by (apply Nat.ltb_lt; by rewrite <- Hdlen).
  destruct (avrc_rsp_order) as (O1 & O2 & O3 & O4).
  assert (Hge : (AVRC_RSP_NOT_IMPL <=? msg_code (meta m)) = true)
    by (apply Z.leb_le; lia).
  assert (Hlen3 : (msg_len (meta m) <? 3) = false) by (apply Z.ltb_ge; lia).
  set (s2 := set_rc_cb (set_rc_volume (volume r) (rc_cb s))
               (add_rc_log [ctrl_call (HAL_CBACK (volume_change_cb (volume r) AVRC_RSP_ACCEPT));
                            ctrl_call (BTA_AvMetaCmd (rc_handle (rc_cb s)) (lbl t)
                                         AVRC_CMD_CTRL (cmd_volume vol))] s)).
  assert (Hgate : forall s0 : rc_state, bt_rc_callbacks s0 = true ->
            btif_rc_handler (BTA_AV_META_MSG_EVT m) s0 =
            match get_transaction_by_lbl l (rc_device s0) with
            | Some _ => lift (handle_rc_metamsg_rsp (meta m)) s0
            | None => Some (tt, s0)
            end).
  { intros s0 Hs0. unfold btif_rc_handler, rc_bind, get_state. rewrite Hs0.
    unfold handle_rc_metamsg_cmd. rewrite Ho, Z.eqb_refl, Hlen3, Hge, Hlab.
    cbn [negb]. unfold rc_bind, get_state. by destruct (get_transaction_by_lbl _ _). }
  exists s2. split; [|split; [|split; [|split; [|split]]]].
  - rewrite Hgate by (by destruct s).
    assert (Hg : get_transaction_by_lbl l
                   (rc_device (add_rc_log
                      [ctrl_call (BTA_AvMetaCmd (rc_handle (rc_cb s)) (lbl t) AVRC_CMD_CTRL
                                    (cmd_volume vol))]
                      (set_rc_device (<[l := set_in_use true t]> (rc_device s)) s))) = Some l).
    { rc_fields. unfold get_transaction_by_lbl. rewrite Hl16.
      by rewrite list_lookup_insert_eq. }
    rewrite Hg.
    erewrite lift_eq by (by apply (handle_rc_metamsg_rsp_accept (meta m) r)).
    unfold s2. rewrite Hlab. apply f_equal, f_equal.
    pose proof (release_after_acquire (rc_device s) l t Hwf Hd Ht) as Hrel.
    apply rc_state_ext; rc_fields; done.
  - by destruct s.
  - by destruct s.
  - by destruct s.
  - apply set_volume_done; by destruct s.
  - rewrite Hgate by (by destruct s).
    assert (Hg : get_transaction_by_lbl l (rc_device s2) = None).
    { unfold s2. rc_fields. unfold get_transaction_by_lbl.
      by rewrite Hl16, Hd, Ht. }
    by rewrite Hg.
Qed.

End Volume.

Section VolumeWitness.
#[local] Existing Instance reference_defs.
#[local] Existing Instance reference_target_defs.

Lemma X9_set_volume_outcomes_witness :
  exists s', set_volume 50 tg_state = Some (BT_STATUS_SUCCESS, s') /\
    rc_log s' = ctrl_call (BTA_AvMetaCmd 1 1 AVRC_CMD_CTRL (cmd_volume 50))
                  :: rc_log tg_state /\
    lowest_free 1 (rc_device tg_state).
Proof.
  assert (Hwf : pool_wf (rc_device tg_state))
    by (apply timers_wf_pool_wf, timers_wf_b_spec; vm_compute; reflexivity).
  destruct (X9_set_volume_outcomes 50 tg_state Hwf)
    as (st & s' & Hrun & _ & [(Hne & _)|(-> & _ & _ & l & t & Hlow & Hd & Hlog & _)]).
  - exfalso. apply Hne.
    let r := eval vm_compute in (set_volume 50 tg_state) in
    lazymatch r with
    | Some (?st0, ?s0) =>
        assert (E : set_volume 50 tg_state = Some (st0, s0)) by (vm_compute; reflexivity)
    end.
    rewrite E in Hrun. by injection Hrun as <- _.
  - exists s'. split; [exact Hrun|].
    assert (l = 1%nat) as ->.
    { assert (E : first_unused 0 MAX_TRANSACTIONS_PER_SESSION (rc_device tg_state)
                  = Some 1%nat) by (vm_compute; reflexivity).
      by eapply lowest_free_first_unused. }
    split; [|exact Hlow]. rewrite Hlog. vm_compute. reflexivity.
Defined.

Lemma X10_set_volume_round_trip_witness :
  let rsp := {| meta := {| msg_rc_handle := 1; msg_len := 8; msg_label := 1;
                           msg_code := AVRC_RSP_ACCEPT; msg_opcode := AVRC_OP_VENDOR;
                           parse_status := AVRC_STS_NO_ERROR;
                           parsed := rsp_volume {| volume_status := AVRC_STS_NO_ERROR;
                                                   volume := 48 |} |};
                pars_command_status := AVRC_STS_NO_ERROR;
                pars_command := {| in_pdu := AVRC_PDU_SET_ABSOLUTE_VOLUME; in_opcode := 0;
                                   in_elem_num_attr := 0; in_elem_attrs := [];
                                   in_reg_event_id := AVRC_EVT_VOLUME_CHANGE;
                                   in_reg_param := 0; in_target_pdu := 0; in_volume := 0 |};
                ctrl_pars_command_status := AVRC_STS_NO_ERROR;
                ctrl_pars_command := {| in_pdu := AVRC_PDU_SET_ABSOLUTE_VOLUME; in_opcode := 0;
                                        in_elem_num_attr := 0; in_elem_attrs := [];
                                        in_reg_event_id := AVRC_EVT_VOLUME_CHANGE;
                                        in_reg_param := 0; in_target_pdu := 0;
                                        in_volume := 0 |} |} in
  exists s2,
    btif_rc_handler (BTA_AV_META_MSG_EVT rsp) (state_after (set_volume 50) tg_state)
      = Some (tt, s2) /\
    rc_device s2 = rc_device tg_state /\ rc_volume (rc_cb s2) = 48 /\
    set_volume 48 s2 = Some (BT_STATUS_DONE, s2).
Proof.
  intros rsp.
  assert (Hwf : timers_wf (rc_device tg_state))
    by (apply timers_wf_b_spec; vm_compute; reflexivity).
  assert (Htg : bt_rc_callbacks tg_state = true) by (vm_compute; reflexivity).
  assert (Hrun : set_volume 50 tg_state
                 = Some (BT_STATUS_SUCCESS, state_after (set_volume 50) tg_state))
    by (vm_compute; reflexivity).
  assert (Hlow : lowest_free 1 (rc_device tg_state)).
  { split; [unfold MAX_TRANSACTIONS_PER_SESSION; lia|]. split.
    - intros (t & Ht & Hu). vm_compute in Ht. injection Ht as <-. discriminate Hu.
    - intros j Hj. assert (j = 0%nat) as -> by lia. eexists. split; vm_compute; reflexivity. }
  assert (Hlen : 3 <= msg_len (meta rsp)) by (vm_compute; discriminate).
  destruct (X10_set_volume_round_trip 50 tg_state _ 1 rsp
              {| volume_status := AVRC_STS_NO_ERROR; volume := 48 |}
              Hwf Htg Hrun Hlow eq_refl Hlen eq_refl eq_refl eq_refl eq_refl)
    as (s2 & Hh & Hd & Hcb & _ & Hdone & _).
  exists s2. split; [exact Hh|]. split; [exact Hd|]. split; [by rewrite Hcb|exact Hdone].
Defined.

End VolumeWitness.

(** * GET_ELEMENT_ATTR of the peer: the attribute ids passed to the
      application *)

Section ElementAttrs.
Context `{TargetDefs}.

(** [n] distinct ids in the range 1..n are all the ids of that range. *)
Lemma all_ids_present (l : list Z) (n : nat) (a : Z) :
  NoDup l -> length l = n -> (forall x, x ∈ l -> 0 < x <= Z.of_nat n) ->
  0 < a <= Z.of_nat n -> a ∈ l.
Proof.
  intros Hnd Hlen Hrange Ha.
  assert (Hsub : l ⊆+ seqZ 1 (Z.of_nat n)).
  { apply NoDup_submseteq; [done|]. intros x Hx. apply elem_of_seqZ.
    specialize (Hrange x Hx). lia. }
  assert (Hperm : l ≡ₚ seqZ 1 (Z.of_nat n)).
  { apply submseteq_length_Permutation; [done|]. rewrite length_seqZ. lia. }
  rewrite Hperm. apply elem_of_seqZ. lia.
Qed.

Lemma fill_element_attrs_filled (attrs : list Z) (count attr_cnt : nat)
  (element_attrs : list Z) (num_attr : nat) :
  (attr_cnt + count <= length attrs)%nat ->
  (AVRC_MAX_NUM_MEDIA_ATTR_ID <= BTRC_MAX_ELEM_ATTR_SIZE)%nat ->
  filled attrs attr_cnt element_attrs num_attr ->
  exists element_attrs' num_attr',
    fill_element_attrs attrs count attr_cnt element_attrs num_attr
      = Some (element_attrs', num_attr') /\
    filled attrs (attr_cnt + count) element_attrs' num_attr'.
Proof.
  intros Hlen HMB. revert attr_cnt element_attrs num_attr Hlen.
  induction count as [|count IH]; intros attr_cnt ea n Hlen Hinv.
  { exists ea, n. split; [done|]. by rewrite Nat.add_0_r. }
  cbn [fill_element_attrs].
  destruct Hinv as (Hea & Hn & Hnd & Hiff & Hrest).
  destruct (n <? AVRC_MAX_NUM_MEDIA_ATTR_ID)%nat eqn:Hlt.
  - apply Nat.ltb_lt in Hlt.
    destruct (attrs !! attr_cnt) as [a|] eqn:Ha;
      [|apply lookup_ge_None in Ha; lia].
    assert (Htake : take (S attr_cnt) attrs = take attr_cnt attrs ++ [a])
      by (by apply take_S_r).
    replace (attr_cnt + S count)%nat with (S attr_cnt + count)%nat by lia.
    destruct ((0 <? a) && (a <=? Z.of_nat AVRC_MAX_NUM_MEDIA_ATTR_ID)) eqn:Hvalid.
    + apply andb_true_iff in Hvalid as [Hv1 Hv2].
      apply Z.ltb_lt in Hv1. apply Z.leb_le in Hv2.
      destruct (bool_decide (a ∈ take n ea)) eqn:Hdup.
      * apply bool_decide_eq_true in Hdup.
        apply IH; [lia|]. split; [done|]. split; [done|]. split; [done|]. split; [|done].
        intros x. rewrite Hiff, Htake, elem_of_app, list_elem_of_singleton.
        split; [intros [? ?]; tauto|]. intros [[?| ->] ?]; [tauto|].
        by apply Hiff.
      * apply bool_decide_eq_false in Hdup.
        assert (Hnl : (n < length ea)%nat) by lia.
        apply Nat.ltb_lt in Hnl as Hnl'. rewrite Hnl'.
        assert (Htk : take (S n) (<[n := a]> ea) = take n ea ++ [a]).
        { rewrite (take_S_r _ _ a) by (by apply list_lookup_insert_eq).
          by rewrite take_insert_ge by lia. }
        apply IH; [lia|]. split; [by rewrite length_insert|]. split; [lia|].
        rewrite Htk. split; [|split].
        -- apply NoDup_app. split; [done|]. split; [|apply NoDup_singleton].
           intros x Hx ->%list_elem_of_singleton. done.
        -- intros x. rewrite elem_of_app, list_elem_of_singleton, Hiff, Htake,
             elem_of_app, list_elem_of_singleton.
           split; [intros [[? ?]| ->]; [tauto|split; [tauto|lia]]|].
           intros [[?| ->] ?]; tauto.
        -- rewrite drop_insert_lt by lia.
           replace (S n) with (n + 1)%nat by lia. rewrite <- drop_drop, Hrest.
           rewrite drop_replicate. f_equal. lia.
    + apply IH; [lia|]. split; [done|]. split; [done|]. split; [done|]. split; [|done].
      intros x. rewrite Hiff, Htake, elem_of_app, list_elem_of_singleton.
      split; [intros [? ?]; tauto|]. intros [[?| ->] Hr]; [tauto|].
      exfalso. apply andb_false_iff in Hvalid as [E|E].
      * apply Z.ltb_ge in E. lia.
      * apply Z.leb_gt in E. lia.
  - apply Nat.ltb_ge in Hlt. assert (n = AVRC_MAX_NUM_MEDIA_ATTR_ID) as Hfull by lia.
    exists ea, n. split; [done|]. split; [done|]. split; [done|]. split; [done|].
    split; [|done]. intros x. split.
    + intros Hx. apply Hiff in Hx as [Hx Hr]. split; [|done].
      apply elem_of_take in Hx as (i & Hi & Hlt').
      apply elem_of_take. exists i. split; [done|lia].
    + intros [_ Hr]. apply (all_ids_present _ AVRC_MAX_NUM_MEDIA_ATTR_ID); try done.
      * rewrite length_take. lia.
      * intros y Hy. by apply Hiff in Hy as [_ ?].
Qed.

Lemma FILL_PDU_QUEUE_eq (index : nat) (ctype : Z) (label : nat) (pending : bool)
  (s : rc_state) :
  (index < length (rc_pdu_info s))%nat ->
  FILL_PDU_QUEUE index ctype label pending s =
  Some (tt, set_rc_pdu_info
              (<[index := {| ctxt_label := label; ctxt_ctype := ctype;
                             is_rsp_pending := pending |}]> (rc_pdu_info s)) s).
Proof.
  intros Hi. unfold FILL_PDU_QUEUE, rc_bind, get_state.
  by destruct (lookup_lt_is_Some_2 _ _ Hi) as [c ->].
Qed.

Lemma HAL_CBACK_on_true (P_CB : rc_state -> bool) (c : hal_call) (s : rc_state) :
  P_CB s = true -> HAL_CBACK_on P_CB c s = Some (tt, add_rc_log [HAL c] s).
Proof. intros E. unfold HAL_CBACK_on, rc_bind, get_state. by rewrite E. Qed.

Lemma HAL_CBACK_on_false (P_CB : rc_state -> bool) (c : hal_call) (s : rc_state) :
  P_CB s = false -> HAL_CBACK_on P_CB c s = Some (tt, s).
Proof. intros E. unfold HAL_CBACK_on, rc_bind, get_state. by rewrite E. Qed.

(** X11.  A GET_ELEMENT_ATTR command of the peer that names between 1
    and 254 attribute ids reaches the application as
    [get_element_attr_cb] with a cleaned list: the first [num_attr]
    entries of the array passed are exactly the requested ids in the
    range 1..AVRC_MAX_NUM_MEDIA_ATTR_ID, each of them once, there are at
    most AVRC_MAX_NUM_MEDIA_ATTR_ID of them, and the rest of the array is
    zero.  The label and the command type are recorded as the pending
    GET_ELEMENT_ATTR request. *)
Theorem X11_get_element_attr_ids (cmd : tAVRC_COMMAND_IN) (ctype : Z) (label : nat)
  (s : rc_state) :
  bt_rc_callbacks s = true ->
  (IDX_GET_ELEMENT_ATTR_RSP < length (rc_pdu_info s))%nat ->
  (AVRC_MAX_NUM_MEDIA_ATTR_ID <= BTRC_MAX_ELEM_ATTR_SIZE)%nat ->
  0 < in_elem_num_attr cmd < 255 ->
  (Z.to_nat (in_elem_num_attr cmd) <= length (in_elem_attrs cmd))%nat ->
  exists s' num_attr element_attrs,
    btif_rc_upstreams_evt AVRC_PDU_GET_ELEMENT_ATTR cmd ctype label s = Some (tt, s') /\
    rc_log s' = HAL (get_element_attr_cb num_attr element_attrs) :: rc_log s /\
    rc_pdu_info s' !! IDX_GET_ELEMENT_ATTR_RSP =
      Some {| ctxt_label := label; ctxt_ctype := ctype; is_rsp_pending := true |} /\
    length element_attrs = BTRC_MAX_ELEM_ATTR_SIZE /\
    (num_attr <= AVRC_MAX_NUM_MEDIA_ATTR_ID)%nat /\
    NoDup (take num_attr element_attrs) /\
    (forall a, a ∈ take num_attr element_attrs <->
               a ∈ take (Z.to_nat (in_elem_num_attr cmd)) (in_elem_attrs cmd) /\
               0 < a <= Z.of_nat AVRC_MAX_NUM_MEDIA_ATTR_ID) /\
    drop num_attr element_attrs = replicate (BTRC_MAX_ELEM_ATTR_SIZE - num_attr) 0.
Proof.
  intros Htg Hq HMB Hnum Hlen.
  destruct (fill_element_attrs_filled (in_elem_attrs cmd) (Z.to_nat (in_elem_num_attr cmd))
              0 (replicate BTRC_MAX_ELEM_ATTR_SIZE 0) 0)
    as (ea & n & Hfill & Hea & Hn & Hnd & Hiff & Hrest); [lia|done| |].
  { split; [by rewrite length_replicate|]. split; [lia|]. split; [apply NoDup_nil_2|].
    split; [|by rewrite Nat.sub_0_r]. intros a. rewrite !take_0.
    split; [by intros ?%elem_of_nil|by intros [?%elem_of_nil _]]. }
  cbn [Nat.add] in Hiff.
  eexists _, n, ea. split.
  - unfold btif_rc_upstreams_evt, rc_bind at 1, get_rc_cb, rc_bind at 1, get_state, rc_ret.
    cbn beta iota.
    assert ((in_elem_num_attr cmd =? 0) = false) as -> by (apply Z.eqb_neq; lia).
    assert ((in_elem_num_attr cmd =? 255) = false) as -> by (apply Z.eqb_neq; lia).
    rewrite Hfill. unfold rc_bind. rewrite FILL_PDU_QUEUE_eq by done.
    by rewrite HAL_CBACK_on_true by done.
  - rc_fields. split; [done|]. split; [by apply list_lookup_insert_eq|]. done.
Qed.

End ElementAttrs.

Section ElementAttrsWitness.
#[local] Existing Instance reference_defs.
#[local] Existing Instance reference_target_defs.

Lemma X11_get_element_attr_ids_witness :
  let cmd := {| in_pdu := AVRC_PDU_GET_ELEMENT_ATTR; in_opcode := 0;
                in_elem_num_attr := 6; in_elem_attrs := [1; 1; 9; 3; 0; 1; 2];
                in_reg_event_id := AVRC_EVT_OTHER 0; in_reg_param := 0;
                in_target_pdu := 0; in_volume := 0 |} in
  exists s' num_attr element_attrs,
    btif_rc_upstreams_evt AVRC_PDU_GET_ELEMENT_ATTR cmd 1 5 tg_state = Some (tt, s') /\
    rc_log s' = HAL (get_element_attr_cb num_attr element_attrs) :: rc_log tg_state /\
    num_attr = 2%nat /\ element_attrs = [1; 3; 0; 0; 0; 0; 0].
Proof.
  intros cmd.
  assert (Htg : bt_rc_callbacks tg_state = true) by (vm_compute; reflexivity).
  assert (Hq : (IDX_GET_ELEMENT_ATTR_RSP < length (rc_pdu_info tg_state))%nat)
    by (vm_compute; lia).
  assert (HMB : (AVRC_MAX_NUM_MEDIA_ATTR_ID <= BTRC_MAX_ELEM_ATTR_SIZE)%nat)
    by (vm_compute; lia).
  assert (Hnum : 0 < in_elem_num_attr cmd < 255) by (vm_compute; split; reflexivity).
  assert (Hlen : (Z.to_nat (in_elem_num_attr cmd) <= length (in_elem_attrs cmd))%nat)
    by (vm_compute; lia).
  destruct (X11_get_element_attr_ids cmd 1 5 tg_state Htg Hq HMB Hnum Hlen)
    as (s' & n & ea & Hrun & Hlog & _).
  exists s', n, ea. split; [exact Hrun|]. split; [exact Hlog|].
  let r := eval vm_compute in
    (btif_rc_upstreams_evt AVRC_PDU_GET_ELEMENT_ATTR cmd 1 5 tg_state) in
  lazymatch r with
  | Some (tt, ?s0) =>
      assert (E : btif_rc_upstreams_evt AVRC_PDU_GET_ELEMENT_ATTR cmd 1 5 tg_state
                  = Some (tt, s0)) by (vm_compute; reflexivity);
      rewrite E in Hrun; injection Hrun as <-;
      assert (Elog : rc_log s0 = HAL (get_element_attr_cb 2 [1; 3; 0; 0; 0; 0; 0])
                                   :: rc_log tg_state) by (vm_compute; reflexivity)
  end.
  rewrite Elog in Hlog.
  pose proof (f_equal (hd (HAL get_play_status_cb)) Hlog) as Hhd. cbn [hd] in Hhd.
  injection Hhd as <- <-. split; reflexivity.
Defined.

End ElementAttrsWitness.

(** * The target role: requests of the peer and the answers of the
      application *)

Section Target.
Context `{TargetDefs}.

Lemma log_eq (c : rc_call) (s : rc_state) : log c s = Some (tt, add_rc_log [c] s).
Proof. done. Qed.

Lemma metamsg_ctype_status (r : tAVRC_RESPONSE_OUT) :
  out_status r = AVRC_STS_NO_ERROR ->
  metamsg_ctype (avrc_cmd_code AVRC_CMD_STATUS) r = AVRC_RSP_IMPL_STBL _.
Proof.
  intros Hs. unfold metamsg_ctype. rewrite Hs, Z.eqb_refl. cbn [negb].
  pose proof (avrc_cmd_code_lt AVRC_CMD_STATUS) as Hlt. apply Z.ltb_lt in Hlt. rewrite Hlt.
  destruct (avrc_cmd_code AVRC_CMD_STATUS =? avrc_cmd_code AVRC_CMD_NOTIF) eqn:E.
  - apply Z.eqb_eq, avrc_cmd_code_inj in E. discriminate E.
  - by rewrite Z.eqb_refl.
Qed.

Lemma metamsg_ctype_notif (r : tAVRC_RESPONSE_OUT) :
  out_status r = AVRC_STS_NO_ERROR ->
  metamsg_ctype (avrc_cmd_code AVRC_CMD_NOTIF) r = AVRC_RSP_INTERIM.
Proof.
  intros Hs. unfold metamsg_ctype. rewrite Hs, Z.eqb_refl. cbn [negb].
  pose proof (avrc_cmd_code_lt AVRC_CMD_NOTIF) as Hlt. apply Z.ltb_lt in Hlt. rewrite Hlt.
  by rewrite Z.eqb_refl.
Qed.

Lemma metamsg_ctype_rsp (code : Z) (r : tAVRC_RESPONSE_OUT) :
  out_status r = AVRC_STS_NO_ERROR -> AVRC_RSP_NOT_IMPL <= code ->
  metamsg_ctype code r = code.
Proof.
  intros Hs Hc. unfold metamsg_ctype. rewrite Hs, Z.eqb_refl. cbn [negb].
  apply Z.ltb_ge in Hc. by rewrite Hc.
Qed.

Lemma metamsg_ctype_rej (code : Z) (r : tAVRC_RESPONSE_OUT) :
  out_status r <> AVRC_STS_NO_ERROR -> metamsg_ctype code r = AVRC_RSP_REJ.
Proof. intros Hs. unfold metamsg_ctype. apply Z.eqb_neq in Hs. by rewrite Hs. Qed.

(** [send_metamsg_rsp] for everything but a changed notification. *)
Lemma send_metamsg_rsp_generic (h : Z) (l : nat) (code : Z) (r : tAVRC_RESPONSE_OUT)
  (s : rc_state) :
  bool_decide (out_pdu r = AVRC_PDU_REGISTER_NOTIFICATION) && (code =? AVRC_RSP_CHANGED)
    = false ->
  send_metamsg_rsp h l code r s =
  Some (tt, add_rc_log (if AVRC_BldResponse h r =? AVRC_STS_NO_ERROR
                        then [BTA_AvMetaRsp h l (metamsg_ctype code r) r] else []) s).
Proof.
  unfold send_metamsg_rsp. intros ->. destruct (_ =? _); [done|]. by destruct s.
Qed.

Lemma read_notif_eq (ev : avrc_evt) (i : nat) (n : btif_rc_reg_notifications_t)
  (s : rc_state) :
  notif_index ev = Some i -> rc_notif s !! i = Some n -> read_notif ev s = Some (n, s).
Proof. intros Hi Hn. unfold read_notif, rc_bind, get_state. by rewrite Hi, Hn. Qed.

Lemma write_notif_eq (ev : avrc_evt) (i : nat) (n : btif_rc_reg_notifications_t)
  (f : btif_rc_reg_notifications_t -> btif_rc_reg_notifications_t) (s : rc_state) :
  notif_index ev = Some i -> rc_notif s !! i = Some n ->
  write_notif ev f s = Some (tt, set_rc_notif (<[i := f n]> (rc_notif s)) s).
Proof.
  intros Hi Hn. unfold write_notif. rewrite (rc_bind_eq _ _ _ _ _ (read_notif_eq _ _ _ _ Hi Hn)).
  by rewrite Hi.
Qed.

(** [send_metamsg_rsp] for a changed notification: the registration is
    consumed, and the response goes out under the label of the
    registration when there was one. *)
Lemma send_metamsg_rsp_changed (h : Z) (l : nat) (op st : Z) (ev : avrc_evt)
  (param : reg_notif_param) (i : nat) (n : btif_rc_reg_notifications_t) (s : rc_state) :
  notif_index ev = Some i -> rc_notif s !! i = Some n ->
  send_metamsg_rsp h l AVRC_RSP_CHANGED (out_reg_notif op st ev param) s =
  Some (tt,
        let r := out_reg_notif op st ev param in
        add_rc_log
          (if rc_connected (rc_cb s) && bNotify n
              && (AVRC_BldResponse (rc_handle (rc_cb s)) r =? AVRC_STS_NO_ERROR)
           then [BTA_AvMetaRsp (rc_handle (rc_cb s)) (notif_label n)
                   (metamsg_ctype AVRC_RSP_CHANGED r) r]
           else [])
          (set_rc_notif (<[i := set_bNotify false n]> (rc_notif s)) s)).
Proof.
  intros Hi Hn. unfold send_metamsg_rsp. cbn [out_pdu].
  rewrite bool_decide_eq_true_2 by done. rewrite Z.eqb_refl. cbn [andb].
  unfold rc_bind at 1. unfold get_rc_cb, rc_bind at 1, get_state, rc_ret. cbn beta iota.
  rewrite (rc_bind_eq _ _ _ _ _ (read_notif_eq _ _ _ _ Hi Hn)).
  rewrite (rc_bind_eq _ _ _ _ _ (write_notif_eq _ _ _ _ _ Hi Hn)).
  rc_fields.
  destruct (rc_connected (rc_cb s)); [|by destruct s].
  destruct (bNotify n); [|by destruct s]. cbn [andb].
  destruct (_ =? _); [|by destruct s].
  erewrite rc_bind_eq
    by (apply read_notif_eq with (i := i); [done|rc_fields; apply list_lookup_insert_eq;
        by eapply lookup_lt_Some]).
  done.
Qed.

Lemma SEND_METAMSG_RSP_pending (index : nat) (r : tAVRC_RESPONSE_OUT)
  (c : btif_rc_cmd_ctxt_t) (s : rc_state) :
  rc_pdu_info s !! index = Some c -> is_rsp_pending c = true ->
  bool_decide (out_pdu r = AVRC_PDU_REGISTER_NOTIFICATION) = false ->
  SEND_METAMSG_RSP index r s =
  Some (true,
        set_rc_pdu_info (<[index := zero_ctxt]> (rc_pdu_info s))
          (add_rc_log
             (if AVRC_BldResponse (rc_handle (rc_cb s)) r =? AVRC_STS_NO_ERROR
              then [BTA_AvMetaRsp (rc_handle (rc_cb s)) (ctxt_label c)
                      (metamsg_ctype (ctxt_ctype c) r) r]
              else []) s)).
Proof.
  intros Hc Hp Hr. unfold SEND_METAMSG_RSP. unfold rc_bind at 1, get_state.
  rewrite Hc, Hp. cbn [negb].
  rewrite (rc_bind_eq _ _ _ _ _ (send_metamsg_rsp_generic _ _ _ _ _ ltac:(by rewrite Hr))).
  erewrite rc_bind_eq; cycle 1.
  { apply FILL_PDU_QUEUE_eq. rc_fields. by eapply lookup_lt_Some. }
  done.
Qed.

Lemma SEND_METAMSG_RSP_none (index : nat) (r : tAVRC_RESPONSE_OUT)
  (c : btif_rc_cmd_ctxt_t) (s : rc_state) :
  rc_pdu_info s !! index = Some c -> is_rsp_pending c = false ->
  SEND_METAMSG_RSP index r s = Some (false, s).
Proof.
  intros Hc Hp. unfold SEND_METAMSG_RSP. unfold rc_bind at 1, get_state.
  by rewrite Hc, Hp.
Qed.

Lemma upstreams_get_play_status (cmd : tAVRC_COMMAND_IN) (ctype : Z) (label : nat)
  (s : rc_state) :
  bt_rc_callbacks s = true -> (IDX_GET_PLAY_STATUS_RSP < length (rc_pdu_info s))%nat ->
  btif_rc_upstreams_evt AVRC_PDU_GET_PLAY_STATUS cmd ctype label s =
  Some (tt, add_rc_log [HAL get_play_status_cb]
              (set_rc_pdu_info
                 (<[IDX_GET_PLAY_STATUS_RSP :=
                      {| ctxt_label := label; ctxt_ctype := ctype; is_rsp_pending := true |}]>
                    (rc_pdu_info s)) s)).
Proof.
  intros Htg Hq.
  unfold btif_rc_upstreams_evt, rc_bind at 1, get_rc_cb, rc_bind at 1, get_state, rc_ret.
  cbn beta iota. rewrite (rc_bind_eq _ _ _ _ _ (FILL_PDU_QUEUE_eq _ _ _ _ _ Hq)).
  by rewrite HAL_CBACK_on_true.
Qed.

(** X12.  GET_PLAY_STATUS of the peer is answered at most once, and the
    answer goes to the request that came last.  When two requests arrive
    before the application answers, both reach the application through
    [get_play_status_cb]; the first [get_play_status_rsp] returns
    [BT_STATUS_SUCCESS] and sends one stable response, under the label of
    the second request, if the response can be built, and nothing if not;
    the next [get_play_status_rsp] returns [BT_STATUS_UNHANDLED] and
    changes nothing.  The first request is never answered. *)
Theorem X12_play_status_answered_once (c1 c2 : tAVRC_COMMAND_IN) (l1 l2 : nat)
  (play_status song_len song_pos : Z) (s : rc_state) :
  rc_connected (rc_cb s) = true -> bt_rc_callbacks s = true ->
  (IDX_GET_PLAY_STATUS_RSP < length (rc_pdu_info s))%nat ->
  let code := avrc_cmd_code AVRC_CMD_STATUS in
  let r := out_get_play_status AVRC_OP_VENDOR AVRC_STS_NO_ERROR song_len song_pos
             play_status in
  exists s1 s2 s3,
    btif_rc_upstreams_evt AVRC_PDU_GET_PLAY_STATUS c1 code l1 s = Some (tt, s1) /\
    btif_rc_upstreams_evt AVRC_PDU_GET_PLAY_STATUS c2 code l2 s1 = Some (tt, s2) /\
    rc_log s2 = [HAL get_play_status_cb; HAL get_play_status_cb] ++ rc_log s /\
    get_play_status_rsp play_status song_len song_pos s2 = Some (BT_STATUS_SUCCESS, s3) /\
    rc_log s3 =
      (if AVRC_BldResponse (rc_handle (rc_cb s)) r =? AVRC_STS_NO_ERROR
       then [BTA_AvMetaRsp (rc_handle (rc_cb s)) l2 (AVRC_RSP_IMPL_STBL _) r] else [])
      ++ rc_log s2 /\
    get_play_status_rsp play_status song_len song_pos s3 = Some (BT_STATUS_UNHANDLED, s3).
Proof.
  intros Hc Htg Hq code r.
  eexists _, _, _. split; [by apply upstreams_get_play_status|].
  split; [apply upstreams_get_play_status; rc_fields; [done|by rewrite length_insert]|].
  split; [done|].
  assert (Hrsp : forall s0 : rc_state, rc_connected (rc_cb s0) = true ->
            get_play_status_rsp play_status song_len song_pos s0 =
            match SEND_METAMSG_RSP IDX_GET_PLAY_STATUS_RSP r s0 with
            | Some (sent, s') =>
                Some (if sent then BT_STATUS_SUCCESS else BT_STATUS_UNHANDLED, s')
            | None => None
            end).
  { intros s0 Hc0. unfold get_play_status_rsp, rc_bind at 1, get_rc_cb, rc_bind at 1,
      get_state, rc_ret. cbn beta iota. rewrite Hc0. cbn [negb]. unfold rc_bind.
    by destruct (SEND_METAMSG_RSP _ _ _) as [[[] ?]|]. }
  split; [|split].
  - rewrite Hrsp by done.
    rewrite (SEND_METAMSG_RSP_pending _ _
               {| ctxt_label := l2; ctxt_ctype := code; is_rsp_pending := true |});
      [reflexivity| |done|done].
    rc_fields. rewrite list_insert_insert_eq. apply list_lookup_insert_eq. done.
  - rc_fields. cbn [ctxt_label ctxt_ctype]. by rewrite metamsg_ctype_status by done.
  - rewrite Hrsp by done.
    rewrite (SEND_METAMSG_RSP_none _ _ zero_ctxt); [reflexivity| |done].
    rc_fields. rewrite !list_insert_insert_eq. apply list_lookup_insert_eq. done.
Qed.

Lemma register_notification_rsp_not_registered (ev : avrc_evt)
  (type : btrc_notification_type_t) (p : btrc_register_notification_t) (i : nat)
  (n : btif_rc_reg_notifications_t) (s : rc_state) :
  rc_connected (rc_cb s) = true -> notif_index ev = Some i -> rc_notif s !! i = Some n ->
  bNotify n = false ->
  register_notification_rsp ev type p s = Some (BT_STATUS_NOT_READY, s).
Proof.
  intros Hc Hi Hn Hb.
  unfold register_notification_rsp, rc_bind at 1, get_rc_cb, rc_bind at 1, get_state, rc_ret.
  cbn beta iota. rewrite Hc. cbn [negb].
  rewrite (rc_bind_eq _ _ _ _ _ (read_notif_eq _ _ _ _ Hi Hn)). by rewrite Hb.
Qed.

Lemma notif_code_not_changed : (avrc_cmd_code AVRC_CMD_NOTIF =? AVRC_RSP_CHANGED) = false.
Proof.
  apply Z.eqb_neq. pose proof (avrc_cmd_code_lt AVRC_CMD_NOTIF).
  destruct avrc_rsp_order as (? & ? & ? & ?). lia.
Qed.

(** The response [register_notification_rsp] sends for a registered
    event, once its parameter is chosen. *)
Lemma register_notification_send (ev : avrc_evt) (type : btrc_notification_type_t)
  (param : reg_notif_param) (i : nat) (n : btif_rc_reg_notifications_t) (s : rc_state) :
  rc_connected (rc_cb s) = true -> notif_index ev = Some i -> rc_notif s !! i = Some n ->
  bNotify n = true ->
  let r := out_reg_notif (opcode_from_pdu AVRC_PDU_REGISTER_NOTIFICATION)
             AVRC_STS_NO_ERROR ev param in
  send_metamsg_rsp (rc_handle (rc_cb s)) (notif_label n)
    match type with
    | BTRC_NOTIFICATION_TYPE_INTERIM => avrc_cmd_code AVRC_CMD_NOTIF
    | BTRC_NOTIFICATION_TYPE_CHANGED => AVRC_RSP_CHANGED
    end r s =
  Some (tt,
        add_rc_log
          (if AVRC_BldResponse (rc_handle (rc_cb s)) r =? AVRC_STS_NO_ERROR
           then [BTA_AvMetaRsp (rc_handle (rc_cb s)) (notif_label n)
                   match type with
                   | BTRC_NOTIFICATION_TYPE_INTERIM => AVRC_RSP_INTERIM
                   | BTRC_NOTIFICATION_TYPE_CHANGED => AVRC_RSP_CHANGED
                   end r]
           else [])
          (set_rc_notif
             match type with
             | BTRC_NOTIFICATION_TYPE_INTERIM => rc_notif s
             | BTRC_NOTIFICATION_TYPE_CHANGED => <[i := set_bNotify false n]> (rc_notif s)
             end s)).
Proof.
  intros Hc Hi Hn Hb r. subst r. destruct type.
  - rewrite send_metamsg_rsp_generic
      by (rewrite notif_code_not_changed; apply andb_false_r).
    rewrite metamsg_ctype_notif by done. by destruct s.
  - rewrite (send_metamsg_rsp_changed _ _ _ _ _ _ i n) by done.
    cbv zeta. rewrite Hc, Hb. cbn [andb].
    rewrite metamsg_ctype_rsp; [done|done|].
    destruct avrc_rsp_order as (? & ? & ? & ?). lia.
Qed.

(** X13.  [register_notification_rsp] for PLAY_STATUS_CHANGE,
    TRACK_CHANGE or PLAY_POS_CHANGED on a connection.  Without a
    registration of the peer for the event it returns
    [BT_STATUS_NOT_READY] and does nothing.  With one it returns
    [BT_STATUS_SUCCESS] and sends, if the response can be built, one
    response under the label of the registration: an interim response
    keeps the registration, a changed response consumes it, so that every
    further response for the event is refused with
    [BT_STATUS_NOT_READY] until the peer registers again.  A play status
    of playing clears the remote-suspend flag of the stream first. *)
Theorem X13_notification_consumed (ev : avrc_evt) (type : btrc_notification_type_t)
  (p : btrc_register_notification_t) (i : nat) (n : btif_rc_reg_notifications_t)
  (s : rc_state) :
  rc_connected (rc_cb s) = true ->
  ev ∈ [AVRC_EVT_PLAY_STATUS_CHANGE; AVRC_EVT_TRACK_CHANGE; AVRC_EVT_PLAY_POS_CHANGED] ->
  notif_index ev = Some i -> rc_notif s !! i = Some n ->
  exists st s', register_notification_rsp ev type p s = Some (st, s') /\
    rc_cb s' = rc_cb s /\
    ((bNotify n = false /\ st = BT_STATUS_NOT_READY /\ s' = s) \/
     (bNotify n = true /\ st = BT_STATUS_SUCCESS /\
      exists param,
        let r := out_reg_notif AVRC_OP_VENDOR AVRC_STS_NO_ERROR ev param in
        rc_log s' =
          (if AVRC_BldResponse (rc_handle (rc_cb s)) r =? AVRC_STS_NO_ERROR
           then [BTA_AvMetaRsp (rc_handle (rc_cb s)) (notif_label n)
                   match type with
                   | BTRC_NOTIFICATION_TYPE_INTERIM => AVRC_RSP_INTERIM
                   | BTRC_NOTIFICATION_TYPE_CHANGED => AVRC_RSP_CHANGED
                   end r]
           else [])
          ++ (if bool_decide (ev = AVRC_EVT_PLAY_STATUS_CHANGE)
                 && (reg_play_status p =? PLAY_STATUS_PLAYING)
              then [btif_av_clear_remote_suspend_flag] else [])
          ++ rc_log s /\
        rc_notif s' =
          match type with
          | BTRC_NOTIFICATION_TYPE_INTERIM => rc_notif s
          | BTRC_NOTIFICATION_TYPE_CHANGED => <[i := set_bNotify false n]> (rc_notif s)
          end /\
        (type = BTRC_NOTIFICATION_TYPE_CHANGED ->
         forall type' p',
           register_notification_rsp ev type' p' s' = Some (BT_STATUS_NOT_READY, s')))).
Proof.
  intros Hc Hev Hi Hn.
  destruct (bNotify n) eqn:Hb; cycle 1.
  { exists BT_STATUS_NOT_READY, s.
    split; [by apply (register_notification_rsp_not_registered _ _ _ i n)|].
    split; [done|]. by left. }
  assert (Hstart : forall s0 : rc_state, rc_connected (rc_cb s0) = true ->
            rc_notif s0 !! i = Some n ->
            register_notification_rsp ev type p s0 =
            (let code :=
               match type with
               | BTRC_NOTIFICATION_TYPE_INTERIM => avrc_cmd_code AVRC_CMD_NOTIF
               | BTRC_NOTIFICATION_TYPE_CHANGED => AVRC_RSP_CHANGED
               end in
             let send := fun param =>
               rc_bind
                 (send_metamsg_rsp (rc_handle (rc_cb s0)) (notif_label n) code
                    (out_reg_notif (opcode_from_pdu AVRC_PDU_REGISTER_NOTIFICATION)
                       AVRC_STS_NO_ERROR ev param))
                 (fun _ => rc_ret BT_STATUS_SUCCESS) in
             match ev with
             | AVRC_EVT_PLAY_STATUS_CHANGE =>
                 rc_bind (rc_when (reg_play_status p =? PLAY_STATUS_PLAYING)
                            (log btif_av_clear_remote_suspend_flag))
                   (fun _ => send (notif_play_status (reg_play_status p)))
             | AVRC_EVT_TRACK_CHANGE => send (notif_track (reg_track p))
             | AVRC_EVT_PLAY_POS_CHANGED => send (notif_play_pos (reg_song_pos p))
             | _ => rc_ret BT_STATUS_UNHANDLED
             end) s0).
  { intros s0 Hc0 Hn0.
    unfold register_notification_rsp, rc_bind at 1, get_rc_cb, rc_bind at 1, get_state,
      rc_ret at 1.
    cbn beta iota. rewrite Hc0. cbn [negb].
    rewrite (rc_bind_eq _ _ _ _ _ (read_notif_eq _ _ _ _ Hi Hn0)). by rewrite Hb. }
  assert (Hafter : forall (s' : rc_state),
            rc_cb s' = rc_cb s -> rc_notif s' = <[i := set_bNotify false n]> (rc_notif s) ->
            forall type' p',
              register_notification_rsp ev type' p' s' = Some (BT_STATUS_NOT_READY, s')).
  { intros s' Hcb' Hn' type' p'.
    apply (register_notification_rsp_not_registered _ _ _ i (set_bNotify false n));
      [by rewrite Hcb'|done| |done].
    rewrite Hn'. apply list_lookup_insert_eq. by eapply lookup_lt_Some. }
  rewrite Hstart by done. cbv zeta.
  assert (Hsend : forall (pre : list rc_call) param,
            exists s', 
              rc_bind
                (send_metamsg_rsp (rc_handle (rc_cb s)) (notif_label n)
                   match type with
                   | BTRC_NOTIFICATION_TYPE_INTERIM => avrc_cmd_code AVRC_CMD_NOTIF
                   | BTRC_NOTIFICATION_TYPE_CHANGED => AVRC_RSP_CHANGED
                   end
                   (out_reg_notif (opcode_from_pdu AVRC_PDU_REGISTER_NOTIFICATION)
                      AVRC_STS_NO_ERROR ev param))
                (fun _ => rc_ret BT_STATUS_SUCCESS) (add_rc_log pre s)
              = Some (BT_STATUS_SUCCESS, s') /\
              rc_cb s' = rc_cb s /\
              (let r := out_reg_notif AVRC_OP_VENDOR AVRC_STS_NO_ERROR ev param in
               rc_log s' =
                 (if AVRC_BldResponse (rc_handle (rc_cb s)) r =? AVRC_STS_NO_ERROR
                  then [BTA_AvMetaRsp (rc_handle (rc_cb s)) (notif_label n)
                          match type with
                          | BTRC_NOTIFICATION_TYPE_INTERIM => AVRC_RSP_INTERIM
                          | BTRC_NOTIFICATION_TYPE_CHANGED => AVRC_RSP_CHANGED
                          end r]
                  else [])
                 ++ pre ++ rc_log s) /\
              rc_notif s' =
                match type with
                | BTRC_NOTIFICATION_TYPE_INTERIM => rc_notif s
                | BTRC_NOTIFICATION_TYPE_CHANGED => <[i := set_bNotify false n]> (rc_notif s)
                end).
  { intros pre param.
    pose proof (register_notification_send ev type param i n (add_rc_log pre s)
                  Hc Hi Hn Hb) as E.
    cbv zeta in E. rc_fields in E. rewrite (rc_bind_eq _ _ _ _ _ E).
    eexists. split; [reflexivity|]. rc_fields. split; [done|]. split; [done|].
    by destruct type. }
  rewrite !elem_of_cons, elem_of_nil in Hev. destruct Hev as [->|[->|[->|[]]]].
  - destruct (Hsend (if reg_play_status p =? PLAY_STATUS_PLAYING
                     then [btif_av_clear_remote_suspend_flag] else [])
                (notif_play_status (reg_play_status p))) as (s' & Hrun & Hcb & Hlog & Hnf).
    exists BT_STATUS_SUCCESS, s'. split.
    + rewrite <- Hrun. destruct (reg_play_status p =? PLAY_STATUS_PLAYING).
      * cbn [rc_when]. by rewrite (rc_bind_eq _ _ _ _ _ (log_eq _ _)).
      * cbn [rc_when]. unfold rc_bind at 1, rc_ret at 1. by destruct s.
    + split; [done|]. right. split; [done|]. split; [done|]. eexists. cbv zeta.
      split; [exact Hlog|]. split; [done|]. intros -> type' p'. by apply Hafter.
  - destruct (Hsend [] (notif_track (reg_track p))) as (s' & Hrun & Hcb & Hlog & Hnf).
    exists BT_STATUS_SUCCESS, s'. split; [rewrite <- Hrun; by destruct s|].
    split; [done|]. right. split; [done|]. split; [done|]. eexists. cbv zeta.
    split; [exact Hlog|]. split; [done|]. intros -> type' p'. by apply Hafter.
  - destruct (Hsend [] (notif_play_pos (reg_song_pos p))) as (s' & Hrun & Hcb & Hlog & Hnf).
    exists BT_STATUS_SUCCESS, s'. split; [rewrite <- Hrun; by destruct s|].
    split; [done|]. right. split; [done|]. split; [done|]. eexists. cbv zeta.
    split; [exact Hlog|]. split; [done|]. intros -> type' p'. by apply Hafter.
Qed.

Lemma send_reject_response_eq (h : Z) (l : nat) (pdu : avrc_pdu) (st : Z) (s : rc_state) :
  send_reject_response h l pdu st s =
  Some (tt, add_rc_log
              (if AVRC_BldResponse h (out_rsp pdu (opcode_from_pdu pdu) st) =? AVRC_STS_NO_ERROR
               then [BTA_AvMetaRsp h l AVRC_RSP_REJ (out_rsp pdu (opcode_from_pdu pdu) st)]
               else []) s).
Proof. unfold send_reject_response. destruct (_ =? _); [done|]. by destruct s. Qed.

(** X14.  A REGISTER_NOTIFICATION command of the peer, through
    [handle_rc_metamsg_cmd] on a connection with the target callbacks
    registered.  The label of the command is recorded for the event in
    every case.  For UIDS_CHANGE the module answers itself, with an
    interim and then a changed response that carry UID counter 0, and
    keeps no registration.  For PLAY_POS_CHANGED with interval 0 it
    answers with a reject of status [AVRC_STS_BAD_PARAM] and keeps no
    registration.  In both cases the application is not told.  Every
    other registration is kept and passed to the application through
    [register_notification_cb], and nothing is sent. *)
Theorem X14_registration_of_peer (m : tBTA_AV_META_MSG_IN) (i : nat)
  (n0 : btif_rc_reg_notifications_t) (s : rc_state) :
  let msg := meta m in
  let cmd := pars_command m in
  let ev := in_reg_event_id cmd in
  let l := msg_label msg in
  rc_connected (rc_cb s) = true -> bt_rc_callbacks s = true ->
  msg_opcode msg = AVRC_OP_VENDOR -> 3 <= msg_len msg ->
  msg_code msg = avrc_cmd_code AVRC_CMD_NOTIF ->
  pars_command_status m = AVRC_STS_NO_ERROR ->
  in_pdu cmd = AVRC_PDU_REGISTER_NOTIFICATION ->
  notif_index ev = Some i -> rc_notif s !! i = Some n0 ->
  exists s', handle_rc_metamsg_cmd m s = Some (tt, s') /\
    rc_cb s' = rc_cb s /\ rc_device s' = rc_device s /\
    if bool_decide (ev = AVRC_EVT_UIDS_CHANGE) then
      let r := out_reg_notif (in_opcode cmd) AVRC_STS_NO_ERROR ev (notif_uid_counter 0) in
      rc_notif s' = <[i := {| bNotify := false; notif_label := l |}]> (rc_notif s) /\
      rc_log s' =
        (if AVRC_BldResponse (rc_handle (rc_cb s)) r =? AVRC_STS_NO_ERROR
         then [BTA_AvMetaRsp (rc_handle (rc_cb s)) l AVRC_RSP_CHANGED r] else [])
        ++ (if AVRC_BldResponse (msg_rc_handle msg) r =? AVRC_STS_NO_ERROR
            then [BTA_AvMetaRsp (msg_rc_handle msg) l AVRC_RSP_INTERIM r] else [])
        ++ rc_log s
    else if bool_decide (ev = AVRC_EVT_PLAY_POS_CHANGED) && (in_reg_param cmd =? 0) then
      let r := out_rsp AVRC_PDU_REGISTER_NOTIFICATION AVRC_OP_VENDOR AVRC_STS_BAD_PARAM in
      rc_notif s' = <[i := {| bNotify := false; notif_label := l |}]> (rc_notif s) /\
      rc_log s' =
        (if AVRC_BldResponse (rc_handle (rc_cb s)) r =? AVRC_STS_NO_ERROR
         then [BTA_AvMetaRsp (rc_handle (rc_cb s)) l AVRC_RSP_REJ r] else [])
        ++ rc_log s
    else
      rc_notif s' = <[i := {| bNotify := true; notif_label := l |}]> (rc_notif s) /\
      rc_log s' = HAL (register_notification_cb ev (in_reg_param cmd)) :: rc_log s.
Proof.
  intros msg cmd ev l Hc Htg Ho Hlen Hcode Hst Hpdu Hi Hn.
  assert (Hil : (i < length (rc_notif s))%nat) by (by eapply lookup_lt_Some).
  destruct avrc_rsp_order as (O1 & O2 & O3 & O4).
  pose proof (avrc_cmd_code_lt AVRC_CMD_NOTIF) as Hlt.
  unfold handle_rc_metamsg_cmd. fold msg cmd.
  rewrite Ho, Z.eqb_refl. cbn [negb].
  assert ((msg_len msg <? 3) = false) as -> by (apply Z.ltb_ge; lia).
  assert ((AVRC_RSP_NOT_IMPL <=? msg_code msg) = false) as ->
    by (apply Z.leb_gt; rewrite Hcode; lia).
  rewrite Hst, Z.eqb_refl. cbn [negb]. rewrite Hpdu.
  rewrite bool_decide_eq_true_2 by done. fold ev l.
  set (n1 := {| bNotify := true; notif_label := l |}).
  set (s1 := set_rc_notif (<[i := n1]> (rc_notif s)) s).
  assert (Hn1 : rc_notif s1 !! i = Some n1) by (by apply list_lookup_insert_eq).
  assert (Hw : write_notif ev (fun _ => n1) s = Some (tt, s1))
    by (by apply (write_notif_eq _ i n0)).
  unfold rc_bind at 1. unfold rc_bind at 1. rewrite Hw.
  destruct (bool_decide (ev = AVRC_EVT_UIDS_CHANGE)) eqn:Huid.
  - unfold handle_uid_changed_notification. fold cmd ev.
    set (r := out_reg_notif (in_opcode cmd) AVRC_STS_NO_ERROR ev (notif_uid_counter 0)).
    assert (E1 : send_metamsg_rsp (msg_rc_handle msg) (msg_label msg) AVRC_RSP_INTERIM r s1
                 = Some (tt, add_rc_log
                               (if AVRC_BldResponse (msg_rc_handle msg) r =? AVRC_STS_NO_ERROR
                                then [BTA_AvMetaRsp (msg_rc_handle msg) l AVRC_RSP_INTERIM r]
                                else []) s1)).
    { rewrite send_metamsg_rsp_generic.
      - rewrite metamsg_ctype_rsp; [done|done|lia].
      - assert ((AVRC_RSP_INTERIM =? AVRC_RSP_CHANGED) = false) as ->
          by (apply Z.eqb_neq; lia).
        apply andb_false_r. }
    subst r. unfold rc_bind at 1. unfold rc_bind at 1. rewrite E1.
    erewrite (send_metamsg_rsp_changed _ _ _ _ _ _ i n1) by (rc_fields; done).
    cbv zeta. unfold s1. rc_fields. rewrite Hc. cbn [n1 bNotify notif_label andb].
    unfold rc_ret.
    cbn [rc_when]. eexists. split; [reflexivity|]. rc_fields.
    split; [done|]. split; [done|]. cbv zeta. split.
    + unfold s1. rc_fields. by rewrite list_insert_insert_eq.
    + rewrite metamsg_ctype_rsp; [|done|lia]. unfold s1. rc_fields. done.
  - unfold rc_ret at 1. cbn [rc_when].
    unfold btif_rc_upstreams_evt, rc_bind at 1, get_rc_cb, rc_bind at 1, get_state, rc_ret.
    cbn beta iota. fold cmd ev. rewrite Hpdu.
    destruct (bool_decide (ev = AVRC_EVT_PLAY_POS_CHANGED) && (in_reg_param cmd =? 0))
      eqn:Hpos.
    + apply andb_true_iff in Hpos as [Hev _]. apply bool_decide_eq_true in Hev.
      rewrite (rc_bind_eq _ _ _ _ _ (send_reject_response_eq _ _ _ _ _)).
      rewrite <- Hev.
      erewrite (write_notif_eq _ i n1) by (rc_fields; done).
      eexists. split; [reflexivity|]. rc_fields. split; [done|]. split; [done|].
      cbv zeta. split; [|done].
      unfold s1. rc_fields. by rewrite list_insert_insert_eq.
    + rewrite HAL_CBACK_on_true by done.
      eexists. split; [reflexivity|]. by rc_fields.
Qed.

End Target.

Section TargetWitness.
#[local] Existing Instance reference_defs.
#[local] Existing Instance reference_target_defs.

Lemma X12_play_status_answered_once_witness :
  let c := command_in AVRC_PDU_GET_PLAY_STATUS in
  exists s1 s2 s3,
    btif_rc_upstreams_evt AVRC_PDU_GET_PLAY_STATUS c 1 4 tg_state = Some (tt, s1) /\
    btif_rc_upstreams_evt AVRC_PDU_GET_PLAY_STATUS c 1 9 s1 = Some (tt, s2) /\
    get_play_status_rsp 1 200 10 s2 = Some (BT_STATUS_SUCCESS, s3) /\
    rc_log s3 = BTA_AvMetaRsp 1 9 12 (out_get_play_status 0 4 200 10 1) :: rc_log s2 /\
    get_play_status_rsp 1 200 10 s3 = Some (BT_STATUS_UNHANDLED, s3).
Proof.
  intros c.
  assert (Hc : rc_connected (rc_cb tg_state) = true) by (vm_compute; reflexivity).
  assert (Htg : bt_rc_callbacks tg_state = true) by (vm_compute; reflexivity).
  assert (Hq : (IDX_GET_PLAY_STATUS_RSP < length (rc_pdu_info tg_state))%nat)
    by (vm_compute; lia).
  assert (Eh : rc_handle (rc_cb tg_state) = 1) by (vm_compute; reflexivity).
  destruct (X12_play_status_answered_once c c 4 9 1 200 10 tg_state Hc Htg Hq)
    as (s1 & s2 & s3 & H1 & H2 & _ & H3 & Hlog & H4).
  exists s1, s2, s3. split; [exact H1|]. split; [exact H2|]. split; [exact H3|].
  split; [|exact H4]. rewrite Eh in Hlog. exact Hlog.
Defined.

Lemma X13_notification_consumed_witness :
  let s := state_after
             (handle_rc_metamsg_cmd (command_msg 3 3 (reg_notif_in AVRC_EVT_TRACK_CHANGE 0)))
             tg_state in
  let p := {| reg_play_status := 0; reg_track := [0; 0; 0; 0; 0; 0; 0; 7];
              reg_song_pos := 0 |} in
  exists s',
    register_notification_rsp AVRC_EVT_TRACK_CHANGE BTRC_NOTIFICATION_TYPE_CHANGED p s
      = Some (BT_STATUS_SUCCESS, s') /\
    register_notification_rsp AVRC_EVT_TRACK_CHANGE BTRC_NOTIFICATION_TYPE_CHANGED p s'
      = Some (BT_STATUS_NOT_READY, s').
Proof.
  intros s p.
  assert (Hc : rc_connected (rc_cb s) = true) by (vm_compute; reflexivity).
  assert (Hev : AVRC_EVT_TRACK_CHANGE ∈
                [AVRC_EVT_PLAY_STATUS_CHANGE; AVRC_EVT_TRACK_CHANGE;
                 AVRC_EVT_PLAY_POS_CHANGED])
    by (apply elem_of_cons; right; apply elem_of_cons; left; reflexivity).
  assert (Hi : notif_index AVRC_EVT_TRACK_CHANGE = Some 1%nat) by (vm_compute; reflexivity).
  assert (Hn : rc_notif s !! 1%nat = Some {| bNotify := true; notif_label := 3 |})
    by (vm_compute; reflexivity).
  destruct (X13_notification_consumed AVRC_EVT_TRACK_CHANGE BTRC_NOTIFICATION_TYPE_CHANGED
              p 1 {| bNotify := true; notif_label := 3 |} s Hc Hev Hi Hn)
    as (st & s' & Hrun & _ & [(Hb & _)|(_ & -> & param & _ & _ & Hafter)]).
  - discriminate Hb.
  - exists s'. split; [exact Hrun|]. exact (Hafter eq_refl _ _).
Defined.

Lemma X14_registration_of_peer_witness :
  let m := command_msg 3 3 (reg_notif_in AVRC_EVT_PLAY_POS_CHANGED 0) in
  exists s',
    handle_rc_metamsg_cmd m tg_state = Some (tt, s') /\
    rc_notif s' !! 4%nat = Some {| bNotify := false; notif_label := 3 |} /\
    rc_log s' = BTA_AvMetaRsp 1 3 10 (out_rsp AVRC_PDU_REGISTER_NOTIFICATION 0 1)
                  :: rc_log tg_state.
Proof.
  intros m.
  assert (Hc : rc_connected (rc_cb tg_state) = true) by (vm_compute; reflexivity).
  assert (Htg : bt_rc_callbacks tg_state = true) by (vm_compute; reflexivity).
  assert (Hlen : 3 <= msg_len (meta m)) by (vm_compute; discriminate).
  assert (Hi : notif_index (in_reg_event_id (pars_command m)) = Some 4%nat)
    by (vm_compute; reflexivity).
  assert (Hn : rc_notif tg_state !! 4%nat = Some zero_notif) by (vm_compute; reflexivity).
  assert (Eh : rc_handle (rc_cb tg_state) = 1) by (vm_compute; reflexivity).
  assert (Ho : msg_opcode (meta m) = AVRC_OP_VENDOR) by reflexivity.
  assert (Hcode : msg_code (meta m) = avrc_cmd_code AVRC_CMD_NOTIF) by reflexivity.
  assert (Hst : pars_command_status m = AVRC_STS_NO_ERROR) by reflexivity.
  assert (Hpdu : in_pdu (pars_command m) = AVRC_PDU_REGISTER_NOTIFICATION) by reflexivity.
  destruct (X14_registration_of_peer m 4 zero_notif tg_state Hc Htg Ho Hlen Hcode Hst Hpdu
              Hi Hn) as (s' & Hrun & _ & _ & Hcase).
  destruct Hcase as [Hnf Hlog].
  exists s'. split; [exact Hrun|]. split.
  - rewrite Hnf. apply list_lookup_insert_eq. vm_compute. lia.
  - rewrite Eh in Hlog. exact Hlog.
Defined.

End TargetWitness.

(** * Pass-through and group-navigation commands of the controller and
      their responses *)

Section PassThrough.
Context `{TargetDefs}.

Lemma modify_rc_device_eq (f : rc_device_t -> rc_device_t) (s : rc_state) :
  modify_rc_device f s = Some (tt, set_rc_device (f (rc_device s)) s).
Proof. done. Qed.

Lemma modify_rc_cb_eq (f : btif_rc_cb_t -> btif_rc_cb_t) (s : rc_state) :
  modify_rc_cb f s = Some (tt, set_rc_cb (f (rc_cb s)) s).
Proof. done. Qed.

Lemma send_passthrough_cmd_sent (key_code key_state : Z) (s : rc_state) (l : nat)
  (t : rc_transaction_t) :
  rc_connected (rc_cb s) = true ->
  has_feat (rc_features (rc_cb s)) BTA_AV_FEAT_RCTG = true ->
  first_unused 0 MAX_TRANSACTIONS_PER_SESSION (rc_device s) = Some l ->
  rc_device s !! l = Some t ->
  send_passthrough_cmd key_code key_state s =
  Some (BT_STATUS_SUCCESS,
        add_rc_log [BTA_AvRemoteCmd (rc_handle (rc_cb s)) (lbl t) key_code key_state]
          (set_rc_device (<[l := set_in_use true t]> (rc_device s)) s)).
Proof.
  intros Hc Hf Hfu Hd.
  unfold send_passthrough_cmd. unfold rc_bind at 1. unfold get_rc_cb, rc_bind at 1, get_state,
    rc_ret at 1.
  cbn beta iota. rewrite Hc, Hf. cbn [negb].
  rewrite (rc_bind_eq _ _ _ _ _ (lift_get_transaction_some s l t Hfu Hd)).
  rewrite Z.eqb_refl.
  erewrite rc_bind_eq
    by (apply lift_transaction_lbl; rc_fields; apply list_lookup_insert_eq;
        by eapply lookup_lt_Some).
  cbn [set_in_use lbl]. by rewrite (rc_bind_eq _ _ _ _ _ (log_eq _ _)).
Qed.

Lemma send_passthrough_cmd_full (key_code key_state : Z) (s : rc_state) :
  rc_connected (rc_cb s) = true ->
  has_feat (rc_features (rc_cb s)) BTA_AV_FEAT_RCTG = true ->
  first_unused 0 MAX_TRANSACTIONS_PER_SESSION (rc_device s) = None ->
  send_passthrough_cmd key_code key_state s = Some (BT_STATUS_FAIL, s).
Proof.
  intros Hc Hf Hfu.
  unfold send_passthrough_cmd. unfold rc_bind at 1. unfold get_rc_cb, rc_bind at 1, get_state,
    rc_ret at 1.
  cbn beta iota. rewrite Hc, Hf. cbn [negb].
  by rewrite (rc_bind_eq _ _ _ _ _ (lift_get_transaction_none s Hfu)).
Qed.

Lemma send_passthrough_cmd_no_feature (key_code key_state : Z) (s : rc_state) :
  rc_connected (rc_cb s) = true ->
  has_feat (rc_features (rc_cb s)) BTA_AV_FEAT_RCTG = false ->
  send_passthrough_cmd key_code key_state s = Some (BT_STATUS_FAIL, s).
Proof.
  intros Hc Hf.
  unfold send_passthrough_cmd. unfold rc_bind at 1. unfold get_rc_cb, rc_bind at 1, get_state,
    rc_ret at 1.
  cbn beta iota. by rewrite Hc, Hf.
Qed.

(** X15.  A pass-through command of the controller and its response.
    On a connection [send_passthrough_cmd] returns [BT_STATUS_FAIL] and
    changes nothing when the peer is no target or every label is in use;
    otherwise it returns [BT_STATUS_SUCCESS] and sends the key under the
    lowest free label, which it marks in use without setting an alarm.
    The response with that label, through [btif_rc_handler], frees the
    label, so that the label table is exactly what it was before the
    command, and is reported through [passthrough_rsp_cb] when the
    controller callbacks are registered. *)
Theorem X15_passthrough_round_trip (key_code key_state : Z) (s : rc_state) :
  timers_wf (rc_device s) -> rc_connected (rc_cb s) = true ->
  exists st s1, send_passthrough_cmd key_code key_state s = Some (st, s1) /\
    ((st = BT_STATUS_FAIL /\ s1 = s /\
      (has_feat (rc_features (rc_cb s)) BTA_AV_FEAT_RCTG = false \/
       exhausted (rc_device s))) \/
     (st = BT_STATUS_SUCCESS /\
      exists l t, lowest_free l (rc_device s) /\ rc_device s !! l = Some t /\
        rc_log s1 = BTA_AvRemoteCmd (rc_handle (rc_cb s)) l key_code key_state :: rc_log s /\
        rc_device s1 = <[l := set_in_use true t]> (rc_device s) /\
        forall rsp, rsp_label rsp = l -> rsp_rc_id rsp <> AVRC_ID_VENDOR ->
          exists s2, btif_rc_handler (BTA_AV_REMOTE_RSP_EVT rsp) s1 = Some (tt, s2) /\
            rc_device s2 = rc_device s /\ rc_cb s2 = rc_cb s /\
            rc_log s2 =
              (if bt_rc_ctrl_callbacks s
               then [HAL (passthrough_rsp_cb (rsp_rc_id rsp)
                            (if rsp_key_state rsp =? AVRC_STATE_RELEASE then 1 else 0))]
               else []) ++ rc_log s1)).
Proof.
  intros Hwf Hc.
  destruct (has_feat (rc_features (rc_cb s)) BTA_AV_FEAT_RCTG) eqn:Hf; cycle 1.
  { exists BT_STATUS_FAIL, s. split; [by apply send_passthrough_cmd_no_feature|].
    left. split; [done|]. split; [done|]. by left. }
  destruct (first_unused 0 MAX_TRANSACTIONS_PER_SESSION (rc_device s)) as [l|] eqn:Hfu;
    cycle 1.
  { exists BT_STATUS_FAIL, s. split; [by apply send_passthrough_cmd_full|].
    left. split; [done|]. split; [done|]. right.
    apply first_unused_exhausted; [by apply timers_wf_pool_wf|done]. }
  destruct (first_unused_some _ _ _ _ Hfu) as (Hr & (t & Hd & Ht) & Hbelow).
  pose proof Hwf as [[Hlen Hlbl] Hok].
  eexists _, _. split; [by apply (send_passthrough_cmd_sent _ _ s l t)|].
  right. split; [done|]. exists l, t.
  split; [by apply first_unused_lowest_free|]. split; [done|].
  rc_fields. rewrite (Hlbl l t Hd). split; [done|]. split; [done|].
  intros rsp Hl Hid.
  unfold btif_rc_handler. rewrite bool_decide_eq_false_2 by done.
  unfold handle_rc_passthrough_rsp. unfold rc_bind at 1.
  unfold get_rc_cb, rc_bind at 1, get_state, rc_ret at 1. cbn beta iota. rc_fields.
  rewrite Hf. rewrite (rc_bind_eq _ _ _ _ _ (modify_rc_device_eq _ _)).
  unfold rc_bind at 1, get_state. rc_fields. rewrite Hl.
  rewrite (release_after_acquire (rc_device s) l t Hwf Hd Ht).
  destruct (bt_rc_ctrl_callbacks s) eqn:Hct.
  - cbn [rc_when]. rewrite HAL_CBACK_on_true by done.
    eexists. split; [reflexivity|]. by rc_fields.
  - cbn [rc_when]. eexists. split; [reflexivity|]. by rc_fields.
Qed.

Lemma lowest_free_found (d : rc_device_t) (l : nat) :
  pool_wf d -> lowest_free l d ->
  first_unused 0 MAX_TRANSACTIONS_PER_SESSION d = Some l.
Proof.
  intros Hwf Hlow.
  destruct (first_unused 0 MAX_TRANSACTIONS_PER_SESSION d) as [l'|] eqn:Hfu.
  - f_equal. symmetry. by eapply lowest_free_first_unused.
  - exfalso. destruct Hlow as (Hl & Hfree & _). apply Hfree.
    by apply (first_unused_exhausted d Hwf Hfu).
Qed.

(** X16.  A group-navigation command of the controller and its
    response, with [AVRC_PASS_THRU_GROUP_LEN] the five bytes of the
    header.  On a connection to a target with a free label,
    [send_groupnavigation_cmd] returns [BT_STATUS_SUCCESS] and sends,
    under the lowest free label, the three bytes of the company id
    [AVRC_CO_METADATA] (most significant first), a zero byte and the key
    code.  The vendor-unique response with that label frees the label, so
    that the label table is what it was before, and is reported through
    [groupnavigation_rsp_cb] with the fifth byte of its data as the
    vendor id, or with 0 when it has fewer than five bytes; a response
    that echoes the data of the command reports the key code sent. *)
Theorem X16_group_navigation_round_trip (key_code key_state : Z) (l : nat) (s : rc_state) :
  timers_wf (rc_device s) -> rc_connected (rc_cb s) = true ->
  has_feat (rc_features (rc_cb s)) BTA_AV_FEAT_RCTG = true ->
  AVRC_PASS_THRU_GROUP_LEN = 5%nat ->
  lowest_free l (rc_device s) ->
  exists s1, send_groupnavigation_cmd key_code key_state s = Some (BT_STATUS_SUCCESS, s1) /\
    rc_log s1 = BTA_AvRemoteVendorUniqueCmd (rc_handle (rc_cb s)) l key_state
                  [(AVRC_CO_METADATA / 65536) mod 256; (AVRC_CO_METADATA / 256) mod 256;
                   AVRC_CO_METADATA mod 256; 0; key_code] 5
                :: rc_log s /\
    label_in_use l (rc_device s1) /\
    forall rsp, rsp_label rsp = l -> rsp_rc_id rsp = AVRC_ID_VENDOR ->
      rsp_len rsp = length (rsp_p_data rsp) ->
      exists s2, btif_rc_handler (BTA_AV_REMOTE_RSP_EVT rsp) s1 = Some (tt, s2) /\
        rc_device s2 = rc_device s /\ rc_cb s2 = rc_cb s /\
        rc_log s2 =
          (if bt_rc_ctrl_callbacks s
           then [HAL (groupnavigation_rsp_cb (default 0 (rsp_p_data rsp !! 4%nat))
                        (if rsp_key_state rsp =? AVRC_STATE_RELEASE then 1 else 0))]
           else []) ++ rc_log s1.
Proof.
  intros Hwf Hc Hf Hlen5 Hlow.
  pose proof (lowest_free_found _ _ (timers_wf_pool_wf _ Hwf) Hlow) as Hfu.
  destruct (first_unused_some _ _ _ _ Hfu) as (Hr & (t & Hd & Ht) & Hbelow).
  pose proof Hwf as [[Hlen Hlbl] Hok].
  assert (Hll : (l < length (rc_device s))%nat) by (by eapply lookup_lt_Some).
  eexists. split; [|split; [|split]].
  - unfold send_groupnavigation_cmd. unfold rc_bind at 1.
    unfold get_rc_cb, rc_bind at 1, get_state, rc_ret at 1.
    cbn beta iota. rewrite Hc, Hf. cbn [negb].
    rewrite (rc_bind_eq _ _ _ _ _ (lift_get_transaction_some s l t Hfu Hd)).
    rewrite Z.eqb_refl, Hlen5. cbn [Nat.ltb Nat.leb Nat.sub replicate].
    erewrite rc_bind_eq
      by (apply lift_transaction_lbl; rc_fields; by apply list_lookup_insert_eq).
    cbn [set_in_use lbl]. rewrite (rc_bind_eq _ _ _ _ _ (log_eq _ _)). reflexivity.
  - rc_fields. by rewrite (Hlbl l t Hd).
  - rc_fields. exists (set_in_use true t). split; [by apply list_lookup_insert_eq|done].
  - intros rsp Hl Hid Hrl.
    unfold btif_rc_handler. rewrite bool_decide_eq_true_2 by done.
    unfold handle_rc_vendorunique_rsp. unfold rc_bind at 1.
    unfold get_rc_cb, rc_bind at 1, get_state, rc_ret at 1. cbn beta iota. rc_fields.
    rewrite Hf, Hlen5. cbn [Nat.sub].
    assert (Hvid : exists s',
              (if (0 <? rsp_len rsp)%nat && (5 <=? rsp_len rsp)%nat
               then match rsp_p_data rsp !! 4%nat with
                    | Some b => rc_ret b
                    | None => rc_undefined
                    end
               else rc_ret 0)
                (add_rc_log
                   [BTA_AvRemoteVendorUniqueCmd (rc_handle (rc_cb s)) (lbl t) key_state
                      (group_navigation_buffer key_code ++ []) 5]
                   (set_rc_device (<[l := set_in_use true t]> (rc_device s)) s))
              = Some (default 0 (rsp_p_data rsp !! 4%nat), s') /\
              s' = add_rc_log
                     [BTA_AvRemoteVendorUniqueCmd (rc_handle (rc_cb s)) (lbl t) key_state
                        (group_navigation_buffer key_code ++ []) 5]
                     (set_rc_device (<[l := set_in_use true t]> (rc_device s)) s)).
    { eexists. split; [|reflexivity].
      destruct (rsp_p_data rsp !! 4%nat) as [b|] eqn:Hb.
      - apply lookup_lt_Some in Hb as Hb'.
        assert ((0 <? rsp_len rsp)%nat = true) as -> by (apply Nat.ltb_lt; lia).
        assert ((5 <=? rsp_len rsp)%nat = true) as -> by (apply Nat.leb_le; lia).
        done.
      - apply lookup_ge_None in Hb.
        assert ((5 <=? rsp_len rsp)%nat = false) as -> by (apply Nat.leb_gt; lia).
        by rewrite andb_false_r. }
    destruct Hvid as (s' & Hrun & ->).
    rewrite (rc_bind_eq _ _ _ _ _ Hrun).
    rewrite (rc_bind_eq _ _ _ _ _ (modify_rc_device_eq _ _)). rc_fields. rewrite Hl.
    rewrite (release_after_acquire (rc_device s) l t Hwf Hd Ht).
    destruct (bt_rc_ctrl_callbacks s) eqn:Hct.
    + rewrite HAL_CBACK_on_true by done. eexists. split; [reflexivity|]. by rc_fields.
    + rewrite HAL_CBACK_on_false by done. eexists. split; [reflexivity|]. by rc_fields.
Qed.

End PassThrough.

Section PassThroughWitness.
#[local] Existing Instance reference_defs.
#[local] Existing Instance reference_target_defs.

Lemma X15_passthrough_round_trip_witness :
  let rsp := {| rsp_rc_id := AVRC_ID_PLAY; rsp_key_state := 0; rsp_len := 0;
                rsp_p_data := []; rsp_label := 0 |} in
  exists s1 s2,
    send_passthrough_cmd 68 0 ct_state = Some (BT_STATUS_SUCCESS, s1) /\
    rc_log s1 = BTA_AvRemoteCmd 1 0 68 0 :: rc_log ct_state /\
    btif_rc_handler (BTA_AV_REMOTE_RSP_EVT rsp) s1 = Some (tt, s2) /\
    rc_device s2 = rc_device ct_state /\
    rc_log s2 = HAL (passthrough_rsp_cb AVRC_ID_PLAY 0) :: rc_log s1.
Proof.
  intros rsp.
  assert (Hwf : timers_wf (rc_device ct_state))
    by (apply timers_wf_b_spec; vm_compute; reflexivity).
  assert (Hc : rc_connected (rc_cb ct_state) = true) by (vm_compute; reflexivity).
  assert (Hfu : first_unused 0 MAX_TRANSACTIONS_PER_SESSION (rc_device ct_state)
                = Some 0%nat) by (vm_compute; reflexivity).
  assert (Eh : rc_handle (rc_cb ct_state) = 1) by (vm_compute; reflexivity).
  assert (Ect : bt_rc_ctrl_callbacks ct_state = true) by (vm_compute; reflexivity).
  assert (Hfull : ~ exhausted (rc_device ct_state)).
  { intros Hex. destruct (Hex 0%nat) as (t & Ht & Hu).
    - unfold MAX_TRANSACTIONS_PER_SESSION. lia.
    - assert (E : rc_device ct_state !! 0%nat = Some (set_in_use false t))
        by (rewrite Ht; vm_compute in Ht; injection Ht as <-; vm_compute; reflexivity).
      rewrite Ht in E. injection E as E. rewrite E in Hu. discriminate Hu. }
  assert (Hfeat : has_feat (rc_features (rc_cb ct_state)) BTA_AV_FEAT_RCTG = true)
    by (vm_compute; reflexivity).
  destruct (X15_passthrough_round_trip 68 0 ct_state Hwf Hc)
    as (st & s1 & Hrun & [(_ & _ & [Hf|Hex])|(-> & l & t & Hlow & Hd & Hlog & _ & Hrsp)]).
  - rewrite Hfeat in Hf. discriminate Hf.
  - destruct (Hfull Hex).
  - assert (l = 0%nat) as -> by (by eapply lowest_free_first_unused).
    assert (Hid : rsp_rc_id rsp <> AVRC_ID_VENDOR) by discriminate.
    destruct (Hrsp rsp eq_refl Hid) as (s2 & Hh & Hdev & _ & Hlog2).
    exists s1, s2. split; [exact Hrun|]. rewrite Eh in Hlog. split; [exact Hlog|].
    split; [exact Hh|]. split; [exact Hdev|]. rewrite Ect in Hlog2. exact Hlog2.
Defined.

Lemma X16_group_navigation_round_trip_witness :
  let rsp := {| rsp_rc_id := AVRC_ID_VENDOR; rsp_key_state := 1; rsp_len := 5;
                rsp_p_data := [0; 25; 88; 0; 1]; rsp_label := 0 |} in
  exists s1 s2,
    send_groupnavigation_cmd 1 1 ct_state = Some (BT_STATUS_SUCCESS, s1) /\
    rc_log s1 = BTA_AvRemoteVendorUniqueCmd 1 0 1 [0; 25; 88; 0; 1] 5 :: rc_log ct_state /\
    btif_rc_handler (BTA_AV_REMOTE_RSP_EVT rsp) s1 = Some (tt, s2) /\
    rc_device s2 = rc_device ct_state /\
    rc_log s2 = HAL (groupnavigation_rsp_cb 1 1) :: rc_log s1.
Proof.
  intros rsp.
  assert (Hwf : timers_wf (rc_device ct_state))
    by (apply timers_wf_b_spec; vm_compute; reflexivity).
  assert (Hc : rc_connected (rc_cb ct_state) = true) by (vm_compute; reflexivity).
  assert (Hfeat : has_feat (rc_features (rc_cb ct_state)) BTA_AV_FEAT_RCTG = true)
    by (vm_compute; reflexivity).
  assert (Hlen5 : AVRC_PASS_THRU_GROUP_LEN = 5%nat) by reflexivity.
  assert (Eh : rc_handle (rc_cb ct_state) = 1) by (vm_compute; reflexivity).
  assert (Ect : bt_rc_ctrl_callbacks ct_state = true) by (vm_compute; reflexivity).
  assert (Hlow : lowest_free 0 (rc_device ct_state)).
  { split; [unfold MAX_TRANSACTIONS_PER_SESSION; lia|]. split; [|intros j Hj; lia].
    intros (t & Ht & Hu). vm_compute in Ht. injection Ht as <-. discriminate Hu. }
  destruct (X16_group_navigation_round_trip 1 1 0 ct_state Hwf Hc Hfeat Hlen5 Hlow)
    as (s1 & Hrun & Hlog & _ & Hrsp).
  assert (Hid : rsp_rc_id rsp = AVRC_ID_VENDOR) by reflexivity.
  assert (Hrl : rsp_len rsp = length (rsp_p_data rsp)) by reflexivity.
  destruct (Hrsp rsp eq_refl Hid Hrl) as (s2 & Hh & Hdev & _ & Hlog2).
  exists s1, s2. split; [exact Hrun|]. rewrite Eh in Hlog. split; [exact Hlog|].
  split; [exact Hh|]. split; [exact Hdev|]. rewrite Ect in Hlog2. exact Hlog2.
Defined.

End PassThroughWitness.

(** * The end of a connection *)

Lemma initialize_transaction_reset (d : rc_device_t) (l : nat) (t : rc_transaction_t) :
  timers_wf d -> d !! l = Some t ->
  exists t', initialize_transaction l d !! l = Some t' /\
    in_use t' = false /\ alarm_is_scheduled (txn_timer t') = false /\
    lbl t' = l /\ handle t' = 0.
Proof.
  intros [[Hlen Hlbl] Hok] Hd.
  assert (Hl : (l < MAX_TRANSACTIONS_PER_SESSION)%nat)
    by (rewrite <- Hlen; by eapply lookup_lt_Some).
  destruct (in_use t) eqn:Hu.
  - rewrite (initialize_transaction_lookup l d t Hl Hd Hu). eexists. split; [done|].
    cbn. repeat split. by destruct (txn_timer t) as [[|]|].
  - assert (Hs : alarm_is_scheduled (txn_timer t) = false).
    { destruct (txn_timer t) as [[|cb ms]|] eqn:E; try done.
      destruct (Hok l t Hd) as [_ Hset]. destruct (Hset cb ms E) as (Hin & _). congruence. }
    unfold initialize_transaction. apply Nat.ltb_lt in Hl as Hl'. rewrite Hl', Hd, Hs, Hd.
    rewrite list_lookup_insert_eq by (by eapply lookup_lt_Some).
    eexists. split; [done|]. cbn. done.
Qed.

Lemma initialize_transaction_timers_wf (d : rc_device_t) (l : nat) :
  timers_wf d -> timers_wf (initialize_transaction l d).
Proof.
  intros Hwf. pose proof Hwf as [[Hlen Hlbl] Hok].
  destruct (d !! l) as [t|] eqn:Hd; cycle 1.
  { unfold initialize_transaction. destruct (l <? _)%nat; [|done]. by rewrite Hd. }
  destruct (initialize_transaction_reset d l t Hwf Hd) as (t' & Ht' & Hu & Hs & Hlb & Hh).
  split; [split|].
  - by rewrite initialize_transaction_length.
  - intros j tj Hj. destruct (decide (j = l)) as [->|Hne].
    + rewrite Ht' in Hj. by injection Hj as <-.
    + rewrite initialize_transaction_other in Hj by done. by apply Hlbl.
  - intros j tj Hj. destruct (decide (j = l)) as [->|Hne].
    + rewrite Ht' in Hj. injection Hj as <-. split; [done|].
      intros cb ms E. rewrite E in Hs. discriminate Hs.
    + rewrite initialize_transaction_other in Hj by done. by apply Hok.
Qed.

(** The loop of [init_all_transactions]: the slots it has passed are
    free and their alarms are not set. *)
Lemma init_transactions_from_reset (count i : nat) (d : rc_device_t) :
  timers_wf d -> (i + count <= MAX_TRANSACTIONS_PER_SESSION)%nat ->
  (forall j t, (j < i)%nat -> d !! j = Some t ->
     in_use t = false /\ alarm_is_scheduled (txn_timer t) = false) ->
  timers_wf (init_transactions_from i count d) /\
  forall j t, (j < i + count)%nat -> init_transactions_from i count d !! j = Some t ->
    in_use t = false /\ alarm_is_scheduled (txn_timer t) = false.
Proof.
  revert i d. induction count as [|count IH]; intros i d Hwf Hle Hbelow.
  { cbn [init_transactions_from]. split; [done|]. intros j t Hj. apply Hbelow. lia. }
  cbn [init_transactions_from].
  pose proof Hwf as [[Hlen _] _].
  destruct (lookup_lt_is_Some_2 d i) as [ti Hi]; [lia|].
  destruct (initialize_transaction_reset d i ti Hwf Hi) as (t' & Ht' & Hu & Hs & _).
  destruct (IH (S i) (initialize_transaction i d)) as [Hwf' Hres].
  - by apply initialize_transaction_timers_wf.
  - lia.
  - intros j t Hj Hd. destruct (decide (j = i)) as [->|Hne].
    + rewrite Ht' in Hd. by injection Hd as <-.
    + rewrite initialize_transaction_other in Hd by done. apply (Hbelow j); [lia|done].
  - split; [done|]. intros j t Hj. apply Hres. lia.
Qed.

Lemma init_all_transactions_reset (d : rc_device_t) :
  timers_wf d ->
  timers_wf (init_all_transactions d) /\ all_free (init_all_transactions d) /\
  no_alarm_set (init_all_transactions d).
Proof.
  intros Hwf. unfold init_all_transactions.
  destruct (init_transactions_from_reset MAX_TRANSACTIONS_PER_SESSION 0 d Hwf)
    as [Hwf' Hres]; [lia|intros; lia|].
  split; [done|]. pose proof Hwf' as [[Hlen _] _]. split.
  - intros l (t & Ht & Hu). apply lookup_lt_Some in Ht as Hl.
    destruct (Hres l t) as [Hu' _]; [lia|done|congruence].
  - intros i t Ht. apply lookup_lt_Some in Ht as Hl.
    destruct (Hres i t) as [_ Hs]; [lia|done|done].
Qed.

Section Disconnect.
Context `{TargetDefs}.

Lemma lift_rc_stop_play_status_timer (s : rc_state) :
  lift rc_stop_play_status_timer s =
  Some (tt, set_rc_cb (set_rc_play_status_timer
                         (alarm_cancel (rc_play_status_timer (rc_cb s))) (rc_cb s)) s).
Proof. by destruct s. Qed.

Lemma close_uinput_eq (s : rc_state) :
  close_uinput s =
  Some (tt, add_rc_log (if 0 <? uinput_fd s then [uinput_destroy (uinput_fd s)] else [])
              (set_uinput_fd (if 0 <? uinput_fd s then -1 else uinput_fd s) s)).
Proof.
  unfold close_uinput, rc_bind at 1, get_state. destruct (0 <? uinput_fd s); [done|].
  by destruct s.
Qed.

(** X17.  [handle_rc_disconnect] ignores a close event whose handle and
    whose address both differ from those of the connection.  Every other
    close event, when labels and alarms agree, ends the connection
    cleanly: the control block is back to not connected with handle,
    address and features zero, the volume and the volume label at their
    initial values, the supported-event list gone and the procedure flags
    cleared; the play-status alarm and every alarm of the label table are
    stopped, every label is free, no registration of the peer is left, and
    the uinput device is closed when the target callbacks are registered.
    The application is told through [connection_state_cb] with the address
    of the peer that was connected.  The pending-response table for
    GET_PLAY_STATUS and GET_ELEMENT_ATTR and the queued PLAY are not
    touched. *)
Theorem X17_disconnect_resets (p_rc_close : tBTA_AV_RC_CLOSE) (s : rc_state) :
  timers_wf (rc_device s) ->
  exists s', handle_rc_disconnect p_rc_close s = Some (tt, s') /\
    if negb (close_rc_handle p_rc_close =? rc_handle (rc_cb s))
       && negb (rc_addr (rc_cb s) =? close_peer_addr p_rc_close)
    then s' = s
    else
      rc_connected (rc_cb s') = false /\ rc_handle (rc_cb s') = 0 /\
      rc_addr (rc_cb s') = 0 /\ rc_features (rc_cb s') = 0 /\
      rc_volume (rc_cb s') = MAX_VOLUME /\ rc_vol_label (rc_cb s') = MAX_LABEL /\
      rc_supported_event_list (rc_cb s') = None /\
      rc_features_processed (rc_cb s') = false /\
      rc_procedure_complete (rc_cb s') = false /\
      alarm_is_scheduled (rc_play_status_timer (rc_cb s')) = false /\
      timers_wf (rc_device s') /\ all_free (rc_device s') /\ no_alarm_set (rc_device s') /\
      (forall n, n ∈ rc_notif s' -> bNotify n = false) /\
      uinput_fd s' = (if bt_rc_callbacks s && (0 <? uinput_fd s) then -1 else uinput_fd s) /\
      rc_pdu_info s' = rc_pdu_info s /\ rc_pending_play s' = rc_pending_play s /\
      rc_log s' =
        (if bt_rc_ctrl_callbacks s
         then [HAL (connection_state_cb false (rc_addr (rc_cb s)))] else [])
        ++ (if bt_rc_callbacks s && (0 <? uinput_fd s)
            then [uinput_destroy (uinput_fd s)] else [])
        ++ rc_log s.
Proof.
  intros Hwf.
  unfold handle_rc_disconnect. unfold rc_bind at 1, get_state.
  destruct (negb (close_rc_handle p_rc_close =? rc_handle (rc_cb s))
            && negb (rc_addr (rc_cb s) =? close_peer_addr p_rc_close)).
  { by exists s. }
  rewrite (rc_bind_eq _ _ _ _ _ (modify_rc_cb_eq _ _)).
  rewrite (rc_bind_eq _ _ _ _ _ (lift_rc_stop_play_status_timer _)).
  rewrite (rc_bind_eq _ _ _ _ _ (modify_rc_cb_eq _ _)).
  rewrite (rc_bind_eq _ _ _ _ _ (modify_rc_cb_eq _ _)).
  unfold rc_bind at 1, modify_state at 1.
  rewrite (rc_bind_eq _ _ _ _ _ (modify_rc_cb_eq _ _)).
  rewrite (rc_bind_eq _ _ _ _ _ (modify_rc_device_eq _ _)).
  unfold rc_bind at 1, get_state. rc_fields.
  destruct (init_all_transactions_reset (rc_device s) Hwf) as (Hwf' & Hfree & Hidle).
  assert (Hnotif : forall n : btif_rc_reg_notifications_t,
            n ∈ replicate MAX_RC_NOTIFICATIONS zero_notif -> bNotify n = false).
  { intros n Hn. apply elem_of_replicate in Hn as [-> _]. done. }
  assert (Htimer : forall a, alarm_is_scheduled (alarm_cancel a) = false)
    by (by intros [[|]|]).
  destruct (bt_rc_callbacks s) eqn:Htg.
  - rewrite (rc_bind_eq _ _ _ _ _ (close_uinput_eq _)). rc_fields.
    destruct (bt_rc_ctrl_callbacks s) eqn:Hct.
    + cbn [rc_when]. rewrite HAL_CBACK_on_true by (rc_fields; done).
      eexists. split; [reflexivity|]. rc_fields. cb_fields. cbn [andb].
      repeat (split; [done|]). done.
    + cbn [rc_when]. eexists. split; [reflexivity|]. rc_fields. cb_fields. cbn [andb].
      repeat (split; [done|]). done.
  - unfold rc_bind at 1, rc_ret at 1.
    destruct (bt_rc_ctrl_callbacks s) eqn:Hct.
    + cbn [rc_when]. rewrite HAL_CBACK_on_true by (rc_fields; done).
      eexists. split; [reflexivity|]. rc_fields. cb_fields. cbn [andb].
      repeat (split; [done|]). done.
    + cbn [rc_when]. eexists. split; [reflexivity|]. rc_fields. cb_fields. cbn [andb].
      repeat (split; [done|]). done.
Qed.

End Disconnect.

Section DisconnectWitness.
#[local] Existing Instance reference_defs.
#[local] Existing Instance reference_target_defs.

Lemma X17_disconnect_resets_witness :
  label_in_use 0 (rc_device ct_state_waiting) /\
  exists s', handle_rc_disconnect rc_close_peer ct_state_waiting = Some (tt, s') /\
    rc_connected (rc_cb s') = false /\ all_free (rc_device s') /\
    no_alarm_set (rc_device s') /\
    rc_log s' = HAL (connection_state_cb false 1) :: rc_log ct_state_waiting.
Proof.
  split.
  { eexists. split; vm_compute; reflexivity. }
  assert (G : forall s : rc_state,
            timers_wf_b (rc_device s) = true ->
            negb (close_rc_handle rc_close_peer =? rc_handle (rc_cb s))
              && negb (rc_addr (rc_cb s) =? close_peer_addr rc_close_peer) = false ->
            bt_rc_ctrl_callbacks s = true -> bt_rc_callbacks s = false ->
            rc_addr (rc_cb s) = 1 ->
            exists s', handle_rc_disconnect rc_close_peer s = Some (tt, s') /\
              rc_connected (rc_cb s') = false /\ all_free (rc_device s') /\
              no_alarm_set (rc_device s') /\
              rc_log s' = HAL (connection_state_cb false 1) :: rc_log s).
  { intros s Hwf Econd Ect Etg Ea.
    destruct (X17_disconnect_resets rc_close_peer s (timers_wf_b_spec _ Hwf))
      as (s' & Hrun & Hcase).
    rewrite Econd in Hcase.
    destruct Hcase as (Hc & _ & _ & _ & _ & _ & _ & _ & _ & _ & _ & Hfree & Hidle & _ & _ &
                       _ & _ & Hlog).
    exists s'. split; [exact Hrun|]. split; [exact Hc|]. split; [exact Hfree|].
    split; [exact Hidle|]. rewrite Ect, Etg, Ea in Hlog. exact Hlog. }
  apply (G ct_state_waiting); vm_compute; reflexivity.
Defined.

End DisconnectWitness.

(** * Pass-through commands of the peer: key events and the queued PLAY *)

Section Keys.
Context `{TargetDefs}.

Lemma send_key_eq (fd : Z) (key : uinput_key) (pressed : Z) (s : rc_state) :
  send_key fd key pressed s = Some (tt, add_rc_log (key_event fd key pressed) s).
Proof.
  unfold send_key, key_event. destruct (fd <? 0); [by destruct s|].
  unfold rc_bind, send_event, log, modify_state. by destruct s.
Qed.

(** PLAY with the stream connection up: the press is written with its
    release right behind it, the release of the peer is dropped. *)
Lemma passthrough_play (p : tBTA_AV_REMOTE_CMD) (s : rc_state) :
  cmd_rc_id p = AVRC_ID_PLAY -> btif_av_is_connected (env s) = true ->
  handle_rc_passthrough_cmd p s =
  Some (tt, add_rc_log
              (if cmd_key_state p =? AVRC_STATE_RELEASE then []
               else key_event (uinput_fd s) KEY_PLAYCD 0 ++ [sleep_ms 30]
                    ++ key_event (uinput_fd s) KEY_PLAYCD 1) s).
Proof.
  intros Hid Hav. unfold handle_rc_passthrough_cmd, rc_bind at 1, get_state.
  rewrite Hid, Hav. unfold key_map. cbn [key_map_find avrcp].
  rewrite !bool_decide_eq_true_2 by done. rewrite !bool_decide_eq_false_2 by done.
  cbn [andb orb negb mapped_id release_quirk]. rewrite Z.eqb_refl. cbn [andb].
  destruct (cmd_key_state p =? AVRC_STATE_RELEASE).
  - change (0 =? 0) with true. cbn iota. unfold rc_ret. by destruct s.
  - change (1 =? 0) with false. change (1 =? 1) with true. cbn iota. cbn [rc_when].
    rewrite (rc_bind_eq _ _ _ _ _ (send_key_eq _ _ _ _)).
    rewrite (rc_bind_eq _ _ _ _ _ (log_eq _ _)). rewrite send_key_eq.
    rc_fields. by rewrite !add_rc_log_app, <- !app_assoc.
Qed.

Lemma passthrough_play_queued (p : tBTA_AV_REMOTE_CMD) (s : rc_state) :
  cmd_rc_id p = AVRC_ID_PLAY -> btif_av_is_connected (env s) = false ->
  handle_rc_passthrough_cmd p s =
  Some (tt, set_rc_pending_play
              (if cmd_key_state p =? AVRC_STATE_PRESS then true else rc_pending_play s) s).
Proof.
  intros Hid Hav. unfold handle_rc_passthrough_cmd, rc_bind at 1, get_state.
  rewrite Hid, Hav. rewrite bool_decide_eq_true_2 by done. cbn [andb negb].
  destruct (cmd_key_state p =? AVRC_STATE_PRESS); [done|]. by destruct s.
Qed.

(** X18.  The queued PLAY.  A PLAY of the peer that arrives while the
    stream connection is down is never written to the uinput device: its
    press is remembered in [rc_pending_play], its release is dropped.
    [btif_rc_check_handle_pending_play] always leaves nothing queued.
    Asked to forward a queued PLAY with the stream connection up, it
    waits 200 ms, writes the press and, 30 ms later, the release of
    KEY_PLAYCD, and waits 100 ms: the key is delivered once.  Asked to
    forward it while the connection is still down, it only waits, and
    the PLAY is lost; asked not to forward, or with nothing queued, it
    writes and waits for nothing. *)
Theorem X18_queued_play (p : tBTA_AV_REMOTE_CMD) (bSendToApp : bool) (s : rc_state) :
  AVRC_STATE_PRESS <> AVRC_STATE_RELEASE ->
  (cmd_rc_id p = AVRC_ID_PLAY -> btif_av_is_connected (env s) = false ->
   exists s1, handle_rc_passthrough_cmd p s = Some (tt, s1) /\
     rc_log s1 = rc_log s /\
     rc_pending_play s1 =
       (if cmd_key_state p =? AVRC_STATE_PRESS then true else rc_pending_play s)) /\
  exists s', btif_rc_check_handle_pending_play bSendToApp s = Some (tt, s') /\
    rc_pending_play s' = false /\ rc_cb s' = rc_cb s /\ rc_device s' = rc_device s /\
    uinput_fd s' = uinput_fd s /\
    rc_log s' =
      (if rc_pending_play s && bSendToApp then
         [sleep_ms 100]
         ++ (if btif_av_is_connected (env s)
             then key_event (uinput_fd s) KEY_PLAYCD 0 ++ [sleep_ms 30]
                  ++ key_event (uinput_fd s) KEY_PLAYCD 1
             else [])
         ++ [sleep_ms 200]
       else []) ++ rc_log s.
Proof.
  intros Hne. split.
  { intros Hid Hav. eexists. split; [by apply passthrough_play_queued|]. by rc_fields. }
  unfold btif_rc_check_handle_pending_play, rc_bind at 1, get_state.
  destruct (rc_pending_play s) eqn:Hp; cycle 1.
  { exists s. by rewrite Hp. }
  destruct bSendToApp; cycle 1.
  { cbn [rc_when andb]. unfold rc_bind, rc_ret, modify_state. eexists. split; [reflexivity|].
    by rc_fields. }
  cbn [rc_when andb].
  set (cmd := fun key_state =>
         {| cmd_rc_handle := rc_handle (rc_cb s); cmd_rc_id := AVRC_ID_PLAY;
            cmd_key_state := key_state |}).
  assert (Hrel : (AVRC_STATE_PRESS =? AVRC_STATE_RELEASE) = false) by (by apply Z.eqb_neq).
  destruct (btif_av_is_connected (env s)) eqn:Hav.
  - unfold rc_bind at 1. unfold rc_bind at 1. rewrite log_eq.
    unfold rc_bind at 1.
    rewrite (passthrough_play (cmd AVRC_STATE_PRESS)) by (rc_fields; done).
    cbn [cmd cmd_key_state]. rewrite Hrel.
    unfold rc_bind at 1. rewrite log_eq.
    rewrite (passthrough_play (cmd AVRC_STATE_RELEASE)) by (rc_fields; done).
    cbn [cmd cmd_key_state]. rewrite Z.eqb_refl.
    unfold modify_state. eexists. split; [reflexivity|]. rc_fields.
    repeat (split; [done|]). cbn [app]. by rewrite <- !app_assoc.
  - unfold rc_bind at 1. unfold rc_bind at 1. rewrite log_eq.
    unfold rc_bind at 1.
    rewrite (passthrough_play_queued (cmd AVRC_STATE_PRESS)) by (rc_fields; done).
    unfold rc_bind at 1. rewrite log_eq.
    rewrite (passthrough_play_queued (cmd AVRC_STATE_RELEASE)) by (rc_fields; done).
    unfold modify_state. eexists. split; [reflexivity|]. rc_fields.
    repeat (split; [done|]). done.
Qed.

Lemma key_writes_app (a b : list rc_call) : key_writes (a ++ b) = key_writes a ++ key_writes b.
Proof. apply List.filter_app. Qed.

Lemma key_writes_key_event (fd : Z) (key : uinput_key) (pressed : Z) :
  0 <= fd -> key_writes (key_event fd key pressed) = [uinput_write fd (EV_KEY key) pressed].
Proof.
  intros Hfd. unfold key_event. by assert ((fd <? 0) = false) as -> by (apply Z.ltb_ge; lia).
Qed.

(** A key of [key_map] that is neither forwarded to the application nor
    held back: what is written for it. *)
Lemma passthrough_mapped (p : tBTA_AV_REMOTE_CMD) (e : key_map_entry) (s : rc_state) :
  key_map_find (cmd_rc_id p) key_map = Some e ->
  cmd_rc_id p <> AVRC_ID_FAST_FOR -> cmd_rc_id p <> AVRC_ID_REWIND ->
  key_passes (cmd_rc_id p) s ->
  handle_rc_passthrough_cmd p s =
  Some (tt, add_rc_log
              (if release_quirk e =? 1 then
                 if cmd_key_state p =? AVRC_STATE_RELEASE then []
                 else key_event (uinput_fd s) (mapped_id e) 0 ++ [sleep_ms 30]
                      ++ key_event (uinput_fd s) (mapped_id e) 1
               else key_event (uinput_fd s) (mapped_id e)
                      (if cmd_key_state p =? AVRC_STATE_RELEASE then 0 else 1)) s).
Proof.
  intros Hfind Hff Hrw (Hplay & Hpause & Hstop).
  unfold handle_rc_passthrough_cmd, rc_bind at 1, get_state. rewrite Hfind.
  destruct (cmd_rc_id p) eqn:Hid; try done; try (by vm_compute in Hfind);
    vm_compute in Hfind; injection Hfind as <-;
    rewrite ?Hplay, ?Hpause, ?Hstop by done; eval_decisions;
    cbn [andb orb negb mapped_id release_quirk];
    destruct (cmd_key_state p =? AVRC_STATE_RELEASE);
    cbn [Z.eqb Pos.eqb andb rc_when];
    rewrite ?(rc_bind_eq _ _ _ _ _ (send_key_eq _ _ _ _));
    rewrite ?(rc_bind_eq _ _ _ _ _ (log_eq _ _)); rewrite ?send_key_eq;
    unfold rc_ret; rewrite ?add_rc_log_app, <- ?app_assoc; try done; by destruct s.
Qed.

(** X19.  Key events are written in pairs.  For a key of [key_map]
    other than FAST_FOR and REWIND that is not held back, with the uinput
    device open, the press of the peer followed by its release leaves
    exactly one press and one release of the mapped key on the device, in
    that order.  For PLAY and PAUSE both are written when the press
    arrives and the release of the peer writes nothing, so the pair is
    complete even when the release never comes; for the other keys the
    press writes the press and the release writes the release. *)
Theorem X19_key_events_paired (id : avrc_op_id) (h : Z) (e : key_map_entry) (s : rc_state) :
  let press := {| cmd_rc_handle := h; cmd_rc_id := id; cmd_key_state := AVRC_STATE_PRESS |} in
  let release :=
    {| cmd_rc_handle := h; cmd_rc_id := id; cmd_key_state := AVRC_STATE_RELEASE |} in
  let w := fun pressed => uinput_write (uinput_fd s) (EV_KEY (mapped_id e)) pressed in
  AVRC_STATE_PRESS <> AVRC_STATE_RELEASE -> 0 <= uinput_fd s ->
  key_map_find id key_map = Some e -> id <> AVRC_ID_FAST_FOR -> id <> AVRC_ID_REWIND ->
  key_passes id s ->
  exists s1 s2,
    handle_rc_passthrough_cmd press s = Some (tt, s1) /\
    handle_rc_passthrough_cmd release s1 = Some (tt, s2) /\
    key_writes (rc_log s1)
      = (if bool_decide (id = AVRC_ID_PLAY) || bool_decide (id = AVRC_ID_PAUSE)
         then [w 0; w 1] else [w 1]) ++ key_writes (rc_log s) /\
    key_writes (rc_log s2) = [w 0; w 1] ++ key_writes (rc_log s).
Proof.
  intros press release w Hne Hfd Hfind Hff Hrw Hpass.
  assert (Hrel : (AVRC_STATE_PRESS =? AVRC_STATE_RELEASE) = false) by (by apply Z.eqb_neq).
  assert (Hquirk : (release_quirk e =? 1)
                   = bool_decide (id = AVRC_ID_PLAY) || bool_decide (id = AVRC_ID_PAUSE)).
  { destruct id; try (by vm_compute in Hfind); vm_compute in Hfind;
      by injection Hfind as <-. }
  eexists _, _. split; [by apply (passthrough_mapped press e)|].
  split; [apply (passthrough_mapped release e); try done; by destruct Hpass|].
  cbn [press release cmd_key_state]. rewrite Hrel, Z.eqb_refl. rc_fields.
  rewrite <- Hquirk. destruct (release_quirk e =? 1).
  - rewrite !key_writes_app, !key_writes_key_event by done. done.
  - rewrite !key_writes_app, !key_writes_key_event by done. done.
Qed.

End Keys.

Section KeysWitness.
#[local] Existing Instance reference_defs.
#[local] Existing Instance reference_target_defs.

Lemma X18_queued_play_witness :
  exists s',
    btif_rc_check_handle_pending_play true tg_state_queued = Some (tt, s') /\
    rc_pending_play s' = false /\
    rc_log s' = [sleep_ms 100; uinput_write 3 EV_SYN_REPORT 0;
                 uinput_write 3 (EV_KEY KEY_PLAYCD) 0; sleep_ms 30;
                 uinput_write 3 EV_SYN_REPORT 0; uinput_write 3 (EV_KEY KEY_PLAYCD) 1;
                 sleep_ms 200] ++ rc_log tg_state_queued.
Proof.
  assert (G : forall s : rc_state,
            rc_pending_play s = true -> btif_av_is_connected (env s) = true ->
            uinput_fd s = 3 ->
            exists s', btif_rc_check_handle_pending_play true s = Some (tt, s') /\
              rc_pending_play s' = false /\
              rc_log s' = [sleep_ms 100; uinput_write 3 EV_SYN_REPORT 0;
                           uinput_write 3 (EV_KEY KEY_PLAYCD) 0; sleep_ms 30;
                           uinput_write 3 EV_SYN_REPORT 0;
                           uinput_write 3 (EV_KEY KEY_PLAYCD) 1; sleep_ms 200] ++ rc_log s).
  { intros s Hp Hav Hfd.
    assert (Hne : AVRC_STATE_PRESS <> AVRC_STATE_RELEASE) by discriminate.
    destruct (X18_queued_play
                {| cmd_rc_handle := 0; cmd_rc_id := AVRC_ID_PLAY; cmd_key_state := 0 |}
                true s Hne) as (_ & s' & Hrun & Hpend & _ & _ & _ & Hlog).
    exists s'. split; [exact Hrun|]. split; [exact Hpend|].
    rewrite Hp, Hav, Hfd in Hlog. exact Hlog. }
  apply (G tg_state_queued); vm_compute; reflexivity.
Defined.

Lemma X19_key_events_paired_witness :
  exists s1 s2,
    handle_rc_passthrough_cmd
      {| cmd_rc_handle := 1; cmd_rc_id := AVRC_ID_PAUSE; cmd_key_state := 0 |} tg_state
      = Some (tt, s1) /\
    handle_rc_passthrough_cmd
      {| cmd_rc_handle := 1; cmd_rc_id := AVRC_ID_PAUSE; cmd_key_state := 1 |} s1
      = Some (tt, s2) /\
    key_writes (rc_log s1) = [uinput_write 3 (EV_KEY KEY_PAUSECD) 0;
                              uinput_write 3 (EV_KEY KEY_PAUSECD) 1] /\
    key_writes (rc_log s2) = key_writes (rc_log s1).
Proof.
  assert (G : forall s : rc_state,
            uinput_fd s = 3 -> rc_pending_play s = false -> key_writes (rc_log s) = [] ->
            exists s1 s2,
              handle_rc_passthrough_cmd
                {| cmd_rc_handle := 1; cmd_rc_id := AVRC_ID_PAUSE; cmd_key_state := 0 |} s
                = Some (tt, s1) /\
              handle_rc_passthrough_cmd
                {| cmd_rc_handle := 1; cmd_rc_id := AVRC_ID_PAUSE; cmd_key_state := 1 |} s1
                = Some (tt, s2) /\
              key_writes (rc_log s1) = [uinput_write 3 (EV_KEY KEY_PAUSECD) 0;
                                        uinput_write 3 (EV_KEY KEY_PAUSECD) 1] /\
              key_writes (rc_log s2) = key_writes (rc_log s1)).
  { intros s Hfd Hp Hk.
    assert (Hne : AVRC_STATE_PRESS <> AVRC_STATE_RELEASE) by discriminate.
    assert (Hfd0 : 0 <= uinput_fd s) by (rewrite Hfd; discriminate).
    assert (Hfind : key_map_find AVRC_ID_PAUSE key_map
                    = Some {| avrcp := AVRC_ID_PAUSE; mapped_id := KEY_PAUSECD;
                              release_quirk := 1 |}) by reflexivity.
    assert (Hpass : key_passes AVRC_ID_PAUSE s)
      by (split; [discriminate|split; [intros _; exact Hp|discriminate]]).
    assert (Hff : AVRC_ID_PAUSE <> AVRC_ID_FAST_FOR) by discriminate.
    assert (Hrw : AVRC_ID_PAUSE <> AVRC_ID_REWIND) by discriminate.
    destruct (X19_key_events_paired AVRC_ID_PAUSE 1 _ s Hne Hfd0 Hfind Hff Hrw Hpass)
      as (s1 & s2 & H1 & H2 & Hk1 & Hk2).
    exists s1, s2. split; [exact H1|]. split; [exact H2|].
    rewrite Hk, Hfd in Hk1, Hk2. split; [exact Hk1|].
    rewrite Hk1. exact Hk2. }
  apply (G tg_state); vm_compute; reflexivity.
Defined.

End KeysWitness.

(** * The features of the peer and the registration for the volume
      event *)

Section Features.
Context `{TargetDefs}.

Lemma has_feat_ldiff (f bit : Z) : has_feat (Z.ldiff f bit) bit = false.
Proof. unfold has_feat. by rewrite Z.land_ldiff. Qed.

Lemma lift_register_volumechange (l : nat) (t : rc_transaction_t) (s : rc_state) :
  (l < MAX_TRANSACTIONS_PER_SESSION)%nat -> rc_device s !! l = Some t ->
  in_use t = true -> lbl t = l ->
  lift (register_volumechange l) s =
  Some (tt, add_rc_log
              (if AVRC_BldCommand (cmd_reg_notif AVRC_EVT_VOLUME_CHANGE 0) =? AVRC_STS_NO_ERROR
               then [ctrl_call (BTA_AvMetaCmd (rc_handle (rc_cb s)) l AVRC_CMD_NOTIF
                                  (cmd_reg_notif AVRC_EVT_VOLUME_CHANGE 0))]
               else []) s).
Proof.
  intros Hl Hd Hu Hlb. unfold lift, register_volumechange, bind, get_cb, get_device.
  unfold ctrl_world at 1 2. cbn [btif_rc_cb device].
  destruct (_ =? _).
  - unfold get_transaction_by_lbl. apply Nat.ltb_lt in Hl.
    cbn [ctrl_world device]. rewrite Hl, Hd, Hu.
    unfold transaction_lbl, bind, get_device, array_get. cbn [device]. rewrite Hd.
    cbn. rewrite Hlb. by destruct s.
  - cbn. by destruct s.
Qed.

Lemma get_transaction_by_lbl_used (l : nat) (d : rc_device_t) :
  pool_wf d -> (exists p, get_transaction_by_lbl l d = Some p) <-> label_in_use l d.
Proof.
  intros [Hlen _]. unfold get_transaction_by_lbl, label_in_use. split.
  - intros [p Hp]. destruct (l <? _)%nat; [|done]. destruct (d !! l) as [t|]; [|done].
    destruct (in_use t) eqn:Hu; [|done]. by exists t.
  - intros (t & Hd & Hu). apply lookup_lt_Some in Hd as Hl. rewrite Hlen in Hl.
    apply Nat.ltb_lt in Hl. rewrite Hl, Hd, Hu. by exists l.
Qed.

Lemma volume_registration_outstanding_dec (s : rc_state) :
  pool_wf (rc_device s) ->
  volume_registration_outstanding s \/ ~ volume_registration_outstanding s.
Proof.
  intros Hwf. unfold volume_registration_outstanding.
  destruct (decide (rc_vol_label (rc_cb s) = MAX_LABEL)) as [E|E]; [right; tauto|].
  destruct (get_transaction_by_lbl (rc_vol_label (rc_cb s)) (rc_device s)) as [p|] eqn:Hg.
  - left. split; [done|]. apply (get_transaction_by_lbl_used _ _ Hwf). by exists p.
  - right. intros [_ Hu]. apply (get_transaction_by_lbl_used _ _ Hwf) in Hu as [p Hp].
    congruence.
Qed.

(** X20.  [handle_rc_features] with the target callbacks registered
    tells the application the features of the peer and registers for the
    volume event at most once.  When absolute volume is switched off for
    the peer (interoperability entry, system property, or a stream
    connection to another address) it clears ADV_CTRL in the recorded
    features and registers nothing.  When a registration is outstanding
    it registers nothing.  Otherwise, for a peer with ADV_CTRL and RCTG
    and a free label, it takes the lowest free label, records it as the
    volume label and sends REGISTER_NOTIFICATION for VOLUME_CHANGE under
    it if the command can be built; the label is taken even when nothing
    could be sent, so that the registration counts as outstanding from
    then on. *)
Theorem X20_volume_registration (bd_addr : Z) (s : rc_state) :
  bt_rc_callbacks s = true -> pool_wf (rc_device s) ->
  exists s' features reg,
    handle_rc_features bd_addr s = Some (tt, s') /\
    rc_log s' = reg ++ [HAL (remote_features_cb (rc_addr (rc_cb s)) features)] ++ rc_log s /\
    rc_features (rc_cb s') =
      (if absvol_disabled s then Z.ldiff (rc_features (rc_cb s)) BTA_AV_FEAT_ADV_CTRL
       else rc_features (rc_cb s)) /\
    (absvol_disabled s = true ->
     has_feat (rc_features (rc_cb s')) BTA_AV_FEAT_ADV_CTRL = false /\ reg = [] /\
     rc_device s' = rc_device s /\ rc_vol_label (rc_cb s') = rc_vol_label (rc_cb s)) /\
    (volume_registration_outstanding s ->
     reg = [] /\ rc_device s' = rc_device s /\
     rc_vol_label (rc_cb s') = rc_vol_label (rc_cb s)) /\
    (absvol_disabled s = false ->
     has_feat (rc_features (rc_cb s)) BTA_AV_FEAT_ADV_CTRL
       && has_feat (rc_features (rc_cb s)) BTA_AV_FEAT_RCTG = true ->
     ~ volume_registration_outstanding s ->
     forall l, lowest_free l (rc_device s) ->
       rc_vol_label (rc_cb s') = l /\ volume_registration_outstanding s' /\
       (forall j, j <> l -> rc_device s' !! j = rc_device s !! j) /\
       reg = if AVRC_BldCommand (cmd_reg_notif AVRC_EVT_VOLUME_CHANGE 0)
                =? AVRC_STS_NO_ERROR
             then [ctrl_call (BTA_AvMetaCmd (rc_handle (rc_cb s)) l AVRC_CMD_NOTIF
                                (cmd_reg_notif AVRC_EVT_VOLUME_CHANGE 0))]
             else []).
Proof.
  intros Htg Hwf. pose proof Hwf as [Hlen Hlbl].
  unfold handle_rc_features. unfold rc_bind at 1, get_state. rewrite Htg.
  fold (absvol_disabled s).
  set (cb1 := if absvol_disabled s
              then set_rc_features (Z.ldiff (rc_features (rc_cb s)) BTA_AV_FEAT_ADV_CTRL)
                     (rc_cb s)
              else rc_cb s).
  assert (Hstep1 :
    rc_when (absvol_disabled s)
      (modify_rc_cb (fun cb =>
         set_rc_features (Z.ldiff (rc_features cb) BTA_AV_FEAT_ADV_CTRL) cb)) s
    = Some (tt, set_rc_cb cb1 s)).
  { unfold cb1. destruct (absvol_disabled s); [done|]. by destruct s. }
  rewrite (rc_bind_eq _ _ _ _ _ Hstep1).
  unfold rc_bind at 1. unfold get_rc_cb, rc_bind at 1, get_state, rc_ret at 1.
  cbn beta iota. rc_fields.
  rewrite (rc_bind_eq _ _ _ _ _
             (HAL_CBACK_on_true bt_rc_callbacks _ (set_rc_cb cb1 s) Htg)).
  set (features := if has_feat (rc_features cb1) BTA_AV_FEAT_METADATA then _ else _).
  set (s1 := add_rc_log [HAL (remote_features_cb (rc_addr (rc_cb s)) features)]
               (set_rc_cb cb1 s)).
  assert (Hf1 : rc_features cb1 =
                if absvol_disabled s
                then Z.ldiff (rc_features (rc_cb s)) BTA_AV_FEAT_ADV_CTRL
                else rc_features (rc_cb s)) by (unfold cb1; by destruct (absvol_disabled s)).
  assert (Hv1 : rc_vol_label cb1 = rc_vol_label (rc_cb s))
    by (unfold cb1; by destruct (absvol_disabled s)).
  assert (Hh1 : rc_handle cb1 = rc_handle (rc_cb s))
    by (unfold cb1; by destruct (absvol_disabled s)).
  assert (Hdis : absvol_disabled s = true ->
                 has_feat (rc_features cb1) BTA_AV_FEAT_ADV_CTRL = false).
  { intros E. rewrite Hf1, E. apply has_feat_ldiff. }
  assert (Hcb1 : rc_cb s1 = cb1) by done.
  assert (Hdev1 : rc_device s1 = rc_device s) by done.
  assert (Hlog1 : rc_log s1 =
                  [] ++ [HAL (remote_features_cb (rc_addr (rc_cb s)) features)] ++ rc_log s)
    by done.
  destruct (has_feat (rc_features cb1) BTA_AV_FEAT_ADV_CTRL
            && has_feat (rc_features cb1) BTA_AV_FEAT_RCTG) eqn:Hadv; cycle 1.
  { exists s1, features, []. rewrite Hcb1, Hdev1, Hv1.
    split; [done|]. split; [done|]. split; [done|].
    split; [intros E; by rewrite (Hdis E)|]. split; [done|].
    intros Hen Hfe _ l _. rewrite Hf1, Hen in Hadv. congruence. }
  assert (Hen : absvol_disabled s = false).
  { destruct (absvol_disabled s) eqn:E; [|done]. rewrite (Hdis eq_refl) in Hadv. done. }
  rewrite Hv1.
  destruct (volume_registration_outstanding_dec s Hwf) as [Hout|Hout].
  - destruct Hout as [Hml Huse].
    assert ((MAX_LABEL =? rc_vol_label (rc_cb s))%nat = false) as ->
      by (apply Nat.eqb_neq; congruence).
    unfold rc_bind at 1. unfold rc_bind at 1, get_state. rewrite Hdev1.
    destruct (proj2 (get_transaction_by_lbl_used _ _ Hwf) Huse) as [p ->].
    unfold rc_ret. exists s1, features, []. rewrite Hcb1, Hdev1, Hv1.
    split; [done|]. split; [done|].
    split; [done|]. split; [intros E; congruence|]. split; [done|].
    intros _ _ Hno. destruct Hno. by split.
  - assert (Hin : (if (MAX_LABEL =? rc_vol_label (rc_cb s))%nat then rc_ret false
                   else rc_bind get_state (fun s2 =>
                          match get_transaction_by_lbl (rc_vol_label (rc_cb s))
                                  (rc_device s2) with
                          | Some _ => rc_ret true
                          | None => rc_ret false
                          end)) s1 = Some (false, s1)).
    { destruct (MAX_LABEL =? rc_vol_label (rc_cb s))%nat eqn:E; [done|].
      unfold rc_bind, get_state. rewrite Hdev1.
      destruct (get_transaction_by_lbl _ _) as [p|] eqn:Hg; [|done].
      exfalso. apply Hout. split; [apply Nat.eqb_neq in E; congruence|].
      apply (get_transaction_by_lbl_used _ _ Hwf). by exists p. }
    rewrite (rc_bind_eq _ _ _ _ _ Hin).
    destruct (first_unused 0 MAX_TRANSACTIONS_PER_SESSION (rc_device s)) as [l|] eqn:Hfu;
      cycle 1.
    { rewrite (rc_bind_eq _ _ _ _ _ (lift_get_transaction_none s1 Hfu)).
      exists s1, features, []. rewrite Hcb1, Hdev1, Hv1.
      split; [done|]. split; [done|]. split; [done|].
      split; [intros E; congruence|]. split; [done|].
      intros _ _ _ l Hlow. exfalso. destruct Hlow as (Hl & Hfree & _). apply Hfree.
      by apply (first_unused_exhausted _ Hwf Hfu). }
    destruct (first_unused_some _ _ _ _ Hfu) as (Hr & (t & Hd & Ht) & Hbelow).
    assert (Hll : (l < length (rc_device s))%nat) by (by eapply lookup_lt_Some).
    rewrite (rc_bind_eq _ _ _ _ _ (lift_get_transaction_some s1 l t Hfu Hd)).
    rewrite Z.eqb_refl.
    erewrite rc_bind_eq
      by (apply lift_transaction_lbl; unfold s1; rc_fields; by apply list_lookup_insert_eq).
    cbn [set_in_use lbl]. rewrite (Hlbl l t Hd).
    rewrite (rc_bind_eq _ _ _ _ _ (modify_rc_cb_eq _ _)).
    erewrite (lift_register_volumechange l (set_in_use true t)); cycle 1.
    { lia. } { unfold s1. rc_fields. by apply list_lookup_insert_eq. } { done. }
    { cbn. by apply Hlbl. }
    eexists _, features, _. split; [reflexivity|]. unfold s1. rc_fields. cb_fields.
    rewrite Hh1. split; [done|]. split; [done|]. split; [intros E; congruence|].
    split; [intros Ho; by destruct Hout|].
    intros _ _ _ l' Hlow. assert (l' = l) as -> by (by eapply lowest_free_first_unused).
    split; [done|]. split; [|split; [|done]].
    + unfold volume_registration_outstanding. rc_fields. cb_fields. split.
      * unfold MAX_LABEL. unfold MAX_TRANSACTIONS_PER_SESSION in Hr. lia.
      * exists (set_in_use true t). split; [by apply list_lookup_insert_eq|done].
    + intros j Hj. by apply list_lookup_insert_ne.
Qed.

End Features.

#[local] Existing Instance reference_defs.
#[local] Existing Instance reference_target_defs.

Lemma X20_volume_registration_witness :
  exists s' features,
    handle_rc_features 1 tg_state_opening = Some (tt, s') /\
    rc_vol_label (rc_cb s') = 0%nat /\
    rc_log s' =
      [ctrl_call (BTA_AvMetaCmd 1 0 AVRC_CMD_NOTIF (cmd_reg_notif AVRC_EVT_VOLUME_CHANGE 0));
       HAL (remote_features_cb 1 features)] ++ rc_log tg_state_opening.
Proof.
  assert (G : forall s : rc_state,
            bt_rc_callbacks s = true -> timers_wf_b (rc_device s) = true ->
            absvol_disabled s = false ->
            has_feat (rc_features (rc_cb s)) BTA_AV_FEAT_ADV_CTRL
              && has_feat (rc_features (rc_cb s)) BTA_AV_FEAT_RCTG = true ->
            rc_vol_label (rc_cb s) = MAX_LABEL ->
            first_unused 0 MAX_TRANSACTIONS_PER_SESSION (rc_device s) = Some 0%nat ->
            rc_handle (rc_cb s) = 1 -> rc_addr (rc_cb s) = 1 ->
            exists s' features,
              handle_rc_features 1 s = Some (tt, s') /\
              rc_vol_label (rc_cb s') = 0%nat /\
              rc_log s' =
                [ctrl_call (BTA_AvMetaCmd 1 0 AVRC_CMD_NOTIF
                              (cmd_reg_notif AVRC_EVT_VOLUME_CHANGE 0));
                 HAL (remote_features_cb 1 features)] ++ rc_log s).
  { intros s Htg Hwfb Hen Hfeat Hvol Hfu Hh Ha.
    assert (Hwf : pool_wf (rc_device s))
      by (apply timers_wf_pool_wf; by apply timers_wf_b_spec).
    destruct (X20_volume_registration 1 s Htg Hwf)
      as (s' & features & reg & Hrun & Hlog & _ & _ & _ & Hreg).
    assert (Hno : ~ volume_registration_outstanding s) by (intros [Hne _]; by apply Hne).
    destruct (Hreg Hen Hfeat Hno 0%nat (first_unused_lowest_free _ _ Hfu))
      as (Hl & _ & _ & Hr).
    exists s', features. split; [exact Hrun|]. split; [exact Hl|].
    rewrite Hlog, Hr, Hh, Ha. reflexivity. }
  apply (G tg_state_opening); vm_compute; reflexivity.
Defined.

(** * Absolute volume on the sink: commands of the peer and the answers
      of the application *)

Section SinkVolume.
Context `{TargetDefs}.

Lemma set_volume_rsp_eq (abs_vol : Z) (label : nat) (s : rc_state) :
  rc_connected (rc_cb s) = true ->
  let rsp := out_volume AVRC_OP_VENDOR AVRC_STS_NO_ERROR abs_vol in
  let status := AVRC_BldResponse (rc_handle (rc_cb s)) rsp in
  set_volume_rsp abs_vol label s =
  Some (if status =? AVRC_STS_NO_ERROR then BT_STATUS_SUCCESS else status,
        add_rc_log (if status =? AVRC_STS_NO_ERROR
                    then [BTA_AvVendorRsp (rc_handle (rc_cb s)) label BTA_AV_RSP_ACCEPT rsp]
                    else []) s).
Proof.
  intros Hc. cbv zeta. unfold set_volume_rsp, get_rc_cb, rc_bind, get_state, rc_ret.
  rewrite Hc. cbn [negb]. destruct (_ =? _); [done|]. by destruct s.
Qed.

Lemma volume_change_notification_rsp_eq (rsp_type : btrc_notification_type_t)
  (abs_vol : Z) (label : nat) (s : rc_state) :
  rc_connected (rc_cb s) = true ->
  let rsp := out_reg_notif AVRC_OP_VENDOR AVRC_STS_NO_ERROR AVRC_EVT_VOLUME_CHANGE
               (notif_volume abs_vol) in
  let status := AVRC_BldResponse (rc_handle (rc_cb s)) rsp in
  volume_change_notification_rsp rsp_type abs_vol label s =
  Some (if status =? AVRC_STS_NO_ERROR then BT_STATUS_SUCCESS else status,
        add_rc_log (if status =? AVRC_STS_NO_ERROR
                    then [BTA_AvVendorRsp (rc_handle (rc_cb s)) label
                            match rsp_type with
                            | BTRC_NOTIFICATION_TYPE_INTERIM => AVRC_RSP_INTERIM
                            | BTRC_NOTIFICATION_TYPE_CHANGED => AVRC_RSP_CHANGED
                            end rsp]
                    else []) s).
Proof.
  intros Hc. cbv zeta.
  unfold volume_change_notification_rsp, get_rc_cb, rc_bind, get_state, rc_ret.
  rewrite Hc. cbn [negb]. destruct (_ =? _); [done|]. by destruct s.
Qed.

Lemma btif_rc_ctrl_upstreams_rsp_cmd_eq (cmd : tAVRC_COMMAND_IN) (label : nat)
  (s : rc_state) :
  bt_rc_ctrl_callbacks s = true ->
  btif_rc_ctrl_upstreams_rsp_cmd (in_pdu cmd) cmd label s =
  Some (tt, add_rc_log
              match in_pdu cmd with
              | AVRC_PDU_SET_ABSOLUTE_VOLUME =>
                  [HAL (setabsvol_cmd_cb (rc_addr (rc_cb s)) (in_volume cmd) label)]
              | AVRC_PDU_REGISTER_NOTIFICATION =>
                  if bool_decide (in_reg_event_id cmd = AVRC_EVT_VOLUME_CHANGE)
                  then [HAL (registernotification_absvol_cb (rc_addr (rc_cb s)) label)]
                  else []
              | _ => []
              end s).
Proof.
  intros Hct. unfold btif_rc_ctrl_upstreams_rsp_cmd, get_rc_cb.
  unfold rc_bind at 1. unfold rc_bind at 1, get_state, rc_ret at 1. cbn beta iota.
  destruct (in_pdu cmd); try (by destruct s).
  - destruct (bool_decide _); [|by destruct s].
    unfold rc_when. by rewrite (HAL_CBACK_on_true _ _ _ Hct).
  - by rewrite (HAL_CBACK_on_true _ _ _ Hct).
Qed.

(** X21.  Absolute volume on the sink.  With only the controller
    callbacks registered, a vendor command of the peer that
    [btif_rc_handler] receives changes nothing but the log.  A command
    that cannot be parsed is rejected under its own label with the status
    of the parser and does not reach the application.
    SET_ABSOLUTE_VOLUME is reported through [setabsvol_cmd_cb] with the
    volume and the label of the command, and the answer of the
    application through [set_volume_rsp] with that label sends ACCEPT
    with the volume given, on the handle of the connection, or returns
    the status of the builder and sends nothing.  REGISTER_NOTIFICATION
    is reported through [registernotification_absvol_cb] for
    VOLUME_CHANGE only, for any other event it is neither reported nor
    answered; [volume_change_notification_rsp] sends INTERIM or CHANGED
    under the label given.  No other command has any effect.  None of
    this takes or releases a label of the label table. *)
Theorem X21_sink_absolute_volume (m : tBTA_AV_META_MSG_IN) (s : rc_state) :
  let cmd := ctrl_pars_command m in
  let status := ctrl_pars_command_status m in
  let l := msg_label (meta m) in
  let h := rc_handle (rc_cb s) in
  bt_rc_callbacks s = false -> bt_rc_ctrl_callbacks s = true ->
  rc_connected (rc_cb s) = true ->
  msg_opcode (meta m) = AVRC_OP_VENDOR ->
  msg_code (meta m) <= AVRC_CMD_GEN_INQ -> AVRC_CMD_GEN_INQ < AVRC_RSP_NOT_IMPL ->
  exists s1,
    btif_rc_handler (BTA_AV_META_MSG_EVT m) s = Some (tt, s1) /\ same_but_log s s1 /\
    (status <> AVRC_STS_NO_ERROR ->
     let rej := out_rsp (in_pdu cmd) (opcode_from_pdu (in_pdu cmd)) status in
     rc_log s1 =
       (if AVRC_BldResponse (msg_rc_handle (meta m)) rej =? AVRC_STS_NO_ERROR
        then [BTA_AvMetaRsp (msg_rc_handle (meta m)) l AVRC_RSP_REJ rej] else [])
       ++ rc_log s) /\
    (status = AVRC_STS_NO_ERROR -> in_pdu cmd = AVRC_PDU_SET_ABSOLUTE_VOLUME ->
     rc_log s1 = HAL (setabsvol_cmd_cb (rc_addr (rc_cb s)) (in_volume cmd) l) :: rc_log s /\
     forall abs_vol,
       let rsp := out_volume AVRC_OP_VENDOR AVRC_STS_NO_ERROR abs_vol in
       exists st s2,
         set_volume_rsp abs_vol l s1 = Some (st, s2) /\ same_but_log s s2 /\
         if AVRC_BldResponse h rsp =? AVRC_STS_NO_ERROR
         then st = BT_STATUS_SUCCESS /\
              rc_log s2 = BTA_AvVendorRsp h l BTA_AV_RSP_ACCEPT rsp :: rc_log s1
         else st = AVRC_BldResponse h rsp /\ rc_log s2 = rc_log s1) /\
    (status = AVRC_STS_NO_ERROR -> in_pdu cmd = AVRC_PDU_REGISTER_NOTIFICATION ->
     rc_log s1 =
       (if bool_decide (in_reg_event_id cmd = AVRC_EVT_VOLUME_CHANGE)
        then [HAL (registernotification_absvol_cb (rc_addr (rc_cb s)) l)] else [])
       ++ rc_log s /\
     forall rsp_type abs_vol,
       let rsp := out_reg_notif AVRC_OP_VENDOR AVRC_STS_NO_ERROR AVRC_EVT_VOLUME_CHANGE
                    (notif_volume abs_vol) in
       exists st s2,
         volume_change_notification_rsp rsp_type abs_vol l s1 = Some (st, s2) /\
         same_but_log s s2 /\
         if AVRC_BldResponse h rsp =? AVRC_STS_NO_ERROR
         then st = BT_STATUS_SUCCESS /\
              rc_log s2 = BTA_AvVendorRsp h l
                            match rsp_type with
                            | BTRC_NOTIFICATION_TYPE_INTERIM => AVRC_RSP_INTERIM
                            | BTRC_NOTIFICATION_TYPE_CHANGED => AVRC_RSP_CHANGED
                            end rsp :: rc_log s1
         else st = AVRC_BldResponse h rsp /\ rc_log s2 = rc_log s1) /\
    (status = AVRC_STS_NO_ERROR -> in_pdu cmd <> AVRC_PDU_SET_ABSOLUTE_VOLUME ->
     in_pdu cmd <> AVRC_PDU_REGISTER_NOTIFICATION -> rc_log s1 = rc_log s).
Proof.
  intros cmd status l h Htg Hct Hc Hop Hcode Hlt.
  assert (Hrun : exists c,
    btif_rc_handler (BTA_AV_META_MSG_EVT m) s = Some (tt, add_rc_log c s) /\
    c = if status =? AVRC_STS_NO_ERROR
        then match in_pdu cmd with
             | AVRC_PDU_SET_ABSOLUTE_VOLUME =>
                 [HAL (setabsvol_cmd_cb (rc_addr (rc_cb s)) (in_volume cmd) l)]
             | AVRC_PDU_REGISTER_NOTIFICATION =>
                 if bool_decide (in_reg_event_id cmd = AVRC_EVT_VOLUME_CHANGE)
                 then [HAL (registernotification_absvol_cb (rc_addr (rc_cb s)) l)]
                 else []
             | _ => []
             end
        else if AVRC_BldResponse (msg_rc_handle (meta m))
                  (out_rsp (in_pdu cmd) (opcode_from_pdu (in_pdu cmd)) status)
                =? AVRC_STS_NO_ERROR
             then [BTA_AvMetaRsp (msg_rc_handle (meta m)) l AVRC_RSP_REJ
                     (out_rsp (in_pdu cmd) (opcode_from_pdu (in_pdu cmd)) status)]
             else []).
  { eexists. split; [|reflexivity].
    unfold btif_rc_handler, rc_bind at 1, get_state. rewrite Htg, Hct.
    assert ((AVRC_RSP_NOT_IMPL <=? msg_code (meta m)) = false) as -> by (apply Z.leb_gt; lia).
    cbn [andb]. assert ((msg_code (meta m) <=? AVRC_CMD_GEN_INQ) = true) as Hle
      by (by apply Z.leb_le).
    rewrite Hle. unfold handle_avk_rc_metamsg_cmd. rewrite Hop, Z.eqb_refl, Hle. cbn [andb].
    fold status cmd l. destruct (status =? AVRC_STS_NO_ERROR); cbn [negb].
    - by rewrite (btif_rc_ctrl_upstreams_rsp_cmd_eq cmd l s Hct).
    - by rewrite send_reject_response_eq. }
  destruct Hrun as (c & Hrun & Hcdef). exists (add_rc_log c s).
  split; [exact Hrun|]. split; [apply same_but_log_log|].
  assert (Hc1 : rc_connected (rc_cb (add_rc_log c s)) = true) by done.
  split; [|split; [|split]].
  - intros Hst rej. apply Z.eqb_neq in Hst. rewrite Hst in Hcdef. by rewrite Hcdef.
  - intros Hst Hpdu. apply Z.eqb_eq in Hst. rewrite Hst, Hpdu in Hcdef.
    split; [by rewrite Hcdef|]. intros abs_vol rsp.
    pose proof (set_volume_rsp_eq abs_vol l _ Hc1) as E. cbv zeta in E. rc_fields in E.
    fold h rsp in E. eexists _, _. split; [exact E|].
    split; [rewrite add_rc_log_app; apply same_but_log_log|].
    destruct (AVRC_BldResponse h rsp =? AVRC_STS_NO_ERROR); (split; [reflexivity|]); reflexivity.
  - intros Hst Hpdu. apply Z.eqb_eq in Hst. rewrite Hst, Hpdu in Hcdef.
    split; [by rewrite Hcdef|]. intros rsp_type abs_vol rsp.
    pose proof (volume_change_notification_rsp_eq rsp_type abs_vol l _ Hc1) as E.
    cbv zeta in E. rc_fields in E. fold h rsp in E. eexists _, _. split; [exact E|].
    split; [rewrite add_rc_log_app; apply same_but_log_log|].
    destruct (AVRC_BldResponse h rsp =? AVRC_STS_NO_ERROR); (split; [reflexivity|]); reflexivity.
  - intros Hst Hp1 Hp2. apply Z.eqb_eq in Hst. rewrite Hst in Hcdef.
    rewrite Hcdef. by destruct (in_pdu cmd).
Qed.

End SinkVolume.

#[local] Existing Instance reference_defs.
#[local] Existing Instance reference_target_defs.

Lemma X21_sink_absolute_volume_witness :
  exists s1 s2,
    btif_rc_handler (BTA_AV_META_MSG_EVT (command_msg 5 0 (set_volume_in 40))) ct_state
      = Some (tt, s1) /\
    rc_log s1 = HAL (setabsvol_cmd_cb 1 40 5) :: rc_log ct_state /\
    set_volume_rsp 60 5 s1 = Some (BT_STATUS_SUCCESS, s2) /\
    rc_log s2 = BTA_AvVendorRsp 1 5 BTA_AV_RSP_ACCEPT
                  (out_volume AVRC_OP_VENDOR AVRC_STS_NO_ERROR 60) :: rc_log s1.
Proof.
  assert (G : forall s : rc_state,
            bt_rc_callbacks s = false -> bt_rc_ctrl_callbacks s = true ->
            rc_connected (rc_cb s) = true -> rc_addr (rc_cb s) = 1 ->
            rc_handle (rc_cb s) = 1 ->
            exists s1 s2,
              btif_rc_handler (BTA_AV_META_MSG_EVT (command_msg 5 0 (set_volume_in 40))) s
                = Some (tt, s1) /\
              rc_log s1 = HAL (setabsvol_cmd_cb 1 40 5) :: rc_log s /\
              set_volume_rsp 60 5 s1 = Some (BT_STATUS_SUCCESS, s2) /\
              rc_log s2 = BTA_AvVendorRsp 1 5 BTA_AV_RSP_ACCEPT
                            (out_volume AVRC_OP_VENDOR AVRC_STS_NO_ERROR 60) :: rc_log s1).
  { intros s Htg Hct Hc Ha Hh.
    assert (Hop : msg_opcode (meta (command_msg 5 0 (set_volume_in 40))) = AVRC_OP_VENDOR)
      by reflexivity.
    assert (Hcode : msg_code (meta (command_msg 5 0 (set_volume_in 40))) <= AVRC_CMD_GEN_INQ)
      by (vm_compute; discriminate).
    assert (Hlt : AVRC_CMD_GEN_INQ < AVRC_RSP_NOT_IMPL) by reflexivity.
    destruct (X21_sink_absolute_volume (command_msg 5 0 (set_volume_in 40)) s
                Htg Hct Hc Hop Hcode Hlt) as (s1 & Hrun & _ & _ & Hvol & _).
    destruct (Hvol eq_refl eq_refl) as (Hlog & Hrsp).
    destruct (Hrsp 60) as (st & s2 & Hrun2 & _ & Hout).
    rewrite Hh in Hout. destruct Hout as [-> Hlog2].
    exists s1, s2. split; [exact Hrun|]. split; [by rewrite Hlog, Ha|].
    split; [exact Hrun2|exact Hlog2]. }
  apply (G ct_state); vm_compute; reflexivity.
Defined.

(** * The features of the peer on the controller *)

Section CtrlFeatures.
Context `{TargetDefs}.

Lemma lift_getcapabilities_cmd (cap_id : avrc_cap) (s : rc_state) :
  exists st d sent,
    lift (getcapabilities_cmd cap_id) s =
      Some (st, add_rc_log sent (set_rc_device d s)) /\
    (sent = [] \/
     exists l, sent = [ctrl_call (BTA_AvVendorCmd (rc_handle (rc_cb s)) l AVRC_CMD_STATUS
                                    (cmd_get_caps cap_id))]).
Proof.
  unfold getcapabilities_cmd.
  destruct (send_status_cmd_defined (cmd_get_caps cap_id) (ctrl_world s)) as (st & w' & Hw).
  destruct (send_status_cmd_cases _ _ _ _ Hw) as (Hcb & Htr).
  exists st, (device w'), (ctrl_call <$> trace w'). split.
  - rewrite (lift_eq _ _ _ _ Hw). f_equal. f_equal. unfold after_ctrl. rewrite Hcb.
    by destruct s.
  - destruct Htr as [->|(l & ->)]; [by left|right]. by exists l.
Qed.

(** X22.  The capabilities of the peer are asked for once.
    [handle_rc_ctrl_features] reports through [getrcfeatures_cb] when
    the peer is a target, or a controller with ADV_CTRL.  The first time
    it sees METADATA and VENDOR on such a peer it sets
    [rc_features_processed], reports METADATA and, on a sink, sends
    GET_CAPABILITIES for the company ids, at most that one command.
    Called again with the features as they are, it sends nothing, takes
    no label, changes nothing in the control block and reports the
    features without METADATA. *)
Theorem X22_capabilities_requested_once (bd_addr bd_addr' : Z) (s : rc_state) :
  let f := rc_features (rc_cb s) in
  let reports :=
    has_feat f BTA_AV_FEAT_RCTG
    || (has_feat f BTA_AV_FEAT_RCCT && has_feat f BTA_AV_FEAT_ADV_CTRL) in
  let absvol :=
    if has_feat f BTA_AV_FEAT_ADV_CTRL && has_feat f BTA_AV_FEAT_RCCT
    then Z.lor 0 BTRC_FEAT_ABSOLUTE_VOLUME else 0 in
  let starts :=
    reports && has_feat f BTA_AV_FEAT_METADATA && has_feat f BTA_AV_FEAT_VENDOR
    && negb (rc_features_processed (rc_cb s)) in
  exists s1 sent s2,
    handle_rc_ctrl_features bd_addr s = Some (tt, s1) /\
    rc_cb s1 = (if starts then set_rc_features_processed true (rc_cb s) else rc_cb s) /\
    rc_log s1 =
      (if reports && bt_rc_ctrl_callbacks s
       then [HAL (getrcfeatures_cb bd_addr
                    (if starts then Z.lor absvol BTRC_FEAT_METADATA else absvol))]
       else []) ++ sent ++ rc_log s /\
    (sent = [] \/
     exists l, sent = [ctrl_call (BTA_AvVendorCmd (rc_handle (rc_cb s)) l AVRC_CMD_STATUS
                                    (cmd_get_caps AVRC_CAP_COMPANY_ID))]) /\
    (starts && btif_av_is_sink_enabled (env s) = false ->
     sent = [] /\ rc_device s1 = rc_device s) /\
    handle_rc_ctrl_features bd_addr' s1 = Some (tt, s2) /\
    rc_cb s2 = rc_cb s1 /\ rc_device s2 = rc_device s1 /\
    rc_log s2 =
      (if reports && bt_rc_ctrl_callbacks s
       then [HAL (getrcfeatures_cb bd_addr' absvol)] else []) ++ rc_log s1.
Proof.
  intros f reports absvol starts.
  (* a call that does not start the procedure *)
  assert (Hquiet : forall a s0,
    rc_features (rc_cb s0) = f -> bt_rc_ctrl_callbacks s0 = bt_rc_ctrl_callbacks s ->
    reports && has_feat f BTA_AV_FEAT_METADATA && has_feat f BTA_AV_FEAT_VENDOR
      && negb (rc_features_processed (rc_cb s0)) = false ->
    handle_rc_ctrl_features a s0 =
    Some (tt, add_rc_log (if reports && bt_rc_ctrl_callbacks s
                          then [HAL (getrcfeatures_cb a absvol)] else []) s0)).
  { intros a s0 Hf Hct Hno. unfold handle_rc_ctrl_features, get_rc_cb.
    unfold rc_bind at 1. unfold rc_bind at 1, get_state, rc_ret at 1. cbn beta iota.
    rewrite Hf. fold reports absvol. destruct reports; cbn [andb] in *; [|by destruct s0].
    rewrite Hno. rewrite <- Hct. destruct (bt_rc_ctrl_callbacks s0) eqn:E.
    - by rewrite (HAL_CBACK_on_true _ _ _ E).
    - rewrite (HAL_CBACK_on_false _ _ _ E). by destruct s0. }
  destruct starts eqn:Hstarts; cycle 1.
  - exists (add_rc_log (if reports && bt_rc_ctrl_callbacks s
                        then [HAL (getrcfeatures_cb bd_addr absvol)] else []) s), [].
    eexists. split; [by apply Hquiet|]. split; [done|]. split; [done|].
    split; [by left|]. split; [done|]. split; [by apply Hquiet|]. done.
  - unfold starts in Hstarts. apply andb_true_iff in Hstarts as [Hs1 Hnp].
    apply andb_true_iff in Hs1 as [Hs1 Hv]. apply andb_true_iff in Hs1 as [Hr Hm].
    apply negb_true_iff in Hnp.
    destruct (lift_getcapabilities_cmd AVRC_CAP_COMPANY_ID
                (set_rc_cb (set_rc_features_processed true (rc_cb s)) s))
      as (st & d & sent0 & Hcaps & Hsent0).
    set (sa := set_rc_cb (set_rc_features_processed true (rc_cb s)) s) in *.
    set (sent := if btif_av_is_sink_enabled (env s) then sent0 else []).
    set (sb := if btif_av_is_sink_enabled (env s)
               then add_rc_log sent0 (set_rc_device d sa) else sa).
    set (s1 := add_rc_log (if bt_rc_ctrl_callbacks s
                           then [HAL (getrcfeatures_cb bd_addr
                                        (Z.lor absvol BTRC_FEAT_METADATA))] else []) sb).
    assert (Hcb_b : rc_cb sb = set_rc_features_processed true (rc_cb s))
      by (unfold sb; by destruct (btif_av_is_sink_enabled (env s))).
    assert (Hct_b : bt_rc_ctrl_callbacks sb = bt_rc_ctrl_callbacks s)
      by (unfold sb; by destruct (btif_av_is_sink_enabled (env s))).
    assert (Hlog_b : rc_log sb = sent ++ rc_log s)
      by (unfold sb, sent; by destruct (btif_av_is_sink_enabled (env s))).
    assert (Hrun : handle_rc_ctrl_features bd_addr s = Some (tt, s1)).
    { unfold handle_rc_ctrl_features, get_rc_cb.
      unfold rc_bind at 1. unfold rc_bind at 1, get_state, rc_ret at 1. cbn beta iota.
      fold f reports absvol. rewrite Hr, Hm, Hv, Hnp. cbn [andb negb].
      rewrite (rc_bind_eq _ _ _ _ _ (modify_rc_cb_eq _ _)). fold sa.
      unfold rc_bind at 1, get_state. cbn beta iota.
      assert (Hmid : (if btif_av_is_sink_enabled (env sa)
                      then rc_bind (lift (getcapabilities_cmd AVRC_CAP_COMPANY_ID))
                             (fun _ => rc_ret tt)
                      else rc_ret tt) sa = Some (tt, sb)).
      { unfold sb. change (env sa) with (env s).
        destruct (btif_av_is_sink_enabled (env s)); [|done].
        by rewrite (rc_bind_eq _ _ _ _ _ Hcaps). }
      rewrite (rc_bind_eq _ _ _ _ _ Hmid). unfold s1. rewrite <- Hct_b.
      clear Hct_b. destruct (bt_rc_ctrl_callbacks sb) eqn:E.
      - by rewrite (HAL_CBACK_on_true _ _ _ E).
      - rewrite (HAL_CBACK_on_false _ _ _ E). by destruct sb. }
    exists s1, sent. eexists. split; [exact Hrun|].
    assert (Hcb1 : rc_cb s1 = set_rc_features_processed true (rc_cb s)) by done.
    split; [done|]. split.
    { unfold s1. unfold add_rc_log at 1. rc_fields. rewrite Hlog_b, Hr. cbn [andb].
      by destruct (bt_rc_ctrl_callbacks s). }
    split.
    { unfold sent. destruct (btif_av_is_sink_enabled (env s)); [|by left].
      destruct Hsent0 as [->|(l & ->)]; [by left|right]. by exists l. }
    split.
    { intros Hsink. cbn [andb] in Hsink. unfold sent, s1, sb. rewrite Hsink. done. }
    split.
    { apply Hquiet; [by rewrite Hcb1|done|]. rewrite Hcb1. cb_fields.
      by rewrite !andb_false_r. }
    done.
Qed.

End CtrlFeatures.

(** * Labels and alarms agree across the whole interface *)

Section InterfaceInvariant.
Context `{TargetDefs}.

Lemma rc_keeps_ret (P : rc_device_t -> Prop) {A : Type} (a : A) : rc_keeps P (rc_ret a).
Proof. by intros s a' s' [= _ <-]. Qed.

Lemma rc_keeps_undefined (P : rc_device_t -> Prop) {A : Type} :
  rc_keeps P (@rc_undefined A).
Proof. by intros s a s' Hs. Qed.

Lemma rc_keeps_bind (P : rc_device_t -> Prop) {A B : Type} (m : RC A) (k : A -> RC B) :
  rc_keeps P m -> (forall a, rc_keeps P (k a)) -> rc_keeps P (rc_bind m k).
Proof.
  intros Hm Hk s b s' Hs HP. apply rc_bind_inv in Hs as (a & s1 & Hs1 & Hs2).
  eapply Hk; [exact Hs2|]. by eapply Hm.
Qed.

Lemma rc_keeps_get_state (P : rc_device_t -> Prop) : rc_keeps P get_state.
Proof. by intros s a s' [= _ <-]. Qed.

Lemma rc_keeps_modify_state (P : rc_device_t -> Prop) (f : rc_state -> rc_state) :
  (forall s, P (rc_device s) -> P (rc_device (f s))) -> rc_keeps P (modify_state f).
Proof. intros Hf s a s' Hs HP. unfold modify_state in Hs. simplify_eq. by apply Hf. Qed.

Lemma rc_keeps_lift (P : rc_device_t -> Prop) {A : Type} (m : M A) :
  rel (keeps P) m -> rc_keeps P (lift m).
Proof.
  intros Hm s a s' Hs HP. apply lift_inv in Hs as (w & Hw & ->).
  apply (Hm _ _ _ Hw). exact HP.
Qed.

Lemma keeps_call_get_transaction : rel (keeps timers_wf) call_get_transaction.
Proof.
  intros w [st p] w' Hw Hwf. apply call_get_transaction_inv in Hw as (d1 & Hg & ->).
  apply get_transaction_cases in Hg as [(_ & _ & ->)|(_ & i & t & _ & Hd & _ & ->)];
    [done|]. by apply timers_wf_acquire.
Qed.

Lemma keeps_readonly (P : rc_device_t -> Prop) {A : Type} (m : M A) :
  readonly m -> rel (keeps P) m.
Proof. intros Hm w a w' Hw. by rewrite (Hm _ _ _ Hw). Qed.

Lemma keeps_transaction_lbl (P : rc_device_t -> Prop) (p : nat) :
  rel (keeps P) (transaction_lbl p).
Proof. intros w l w' Hw. by apply transaction_lbl_inv in Hw as [_ ->]. Qed.

Ltac rc_keeps_step :=
  cbv zeta;
  lazymatch goal with
  | |- rc_keeps _ (rc_bind _ _) => apply rc_keeps_bind; [|intros ?]
  | |- rc_keeps _ (rc_ret _) => apply rc_keeps_ret
  | |- rc_keeps _ rc_undefined => apply rc_keeps_undefined
  | |- rc_keeps _ get_state => apply rc_keeps_get_state
  | |- rc_keeps _ get_rc_cb => unfold get_rc_cb
  | |- rc_keeps _ (modify_rc_cb _) => apply rc_keeps_modify_state; intros ? ?; assumption
  | |- rc_keeps _ (log _) => apply rc_keeps_modify_state; intros ? ?; assumption
  | |- rc_keeps _ (modify_rc_device (release_transaction _)) =>
      apply rc_keeps_modify_state; intros ? ?; by apply timers_wf_release
  | |- rc_keeps _ (modify_state _) => apply rc_keeps_modify_state; intros ? ?; assumption
  | |- rc_keeps _ (rc_when _ _) => unfold rc_when
  | |- rc_keeps _ (HAL_CBACK_on _ _) => unfold HAL_CBACK_on
  | |- rc_keeps _ (send_event _ _ _) => unfold send_event
  | |- rc_keeps _ (lift call_get_transaction) =>
      apply rc_keeps_lift, keeps_call_get_transaction
  | |- rc_keeps _ (lift (transaction_lbl _)) => apply rc_keeps_lift, keeps_transaction_lbl
  | |- rc_keeps _ (lift (emit _)) => apply rc_keeps_lift, rel_keeps_emit
  | |- rc_keeps _ (lift (lift_option _)) =>
      apply rc_keeps_lift, keeps_readonly, readonly_lift_option
  | |- rc_keeps _ (lift (array_prefix _ _)) =>
      apply rc_keeps_lift, keeps_readonly, readonly_array_prefix
  | |- rc_keeps _ (if ?b then _ else _) => destruct b
  | |- rc_keeps _ (match ?x with _ => _ end) => destruct x
  | |- rc_keeps _ _ => solve [auto with rc_keeps]
  end.

Ltac rc_keeps_auto := repeat rc_keeps_step.

Create HintDb rc_keeps discriminated.

Lemma rc_keeps_send_key fd key pressed : rc_keeps timers_wf (send_key fd key pressed).
Proof. unfold send_key. rc_keeps_auto. Qed.
#[local] Hint Resolve rc_keeps_send_key : rc_keeps.

Lemma rc_keeps_init_uinput : rc_keeps timers_wf init_uinput.
Proof. unfold init_uinput. rc_keeps_auto. Qed.
#[local] Hint Resolve rc_keeps_init_uinput : rc_keeps.

Lemma rc_keeps_close_uinput : rc_keeps timers_wf close_uinput.
Proof. unfold close_uinput. rc_keeps_auto. Qed.
#[local] Hint Resolve rc_keeps_close_uinput : rc_keeps.

Lemma rc_keeps_handle_rc_ctrl_features a : rc_keeps timers_wf (handle_rc_ctrl_features a).
Proof.
  unfold handle_rc_ctrl_features. rc_keeps_auto.
  apply rc_keeps_lift. unfold getcapabilities_cmd. apply keeps_send_status_cmd.
Qed.
#[local] Hint Resolve rc_keeps_handle_rc_ctrl_features : rc_keeps.

Lemma rc_keeps_handle_rc_features a : rc_keeps timers_wf (handle_rc_features a).
Proof.
  unfold handle_rc_features. rc_keeps_auto.
  apply rc_keeps_lift, keeps_register_volumechange.
Qed.
#[local] Hint Resolve rc_keeps_handle_rc_features : rc_keeps.

Lemma rc_keeps_handle_rc_connect p : rc_keeps timers_wf (handle_rc_connect p).
Proof. unfold handle_rc_connect. rc_keeps_auto. Qed.
#[local] Hint Resolve rc_keeps_handle_rc_connect : rc_keeps.

Lemma rc_keeps_handle_rc_disconnect p : rc_keeps timers_wf (handle_rc_disconnect p).
Proof.
  unfold handle_rc_disconnect. rc_keeps_auto.
  - apply rc_keeps_lift, keeps_rc_stop_play_status_timer.
  - apply rc_keeps_modify_state. intros s Hwf. by apply init_all_transactions_reset.
Qed.
#[local] Hint Resolve rc_keeps_handle_rc_disconnect : rc_keeps.

Lemma rc_keeps_handle_rc_passthrough_cmd p : rc_keeps timers_wf (handle_rc_passthrough_cmd p).
Proof. unfold handle_rc_passthrough_cmd. rc_keeps_auto. Qed.
#[local] Hint Resolve rc_keeps_handle_rc_passthrough_cmd : rc_keeps.

Lemma rc_keeps_handle_rc_passthrough_rsp p : rc_keeps timers_wf (handle_rc_passthrough_rsp p).
Proof. unfold handle_rc_passthrough_rsp. rc_keeps_auto. Qed.
#[local] Hint Resolve rc_keeps_handle_rc_passthrough_rsp : rc_keeps.

Lemma rc_keeps_handle_rc_vendorunique_rsp p :
  rc_keeps timers_wf (handle_rc_vendorunique_rsp p).
Proof. unfold handle_rc_vendorunique_rsp. rc_keeps_auto. Qed.
#[local] Hint Resolve rc_keeps_handle_rc_vendorunique_rsp : rc_keeps.

Lemma rc_keeps_btif_rc_check_handle_pending_play b :
  rc_keeps timers_wf (btif_rc_check_handle_pending_play b).
Proof. unfold btif_rc_check_handle_pending_play. rc_keeps_auto. Qed.
#[local] Hint Resolve rc_keeps_btif_rc_check_handle_pending_play : rc_keeps.

Lemma rc_keeps_send_reject_response h l pdu st :
  rc_keeps timers_wf (send_reject_response h l pdu st).
Proof. unfold send_reject_response. rc_keeps_auto. Qed.
#[local] Hint Resolve rc_keeps_send_reject_response : rc_keeps.

Lemma rc_keeps_read_notif ev : rc_keeps timers_wf (read_notif ev).
Proof. unfold read_notif. rc_keeps_auto. Qed.
#[local] Hint Resolve rc_keeps_read_notif : rc_keeps.

Lemma rc_keeps_write_notif ev f : rc_keeps timers_wf (write_notif ev f).
Proof. unfold write_notif. rc_keeps_auto. Qed.
#[local] Hint Resolve rc_keeps_write_notif : rc_keeps.

Lemma rc_keeps_send_metamsg_rsp h l code r :
  rc_keeps timers_wf (send_metamsg_rsp h l code r).
Proof. unfold send_metamsg_rsp. rc_keeps_auto. Qed.
#[local] Hint Resolve rc_keeps_send_metamsg_rsp : rc_keeps.

Lemma rc_keeps_handle_uid_changed_notification m c :
  rc_keeps timers_wf (handle_uid_changed_notification m c).
Proof. unfold handle_uid_changed_notification. rc_keeps_auto. Qed.
#[local] Hint Resolve rc_keeps_handle_uid_changed_notification : rc_keeps.

Lemma rc_keeps_FILL_PDU_QUEUE i c l p : rc_keeps timers_wf (FILL_PDU_QUEUE i c l p).
Proof. unfold FILL_PDU_QUEUE. rc_keeps_auto. Qed.
#[local] Hint Resolve rc_keeps_FILL_PDU_QUEUE : rc_keeps.

Lemma rc_keeps_SEND_METAMSG_RSP i r : rc_keeps timers_wf (SEND_METAMSG_RSP i r).
Proof. unfold SEND_METAMSG_RSP. rc_keeps_auto. Qed.
#[local] Hint Resolve rc_keeps_SEND_METAMSG_RSP : rc_keeps.

Lemma rc_keeps_btif_rc_upstreams_evt e c ct l :
  rc_keeps timers_wf (btif_rc_upstreams_evt e c ct l).
Proof. unfold btif_rc_upstreams_evt. rc_keeps_auto. Qed.
#[local] Hint Resolve rc_keeps_btif_rc_upstreams_evt : rc_keeps.

Lemma rc_keeps_handle_rc_metamsg_cmd m : rc_keeps timers_wf (handle_rc_metamsg_cmd m).
Proof.
  unfold handle_rc_metamsg_cmd. rc_keeps_auto.
  apply rc_keeps_lift, keeps_handle_rc_metamsg_rsp.
Qed.
#[local] Hint Resolve rc_keeps_handle_rc_metamsg_cmd : rc_keeps.

Lemma rc_keeps_btif_rc_ctrl_upstreams_rsp_cmd e c l :
  rc_keeps timers_wf (btif_rc_ctrl_upstreams_rsp_cmd e c l).
Proof. unfold btif_rc_ctrl_upstreams_rsp_cmd. rc_keeps_auto. Qed.
#[local] Hint Resolve rc_keeps_btif_rc_ctrl_upstreams_rsp_cmd : rc_keeps.

Lemma rc_keeps_handle_avk_rc_metamsg_cmd m : rc_keeps timers_wf (handle_avk_rc_metamsg_cmd m).
Proof. unfold handle_avk_rc_metamsg_cmd. rc_keeps_auto. Qed.
#[local] Hint Resolve rc_keeps_handle_avk_rc_metamsg_cmd : rc_keeps.

Lemma rc_keeps_btif_rc_handler p : rc_keeps timers_wf (btif_rc_handler p).
Proof.
  unfold btif_rc_handler. rc_keeps_auto.
  apply rc_keeps_lift, keeps_handle_avk_rc_metamsg_rsp.
Qed.
#[local] Hint Resolve rc_keeps_btif_rc_handler : rc_keeps.

Lemma rc_keeps_init_cb : rc_keeps timers_wf (modify_state init_cb).
Proof. apply rc_keeps_modify_state. intros s _. apply lbl_init_timers_wf. Qed.
#[local] Hint Resolve rc_keeps_init_cb : rc_keeps.

Lemma rc_keeps_init : rc_keeps timers_wf init.
Proof.
  unfold init. rc_keeps_step; [rc_keeps_auto|]. rc_keeps_step; [rc_keeps_auto|].
  rc_keeps_step; [rc_keeps_auto|]. rc_keeps_step; [apply rc_keeps_init_cb|]. rc_keeps_auto.
Qed.
#[local] Hint Resolve rc_keeps_init : rc_keeps.

Lemma rc_keeps_init_ctrl : rc_keeps timers_wf init_ctrl.
Proof.
  unfold init_ctrl. rc_keeps_step; [rc_keeps_auto|]. rc_keeps_step; [rc_keeps_auto|].
  rc_keeps_step; [rc_keeps_auto|]. rc_keeps_step; [apply rc_keeps_init_cb|]. rc_keeps_auto.
Qed.
#[local] Hint Resolve rc_keeps_init_ctrl : rc_keeps.

Lemma rc_keeps_cleanup : rc_keeps timers_wf cleanup.
Proof. unfold cleanup. rc_keeps_auto. Qed.
#[local] Hint Resolve rc_keeps_cleanup : rc_keeps.

Lemma rc_keeps_cleanup_ctrl : rc_keeps timers_wf cleanup_ctrl.
Proof. unfold cleanup_ctrl. rc_keeps_auto. Qed.
#[local] Hint Resolve rc_keeps_cleanup_ctrl : rc_keeps.

Lemma rc_keeps_get_play_status_rsp a b c : rc_keeps timers_wf (get_play_status_rsp a b c).
Proof. unfold get_play_status_rsp. rc_keeps_auto. Qed.
#[local] Hint Resolve rc_keeps_get_play_status_rsp : rc_keeps.

Lemma rc_keeps_get_element_attr_rsp n l : rc_keeps timers_wf (get_element_attr_rsp n l).
Proof. unfold get_element_attr_rsp. rc_keeps_auto. Qed.
#[local] Hint Resolve rc_keeps_get_element_attr_rsp : rc_keeps.

Lemma rc_keeps_register_notification_rsp e t p :
  rc_keeps timers_wf (register_notification_rsp e t p).
Proof. unfold register_notification_rsp. rc_keeps_auto. Qed.
#[local] Hint Resolve rc_keeps_register_notification_rsp : rc_keeps.

Lemma rc_keeps_set_volume v : rc_keeps timers_wf (set_volume v).
Proof. unfold set_volume. rc_keeps_auto. Qed.
#[local] Hint Resolve rc_keeps_set_volume : rc_keeps.

Lemma rc_keeps_send_passthrough_cmd c k : rc_keeps timers_wf (send_passthrough_cmd c k).
Proof. unfold send_passthrough_cmd. rc_keeps_auto. Qed.
#[local] Hint Resolve rc_keeps_send_passthrough_cmd : rc_keeps.

Lemma rc_keeps_send_groupnavigation_cmd c k :
  rc_keeps timers_wf (send_groupnavigation_cmd c k).
Proof. unfold send_groupnavigation_cmd. rc_keeps_auto. Qed.
#[local] Hint Resolve rc_keeps_send_groupnavigation_cmd : rc_keeps.

Lemma rc_keeps_set_volume_rsp v l : rc_keeps timers_wf (set_volume_rsp v l).
Proof. unfold set_volume_rsp. rc_keeps_auto. Qed.
#[local] Hint Resolve rc_keeps_set_volume_rsp : rc_keeps.

Lemma rc_keeps_volume_change_notification_rsp t v l :
  rc_keeps timers_wf (volume_change_notification_rsp t v l).
Proof. unfold volume_change_notification_rsp. rc_keeps_auto. Qed.
#[local] Hint Resolve rc_keeps_volume_change_notification_rsp : rc_keeps.

(** The alarm of [change_player_app_setting] is set on the label the
    function has just taken. *)
Lemma rc_keeps_change_player_app_setting n ids vals :
  rc_keeps timers_wf (change_player_app_setting n ids vals).
Proof.
  intros s a s' Hs Hwf. unfold change_player_app_setting, get_rc_cb in Hs.
  apply rc_bind_inv in Hs as (cb & s0 & Hcb & Hs).
  apply rc_bind_inv in Hcb as (? & ? & Hget & Hret).
  unfold get_state in Hget. unfold rc_ret in Hret. simplify_eq.
  destruct (negb _); [unfold rc_ret in Hs; by simplify_eq|].
  apply rc_bind_inv in Hs as ([st p] & s1 & Hg & Hs).
  apply lift_inv in Hg as (w & Hg & ->).
  apply call_get_transaction_inv in Hg as (d1 & Hg & ->).
  apply get_transaction_cases in Hg as [(-> & -> & ->)|(-> & i & t & -> & Hd & Ht & ->)].
  { pose proof bt_status_nomem_ne as Hne. apply Z.eqb_neq in Hne. rewrite Hne in Hs.
    unfold rc_ret in Hs. cbn [negb] in Hs. by simplify_eq. }
  rewrite Z.eqb_refl in Hs. cbn [negb] in Hs.
  apply rc_bind_inv in Hs as (p_txn & s2 & Hp & Hs).
  apply lift_inv in Hp as (w & Hp & ->). cbn [lift_option] in Hp. unfold ret in Hp.
  injection Hp as <- <-.
  set (P' := fun d : rc_device_t =>
               timers_wf d /\ exists t', d !! i = Some t' /\ in_use t' = true).
  enough (HP' : P' (rc_device s')) by apply HP'.
  lazymatch type of Hs with
  | ?m ?s2 = Some _ => assert (Hk : rc_keeps P' m); [|apply (Hk _ _ _ Hs)]
  end.
  - rc_keeps_auto. apply rc_keeps_modify_state. intros s2 (Hwf2 & t2 & Hd2 & Hu2).
    cbn [rc_device set_rc_device]. split.
    + unfold start_control_command_timer. by eapply timers_wf_arm.
    + unfold start_control_command_timer, arm_txn_timer. rewrite Hd2.
      eexists. split; [apply list_lookup_insert_eq; by eapply lookup_lt_Some|done].
  - cbn. split; [by apply timers_wf_acquire|].
    exists (set_in_use true t). split; [|done].
    apply list_lookup_insert_eq. by eapply lookup_lt_Some.
Qed.

Lemma rc_keeps_rc_request_run (r : rc_request) : rc_keeps timers_wf (rc_request_run r).
Proof.
  destruct r; cbn [rc_request_run]; rc_keeps_auto.
  - apply rc_keeps_lift, keeps_txn_timer_expired.
  - apply rc_keeps_lift, keeps_play_status_timer_expired.
  - apply rc_keeps_change_player_app_setting.
Qed.

(** X23.  Labels and alarms agree across the whole interface.  If every
    slot of the label table whose alarm is set is in use, carries its own
    label in its timer context and has a command time-out as callback,
    then the same holds after any sequence of events of the stack, alarm
    expiries and calls of the functions of [bt_rc_interface] and
    [bt_rc_ctrl_interface] that returns.  [init] and [init_ctrl], where
    they do not find their callbacks registered, establish the agreement
    from any state. *)
Theorem X23_interface_keeps_agreement (rs : list rc_request) (s s' : rc_state) :
  rc_requests_run rs s = Some (tt, s') ->
  (timers_wf (rc_device s) -> timers_wf (rc_device s')) /\
  (forall r rs', rs = r :: rs' ->
     (r = req_init /\ bt_rc_callbacks s = false) \/
     (r = req_init_ctrl /\ bt_rc_ctrl_callbacks s = false) ->
     timers_wf (rc_device s')).
Proof.
  assert (Hall : forall rs, rc_keeps timers_wf (rc_requests_run rs)).
  { intros rs0. induction rs0 as [|r rs0 IH]; cbn [rc_requests_run]; [apply rc_keeps_ret|].
    apply rc_keeps_bind; [apply rc_keeps_rc_request_run|]. intros _. exact IH. }
  intros Hrun. split; [by apply (Hall rs s tt s')|].
  intros r rs' -> Hr. cbn [rc_requests_run] in Hrun.
  apply rc_bind_inv in Hrun as ([] & s1 & Hr1 & Hrest).
  apply (Hall rs' s1 tt s' Hrest).
  destruct Hr as [[-> Hcb]|[-> Hcb]]; cbn [rc_request_run] in Hr1.
  - unfold init, rc_bind at 1 2, get_state in Hr1. rewrite Hcb in Hr1.
    cbn in Hr1. unfold rc_ret in Hr1. injection Hr1 as <-. apply lbl_init_timers_wf.
  - unfold init_ctrl, rc_bind at 1 2, get_state in Hr1. rewrite Hcb in Hr1.
    cbn in Hr1. unfold rc_ret in Hr1. injection Hr1 as <-. apply lbl_init_timers_wf.
Qed.

End InterfaceInvariant.


#[local] Existing Instance reference_defs.
#[local] Existing Instance reference_target_defs.

Lemma X23_interface_keeps_agreement_witness :
  timers_wf (rc_device (state_after (rc_requests_run session_requests)
                          (boot_state reference_env))).
Proof.
  assert (G : forall (rs : list rc_request) (s s' : rc_state),
            rc_requests_run rs s = Some (tt, s') ->
            hd_error rs = Some req_init -> bt_rc_callbacks s = false ->
            timers_wf (rc_device s')).
  { intros rs s s' Hrun Hhd Hcb. destruct rs as [|r rs']; [discriminate|].
    injection Hhd as ->.
    apply (proj2 (X23_interface_keeps_agreement _ _ _ Hrun) req_init rs' eq_refl).
    left. by split. }
  apply (G session_requests (boot_state reference_env)); vm_compute; reflexivity.
Defined.

(** ** Responses under a label that is not in use *)

Section UnusedLabelResponses.
#[local] Existing Instance reference_defs.
#[local] Existing Instance reference_target_defs.

(** C2.  The lookup of a label returns nothing exactly when the label
    is out of range or its slot is not in use.  The dispatcher of the
    controller does not use it: label 5 is not in use, and a capabilities
    response under label 5 is handled all the same, directly and through
    [btif_rc_handler]; the supported-event list is created and a
    REGISTER_NOTIFICATION command is sent.  The dispatcher of the target
    does what the controller's misses: [handle_rc_metamsg_cmd] looks the
    label up, and a changed response for the volume event under label 5,
    not in use, leaves the state as it is, while the same response under
    the volume label is acted on. *)
Theorem C2_unused_label_is_handled :
  let caps := events_supported_rsp _ [AVRC_EVT_PLAY_STATUS_CHANGE] in
  let vol := rsp_reg_notif
               {| reg_notif_status := AVRC_STS_NO_ERROR;
                  reg_notif_event_id := AVRC_EVT_VOLUME_CHANGE;
                  param_play_status := 0; param_track := [];
                  param_player_setting :=
                    {| player_setting_num_attr := 0; player_setting_attr_id := [];
                       player_setting_attr_value := [] |};
                  param_volume := 50 |} in
  let w := requesting_world reference_defs 0 in
  let m := meta_msg _ 5 (AVRC_RSP_IMPL_STBL _) caps in
  let ev := BTA_AV_META_MSG_EVT (response_msg 5 (AVRC_RSP_IMPL_STBL _) caps) in
  let ev_vol l := BTA_AV_META_MSG_EVT (response_msg l AVRC_RSP_CHANGED vol) in
  (forall l d, get_transaction_by_lbl l d = None <->
     ~ ((l < MAX_TRANSACTIONS_PER_SESSION)%nat /\ label_in_use l d)) /\
  (get_transaction_by_lbl (msg_label m) (device w) = None /\
   exists w', handle_avk_rc_metamsg_rsp m w = Some (tt, w') /\
     event_ids w = None /\ event_ids w' = Some [AVRC_EVT_PLAY_STATUS_CHANGE] /\
     omap reg_cmd_event (trace w) = [] /\
     omap reg_cmd_event (trace w') = [AVRC_EVT_PLAY_STATUS_CHANGE]) /\
  (get_transaction_by_lbl 5 (rc_device ct_state) = None /\
   fst <$> btif_rc_handler ev ct_state = Some tt /\
   rc_supported_event_list (rc_cb ct_state) = None /\
   event_ids (ctrl_world (state_after (btif_rc_handler ev) ct_state))
     = Some [AVRC_EVT_PLAY_STATUS_CHANGE] /\
   head (rc_log (state_after (btif_rc_handler ev) ct_state)) =
     Some (ctrl_call (BTA_AvVendorCmd 1 0 AVRC_CMD_NOTIF
                        (cmd_reg_notif AVRC_EVT_PLAY_STATUS_CHANGE 0)))) /\
  (rc_vol_label (rc_cb tg_state) = 0%nat /\
   get_transaction_by_lbl 5 (rc_device tg_state) = None /\
   btif_rc_handler (ev_vol 5%nat) tg_state = Some (tt, tg_state) /\
   fst <$> btif_rc_handler (ev_vol 0%nat) tg_state = Some tt /\
   rc_volume (rc_cb tg_state) <> 50 /\
   rc_volume (rc_cb (state_after (btif_rc_handler (ev_vol 0%nat)) tg_state)) = 50).
Proof.
  intros caps vol w m ev ev_vol.
  split; [exact get_transaction_by_lbl_none|]. split; [|split].
  - split; [vm_compute; reflexivity|].
    let r := eval vm_compute in (handle_avk_rc_metamsg_rsp m w) in
    lazymatch r with
    | Some (_, ?w') => exists w'
    end.
    repeat split; vm_compute; reflexivity.
  - repeat split; vm_compute; reflexivity.
  - repeat split; try (vm_compute; reflexivity). vm_compute. discriminate.
Qed.

End UnusedLabelResponses.

(** ** Responses that report an error *)

Section ErrorResponses.
Context `{AvrcDefs}.

Lemma status_neqb (st : Z) : st <> AVRC_STS_NO_ERROR -> negb (st =? AVRC_STS_NO_ERROR) = true.
Proof. intros Hne. apply negb_true_iff, Z.eqb_neq, Hne. Qed.

(** The standard settings are reported with no extended attribute, and
    the request for the current values of the standard attributes
    follows, under the lowest free label, when there is a connection, a
    free label and a packet. *)
Lemma report_standard_settings_spec (w : world) :
  let s := rc_app_settings (btif_rc_cb w) in
  let report := HAL_CBACK (playerapplicationsetting_cb (rc_addr (btif_rc_cb w))
                             (num_attrs s) (attrs s) 0 None) in
  let cmd := cmd_get_cur_app_val (num_attrs s)
               (map app_attr_id (take (num_attrs s) (attrs s))) in
  pool_wf (device w) -> (num_attrs s <= length (attrs s))%nat ->
  exists w', report_standard_settings w = Some (tt, w') /\
    btif_rc_cb w' = btif_rc_cb w /\
    (rc_connected (btif_rc_cb w) = false \/ exhausted (device w) \/
     AVRC_BldCommand cmd <> AVRC_STS_NO_ERROR -> trace w' = report :: trace w) /\
    (forall l, rc_connected (btif_rc_cb w) = true -> lowest_free l (device w) ->
       AVRC_BldCommand cmd = AVRC_STS_NO_ERROR ->
       trace w' = BTA_AvVendorCmd (rc_handle (btif_rc_cb w)) l AVRC_CMD_STATUS cmd
                    :: report :: trace w).
Proof.
  intros s report cmd Hwf Hle. unfold report_standard_settings, array_prefix. mstep. fold s.
  apply Nat.leb_le in Hle. rewrite Hle. mstep. fold report.
  set (w1 := {| btif_rc_cb := btif_rc_cb w; device := device w; trace := report :: trace w |}).
  unfold get_player_app_setting_cmd. fold cmd.
  destruct (send_status_cmd_trace cmd w1 Hwf) as (st & w' & Hw' & Hcb & Hno & Hyes).
  rewrite Hw'. exists w'. split; [done|]. split; [exact Hcb|]. split.
  - intros Hcase. by apply Hno.
  - intros l Hc Hlow Hb. by apply Hyes.
Qed.

(** C4 (amended).  What a response with an error status does depends on
    the step.  A capabilities response, a LIST_PLAYER_APP_VALUES
    response and a GET_CUR_PLAYER_APP_VALUE response return at once: the
    world stays as it is, so nothing is reported and no command is sent.
    A LIST_PLAYER_APP_ATTR response completes the procedure: it is
    [rc_ctrl_procedure_complete], which has a result and leaves the
    procedure-complete flag set.  A response to the request for the
    attribute texts or for the value texts drops the extended attributes,
    reports the standard settings through [playerapplicationsetting_cb]
    with no extended attribute, and then requests the current values of
    the standard attributes: GET_CUR_PLAYER_APP_VALUE for the ids of the
    standard attributes stored goes out under the lowest free label when
    there is a connection, a free label and a packet, and nothing else is
    sent. *)
Theorem C4_error_responses :
  (forall m r w, caps_status r <> AVRC_STS_NO_ERROR ->
     handle_get_capability_response m r w = Some (tt, w)) /\
  (forall m r w, list_val_status r <> AVRC_STS_NO_ERROR ->
     handle_app_val_response m r w = Some (tt, w)) /\
  (forall m r w, cur_val_status r <> AVRC_STS_NO_ERROR ->
     handle_app_cur_val_response m r w = Some (tt, w)) /\
  (forall m r w, list_attr_status r <> AVRC_STS_NO_ERROR ->
     handle_app_attr_response m r w = rc_ctrl_procedure_complete w /\
     exists w', handle_app_attr_response m r w = Some (tt, w') /\
       procedure_complete w' = true) /\
  (forall m r w s1, attr_txt_status r <> AVRC_STS_NO_ERROR ->
     pool_wf (device w) -> (num_attrs s1 <= length (attrs s1))%nat ->
     let report := HAL_CBACK (playerapplicationsetting_cb (rc_addr (btif_rc_cb w))
                                (num_attrs s1) (attrs s1) 0 None) in
     let cmd := cmd_get_cur_app_val (num_attrs s1)
                  (map app_attr_id (take (num_attrs s1) (attrs s1))) in
     let reported (w' : world) :=
       rc_app_settings (btif_rc_cb w') = s1 /\
       num_ext_attrs (rc_app_settings (btif_rc_cb w')) = 0%nat /\
       (rc_connected (btif_rc_cb w) = false \/ exhausted (device w) \/
        AVRC_BldCommand cmd <> AVRC_STS_NO_ERROR -> trace w' = report :: trace w) /\
       (forall l, rc_connected (btif_rc_cb w) = true -> lowest_free l (device w) ->
          AVRC_BldCommand cmd = AVRC_STS_NO_ERROR ->
          trace w' = BTA_AvVendorCmd (rc_handle (btif_rc_cb w)) l AVRC_CMD_STATUS cmd
                       :: report :: trace w) in
     (drop_ext_attr_texts (rc_app_settings (btif_rc_cb w)) = Some s1 ->
      exists w', handle_app_attr_txt_response m r w = Some (tt, w') /\ reported w') /\
     (drop_ext_attr_values (rc_app_settings (btif_rc_cb w)) = Some s1 ->
      exists w', handle_app_attr_val_txt_response m r w = Some (tt, w') /\ reported w')).
Proof.
  split; [|split; [|split; [|split]]].
  - intros m r w Hst. unfold handle_get_capability_response. by rewrite (status_neqb _ Hst).
  - intros m r w Hst. unfold handle_app_val_response. by rewrite (status_neqb _ Hst).
  - intros m r w Hst. unfold handle_app_cur_val_response. by rewrite (status_neqb _ Hst).
  - intros m r w Hst. unfold handle_app_attr_response. rewrite (status_neqb _ Hst).
    split; [done|]. destruct (rc_ctrl_procedure_complete_defined w) as ([] & w' & Hw).
    exists w'. split; [exact Hw|]. by eapply rc_ctrl_procedure_complete_sets.
  - intros m r w s1 Hst Hwf Hle report cmd reported.
    assert (Hgen : forall drop,
              drop (rc_app_settings (btif_rc_cb w)) = Some s1 ->
              num_ext_attrs s1 = 0%nat ->
              exists w',
                (do _ <- update_app_settings drop; report_standard_settings) w = Some (tt, w') /\
                reported w').
    { intros drop Hdrop Hn.
      set (w1 := {| btif_rc_cb := set_rc_app_settings s1 (btif_rc_cb w);
                    device := device w; trace := trace w |}).
      assert (Hs1 : rc_app_settings (btif_rc_cb w1) = s1) by (simpl; by destruct (btif_rc_cb w)).
      assert (Ha1 : rc_addr (btif_rc_cb w1) = rc_addr (btif_rc_cb w))
        by (simpl; by destruct (btif_rc_cb w)).
      assert (Hc1 : rc_connected (btif_rc_cb w1) = rc_connected (btif_rc_cb w))
        by (simpl; by destruct (btif_rc_cb w)).
      assert (Hh1 : rc_handle (btif_rc_cb w1) = rc_handle (btif_rc_cb w))
        by (simpl; by destruct (btif_rc_cb w)).
      destruct (report_standard_settings_spec w1) as (w' & Hw' & Hcb & Hno & Hyes).
      { exact Hwf. }
      { by rewrite Hs1. }
      rewrite Hs1, Ha1, Hc1, Hh1 in *. fold report cmd in Hno, Hyes.
      exists w'. split.
      - apply run_bind_inv. exists s1, w1. split; [|exact Hw'].
        unfold update_app_settings. mstep. by rewrite Hdrop.
      - unfold reported. rewrite Hcb, Hs1. split; [done|]. split; [exact Hn|].
        split; [exact Hno|exact Hyes]. }
    split.
    + intros Hdrop. unfold handle_app_attr_txt_response. rewrite (status_neqb _ Hst).
      apply Hgen; [exact Hdrop|]. unfold drop_ext_attr_texts in Hdrop.
      destruct (_ <=? _)%nat; [|done]. by injection Hdrop as <-.
    + intros Hdrop. unfold handle_app_attr_val_txt_response. rewrite (status_neqb _ Hst).
      apply Hgen; [exact Hdrop|]. unfold drop_ext_attr_values in Hdrop.
      destruct (free_ext_attrs _ _); [|done]. by injection Hdrop as <-.
Qed.

End ErrorResponses.

Section ErrorResponsesWitness.
#[local] Existing Instance reference_defs.

(** C4 as stated fails.  The procedure has asked for the values of the
    first attribute (LIST_PLAYER_APP_VALUES under label 2) and the answer
    carries the error status 1, which is not the time-out status: no
    callback is made, no command is sent, the procedure is not complete,
    and no timer is left that would move it on. *)
Lemma C4_counterexample :
  let ins :=
    [in_response (meta_msg _ 1 (AVRC_RSP_IMPL_STBL _)
                    (events_supported_rsp _ [AVRC_EVT_PLAY_STATUS_CHANGE]));
     in_response (meta_msg _ 0 AVRC_RSP_INTERIM
                    (rsp_reg_notif (notification_rsp _ AVRC_EVT_PLAY_STATUS_CHANGE [])));
     in_response (meta_msg _ 1 (AVRC_RSP_IMPL_STBL _)
                    (rsp_list_app_attr {| list_attr_status := AVRC_STS_NO_ERROR;
                                          list_attr_num_attr := 2;
                                          list_attr_attrs := [1; 2] |}))] in
  let r := {| list_val_status := 1; list_val_num_val := 0; list_val_vals := [] |} in
  let m := meta_msg _ 2 AVRC_RSP_REJ (rsp_list_app_values r) in
  exists w w',
    steps ins (requesting_world reference_defs BTA_AV_FEAT_APP_SETTING) = Some (tt, w) /\
    head (trace w) = Some (BTA_AvVendorCmd 1 2 AVRC_CMD_STATUS (cmd_list_app_values 1)) /\
    list_val_status r <> AVRC_STS_NO_ERROR /\ list_val_status r <> BTIF_RC_STS_TIMEOUT /\
    handle_avk_rc_metamsg_rsp m w = Some (tt, w') /\
    trace w' = trace w /\
    procedure_complete w' = false /\
    forallb (fun t => negb (alarm_is_scheduled (txn_timer t))) (device w') = true /\
    alarm_is_scheduled (rc_play_status_timer (btif_rc_cb w')) = false.
Proof.
  intros ins r m.
  let r0 := eval vm_compute in
    (steps ins (requesting_world reference_defs BTA_AV_FEAT_APP_SETTING)) in
  lazymatch r0 with
  | Some (_, ?w) =>
      exists w;
      let r1 := eval vm_compute in (handle_avk_rc_metamsg_rsp m w) in
      lazymatch r1 with
      | Some (_, ?w') => exists w'
      end
  end.
  repeat split; try (vm_compute; reflexivity); vm_compute; discriminate.
Qed.

Lemma C4_error_responses_witness :
  let ins :=
    [in_response (meta_msg _ 1 (AVRC_RSP_IMPL_STBL _)
                    (events_supported_rsp _ [AVRC_EVT_PLAY_STATUS_CHANGE]));
     in_response (meta_msg _ 0 AVRC_RSP_INTERIM
                    (rsp_reg_notif (notification_rsp _ AVRC_EVT_PLAY_STATUS_CHANGE [])));
     in_response (meta_msg _ 1 (AVRC_RSP_IMPL_STBL _)
                    (rsp_list_app_attr {| list_attr_status := AVRC_STS_NO_ERROR;
                                          list_attr_num_attr := 2;
                                          list_attr_attrs := [1; 2] |}))] in
  let m := meta_msg _ 3 AVRC_RSP_REJ (rsp_other 0) in
  let rv := {| list_val_status := 1; list_val_num_val := 0; list_val_vals := [] |} in
  let rt := {| attr_txt_status := 1; attr_txt_num_attr := 0; attr_txt_p_attrs := [] |} in
  exists w w',
    steps ins (requesting_world reference_defs BTA_AV_FEAT_APP_SETTING) = Some (tt, w) /\
    handle_app_val_response m rv w = Some (tt, w) /\
    handle_app_attr_txt_response m rt w = Some (tt, w') /\
    num_ext_attrs (rc_app_settings (btif_rc_cb w')) = 0%nat /\
    trace w' =
      BTA_AvVendorCmd 1 1 AVRC_CMD_STATUS (cmd_get_cur_app_val 2 [1; 2])
      :: HAL_CBACK (playerapplicationsetting_cb 0 2
                      (attrs (rc_app_settings (btif_rc_cb w))) 0 None)
      :: trace w.
Proof.
  intros ins m rv rt.
  assert (G : forall w : world,
            let s := rc_app_settings (btif_rc_cb w) in
            timers_wf_b (device w) = true ->
            first_unused 0 MAX_TRANSACTIONS_PER_SESSION (device w) = Some 1%nat ->
            rc_connected (btif_rc_cb w) = true ->
            (num_attrs s <=? length (attrs s))%nat = true ->
            (ext_attr_index s <=? length (ext_attrs s))%nat = true ->
            handle_app_val_response m rv w = Some (tt, w) /\
            exists w', handle_app_attr_txt_response m rt w = Some (tt, w') /\
              num_ext_attrs (rc_app_settings (btif_rc_cb w')) = 0%nat /\
              trace w' =
                BTA_AvVendorCmd (rc_handle (btif_rc_cb w)) 1 AVRC_CMD_STATUS
                  (cmd_get_cur_app_val (num_attrs s)
                     (map app_attr_id (take (num_attrs s) (attrs s))))
                :: HAL_CBACK (playerapplicationsetting_cb (rc_addr (btif_rc_cb w))
                                (num_attrs s) (attrs s) 0 None)
                :: trace w).
  { intros w s Hb Hf Hc Hle Hext.
    destruct C4_error_responses as (_ & Hval & _ & _ & Htxt).
    split; [apply Hval; vm_compute; discriminate|].
    assert (Hdrop : exists s1, drop_ext_attr_texts s = Some s1 /\
                      num_attrs s1 = num_attrs s /\ attrs s1 = attrs s).
    { unfold drop_ext_attr_texts. rewrite Hext. eexists. split; [reflexivity|]. done. }
    destruct Hdrop as (s1 & Hdrop & Hn1 & Ha1).
    destruct (Htxt m rt w s1) as [Ht _].
    - vm_compute. discriminate.
    - by apply timers_wf_pool_wf, timers_wf_b_spec.
    - rewrite Hn1, Ha1. by apply Nat.leb_le.
    - destruct (Ht Hdrop) as (w' & Hrun & _ & Hn & _ & Hsent).
      exists w'. split; [exact Hrun|]. split; [exact Hn|].
      rewrite Hn1, Ha1 in Hsent. apply (Hsent 1%nat Hc); [|reflexivity].
      by apply first_unused_lowest_free. }
  let r0 := eval vm_compute in
    (steps ins (requesting_world reference_defs BTA_AV_FEAT_APP_SETTING)) in
  lazymatch r0 with
  | Some (_, ?w) =>
      exists w;
      destruct (G w) as (Hv & w' & Hrun & Hn & Htr); [vm_compute; reflexivity..|]
  end.
  exists w'. split; [vm_compute; reflexivity|]. split; [exact Hv|].
  split; [exact Hrun|]. split; [exact Hn|]. rewrite Htr. vm_compute. reflexivity.
Defined.

End ErrorResponsesWitness.

(** ** One registration at a time *)

Section OneAtATime.
Context `{AvrcDefs}.

(** C3 (amended).  An interim response for one of the three events
    marks the first entry of its event [eINTERIM] and then registers at
    most one event, the first entry of the list that is not registered:
    either nothing is sent, or one REGISTER_NOTIFICATION command for that
    entry goes out and the entry awaits its interim response under the
    label of the command; with a connection, a free label and a packet it
    does go out, under the lowest free label.  When no entry is left to
    register, the list is the marked list; with the query-started flag
    set nothing is raised, and with the flag clear the flag is set and the
    end of the registration phase is signalled: LIST_PLAYER_APP_ATTR
    when the peer has application settings, the completion of the
    procedure otherwise.  The removal of an entry after a time-out
    deletes the first entry that carries the label and registers the first
    entry left that is not registered in the same way, and both flags stay
    as they are.  A changed response sends no REGISTER_NOTIFICATION
    command but for the event of the response, keeps both flags, and
    registers the first entry of that event again at once, under the
    lowest free label, whatever the other entries wait for.  Over every
    sequence of responses and time-outs the query-started flag, once set,
    stays set, and the application-settings query is started at most once,
    and not at all when the flag is set at the start. *)
Theorem C3_registration_order :
  (forall (m : tBTA_AV_META_MSG) (r : tAVRC_REG_NOTIF_RSP) (w w' : world),
     registered_event (reg_notif_event_id r) -> msg_code m = AVRC_RSP_INTERIM ->
     handle_notification_response m r w = Some (tt, w') ->
     exists l cbs,
       rc_supported_event_list (btif_rc_cb w) = Some l /\
       let l1 := match list_find (fun e => event_id e = reg_notif_event_id r) l with
                 | Some (i, e) => <[i := set_event_status eINTERIM e]> l
                 | None => l
                 end in
       let h := rc_handle (btif_rc_cb w) in
       let before := (HAL_CBACK <$> cbs) ++ trace w in
       match list_find (fun e => status e = eNOT_REGISTERED) l1 with
       | Some (p, e) =>
           let entry lb := {| event_id := event_id e; label := Some lb; status := eREGISTERED |} in
           let reg lb := BTA_AvVendorCmd h lb AVRC_CMD_NOTIF (cmd_reg_notif (event_id e) 0) in
           app_query_started w' = app_query_started w /\
           procedure_complete w' = procedure_complete w /\
           ((trace w' = before /\
             (rc_supported_event_list (btif_rc_cb w') = Some l1 \/
              exists lb, rc_supported_event_list (btif_rc_cb w') = Some (<[p := entry lb]> l1))) \/
            (exists lb, trace w' = reg lb :: before /\
               rc_supported_event_list (btif_rc_cb w') = Some (<[p := entry lb]> l1))) /\
           (forall lb, pool_wf (device w) -> rc_connected (btif_rc_cb w) = true ->
              lowest_free lb (device w) ->
              AVRC_BldCommand (cmd_reg_notif (event_id e) 0) = AVRC_STS_NO_ERROR ->
              trace w' = reg lb :: before /\
              rc_supported_event_list (btif_rc_cb w') = Some (<[p := entry lb]> l1))
       | None =>
           rc_supported_event_list (btif_rc_cb w') = Some l1 /\
           app_query_started w' = true /\
           if app_query_started w then
             procedure_complete w' = procedure_complete w /\ trace w' = before
           else if Z.land (rc_features (btif_rc_cb w)) BTA_AV_FEAT_APP_SETTING =? 0 then
             procedure_complete w' = true /\
             exists delta, trace w' = delta ++ before /\
               Forall (is_cmd AVRC_PDU_GET_ELEMENT_ATTR) delta /\ (length delta <= 1)%nat /\
               (procedure_complete w = true -> delta = [])
           else
             let query lb := BTA_AvVendorCmd h lb AVRC_CMD_STATUS cmd_list_app_attr in
             procedure_complete w' = procedure_complete w /\
             (trace w' = before \/ exists lb, trace w' = query lb :: before) /\
             (forall lb, pool_wf (device w) -> rc_connected (btif_rc_cb w) = true ->
                lowest_free lb (device w) ->
                AVRC_BldCommand cmd_list_app_attr = AVRC_STS_NO_ERROR ->
                trace w' = query lb :: before)
       end) /\
  (forall (L : nat) (w w' : world),
     rc_notification_interim_timout L w = Some (tt, w') ->
     exists l,
       rc_supported_event_list (btif_rc_cb w) = Some l /\
       let l1 := match list_find (fun e => label e = Some L) l with
                 | Some (i, _) => delete i l
                 | None => l
                 end in
       match list_find (fun e => status e = eNOT_REGISTERED) l1 with
       | Some (p, e) =>
           let entry lb := {| event_id := event_id e; label := Some lb; status := eREGISTERED |} in
           let reg lb := BTA_AvVendorCmd (rc_handle (btif_rc_cb w)) lb AVRC_CMD_NOTIF
                           (cmd_reg_notif (event_id e) 0) in
           app_query_started w' = app_query_started w /\
           procedure_complete w' = procedure_complete w /\
           ((trace w' = trace w /\
             (rc_supported_event_list (btif_rc_cb w') = Some l1 \/
              exists lb, rc_supported_event_list (btif_rc_cb w') = Some (<[p := entry lb]> l1))) \/
            (exists lb, trace w' = reg lb :: trace w /\
               rc_supported_event_list (btif_rc_cb w') = Some (<[p := entry lb]> l1))) /\
           (forall lb, pool_wf (device w) -> rc_connected (btif_rc_cb w) = true ->
              lowest_free lb (device w) ->
              AVRC_BldCommand (cmd_reg_notif (event_id e) 0) = AVRC_STS_NO_ERROR ->
              trace w' = reg lb :: trace w /\
              rc_supported_event_list (btif_rc_cb w') = Some (<[p := entry lb]> l1))
       | None =>
           rc_supported_event_list (btif_rc_cb w') = Some l1 /\ sends_registrations [] w w'
       end) /\
  (forall m r w w',
     msg_code m = AVRC_RSP_CHANGED ->
     handle_notification_response m r w = Some (tt, w') ->
     sends_only (fun x => forall ev, reg_cmd_event x = Some ev -> ev = reg_notif_event_id r)
       w w') /\
  (forall (m : tBTA_AV_META_MSG) (r : tAVRC_REG_NOTIF_RSP) (w w' : world),
     msg_code m = AVRC_RSP_CHANGED ->
     handle_notification_response m r w = Some (tt, w') ->
     exists l,
       rc_supported_event_list (btif_rc_cb w) = Some l /\
       match list_find (fun e => event_id e = reg_notif_event_id r) l with
       | Some (i, e) =>
           let entry lb := {| event_id := reg_notif_event_id r; label := Some lb;
                              status := eREGISTERED |} in
           let reg lb := BTA_AvVendorCmd (rc_handle (btif_rc_cb w)) lb AVRC_CMD_NOTIF
                           (cmd_reg_notif (reg_notif_event_id r) 0) in
           forall lb, pool_wf (device w) -> rc_connected (btif_rc_cb w) = true ->
             lowest_free lb (device w) ->
             AVRC_BldCommand (cmd_reg_notif (reg_notif_event_id r) 0) = AVRC_STS_NO_ERROR ->
             rc_supported_event_list (btif_rc_cb w') = Some (<[i := entry lb]> l) /\
             exists delta, trace w' = delta ++ reg lb :: trace w /\
               omap reg_cmd_event delta = []
       | None =>
           rc_supported_event_list (btif_rc_cb w') = Some l /\ sends_registrations [] w w'
       end) /\
  (forall ins w w',
     steps ins w = Some (tt, w') ->
     exists delta, trace w' = delta ++ trace w /\
       (queries_started delta <= 1)%nat /\
       (queries_started delta = 1%nat -> app_query_started w' = true) /\
       (app_query_started w = true ->
        app_query_started w' = true /\ queries_started delta = 0%nat)).
Proof.
  split; [exact handle_notification_response_interim_exact|].
  split; [exact rc_notification_interim_timout_exact|].
  split; [exact handle_notification_response_changed_spec|].
  split; [exact handle_notification_response_changed_exact|].
  intros ins w w' Hw. destruct (rel_qo_steps ins w tt w' Hw) as (delta & Ht & Hd).
  exists delta. split; [exact Ht|].
  destruct (app_query_started w), (app_query_started w'); repeat split; try done; lia.
Qed.

End OneAtATime.

Section OneAtATimeWitness.
#[local] Existing Instance reference_defs.

(** C3 as stated fails.  The events PLAY_STATUS_CHANGE and TRACK_CHANGE
    are supported.  The interim response for the first sends the
    registration of the second; a changed response for the first, before
    the interim response for the second, registers the first again at
    once: two registrations wait for their interim response, in the
    registration phase.  And when the only registration times out, no
    entry is left, yet the end of the phase is not signalled: no command
    is outstanding, no timer is set and neither flag is set. *)
Lemma C3_counterexample :
  let caps ids :=
    in_response (meta_msg _ 1 (AVRC_RSP_IMPL_STBL _) (events_supported_rsp _ ids)) in
  let play code :=
    in_response (meta_msg _ 0 code
                   (rsp_reg_notif (notification_rsp _ AVRC_EVT_PLAY_STATUS_CHANGE []))) in
  (exists w l,
     steps [caps [AVRC_EVT_PLAY_STATUS_CHANGE; AVRC_EVT_TRACK_CHANGE];
            play AVRC_RSP_INTERIM; play AVRC_RSP_CHANGED]
       (requesting_world reference_defs 0) = Some (tt, w) /\
     app_query_started w = false /\
     rc_supported_event_list (btif_rc_cb w) = Some l /\
     status <$> l = [eREGISTERED; eREGISTERED] /\
     registrations_in_flight (device w) = 2%nat) /\
  (exists w,
     steps [caps [AVRC_EVT_PLAY_STATUS_CHANGE]; in_txn_timer 0]
       (requesting_world reference_defs 0) = Some (tt, w) /\
     rc_supported_event_list (btif_rc_cb w) = Some [] /\
     app_query_started w = false /\ procedure_complete w = false /\
     in_use_count (device w) = 0%nat /\
     forallb (fun t => negb (alarm_is_scheduled (txn_timer t))) (device w) = true).
Proof.
  intros caps play. split.
  - let r0 := eval vm_compute in
      (steps [caps [AVRC_EVT_PLAY_STATUS_CHANGE; AVRC_EVT_TRACK_CHANGE];
              play AVRC_RSP_INTERIM; play AVRC_RSP_CHANGED]
         (requesting_world reference_defs 0)) in
    lazymatch r0 with
    | Some (_, ?w) =>
        exists w;
        let o := eval vm_compute in (rc_supported_event_list (btif_rc_cb w)) in
        lazymatch o with
        | Some ?l => exists l
        end
    end.
    repeat split; vm_compute; reflexivity.
  - let r0 := eval vm_compute in
      (steps [caps [AVRC_EVT_PLAY_STATUS_CHANGE]; in_txn_timer 0]
         (requesting_world reference_defs 0)) in
    lazymatch r0 with
    | Some (_, ?w) => exists w
    end.
    repeat split; vm_compute; reflexivity.
Qed.

Lemma C3_registration_order_witness :
  let caps := in_response (meta_msg _ 1 (AVRC_RSP_IMPL_STBL _)
                             (events_supported_rsp _ [AVRC_EVT_PLAY_STATUS_CHANGE;
                                                      AVRC_EVT_TRACK_CHANGE])) in
  let m := meta_msg _ 0 AVRC_RSP_INTERIM
             (rsp_reg_notif (notification_rsp _ AVRC_EVT_PLAY_STATUS_CHANGE [])) in
  let r := notification_rsp _ AVRC_EVT_PLAY_STATUS_CHANGE [] in
  let w0 := requesting_world reference_defs BTA_AV_FEAT_APP_SETTING in
  exists w w1,
    steps [caps] w0 = Some (tt, w) /\
    rc_supported_event_list (btif_rc_cb w) =
      Some [ {| event_id := AVRC_EVT_PLAY_STATUS_CHANGE; label := Some 0%nat;
                status := eREGISTERED |};
             {| event_id := AVRC_EVT_TRACK_CHANGE; label := None;
                status := eNOT_REGISTERED |} ] /\
    handle_notification_response m r w = Some (tt, w1) /\
    rc_supported_event_list (btif_rc_cb w1) =
      Some [ {| event_id := AVRC_EVT_PLAY_STATUS_CHANGE; label := Some 0%nat;
                status := eINTERIM |};
             {| event_id := AVRC_EVT_TRACK_CHANGE; label := Some 1%nat;
                status := eREGISTERED |} ] /\
    (exists cbs,
       trace w1 = BTA_AvVendorCmd 1 1 AVRC_CMD_NOTIF (cmd_reg_notif AVRC_EVT_TRACK_CHANGE 0)
                    :: (HAL_CBACK <$> cbs) ++ trace w) /\
    exists wr delta,
      steps [caps; in_response m] w0 = Some (tt, wr) /\
      trace wr = delta ++ trace w0 /\ queries_started delta = 0%nat.
Proof.
  intros caps m r w0.
  assert (G : forall w w1 : world,
            rc_supported_event_list (btif_rc_cb w) =
              Some [ {| event_id := AVRC_EVT_PLAY_STATUS_CHANGE; label := Some 0%nat;
                        status := eREGISTERED |};
                     {| event_id := AVRC_EVT_TRACK_CHANGE; label := None;
                        status := eNOT_REGISTERED |} ] ->
            timers_wf_b (device w) = true ->
            rc_connected (btif_rc_cb w) = true -> rc_handle (btif_rc_cb w) = 1 ->
            first_unused 0 MAX_TRANSACTIONS_PER_SESSION (device w) = Some 1%nat ->
            handle_notification_response m r w = Some (tt, w1) ->
            rc_supported_event_list (btif_rc_cb w1) =
              Some [ {| event_id := AVRC_EVT_PLAY_STATUS_CHANGE; label := Some 0%nat;
                        status := eINTERIM |};
                     {| event_id := AVRC_EVT_TRACK_CHANGE; label := Some 1%nat;
                        status := eREGISTERED |} ] /\
            exists cbs,
              trace w1 = BTA_AvVendorCmd 1 1 AVRC_CMD_NOTIF
                           (cmd_reg_notif AVRC_EVT_TRACK_CHANGE 0)
                         :: (HAL_CBACK <$> cbs) ++ trace w).
  { intros w w1 Hl Hb Hc Hh Hf Hrun.
    destruct C3_registration_order as (Hint & _).
    destruct (Hint m r w w1 ltac:(by left) eq_refl Hrun) as (l & cbs & Hl' & Hm).
    rewrite Hl in Hl'. injection Hl' as <-. cbn in Hm.
    destruct Hm as (_ & _ & _ & Hsent).
    destruct (Hsent 1%nat) as [Ht Hlist].
    - by apply timers_wf_pool_wf, timers_wf_b_spec.
    - exact Hc.
    - by apply first_unused_lowest_free.
    - reflexivity.
    - split; [exact Hlist|]. exists cbs. rewrite Ht. by rewrite Hh. }
  let r0 := eval vm_compute in (steps [caps] w0) in
  lazymatch r0 with
  | Some (_, ?w) =>
      exists w;
      let r1 := eval vm_compute in (handle_notification_response m r w) in
      lazymatch r1 with
      | Some (_, ?w1) =>
          exists w1;
          destruct (G w w1) as [Hlist Htr]; [vm_compute; reflexivity..|]
      end
  end.
  split; [vm_compute; reflexivity|]. split; [vm_compute; reflexivity|].
  split; [vm_compute; reflexivity|]. split; [exact Hlist|]. split; [exact Htr|].
  destruct C3_registration_order as (_ & _ & _ & _ & Honce).
  let r2 := eval vm_compute in (steps [caps; in_response m] w0) in
  lazymatch r2 with
  | Some (_, ?wr) =>
      exists wr;
      assert (Hrun : steps [caps; in_response m] w0 = Some (tt, wr))
        by (vm_compute; reflexivity)
  end.
  destruct (Honce _ _ _ Hrun) as (delta & Ht & Hle & Hflag & _).
  exists delta. split; [exact Hrun|]. split; [exact Ht|].
  destruct (queries_started delta) as [|[|n]]; [reflexivity| |lia].
  specialize (Hflag eq_refl). vm_compute in Hflag. discriminate Hflag.
Defined.

End OneAtATimeWitness.
